(** * SDL_gpu: front-end dispatch, D3D12 back-end core and the 2D renderer

    A shallow embedding of
    - [src/gpu/SDL_gpu.c]               (module [FrontEnd]),
    - [src/gpu/d3d12/SDL_gpu_d3d12.c]   (module [D3D12]),
    - the GPU back end of the 2D renderer, which follows the front end
      in the same source file        (module [Render]),
    together with the properties of the specification that concern them.

    Conventions.
    - A C pointer that may be [NULL] is an [option]; [None] is [NULL].
    - [Uint32] values are [Z], the wrap-around of additions is written out
      with [wrap32].
    - A C [float] is carried as its binary32 bit pattern; the only
      floating-point operation modelled is the conversion of an integer
      to [float] ([to_float]).
    - Command buffers live in a store indexed by their address; a pass
      handle is the address of the [Pass] field inside a header.
    - A call through the device's function table appends a [BackendCall]
      to the world's call history; a back-end's answer is a function of
      that history and of the arguments. *)

From stdpp Require Import gmap list strings.
From Equations Require Import Equations.
From Stdlib Require Import ZArith Lia.

Local Open Scope Z_scope.

(** ** Machine integers *)

Definition UINT32_MAX : Z := 4294967295.

Definition wrap32 (z : Z) : Z := z mod 4294967296.

Definition wrap64 (z : Z) : Z := z mod 18446744073709551616.

(** The conversion to [int]. *)
Definition to_int (z : Z) : Z := (z + 2147483648) mod 4294967296 - 2147483648.

(** The conversion to [char], which is signed for the compilers of the
    platforms of the Direct3D 12 back end. *)
Definition to_char (z : Z) : Z := (z + 128) mod 256 - 128.

Definition float : Type := Z.

(** The binary32 nearest to a positive integer below 2^128, ties to the
    even significand: the integer is cut to 24 significant bits, [q], and
    rounded with the bits cut off, [r].  A significand that rounds up to
    2^24 carries into the exponent field. *)
Definition binary32_of_positive (z : Z) : float :=
  let e := Z.log2 z in
  if e <=? 23 then (e + 127) * 8388608 + (z * 2 ^ (23 - e) - 8388608)
  else
    let q := z / 2 ^ (e - 23) in
    let r := z mod 2 ^ (e - 23) in
    let half := 2 ^ (e - 24) in
    let q := if (half <? r) || ((r =? half) && Z.odd q) then q + 1 else q in
    (e + 127) * 8388608 + (q - 8388608).

(** The conversion of an integer to [float], in the default rounding
    mode. *)
Definition to_float (z : Z) : float :=
  if z =? 0 then 0
  else if 0 <? z then binary32_of_positive z
  else 2147483648 + binary32_of_positive (- z).


(** ** Portable types shared by the three layers *)

(** The enumerators of [SDL_GpuTextureFormat] that the sources name
    (the declaring header is not part of the sources). *)
Inductive SDL_GpuTextureFormat : Type :=
| SDL_GPU_TEXTUREFORMAT_INVALID
| SDL_GPU_TEXTUREFORMAT_R8G8B8A8
| SDL_GPU_TEXTUREFORMAT_B8G8R8A8
| SDL_GPU_TEXTUREFORMAT_B5G6R5
| SDL_GPU_TEXTUREFORMAT_B5G5R5A1
| SDL_GPU_TEXTUREFORMAT_B4G4R4A4
| SDL_GPU_TEXTUREFORMAT_R10G10B10A2
| SDL_GPU_TEXTUREFORMAT_R16G16B16A16
| SDL_GPU_TEXTUREFORMAT_R8
| SDL_GPU_TEXTUREFORMAT_A8
| SDL_GPU_TEXTUREFORMAT_BC1
| SDL_GPU_TEXTUREFORMAT_BC2
| SDL_GPU_TEXTUREFORMAT_BC3
| SDL_GPU_TEXTUREFORMAT_BC7
| SDL_GPU_TEXTUREFORMAT_R8G8_SNORM
| SDL_GPU_TEXTUREFORMAT_R8G8B8A8_SNORM
| SDL_GPU_TEXTUREFORMAT_R16_SFLOAT
| SDL_GPU_TEXTUREFORMAT_R16G16_SFLOAT
| SDL_GPU_TEXTUREFORMAT_R16G16B16A16_SFLOAT
| SDL_GPU_TEXTUREFORMAT_R32_SFLOAT
| SDL_GPU_TEXTUREFORMAT_R32G32_SFLOAT
| SDL_GPU_TEXTUREFORMAT_R32G32B32A32_SFLOAT
| SDL_GPU_TEXTUREFORMAT_R8_UINT
| SDL_GPU_TEXTUREFORMAT_R8G8_UINT
| SDL_GPU_TEXTUREFORMAT_R8G8B8A8_UINT
| SDL_GPU_TEXTUREFORMAT_R16_UINT
| SDL_GPU_TEXTUREFORMAT_R16G16_UINT
| SDL_GPU_TEXTUREFORMAT_R16G16B16A16_UINT
| SDL_GPU_TEXTUREFORMAT_R8G8B8A8_SRGB
| SDL_GPU_TEXTUREFORMAT_B8G8R8A8_SRGB
| SDL_GPU_TEXTUREFORMAT_BC3_SRGB
| SDL_GPU_TEXTUREFORMAT_BC7_SRGB
| SDL_GPU_TEXTUREFORMAT_D16_UNORM
| SDL_GPU_TEXTUREFORMAT_D24_UNORM
| SDL_GPU_TEXTUREFORMAT_D32_SFLOAT
| SDL_GPU_TEXTUREFORMAT_D24_UNORM_S8_UINT
| SDL_GPU_TEXTUREFORMAT_D32_SFLOAT_S8_UINT.

Inductive SDL_GpuTextureType : Type :=
| SDL_GPU_TEXTURETYPE_2D
| SDL_GPU_TEXTURETYPE_2D_ARRAY
| SDL_GPU_TEXTURETYPE_3D
| SDL_GPU_TEXTURETYPE_CUBE.

(** [SDL_GPU_LOADOP_LOAD] is the zero enumerator: the renderer tests
    [color_attachment.loadOp] for being non-zero. *)
Inductive SDL_GpuLoadOp : Type :=
| SDL_GPU_LOADOP_LOAD
| SDL_GPU_LOADOP_CLEAR
| SDL_GPU_LOADOP_DONT_CARE.

Inductive SDL_GpuPrimitiveType : Type :=
| SDL_GPU_PRIMITIVETYPE_POINTLIST
| SDL_GPU_PRIMITIVETYPE_LINELIST
| SDL_GPU_PRIMITIVETYPE_LINESTRIP
| SDL_GPU_PRIMITIVETYPE_TRIANGLELIST
| SDL_GPU_PRIMITIVETYPE_TRIANGLESTRIP.

Inductive SDL_GpuDriver : Type :=
| SDL_GPU_DRIVER_INVALID
| SDL_GPU_DRIVER_SECRET
| SDL_GPU_DRIVER_VULKAN
| SDL_GPU_DRIVER_D3D11
| SDL_GPU_DRIVER_METAL
| SDL_GPU_DRIVER_D3D12.

Record SDL_FColor : Type := { r : float; g : float; b : float; a : float }.

Record SDL_GpuTextureSlice (T : Type) : Type :=
  { texture : T; mipLevel : Z }.
Arguments texture {T} _.
Arguments mipLevel {T} _.

Record SDL_GpuColorAttachmentInfo (T : Type) : Type :=
  { textureSlice : SDL_GpuTextureSlice T;
    clearColor : SDL_FColor;
    loadOp : SDL_GpuLoadOp }.
Arguments textureSlice {T} _.
Arguments clearColor {T} _.
Arguments loadOp {T} _.

Record SDL_GpuDepthStencilAttachmentInfo (T : Type) : Type :=
  { ds_textureSlice : SDL_GpuTextureSlice T }.
Arguments ds_textureSlice {T} _.

#[global] Instance SDL_GpuTextureFormat_eq_dec : EqDecision SDL_GpuTextureFormat.
Proof. solve_decision. Defined.
#[global] Instance SDL_GpuLoadOp_eq_dec : EqDecision SDL_GpuLoadOp.
Proof. solve_decision. Defined.
#[global] Instance SDL_GpuPrimitiveType_eq_dec : EqDecision SDL_GpuPrimitiveType.
Proof. solve_decision. Defined.
#[global] Instance SDL_GpuDriver_eq_dec : EqDecision SDL_GpuDriver.
Proof. solve_decision. Defined.

Record SDL_GpuGraphicsPipelineAttachmentInfo : Type :=
  { colorAttachmentCount : Z;
    hasDepthStencilAttachment : bool;
    depthStencilFormat : SDL_GpuTextureFormat }.

Inductive SDL_GpuFrontFace : Type :=
| SDL_GPU_FRONTFACE_COUNTER_CLOCKWISE
| SDL_GPU_FRONTFACE_CLOCKWISE
| SDL_GPU_FRONTFACE_out_of_range (v : Z).

(** The create-info of a graphics pipeline, over the representation [S] of
    a shader.  The vertex-input, blend, multisample and depth-stencil
    tables only feed the native pipeline description and are carried as
    one opaque value [fixedFunctionState]. *)
Record SDL_GpuGraphicsPipelineCreateInfo (S : Type) : Type :=
  { vertexShader : S;
    fragmentShader : S;
    primitiveType : SDL_GpuPrimitiveType;
    frontFace : SDL_GpuFrontFace;
    fixedFunctionState : Z;
    depthStencilReference : Z;
    attachmentInfo : SDL_GpuGraphicsPipelineAttachmentInfo;
    blendConstants : float * float * float * float }.
Arguments vertexShader {S} _.
Arguments fragmentShader {S} _.
Arguments primitiveType {S} _.
Arguments frontFace {S} _.
Arguments fixedFunctionState {S} _.
Arguments depthStencilReference {S} _.
Arguments attachmentInfo {S} _.
Arguments blendConstants {S} _.

(** ** The front end: [src/gpu/SDL_gpu.c] *)

Module FrontEnd.

(** *** Handles *)

Definition CommandBufferId : Type := nat.
Definition SDL_GpuTexture : Type := nat.
Definition SDL_GpuBuffer : Type := nat.
Definition SDL_GpuTransferBuffer : Type := nat.
Definition SDL_GpuSampler : Type := nat.
Definition SDL_GpuShader : Type := nat.
Definition SDL_GpuGraphicsPipeline : Type := nat.
Definition SDL_GpuComputePipeline : Type := nat.
Definition SDL_GpuFence : Type := nat.
Definition SDL_Window : Type := nat.

(** A pass handle is the address of a [Pass] inside the header of the
    command buffer [owner]. *)
Inductive SDL_GpuRenderPass : Type := RenderPassOf (owner : CommandBufferId).
Inductive SDL_GpuComputePass : Type := ComputePassOf (owner : CommandBufferId).
Inductive SDL_GpuCopyPass : Type := CopyPassOf (owner : CommandBufferId).

(** *** Argument records *)

Record SDL_GpuViewport : Type :=
  { vp_x : Z; vp_y : Z; vp_w : Z; vp_h : Z; minDepth : Z; maxDepth : Z }.

Record SDL_Rect : Type := { rect_x : Z; rect_y : Z; rect_w : Z; rect_h : Z }.

Record SDL_GpuBufferBinding : Type :=
  { bb_buffer : option SDL_GpuBuffer; bb_offset : Z }.

Record SDL_GpuTextureSamplerBinding : Type :=
  { tsb_texture : option SDL_GpuTexture; tsb_sampler : option SDL_GpuSampler }.

Record SDL_GpuTransferBufferLocation : Type :=
  { tbl_transferBuffer : option SDL_GpuTransferBuffer; tbl_offset : Z }.

Record SDL_GpuBufferRegion : Type :=
  { br_buffer : option SDL_GpuBuffer; br_offset : Z; br_size : Z }.

(** The fields are unsigned but for the two enumerations. *)
Record SDL_GpuTextureCreateInfo : Type :=
  { tci_width : Z;
    tci_height : Z;
    tci_depth : Z;
    tci_type : SDL_GpuTextureType;
    tci_layerCount : Z;
    tci_levelCount : Z;
    tci_sampleCount : Z;
    tci_format : SDL_GpuTextureFormat;
    tci_usageFlags : Z }.

(** [TextureCommonHeader], which [SDL_GpuBlit] reads at the address of a
    texture.  The entry points on command buffers never write it: a
    texture handle they look into is carried as the header it points
    to. *)
Record TextureCommonHeader : Type := { info : SDL_GpuTextureCreateInfo }.

(** The fields of [SDL_GpuTextureRegion] and [SDL_GpuTextureTransferInfo]
    that the sources name. *)
Record SDL_GpuTextureRegion : Type :=
  { tr_texture : option TextureCommonHeader;
    tr_x : Z; tr_y : Z; tr_w : Z; tr_h : Z; tr_d : Z }.

Record SDL_GpuTextureTransferInfo : Type :=
  { tti_transferBuffer : option SDL_GpuTransferBuffer;
    imageHeight : Z; imagePitch : Z }.

(** The sources name no field of [SDL_GpuTextureLocation] and
    [SDL_GpuBufferLocation]: the front end hands the pointers on as they
    are. *)
Definition SDL_GpuTextureLocation : Type := nat.
Definition SDL_GpuBufferLocation : Type := nat.

Inductive SDL_GpuFilter : Type :=
| SDL_GPU_FILTER_NEAREST
| SDL_GPU_FILTER_LINEAR.

Definition ColorAttachmentInfo : Type :=
  SDL_GpuColorAttachmentInfo (option SDL_GpuTexture).
Definition DepthStencilAttachmentInfo : Type :=
  SDL_GpuDepthStencilAttachmentInfo (option SDL_GpuTexture).
Definition GraphicsPipelineCreateInfo : Type :=
  SDL_GpuGraphicsPipelineCreateInfo (option SDL_GpuShader).

(** *** Diagnostics and delegated calls *)

Inductive Diagnostic : Type :=
| SDL_SetError (msg : string)
| SDL_InvalidParamError (param : string)
| SDL_assert_release (msg : string)
| SDL_LogError (msg : string)
| SDL_LogWarn (msg : string).

(** One constructor per entry of the device's function table that the
    modelled entry points call. *)
Inductive BackendCall : Type :=
| BE_CreateGraphicsPipeline (info : GraphicsPipelineCreateInfo)
| BE_InsertDebugLabel (cb : CommandBufferId) (text : string)
| BE_PushDebugGroup (cb : CommandBufferId) (name : string)
| BE_PopDebugGroup (cb : CommandBufferId)
| BE_AcquireCommandBuffer
| BE_PushVertexUniformData (cb : CommandBufferId) (slotIndex : Z) (data : list Z) (len : Z)
| BE_PushFragmentUniformData (cb : CommandBufferId) (slotIndex : Z) (data : list Z)
    (len : Z)
| BE_PushComputeUniformData (cb : CommandBufferId) (slotIndex : Z) (data : list Z)
    (len : Z)
| BE_BeginRenderPass (cb : CommandBufferId)
    (colorAttachmentInfos : option (list ColorAttachmentInfo))
    (colorAttachmentCount : Z)
    (depthStencilAttachmentInfo : option DepthStencilAttachmentInfo)
| BE_BindGraphicsPipeline (cb : CommandBufferId) (pipeline : SDL_GpuGraphicsPipeline)
| BE_SetViewport (cb : CommandBufferId) (viewport : SDL_GpuViewport)
| BE_SetScissor (cb : CommandBufferId) (scissor : SDL_Rect)
| BE_BindVertexBuffers (cb : CommandBufferId) (firstBinding : Z)
    (pBindings : option (list SDL_GpuBufferBinding)) (bindingCount : Z)
| BE_BindIndexBuffer (cb : CommandBufferId) (pBinding : SDL_GpuBufferBinding)
    (indexElementSize : Z)
| BE_BindVertexSamplers (cb : CommandBufferId) (firstSlot : Z)
    (bindings : option (list SDL_GpuTextureSamplerBinding)) (bindingCount : Z)
| BE_BindVertexStorageTextures (cb : CommandBufferId) (firstSlot : Z)
    (storageTextures : option (list SDL_GpuTexture)) (bindingCount : Z)
| BE_BindVertexStorageBuffers (cb : CommandBufferId) (firstSlot : Z)
    (storageBuffers : option (list SDL_GpuBuffer)) (bindingCount : Z)
| BE_BindFragmentSamplers (cb : CommandBufferId) (firstSlot : Z)
    (bindings : option (list SDL_GpuTextureSamplerBinding)) (bindingCount : Z)
| BE_BindFragmentStorageTextures (cb : CommandBufferId) (firstSlot : Z)
    (storageTextures : option (list SDL_GpuTexture)) (bindingCount : Z)
| BE_BindFragmentStorageBuffers (cb : CommandBufferId) (firstSlot : Z)
    (storageBuffers : option (list SDL_GpuBuffer)) (bindingCount : Z)
| BE_DrawIndexedPrimitives (cb : CommandBufferId)
    (baseVertex startIndex vertexCount instanceCount : Z)
| BE_DrawPrimitives (cb : CommandBufferId) (vertexStart vertexCount : Z)
| BE_DrawPrimitivesIndirect (cb : CommandBufferId) (buffer : SDL_GpuBuffer)
    (offsetInBytes drawCount stride : Z)
| BE_DrawIndexedPrimitivesIndirect (cb : CommandBufferId) (buffer : SDL_GpuBuffer)
    (offsetInBytes drawCount stride : Z)
| BE_EndRenderPass (cb : CommandBufferId)
| BE_BeginComputePass (cb : CommandBufferId)
    (storageTextureBindings : option (list SDL_GpuTexture))
    (storageTextureBindingCount : Z)
    (storageBufferBindings : option (list SDL_GpuBuffer))
    (storageBufferBindingCount : Z)
| BE_BindComputePipeline (cb : CommandBufferId) (pipeline : SDL_GpuComputePipeline)
| BE_BindComputeStorageTextures (cb : CommandBufferId) (firstSlot : Z)
    (storageTextures : option (list SDL_GpuTexture)) (bindingCount : Z)
| BE_BindComputeStorageBuffers (cb : CommandBufferId) (firstSlot : Z)
    (storageBuffers : option (list SDL_GpuBuffer)) (bindingCount : Z)
| BE_DispatchCompute (cb : CommandBufferId) (groupCountX groupCountY groupCountZ : Z)
| BE_DispatchComputeIndirect (cb : CommandBufferId) (buffer : option SDL_GpuBuffer)
    (offsetInBytes : Z)
| BE_EndComputePass (cb : CommandBufferId)
| BE_MapTransferBuffer (transferBuffer : SDL_GpuTransferBuffer) (cycle : bool)
| BE_UnmapTransferBuffer (transferBuffer : SDL_GpuTransferBuffer)
| BE_BeginCopyPass (cb : CommandBufferId)
| BE_UploadToTexture (cb : CommandBufferId) (source : SDL_GpuTextureTransferInfo)
    (destination : SDL_GpuTextureRegion) (cycle : bool)
| BE_UploadToBuffer (cb : CommandBufferId) (source : SDL_GpuTransferBufferLocation)
    (destination : SDL_GpuBufferRegion) (cycle : bool)
| BE_CopyTextureToTexture (cb : CommandBufferId)
    (source destination : SDL_GpuTextureLocation) (w h d : Z) (cycle : bool)
| BE_CopyBufferToBuffer (cb : CommandBufferId)
    (source destination : SDL_GpuBufferLocation) (size : Z) (cycle : bool)
| BE_GenerateMipmaps (cb : CommandBufferId) (texture : SDL_GpuTexture)
| BE_DownloadFromTexture (cb : CommandBufferId) (source : SDL_GpuTextureRegion)
    (destination : SDL_GpuTextureTransferInfo)
| BE_DownloadFromBuffer (cb : CommandBufferId) (source : SDL_GpuBufferRegion)
    (destination : SDL_GpuTransferBufferLocation)
| BE_EndCopyPass (cb : CommandBufferId)
| BE_Blit (cb : CommandBufferId) (source destination : SDL_GpuTextureRegion)
    (filterMode : SDL_GpuFilter) (cycle : bool)
| BE_GetSwapchainTextureFormat (window : SDL_Window)
| BE_AcquireSwapchainTexture (cb : CommandBufferId) (window : SDL_Window)
| BE_Submit (cb : CommandBufferId)
| BE_SubmitAndAcquireFence (cb : CommandBufferId)
| BE_WaitForFences (waitAll : bool) (pFences : option (list SDL_GpuFence))
    (fenceCount : Z)
| BE_ReleaseFence (fence : SDL_GpuFence).

(** *** Device, command-buffer header, world *)

(** [SDL_GpuDevice]: the three fields the front end writes, and the entries
    of the function table whose answer the front end or the renderer uses.
    An answer depends on the calls delegated so far and on the arguments. *)
Record SDL_GpuDevice : Type :=
  { backend : SDL_GpuDriver;
    shaderFormats : Z;
    debugMode : bool;
    SupportsTextureFormat :
      SDL_GpuTextureFormat -> SDL_GpuTextureType -> Z -> bool;
    CreateGraphicsPipeline :
      list BackendCall -> GraphicsPipelineCreateInfo -> option SDL_GpuGraphicsPipeline;
    AcquireCommandBuffer : list BackendCall -> option CommandBufferId;
    AcquireSwapchainTexture :
      list BackendCall -> CommandBufferId -> SDL_Window ->
      option SDL_GpuTexture * Z * Z;
    GetSwapchainTextureFormat :
      list BackendCall -> SDL_Window -> SDL_GpuTextureFormat;
    SubmitAndAcquireFence :
      list BackendCall -> CommandBufferId -> option SDL_GpuFence }.

Record Pass : Type :=
  { commandBuffer : CommandBufferId; inProgress : bool }.

Record CommandBufferCommonHeader : Type :=
  { device : SDL_GpuDevice;
    renderPass : Pass;
    graphicsPipelineBound : bool;
    computePass : Pass;
    computePipelineBound : bool;
    copyPass : Pass;
    submitted : bool }.

Record World : Type :=
  { buffers : gmap CommandBufferId CommandBufferCommonHeader;
    calls : list BackendCall;
    log : list Diagnostic }.

Definition empty_world : World :=
  {| buffers := ∅; calls := []; log := [] |}.

Definition diag (d : Diagnostic) (w : World) : World :=
  {| buffers := buffers w; calls := calls w; log := log w ++ [d] |}.

Definition delegate (c : BackendCall) (w : World) : World :=
  {| buffers := buffers w; calls := calls w ++ [c]; log := log w |}.

Definition store (cb : CommandBufferId) (h : CommandBufferCommonHeader)
    (w : World) : World :=
  {| buffers := <[cb := h]> (buffers w); calls := calls w; log := log w |}.

Definition set_inProgress (v : bool) (p : Pass) : Pass :=
  {| commandBuffer := commandBuffer p; inProgress := v |}.

Definition set_renderPass (p : Pass) (h : CommandBufferCommonHeader) :=
  {| device := device h; renderPass := p;
     graphicsPipelineBound := graphicsPipelineBound h;
     computePass := computePass h;
     computePipelineBound := computePipelineBound h;
     copyPass := copyPass h; submitted := submitted h |}.

Definition set_computePass (p : Pass) (h : CommandBufferCommonHeader) :=
  {| device := device h; renderPass := renderPass h;
     graphicsPipelineBound := graphicsPipelineBound h;
     computePass := p;
     computePipelineBound := computePipelineBound h;
     copyPass := copyPass h; submitted := submitted h |}.

Definition set_copyPass (p : Pass) (h : CommandBufferCommonHeader) :=
  {| device := device h; renderPass := renderPass h;
     graphicsPipelineBound := graphicsPipelineBound h;
     computePass := computePass h;
     computePipelineBound := computePipelineBound h;
     copyPass := p; submitted := submitted h |}.

Definition set_graphicsPipelineBound (v : bool) (h : CommandBufferCommonHeader) :=
  {| device := device h; renderPass := renderPass h;
     graphicsPipelineBound := v;
     computePass := computePass h;
     computePipelineBound := computePipelineBound h;
     copyPass := copyPass h; submitted := submitted h |}.

Definition set_computePipelineBound (v : bool) (h : CommandBufferCommonHeader) :=
  {| device := device h; renderPass := renderPass h;
     graphicsPipelineBound := graphicsPipelineBound h;
     computePass := computePass h;
     computePipelineBound := v;
     copyPass := copyPass h; submitted := submitted h |}.

Definition set_submitted (v : bool) (h : CommandBufferCommonHeader) :=
  {| device := device h; renderPass := renderPass h;
     graphicsPipelineBound := graphicsPipelineBound h;
     computePass := computePass h;
     computePipelineBound := computePipelineBound h;
     copyPass := copyPass h; submitted := v |}.

Definition is_null {A : Type} (p : option A) : bool :=
  match p with None => true | Some _ => false end.

(** *** Checks (the macros at the head of the file) *)

(** [CHECK_COMMAND_BUFFER], [CHECK_COMMAND_BUFFER_RETURN_NULL]: the guard. *)
Definition CHECK_COMMAND_BUFFER (h : CommandBufferCommonHeader) : bool :=
  submitted h.

(** [CHECK_ANY_PASS_IN_PROGRESS]: the guard. *)
Definition CHECK_ANY_PASS_IN_PROGRESS (h : CommandBufferCommonHeader) : bool :=
  inProgress (renderPass h) || inProgress (computePass h)
  || inProgress (copyPass h).

(** [(Pass * )renderPass] together with the header of
    [RENDERPASS_COMMAND_BUFFER]; [None] when an address is not that of a
    live command buffer (undefined behaviour in C, a no-op here). *)
Definition RENDERPASS (w : World) (p : SDL_GpuRenderPass)
    : option (Pass * CommandBufferCommonHeader) :=
  match p with
  | RenderPassOf o =>
      h ← buffers w !! o;
      hc ← buffers w !! commandBuffer (renderPass h);
      Some (renderPass h, hc)
  end.

Definition COMPUTEPASS (w : World) (p : SDL_GpuComputePass)
    : option (Pass * CommandBufferCommonHeader) :=
  match p with
  | ComputePassOf o =>
      h ← buffers w !! o;
      hc ← buffers w !! commandBuffer (computePass h);
      Some (computePass h, hc)
  end.

Definition COPYPASS (w : World) (p : SDL_GpuCopyPass)
    : option (Pass * CommandBufferCommonHeader) :=
  match p with
  | CopyPassOf o =>
      h ← buffers w !! o;
      hc ← buffers w !! commandBuffer (copyPass h);
      Some (copyPass h, hc)
  end.

(** Modelled from the spec: the limits [MAX_COMPUTE_WRITE_TEXTURES] and
    [MAX_COMPUTE_WRITE_BUFFERS] of the absent [SDL_sysgpu.h]; the spec and
    the assertion texts of [SDL_GpuCreateComputePipeline] give 8. *)
Definition MAX_COMPUTE_WRITE_TEXTURES : Z := 8.
Definition MAX_COMPUTE_WRITE_BUFFERS : Z := 8.

(** Modelled from the spec: the usage bit [DEPTH_STENCIL_TARGET] of the
    absent public header, the third of the usage bitset; the front end only
    hands it to [SupportsTextureFormat]. *)
Definition SDL_GPU_TEXTUREUSAGE_DEPTH_STENCIL_TARGET_BIT : Z := 4.

(** *** State creation *)

(** The [switch] of [SDL_GpuCreateGraphicsPipeline]. *)
Definition fallback_depth_format (f : SDL_GpuTextureFormat) : SDL_GpuTextureFormat :=
  match f with
  | SDL_GPU_TEXTUREFORMAT_D24_UNORM => SDL_GPU_TEXTUREFORMAT_D32_SFLOAT
  | SDL_GPU_TEXTUREFORMAT_D32_SFLOAT => SDL_GPU_TEXTUREFORMAT_D24_UNORM
  | SDL_GPU_TEXTUREFORMAT_D24_UNORM_S8_UINT => SDL_GPU_TEXTUREFORMAT_D32_SFLOAT_S8_UINT
  | SDL_GPU_TEXTUREFORMAT_D32_SFLOAT_S8_UINT => SDL_GPU_TEXTUREFORMAT_D24_UNORM_S8_UINT
  | _ => SDL_GPU_TEXTUREFORMAT_D16_UNORM
  end.

Definition set_depthStencilFormat (f : SDL_GpuTextureFormat)
    (ci : GraphicsPipelineCreateInfo) : GraphicsPipelineCreateInfo :=
  {| vertexShader := vertexShader ci;
     fragmentShader := fragmentShader ci;
     primitiveType := primitiveType ci;
     frontFace := frontFace ci;
     fixedFunctionState := fixedFunctionState ci;
     depthStencilReference := depthStencilReference ci;
     attachmentInfo :=
       {| colorAttachmentCount := colorAttachmentCount (attachmentInfo ci);
          hasDepthStencilAttachment := hasDepthStencilAttachment (attachmentInfo ci);
          depthStencilFormat := f |};
     blendConstants := blendConstants ci |}.

(** [SDL_GpuCreateGraphicsPipeline].  The second component of the result
    is the caller's create-info record as the call leaves it. *)
Definition SDL_GpuCreateGraphicsPipeline (w : World)
    (device : option SDL_GpuDevice)
    (graphicsPipelineCreateInfo : option GraphicsPipelineCreateInfo)
    : World * option GraphicsPipelineCreateInfo * option SDL_GpuGraphicsPipeline :=
  match device with
  | None => (diag (SDL_SetError "Invalid GPU device") w,
             graphicsPipelineCreateInfo, None)
  | Some dev =>
    match graphicsPipelineCreateInfo with
    | None => (diag (SDL_InvalidParamError "graphicsPipelineCreateInfo") w, None, None)
    | Some ci =>
      let '(w1, ci1) :=
        if hasDepthStencilAttachment (attachmentInfo ci)
           && negb (SupportsTextureFormat dev
                      (depthStencilFormat (attachmentInfo ci))
                      SDL_GPU_TEXTURETYPE_2D
                      SDL_GPU_TEXTUREUSAGE_DEPTH_STENCIL_TARGET_BIT)
        then
          let newFormat :=
            fallback_depth_format (depthStencilFormat (attachmentInfo ci)) in
          (diag (SDL_LogWarn
                   "Requested unsupported depth format %d, falling back to format %d!") w,
           set_depthStencilFormat newFormat ci)
        else (w, ci) in
      (delegate (BE_CreateGraphicsPipeline ci1) w1,
       Some ci1,
       CreateGraphicsPipeline dev (calls w1) ci1)
    end
  end.

(** *** Debugging *)

Definition SDL_GpuInsertDebugLabel (w : World)
    (commandBuffer : option CommandBufferId) (text : option string) : World :=
  match commandBuffer with
  | None => diag (SDL_InvalidParamError "commandBuffer") w
  | Some cb =>
    match text with
    | None => diag (SDL_InvalidParamError "text") w
    | Some t =>
      match buffers w !! cb with
      | None => w
      | Some h =>
        if debugMode (device h) && CHECK_COMMAND_BUFFER h
        then diag (SDL_assert_release "Command buffer already submitted!") w
        else delegate (BE_InsertDebugLabel cb t) w
      end
    end
  end.

Definition SDL_GpuPushDebugGroup (w : World)
    (commandBuffer : option CommandBufferId) (name : option string) : World :=
  match commandBuffer with
  | None => diag (SDL_InvalidParamError "commandBuffer") w
  | Some cb =>
    match name with
    | None => diag (SDL_InvalidParamError "name") w
    | Some n =>
      match buffers w !! cb with
      | None => w
      | Some h =>
        if debugMode (device h) && CHECK_COMMAND_BUFFER h
        then diag (SDL_assert_release "Command buffer already submitted!") w
        else delegate (BE_PushDebugGroup cb n) w
      end
    end
  end.

Definition SDL_GpuPopDebugGroup (w : World)
    (commandBuffer : option CommandBufferId) : World :=
  match commandBuffer with
  | None => diag (SDL_InvalidParamError "commandBuffer") w
  | Some cb =>
    match buffers w !! cb with
    | None => w
    | Some h =>
      if debugMode (device h) && CHECK_COMMAND_BUFFER h
      then diag (SDL_assert_release "Command buffer already submitted!") w
      else delegate (BE_PopDebugGroup cb) w
    end
  end.

(** *** Command buffer *)

Definition SDL_GpuAcquireCommandBuffer (w : World) (device : option SDL_GpuDevice)
    : World * option CommandBufferId :=
  match device with
  | None => (diag (SDL_SetError "Invalid GPU device") w, None)
  | Some dev =>
    let w1 := delegate BE_AcquireCommandBuffer w in
    match AcquireCommandBuffer dev (calls w) with
    | None => (w1, None)
    | Some cb =>
      (store cb
         {| device := dev;
            renderPass := {| commandBuffer := cb; inProgress := false |};
            graphicsPipelineBound := false;
            computePass := {| commandBuffer := cb; inProgress := false |};
            computePipelineBound := false;
            copyPass := {| commandBuffer := cb; inProgress := false |};
            submitted := false |} w1,
       Some cb)
    end
  end.

(** *** Uniforms *)

Definition SDL_GpuPushVertexUniformData (w : World)
    (commandBuffer : option CommandBufferId) (slotIndex : Z)
    (data : option (list Z)) (dataLengthInBytes : Z) : World :=
  match commandBuffer with
  | None => diag (SDL_InvalidParamError "commandBuffer") w
  | Some cb =>
    match data with
    | None => diag (SDL_InvalidParamError "data") w
    | Some d =>
      match buffers w !! cb with
      | None => w
      | Some h =>
        if debugMode (device h) && CHECK_COMMAND_BUFFER h
        then diag (SDL_assert_release "Command buffer already submitted!") w
        else delegate (BE_PushVertexUniformData cb slotIndex d dataLengthInBytes) w
      end
    end
  end.

Definition SDL_GpuPushFragmentUniformData (w : World)
    (commandBuffer : option CommandBufferId) (slotIndex : Z)
    (data : option (list Z)) (dataLengthInBytes : Z) : World :=
  match commandBuffer with
  | None => diag (SDL_InvalidParamError "commandBuffer") w
  | Some cb =>
    match data with
    | None => diag (SDL_InvalidParamError "data") w
    | Some d =>
      match buffers w !! cb with
      | None => w
      | Some h =>
        if debugMode (device h) && CHECK_COMMAND_BUFFER h
        then diag (SDL_assert_release "Command buffer already submitted!") w
        else delegate (BE_PushFragmentUniformData cb slotIndex d dataLengthInBytes) w
      end
    end
  end.

Definition SDL_GpuPushComputeUniformData (w : World)
    (commandBuffer : option CommandBufferId) (slotIndex : Z)
    (data : option (list Z)) (dataLengthInBytes : Z) : World :=
  match commandBuffer with
  | None => diag (SDL_InvalidParamError "commandBuffer") w
  | Some cb =>
    match data with
    | None => diag (SDL_InvalidParamError "data") w
    | Some d =>
      match buffers w !! cb with
      | None => w
      | Some h =>
        if debugMode (device h) && CHECK_COMMAND_BUFFER h
        then diag (SDL_assert_release "Command buffer already submitted!") w
        else delegate (BE_PushComputeUniformData cb slotIndex d dataLengthInBytes) w
      end
    end
  end.

(** *** Render pass *)

Section Entry_points.

(** [MAX_COLOR_TARGET_BINDINGS] is defined in the absent [SDL_sysgpu.h]. *)
Variable MAX_COLOR_TARGET_BINDINGS : Z.

Definition SDL_GpuBeginRenderPass (w : World)
    (commandBuffer : option CommandBufferId)
    (colorAttachmentInfos : option (list ColorAttachmentInfo))
    (colorAttachmentCount : Z)
    (depthStencilAttachmentInfo : option DepthStencilAttachmentInfo)
    : World * option SDL_GpuRenderPass :=
  match commandBuffer with
  | None => (diag (SDL_InvalidParamError "commandBuffer") w, None)
  | Some cb =>
    if is_null colorAttachmentInfos && (0 <? colorAttachmentCount)
    then (diag (SDL_InvalidParamError "colorAttachmentInfos") w, None)
    else if MAX_COLOR_TARGET_BINDINGS <? colorAttachmentCount
    then (diag (SDL_SetError "colorAttachmentCount exceeds MAX_COLOR_TARGET_BINDINGS") w,
          None)
    else
      match buffers w !! cb with
      | None => (w, None)
      | Some h =>
        if debugMode (device h) && CHECK_COMMAND_BUFFER h
        then (diag (SDL_assert_release "Command buffer already submitted!") w, None)
        else if debugMode (device h) && CHECK_ANY_PASS_IN_PROGRESS h
        then (diag (SDL_assert_release "Pass already in progress!") w, None)
        else
          let w1 := delegate (BE_BeginRenderPass cb colorAttachmentInfos
                                colorAttachmentCount depthStencilAttachmentInfo) w in
          (store cb (set_renderPass (set_inProgress true (renderPass h)) h) w1,
           Some (RenderPassOf cb))
      end
  end.

Definition SDL_GpuBindGraphicsPipeline (w : World)
    (renderPass : option SDL_GpuRenderPass)
    (graphicsPipeline : option SDL_GpuGraphicsPipeline) : World :=
  match renderPass with
  | None => diag (SDL_InvalidParamError "renderPass") w
  | Some rp =>
    match graphicsPipeline with
    | None => diag (SDL_InvalidParamError "graphicsPipeline") w
    | Some pipeline =>
      match RENDERPASS w rp with
      | None => w
      | Some (pass, h) =>
        let w1 := delegate (BE_BindGraphicsPipeline (commandBuffer pass) pipeline) w in
        store (commandBuffer pass) (set_graphicsPipelineBound true h) w1
      end
    end
  end.

Definition SDL_GpuSetViewport (w : World)
    (renderPass : option SDL_GpuRenderPass)
    (viewport : option SDL_GpuViewport) : World :=
  match renderPass with
  | None => diag (SDL_InvalidParamError "renderPass") w
  | Some rp =>
    match viewport with
    | None => diag (SDL_InvalidParamError "viewport") w
    | Some vp =>
      match RENDERPASS w rp with
      | None => w
      | Some (pass, h) =>
        if debugMode (device h) && negb (inProgress pass)
        then diag (SDL_assert_release "Render pass not in progress!") w
        else delegate (BE_SetViewport (commandBuffer pass) vp) w
      end
    end
  end.

Definition SDL_GpuSetScissor (w : World)
    (renderPass : option SDL_GpuRenderPass)
    (scissor : option SDL_Rect) : World :=
  match renderPass with
  | None => diag (SDL_InvalidParamError "renderPass") w
  | Some rp =>
    match scissor with
    | None => diag (SDL_InvalidParamError "scissor") w
    | Some sc =>
      match RENDERPASS w rp with
      | None => w
      | Some (pass, h) =>
        if debugMode (device h) && negb (inProgress pass)
        then diag (SDL_assert_release "Render pass not in progress!") w
        else delegate (BE_SetScissor (commandBuffer pass) sc) w
      end
    end
  end.

Definition SDL_GpuBindVertexBuffers (w : World)
    (renderPass : option SDL_GpuRenderPass) (firstBinding : Z)
    (pBindings : option (list SDL_GpuBufferBinding)) (bindingCount : Z) : World :=
  match renderPass with
  | None => diag (SDL_InvalidParamError "renderPass") w
  | Some rp =>
    if is_null pBindings && (0 <? bindingCount)
    then diag (SDL_InvalidParamError "pBindings") w
    else
      match RENDERPASS w rp with
      | None => w
      | Some (pass, h) =>
        if debugMode (device h) && negb (inProgress pass)
        then diag (SDL_assert_release "Render pass not in progress!") w
        else delegate (BE_BindVertexBuffers (commandBuffer pass) firstBinding
                         pBindings bindingCount) w
      end
  end.

Definition SDL_GpuBindIndexBuffer (w : World)
    (renderPass : option SDL_GpuRenderPass)
    (pBinding : option SDL_GpuBufferBinding) (indexElementSize : Z) : World :=
  match renderPass with
  | None => diag (SDL_InvalidParamError "renderPass") w
  | Some rp =>
    match pBinding with
    | None => diag (SDL_InvalidParamError "pBinding") w
    | Some binding =>
      match RENDERPASS w rp with
      | None => w
      | Some (pass, h) =>
        if debugMode (device h) && negb (inProgress pass)
        then diag (SDL_assert_release "Render pass not in progress!") w
        else delegate (BE_BindIndexBuffer (commandBuffer pass) binding
                         indexElementSize) w
      end
    end
  end.

Definition SDL_GpuBindVertexSamplers (w : World)
    (renderPass : option SDL_GpuRenderPass) (firstSlot : Z)
    (textureSamplerBindings : option (list SDL_GpuTextureSamplerBinding))
    (bindingCount : Z) : World :=
  match renderPass with
  | None => diag (SDL_InvalidParamError "renderPass") w
  | Some rp =>
    if is_null textureSamplerBindings && (0 <? bindingCount)
    then diag (SDL_InvalidParamError "textureSamplerBindings") w
    else
      match RENDERPASS w rp with
      | None => w
      | Some (pass, h) =>
        if debugMode (device h) && negb (inProgress pass)
        then diag (SDL_assert_release "Render pass not in progress!") w
        else delegate (BE_BindVertexSamplers (commandBuffer pass) firstSlot
                         textureSamplerBindings bindingCount) w
      end
  end.

Definition SDL_GpuBindVertexStorageTextures (w : World)
    (renderPass : option SDL_GpuRenderPass) (firstSlot : Z)
    (storageTextures : option (list SDL_GpuTexture)) (bindingCount : Z) : World :=
  match renderPass with
  | None => diag (SDL_InvalidParamError "renderPass") w
  | Some rp =>
    if is_null storageTextures && (0 <? bindingCount)
    then diag (SDL_InvalidParamError "storageTextures") w
    else
      match RENDERPASS w rp with
      | None => w
      | Some (pass, h) =>
        if debugMode (device h) && negb (inProgress pass)
        then diag (SDL_assert_release "Render pass not in progress!") w
        else delegate (BE_BindVertexStorageTextures (commandBuffer pass) firstSlot
                         storageTextures bindingCount) w
      end
  end.

Definition SDL_GpuBindVertexStorageBuffers (w : World)
    (renderPass : option SDL_GpuRenderPass) (firstSlot : Z)
    (storageBuffers : option (list SDL_GpuBuffer)) (bindingCount : Z) : World :=
  match renderPass with
  | None => diag (SDL_InvalidParamError "renderPass") w
  | Some rp =>
    if is_null storageBuffers && (0 <? bindingCount)
    then diag (SDL_InvalidParamError "storageBuffers") w
    else
      match RENDERPASS w rp with
      | None => w
      | Some (pass, h) =>
        if debugMode (device h) && negb (inProgress pass)
        then diag (SDL_assert_release "Render pass not in progress!") w
        else delegate (BE_BindVertexStorageBuffers (commandBuffer pass) firstSlot
                         storageBuffers bindingCount) w
      end
  end.

Definition SDL_GpuBindFragmentSamplers (w : World)
    (renderPass : option SDL_GpuRenderPass) (firstSlot : Z)
    (textureSamplerBindings : option (list SDL_GpuTextureSamplerBinding))
    (bindingCount : Z) : World :=
  match renderPass with
  | None => diag (SDL_InvalidParamError "renderPass") w
  | Some rp =>
    if is_null textureSamplerBindings && (0 <? bindingCount)
    then diag (SDL_InvalidParamError "textureSamplerBindings") w
    else
      match RENDERPASS w rp with
      | None => w
      | Some (pass, h) =>
        if debugMode (device h) && negb (inProgress pass)
        then diag (SDL_assert_release "Render pass not in progress!") w
        else delegate (BE_BindFragmentSamplers (commandBuffer pass) firstSlot
                         textureSamplerBindings bindingCount) w
      end
  end.

Definition SDL_GpuBindFragmentStorageTextures (w : World)
    (renderPass : option SDL_GpuRenderPass) (firstSlot : Z)
    (storageTextures : option (list SDL_GpuTexture)) (bindingCount : Z) : World :=
  match renderPass with
  | None => diag (SDL_InvalidParamError "renderPass") w
  | Some rp =>
    if is_null storageTextures && (0 <? bindingCount)
    then diag (SDL_InvalidParamError "storageTextures") w
    else
      match RENDERPASS w rp with
      | None => w
      | Some (pass, h) =>
        if debugMode (device h) && negb (inProgress pass)
        then diag (SDL_assert_release "Render pass not in progress!") w
        else delegate (BE_BindFragmentStorageTextures (commandBuffer pass) firstSlot
                         storageTextures bindingCount) w
      end
  end.

Definition SDL_GpuBindFragmentStorageBuffers (w : World)
    (renderPass : option SDL_GpuRenderPass) (firstSlot : Z)
    (storageBuffers : option (list SDL_GpuBuffer)) (bindingCount : Z) : World :=
  match renderPass with
  | None => diag (SDL_InvalidParamError "renderPass") w
  | Some rp =>
    if is_null storageBuffers && (0 <? bindingCount)
    then diag (SDL_InvalidParamError "storageBuffers") w
    else
      match RENDERPASS w rp with
      | None => w
      | Some (pass, h) =>
        if debugMode (device h) && negb (inProgress pass)
        then diag (SDL_assert_release "Render pass not in progress!") w
        else delegate (BE_BindFragmentStorageBuffers (commandBuffer pass) firstSlot
                         storageBuffers bindingCount) w
      end
  end.

Definition SDL_GpuDrawIndexedPrimitives (w : World)
    (renderPass : option SDL_GpuRenderPass)
    (baseVertex startIndex vertexCount instanceCount : Z) : World :=
  match renderPass with
  | None => diag (SDL_InvalidParamError "renderPass") w
  | Some rp =>
    match RENDERPASS w rp with
    | None => w
    | Some (pass, h) =>
      if debugMode (device h) && negb (inProgress pass)
      then diag (SDL_assert_release "Render pass not in progress!") w
      else if debugMode (device h) && negb (graphicsPipelineBound h)
      then diag (SDL_assert_release "Graphics pipeline not bound!") w
      else delegate (BE_DrawIndexedPrimitives (commandBuffer pass) baseVertex
                       startIndex vertexCount instanceCount) w
    end
  end.

Definition SDL_GpuDrawPrimitives (w : World)
    (renderPass : option SDL_GpuRenderPass) (vertexStart vertexCount : Z) : World :=
  match renderPass with
  | None => diag (SDL_InvalidParamError "renderPass") w
  | Some rp =>
    match RENDERPASS w rp with
    | None => w
    | Some (pass, h) =>
      if debugMode (device h) && negb (inProgress pass)
      then diag (SDL_assert_release "Render pass not in progress!") w
      else if debugMode (device h) && negb (graphicsPipelineBound h)
      then diag (SDL_assert_release "Graphics pipeline not bound!") w
      else delegate (BE_DrawPrimitives (commandBuffer pass) vertexStart vertexCount) w
    end
  end.

Definition SDL_GpuDrawPrimitivesIndirect (w : World)
    (renderPass : option SDL_GpuRenderPass) (buffer : option SDL_GpuBuffer)
    (offsetInBytes drawCount stride : Z) : World :=
  match renderPass with
  | None => diag (SDL_InvalidParamError "renderPass") w
  | Some rp =>
    match buffer with
    | None => diag (SDL_InvalidParamError "buffer") w
    | Some buf =>
      match RENDERPASS w rp with
      | None => w
      | Some (pass, h) =>
        if debugMode (device h) && negb (inProgress pass)
        then diag (SDL_assert_release "Render pass not in progress!") w
        else if debugMode (device h) && negb (graphicsPipelineBound h)
        then diag (SDL_assert_release "Graphics pipeline not bound!") w
        else delegate (BE_DrawPrimitivesIndirect (commandBuffer pass) buf
                         offsetInBytes drawCount stride) w
      end
    end
  end.

Definition SDL_GpuDrawIndexedPrimitivesIndirect (w : World)
    (renderPass : option SDL_GpuRenderPass) (buffer : option SDL_GpuBuffer)
    (offsetInBytes drawCount stride : Z) : World :=
  match renderPass with
  | None => diag (SDL_InvalidParamError "renderPass") w
  | Some rp =>
    match buffer with
    | None => diag (SDL_InvalidParamError "buffer") w
    | Some buf =>
      match RENDERPASS w rp with
      | None => w
      | Some (pass, h) =>
        if debugMode (device h) && negb (inProgress pass)
        then diag (SDL_assert_release "Render pass not in progress!") w
        else if debugMode (device h) && negb (graphicsPipelineBound h)
        then diag (SDL_assert_release "Graphics pipeline not bound!") w
        else delegate (BE_DrawIndexedPrimitivesIndirect (commandBuffer pass) buf
                         offsetInBytes drawCount stride) w
      end
    end
  end.

Definition SDL_GpuEndRenderPass (w : World)
    (renderPass : option SDL_GpuRenderPass) : World :=
  match renderPass with
  | None => diag (SDL_InvalidParamError "renderPass") w
  | Some rp =>
    match RENDERPASS w rp with
    | None => w
    | Some (pass, h) =>
      if debugMode (device h) && negb (inProgress pass)
      then diag (SDL_assert_release "Render pass not in progress!") w
      else
        let w1 := delegate (BE_EndRenderPass (commandBuffer pass)) w in
        store (commandBuffer pass)
          (set_graphicsPipelineBound false
             (set_renderPass (set_inProgress false (FrontEnd.renderPass h)) h)) w1
    end
  end.

(** *** Compute pass *)

Definition SDL_GpuBeginComputePass (w : World)
    (commandBuffer : option CommandBufferId)
    (storageTextureBindings : option (list SDL_GpuTexture))
    (storageTextureBindingCount : Z)
    (storageBufferBindings : option (list SDL_GpuBuffer))
    (storageBufferBindingCount : Z)
    : World * option SDL_GpuComputePass :=
  match commandBuffer with
  | None => (diag (SDL_InvalidParamError "commandBuffer") w, None)
  | Some cb =>
    if is_null storageTextureBindings && (0 <? storageTextureBindingCount)
    then (diag (SDL_InvalidParamError "storageTextureBindings") w, None)
    else if is_null storageBufferBindings && (0 <? storageBufferBindingCount)
    then (diag (SDL_InvalidParamError "storageBufferBindings") w, None)
    else if MAX_COMPUTE_WRITE_TEXTURES <? storageTextureBindingCount
    then (diag (SDL_InvalidParamError "storageTextureBindingCount") w, None)
    else if MAX_COMPUTE_WRITE_BUFFERS <? storageBufferBindingCount
    then (diag (SDL_InvalidParamError "storageBufferBindingCount") w, None)
    else
      match buffers w !! cb with
      | None => (w, None)
      | Some h =>
        if debugMode (device h) && CHECK_COMMAND_BUFFER h
        then (diag (SDL_assert_release "Command buffer already submitted!") w, None)
        else if debugMode (device h) && CHECK_ANY_PASS_IN_PROGRESS h
        then (diag (SDL_assert_release "Pass already in progress!") w, None)
        else
          let w1 := delegate (BE_BeginComputePass cb storageTextureBindings
                                storageTextureBindingCount storageBufferBindings
                                storageBufferBindingCount) w in
          (store cb (set_computePass (set_inProgress true (computePass h)) h) w1,
           Some (ComputePassOf cb))
      end
  end.

Definition SDL_GpuBindComputePipeline (w : World)
    (computePass : option SDL_GpuComputePass)
    (computePipeline : option SDL_GpuComputePipeline) : World :=
  match computePass with
  | None => diag (SDL_InvalidParamError "computePass") w
  | Some cp =>
    match computePipeline with
    | None => diag (SDL_InvalidParamError "computePipeline") w
    | Some pipeline =>
      match COMPUTEPASS w cp with
      | None => w
      | Some (pass, h) =>
        if debugMode (device h) && negb (inProgress pass)
        then diag (SDL_assert_release "Compute pass not in progress!") w
        else
          let w1 := delegate (BE_BindComputePipeline (commandBuffer pass) pipeline) w in
          store (commandBuffer pass) (set_computePipelineBound true h) w1
      end
    end
  end.

Definition SDL_GpuBindComputeStorageTextures (w : World)
    (computePass : option SDL_GpuComputePass) (firstSlot : Z)
    (storageTextures : option (list SDL_GpuTexture)) (bindingCount : Z) : World :=
  match computePass with
  | None => diag (SDL_InvalidParamError "computePass") w
  | Some cp =>
    if is_null storageTextures && (0 <? bindingCount)
    then diag (SDL_InvalidParamError "storageTextures") w
    else
      match COMPUTEPASS w cp with
      | None => w
      | Some (pass, h) =>
        if debugMode (device h) && negb (inProgress pass)
        then diag (SDL_assert_release "Compute pass not in progress!") w
        else delegate (BE_BindComputeStorageTextures (commandBuffer pass) firstSlot
                         storageTextures bindingCount) w
      end
  end.

Definition SDL_GpuBindComputeStorageBuffers (w : World)
    (computePass : option SDL_GpuComputePass) (firstSlot : Z)
    (storageBuffers : option (list SDL_GpuBuffer)) (bindingCount : Z) : World :=
  match computePass with
  | None => diag (SDL_InvalidParamError "computePass") w
  | Some cp =>
    if is_null storageBuffers && (0 <? bindingCount)
    then diag (SDL_InvalidParamError "storageBuffers") w
    else
      match COMPUTEPASS w cp with
      | None => w
      | Some (pass, h) =>
        if debugMode (device h) && negb (inProgress pass)
        then diag (SDL_assert_release "Compute pass not in progress!") w
        else delegate (BE_BindComputeStorageBuffers (commandBuffer pass) firstSlot
                         storageBuffers bindingCount) w
      end
  end.

Definition SDL_GpuDispatchCompute (w : World)
    (computePass : option SDL_GpuComputePass)
    (groupCountX groupCountY groupCountZ : Z) : World :=
  match computePass with
  | None => diag (SDL_InvalidParamError "computePass") w
  | Some cp =>
    match COMPUTEPASS w cp with
    | None => w
    | Some (pass, h) =>
      if debugMode (device h) && negb (inProgress pass)
      then diag (SDL_assert_release "Compute pass not in progress!") w
      else if debugMode (device h) && negb (computePipelineBound h)
      then diag (SDL_assert_release "Compute pipeline not bound!") w
      else delegate (BE_DispatchCompute (commandBuffer pass) groupCountX
                       groupCountY groupCountZ) w
    end
  end.

Definition SDL_GpuDispatchComputeIndirect (w : World)
    (computePass : option SDL_GpuComputePass) (buffer : option SDL_GpuBuffer)
    (offsetInBytes : Z) : World :=
  match computePass with
  | None => diag (SDL_InvalidParamError "computePass") w
  | Some cp =>
    match COMPUTEPASS w cp with
    | None => w
    | Some (pass, h) =>
      if debugMode (device h) && negb (inProgress pass)
      then diag (SDL_assert_release "Compute pass not in progress!") w
      else if debugMode (device h) && negb (computePipelineBound h)
      then diag (SDL_assert_release "Compute pipeline not bound!") w
      else delegate (BE_DispatchComputeIndirect (commandBuffer pass) buffer
                       offsetInBytes) w
    end
  end.

Definition SDL_GpuEndComputePass (w : World)
    (computePass : option SDL_GpuComputePass) : World :=
  match computePass with
  | None => diag (SDL_InvalidParamError "computePass") w
  | Some cp =>
    match COMPUTEPASS w cp with
    | None => w
    | Some (pass, h) =>
      if debugMode (device h) && negb (inProgress pass)
      then diag (SDL_assert_release "Compute pass not in progress!") w
      else
        let w1 := delegate (BE_EndComputePass (commandBuffer pass)) w in
        store (commandBuffer pass)
          (set_computePipelineBound false
             (set_computePass (set_inProgress false (FrontEnd.computePass h)) h)) w1
    end
  end.

(** *** Transfer buffers *)

Definition SDL_GpuMapTransferBuffer (w : World) (device : option SDL_GpuDevice)
    (transferBuffer : option SDL_GpuTransferBuffer) (cycle : bool)
    (ppData : bool) : World :=
  match device with
  | None => diag (SDL_SetError "Invalid GPU device") w
  | Some dev =>
    match transferBuffer with
    | None => diag (SDL_InvalidParamError "transferBuffer") w
    | Some tb =>
      if negb ppData then diag (SDL_InvalidParamError "ppData") w
      else delegate (BE_MapTransferBuffer tb cycle) w
    end
  end.

Definition SDL_GpuUnmapTransferBuffer (w : World) (device : option SDL_GpuDevice)
    (transferBuffer : option SDL_GpuTransferBuffer) : World :=
  match device with
  | None => diag (SDL_SetError "Invalid GPU device") w
  | Some dev =>
    match transferBuffer with
    | None => diag (SDL_InvalidParamError "transferBuffer") w
    | Some tb => delegate (BE_UnmapTransferBuffer tb) w
    end
  end.

(** *** Copy pass *)

Definition SDL_GpuBeginCopyPass (w : World)
    (commandBuffer : option CommandBufferId) : World * option SDL_GpuCopyPass :=
  match commandBuffer with
  | None => (diag (SDL_InvalidParamError "commandBuffer") w, None)
  | Some cb =>
    match buffers w !! cb with
    | None => (w, None)
    | Some h =>
      if debugMode (device h) && CHECK_COMMAND_BUFFER h
      then (diag (SDL_assert_release "Command buffer already submitted!") w, None)
      else if debugMode (device h) && CHECK_ANY_PASS_IN_PROGRESS h
      then (diag (SDL_assert_release "Pass already in progress!") w, None)
      else
        let w1 := delegate (BE_BeginCopyPass cb) w in
        (store cb (set_copyPass (set_inProgress true (copyPass h)) h) w1,
         Some (CopyPassOf cb))
    end
  end.

Definition SDL_GpuUploadToTexture (w : World) (copyPass : option SDL_GpuCopyPass)
    (source : option SDL_GpuTextureTransferInfo)
    (destination : option SDL_GpuTextureRegion) (cycle : bool) : World :=
  match copyPass with
  | None => diag (SDL_InvalidParamError "copyPass") w
  | Some cp =>
    match source with
    | None => diag (SDL_InvalidParamError "source") w
    | Some src =>
      match destination with
      | None => diag (SDL_InvalidParamError "destination") w
      | Some dst =>
        match COPYPASS w cp with
        | None => w
        | Some (pass, h) =>
          if debugMode (device h) && negb (inProgress pass)
          then diag (SDL_assert_release "Copy pass not in progress!") w
          else delegate (BE_UploadToTexture (commandBuffer pass) src dst cycle) w
        end
      end
    end
  end.

Definition SDL_GpuUploadToBuffer (w : World) (copyPass : option SDL_GpuCopyPass)
    (source : option SDL_GpuTransferBufferLocation)
    (destination : option SDL_GpuBufferRegion) (cycle : bool) : World :=
  match copyPass with
  | None => diag (SDL_InvalidParamError "copyPass") w
  | Some cp =>
    match source with
    | None => diag (SDL_InvalidParamError "source") w
    | Some src =>
      match destination with
      | None => diag (SDL_InvalidParamError "destination") w
      | Some dst =>
        match COPYPASS w cp with
        | None => w
        | Some (pass, h) =>
          delegate (BE_UploadToBuffer (commandBuffer pass) src dst cycle) w
        end
      end
    end
  end.

Definition SDL_GpuCopyTextureToTexture (w : World)
    (copyPass : option SDL_GpuCopyPass)
    (source destination : option SDL_GpuTextureLocation) (width height depth : Z)
    (cycle : bool) : World :=
  match copyPass with
  | None => diag (SDL_InvalidParamError "copyPass") w
  | Some cp =>
    match source with
    | None => diag (SDL_InvalidParamError "source") w
    | Some src =>
      match destination with
      | None => diag (SDL_InvalidParamError "destination") w
      | Some dst =>
        match COPYPASS w cp with
        | None => w
        | Some (pass, h) =>
          delegate (BE_CopyTextureToTexture (commandBuffer pass) src dst
                      width height depth cycle) w
        end
      end
    end
  end.

Definition SDL_GpuCopyBufferToBuffer (w : World)
    (copyPass : option SDL_GpuCopyPass)
    (source destination : option SDL_GpuBufferLocation) (size : Z)
    (cycle : bool) : World :=
  match copyPass with
  | None => diag (SDL_InvalidParamError "copyPass") w
  | Some cp =>
    match source with
    | None => diag (SDL_InvalidParamError "source") w
    | Some src =>
      match destination with
      | None => diag (SDL_InvalidParamError "destination") w
      | Some dst =>
        match COPYPASS w cp with
        | None => w
        | Some (pass, h) =>
          delegate (BE_CopyBufferToBuffer (commandBuffer pass) src dst size cycle) w
        end
      end
    end
  end.

Definition SDL_GpuGenerateMipmaps (w : World) (copyPass : option SDL_GpuCopyPass)
    (texture : option SDL_GpuTexture) : World :=
  match copyPass with
  | None => diag (SDL_InvalidParamError "copyPass") w
  | Some cp =>
    match texture with
    | None => diag (SDL_InvalidParamError "texture") w
    | Some tex =>
      match COPYPASS w cp with
      | None => w
      | Some (pass, h) => delegate (BE_GenerateMipmaps (commandBuffer pass) tex) w
      end
    end
  end.

Definition SDL_GpuDownloadFromTexture (w : World)
    (copyPass : option SDL_GpuCopyPass) (source : option SDL_GpuTextureRegion)
    (destination : option SDL_GpuTextureTransferInfo) : World :=
  match copyPass with
  | None => diag (SDL_InvalidParamError "copyPass") w
  | Some cp =>
    match source with
    | None => diag (SDL_InvalidParamError "source") w
    | Some src =>
      match destination with
      | None => diag (SDL_InvalidParamError "destination") w
      | Some dst =>
        match COPYPASS w cp with
        | None => w
        | Some (pass, h) =>
          delegate (BE_DownloadFromTexture (commandBuffer pass) src dst) w
        end
      end
    end
  end.

Definition SDL_GpuDownloadFromBuffer (w : World)
    (copyPass : option SDL_GpuCopyPass) (source : option SDL_GpuBufferRegion)
    (destination : option SDL_GpuTransferBufferLocation) : World :=
  match copyPass with
  | None => diag (SDL_InvalidParamError "copyPass") w
  | Some cp =>
    match source with
    | None => diag (SDL_InvalidParamError "source") w
    | Some src =>
      match destination with
      | None => diag (SDL_InvalidParamError "destination") w
      | Some dst =>
        match COPYPASS w cp with
        | None => w
        | Some (pass, h) =>
          delegate (BE_DownloadFromBuffer (commandBuffer pass) src dst) w
        end
      end
    end
  end.

Definition SDL_GpuEndCopyPass (w : World) (copyPass : option SDL_GpuCopyPass)
    : World :=
  match copyPass with
  | None => diag (SDL_InvalidParamError "copyPass") w
  | Some cp =>
    match COPYPASS w cp with
    | None => w
    | Some (pass, h) =>
      if debugMode (device h) && negb (inProgress pass)
      then diag (SDL_assert_release "Copy pass not in progress!") w
      else
        let w1 := delegate (BE_EndCopyPass (commandBuffer pass)) w in
        store (commandBuffer pass)
          (set_copyPass (set_inProgress false (FrontEnd.copyPass h)) h) w1
    end
  end.

(** *** Submission and presentation *)

Definition SDL_GpuGetSwapchainTextureFormat (w : World)
    (device : option SDL_GpuDevice) (window : option SDL_Window)
    : World * SDL_GpuTextureFormat :=
  match device with
  | None => (diag (SDL_SetError "Invalid GPU device") w,
             SDL_GPU_TEXTUREFORMAT_INVALID)
  | Some dev =>
    match window with
    | None => (diag (SDL_InvalidParamError "window") w,
               SDL_GPU_TEXTUREFORMAT_INVALID)
    | Some win =>
      (delegate (BE_GetSwapchainTextureFormat win) w,
       GetSwapchainTextureFormat dev (calls w) win)
    end
  end.

(** [pWidth] and [pHeight] say whether the out-pointers are non-null; the
    last two components of the result are the values written through them. *)
Definition SDL_GpuAcquireSwapchainTexture (w : World)
    (commandBuffer : option CommandBufferId) (window : option SDL_Window)
    (pWidth pHeight : bool) : World * option SDL_GpuTexture * option (Z * Z) :=
  match commandBuffer with
  | None => (diag (SDL_InvalidParamError "commandBuffer") w, None, None)
  | Some cb =>
    match window with
    | None => (diag (SDL_InvalidParamError "window") w, None, None)
    | Some win =>
      if negb pWidth then (diag (SDL_InvalidParamError "pWidth") w, None, None)
      else if negb pHeight then (diag (SDL_InvalidParamError "pHeight") w, None, None)
      else
        match buffers w !! cb with
        | None => (w, None, None)
        | Some h =>
          if debugMode (device h) && CHECK_COMMAND_BUFFER h
          then (diag (SDL_assert_release "Command buffer already submitted!") w,
                None, None)
          else
            let '(tex, width, height) :=
              AcquireSwapchainTexture (device h) (calls w) cb win in
            (delegate (BE_AcquireSwapchainTexture cb win) w, tex,
             Some (width, height))
        end
    end
  end.

Definition SDL_GpuSubmit (w : World) (commandBuffer : option CommandBufferId)
    : World :=
  match commandBuffer with
  | None => diag (SDL_InvalidParamError "commandBuffer") w
  | Some cb =>
    match buffers w !! cb with
    | None => w
    | Some h =>
      if debugMode (device h) && CHECK_COMMAND_BUFFER h
      then diag (SDL_assert_release "Command buffer already submitted!") w
      else if debugMode (device h)
              && (inProgress (renderPass h) || inProgress (computePass h)
                  || inProgress (copyPass h))
      then diag (SDL_assert_release
                   "Cannot submit command buffer while a pass is in progress!") w
      else delegate (BE_Submit cb) (store cb (set_submitted true h) w)
    end
  end.

Definition SDL_GpuSubmitAndAcquireFence (w : World)
    (commandBuffer : option CommandBufferId) : World * option SDL_GpuFence :=
  match commandBuffer with
  | None => (diag (SDL_InvalidParamError "commandBuffer") w, None)
  | Some cb =>
    match buffers w !! cb with
    | None => (w, None)
    | Some h =>
      if debugMode (device h) && CHECK_COMMAND_BUFFER h
      then (diag (SDL_assert_release "Command buffer already submitted!") w, None)
      else if debugMode (device h)
              && (inProgress (renderPass h) || inProgress (computePass h)
                  || inProgress (copyPass h))
      then (diag (SDL_assert_release
                    "Cannot submit command buffer while a pass is in progress!") w,
            None)
      else
        (delegate (BE_SubmitAndAcquireFence cb) (store cb (set_submitted true h) w),
         SubmitAndAcquireFence (device h) (calls w) cb)
    end
  end.

Definition SDL_GpuWaitForFences (w : World) (device : option SDL_GpuDevice)
    (waitAll : bool) (pFences : option (list SDL_GpuFence)) (fenceCount : Z)
    : World :=
  match device with
  | None => diag (SDL_SetError "Invalid GPU device") w
  | Some dev =>
    if is_null pFences && (0 <? fenceCount)
    then diag (SDL_InvalidParamError "pFences") w
    else delegate (BE_WaitForFences waitAll pFences fenceCount) w
  end.

Definition SDL_GpuReleaseFence (w : World) (device : option SDL_GpuDevice)
    (fence : option SDL_GpuFence) : World :=
  match device with
  | None => diag (SDL_SetError "Invalid GPU device") w
  | Some dev =>
    match fence with
    | None => w
    | Some f => delegate (BE_ReleaseFence f) w
    end
  end.

End Entry_points.

(** *** Drivers *)

Definition SDL_VideoDevice : Type := nat.

(** Modelled from the spec: the shader-format bits of the absent public
    header, one bit per recognised option [SHADERS_SECRET], [SHADERS_SPIRV],
    [SHADERS_DXBC], [SHADERS_DXIL], [SHADERS_MSL], [SHADERS_METALLIB]. *)
Definition SDL_GPU_SHADERFORMAT_SECRET : Z := 1.
Definition SDL_GPU_SHADERFORMAT_SPIRV : Z := 2.
Definition SDL_GPU_SHADERFORMAT_DXBC : Z := 4.
Definition SDL_GPU_SHADERFORMAT_DXIL : Z := 8.
Definition SDL_GPU_SHADERFORMAT_MSL : Z := 16.
Definition SDL_GPU_SHADERFORMAT_METALLIB : Z := 32.

Inductive Property : Type :=
| BooleanProperty (v : bool)
| StringProperty (v : option string).

(** A property bag, keyed by the name of the [SDL_PROP_...] macro. *)
Abbreviation SDL_Properties := (gmap string Property).

Definition SDL_GetBooleanProperty (props : SDL_Properties) (name : string)
    (default_value : bool) : bool :=
  match props !! name with
  | Some (BooleanProperty v) => v
  | _ => default_value
  end.

Definition SDL_GetStringProperty (props : SDL_Properties) (name : string)
    (default_value : option string) : option string :=
  match props !! name with
  | Some (StringProperty v) => v
  | _ => default_value
  end.

Definition SDL_SetBooleanProperty (props : SDL_Properties) (name : string)
    (v : bool) : SDL_Properties :=
  <[name := BooleanProperty v]> props.

Definition SDL_SetStringProperty (props : SDL_Properties) (name : string)
    (v : option string) : SDL_Properties :=
  <[name := StringProperty v]> props.

(** [SDL_GpuBootstrap]: what a compiled-in back end publishes. *)
Record SDL_GpuBootstrap : Type :=
  { Name : string;
    backendflag : SDL_GpuDriver;
    bootstrap_shaderFormats : Z;
    PrepareDriver : SDL_VideoDevice -> bool;
    CreateDevice : bool -> bool -> SDL_Properties -> option SDL_GpuDevice }.

Definition SDL_tolower (c : Ascii.ascii) : Ascii.ascii :=
  let n := Ascii.nat_of_ascii c in
  if ((65 <=? n) && (n <=? 90))%nat then Ascii.ascii_of_nat (n + 32) else c.

(** [SDL_strcasecmp a b == 0]. *)
Fixpoint SDL_strcasecmp_is_zero (s1 s2 : string) : bool :=
  match s1, s2 with
  | EmptyString, EmptyString => true
  | String c1 r1, String c2 r2 =>
      if decide (SDL_tolower c1 = SDL_tolower c2)
      then SDL_strcasecmp_is_zero r1 r2 else false
  | _, _ => false
  end.

Definition nonzero (z : Z) : bool := negb (z =? 0).

(** [SDL_GpuSelectBackend], over the contents of the [backends] array up to
    its [NULL] terminator.  The second component lists the diagnostics. *)
Definition SDL_GpuSelectBackend (backends : list SDL_GpuBootstrap)
    (_this : SDL_VideoDevice) (gpudriver : option string) (formatFlags : Z)
    : SDL_GpuDriver * list Diagnostic :=
  match gpudriver with
  | Some name =>
    match
      List.find (fun bk =>
                   SDL_strcasecmp_is_zero name (Name bk)
                   && nonzero (Z.land (bootstrap_shaderFormats bk) formatFlags)
                   && PrepareDriver bk _this) backends
    with
    | Some bk => (backendflag bk, [])
    | None => (SDL_GPU_DRIVER_INVALID,
               [SDL_LogError "SDL_HINT_GPU_BACKEND %s unsupported!"])
    end
  | None =>
    match List.find (fun bk => PrepareDriver bk _this) backends with
    | Some bk => (backendflag bk, [])
    | None => (SDL_GPU_DRIVER_INVALID,
               [SDL_LogError "No supported SDL_Gpu backend found!"])
    end
  end.

Definition set_device_identity (bk : SDL_GpuBootstrap) (debug : bool)
    (result : SDL_GpuDevice) : SDL_GpuDevice :=
  {| backend := backendflag bk;
     shaderFormats := bootstrap_shaderFormats bk;
     debugMode := debug;
     SupportsTextureFormat := SupportsTextureFormat result;
     CreateGraphicsPipeline := CreateGraphicsPipeline result;
     AcquireCommandBuffer := AcquireCommandBuffer result;
     AcquireSwapchainTexture := AcquireSwapchainTexture result;
     GetSwapchainTextureFormat := GetSwapchainTextureFormat result;
     SubmitAndAcquireFence := SubmitAndAcquireFence result |}.

(** The second loop of [SDL_GpuCreateDeviceWithProperties]. *)
Fixpoint create_on_selected (backends : list SDL_GpuBootstrap)
    (selectedBackend : SDL_GpuDriver) (debug preferLowPower : bool)
    (props : SDL_Properties) : option SDL_GpuDevice :=
  match backends with
  | [] => None
  | bk :: rest =>
    if decide (backendflag bk = selectedBackend) then
      match CreateDevice bk debug preferLowPower props with
      | Some result => Some (set_device_identity bk debug result)
      | None => create_on_selected rest selectedBackend debug preferLowPower props
      end
    else create_on_selected rest selectedBackend debug preferLowPower props
  end.

Definition flag_if (c : bool) (bit : Z) (flags : Z) : Z :=
  if c then Z.lor flags bit else flags.

(** The shader formats a property bag requests. *)
Definition requested_formatFlags (props : SDL_Properties) : Z :=
  flag_if (SDL_GetBooleanProperty props
             "SDL_PROP_GPU_CREATEDEVICE_SHADERS_METALLIB_BOOL" false)
    SDL_GPU_SHADERFORMAT_METALLIB
  (flag_if (SDL_GetBooleanProperty props
              "SDL_PROP_GPU_CREATEDEVICE_SHADERS_MSL_BOOL" false)
     SDL_GPU_SHADERFORMAT_MSL
  (flag_if (SDL_GetBooleanProperty props
              "SDL_PROP_GPU_CREATEDEVICE_SHADERS_DXIL_BOOL" false)
     SDL_GPU_SHADERFORMAT_DXIL
  (flag_if (SDL_GetBooleanProperty props
              "SDL_PROP_GPU_CREATEDEVICE_SHADERS_DXBC_BOOL" false)
     SDL_GPU_SHADERFORMAT_DXBC
  (flag_if (SDL_GetBooleanProperty props
              "SDL_PROP_GPU_CREATEDEVICE_SHADERS_SPIRV_BOOL" false)
     SDL_GPU_SHADERFORMAT_SPIRV
  (flag_if (SDL_GetBooleanProperty props
              "SDL_PROP_GPU_CREATEDEVICE_SHADERS_SECRET_BOOL" false)
     SDL_GPU_SHADERFORMAT_SECRET 0))))).

(** [SDL_GpuCreateDeviceWithProperties]; [video] is the answer of
    [SDL_GetVideoDevice] and [hint] that of [SDL_GetHint(SDL_HINT_GPU_DRIVER)]. *)
Definition SDL_GpuCreateDeviceWithProperties (backends : list SDL_GpuBootstrap)
    (video : option SDL_VideoDevice) (hint : option string)
    (props : SDL_Properties) : option SDL_GpuDevice * list Diagnostic :=
  match video with
  | None => (None, [SDL_SetError "Video subsystem not initialized"])
  | Some _this =>
    let formatFlags := requested_formatFlags props in
    let debug :=
      SDL_GetBooleanProperty props "SDL_PROP_GPU_CREATEDEVICE_DEBUGMODE_BOOL" true in
    let preferLowPower :=
      SDL_GetBooleanProperty props "SDL_PROP_GPU_CREATEDEVICE_PREFERLOWPOWER_BOOL" true in
    let gpudriver :=
      match hint with
      | Some h => Some h
      | None => SDL_GetStringProperty props "SDL_PROP_GPU_CREATEDEVICE_NAME_STRING" None
      end in
    let '(selectedBackend, diags) :=
      SDL_GpuSelectBackend backends _this gpudriver formatFlags in
    if decide (selectedBackend = SDL_GPU_DRIVER_INVALID) then (None, diags)
    else (create_on_selected backends selectedBackend debug preferLowPower props,
          diags)
  end.

Definition set_if_flag (formatFlags bit : Z) (name : string)
    (props : SDL_Properties) : SDL_Properties :=
  if nonzero (Z.land formatFlags bit)
  then SDL_SetBooleanProperty props name true else props.

(** [SDL_GpuCreateDevice]. *)
Definition SDL_GpuCreateDevice (backends : list SDL_GpuBootstrap)
    (video : option SDL_VideoDevice) (hint : option string)
    (formatFlags : Z) (debug preferLowPower : bool) (name : option string)
    : option SDL_GpuDevice * list Diagnostic :=
  let props : SDL_Properties := ∅ in
  let props := set_if_flag formatFlags SDL_GPU_SHADERFORMAT_SECRET
                 "SDL_PROP_GPU_CREATEDEVICE_SHADERS_SECRET_BOOL" props in
  let props := set_if_flag formatFlags SDL_GPU_SHADERFORMAT_SPIRV
                 "SDL_PROP_GPU_CREATEDEVICE_SHADERS_SPIRV_BOOL" props in
  let props := set_if_flag formatFlags SDL_GPU_SHADERFORMAT_DXBC
                 "SDL_PROP_GPU_CREATEDEVICE_SHADERS_DXBC_BOOL" props in
  let props := set_if_flag formatFlags SDL_GPU_SHADERFORMAT_DXIL
                 "SDL_PROP_GPU_CREATEDEVICE_SHADERS_DXIL_BOOL" props in
  let props := set_if_flag formatFlags SDL_GPU_SHADERFORMAT_MSL
                 "SDL_PROP_GPU_CREATEDEVICE_SHADERS_MSL_BOOL" props in
  let props := set_if_flag formatFlags SDL_GPU_SHADERFORMAT_METALLIB
                 "SDL_PROP_GPU_CREATEDEVICE_SHADERS_METALLIB_BOOL" props in
  let props := SDL_SetBooleanProperty props
                 "SDL_PROP_GPU_CREATEDEVICE_DEBUGMODE_BOOL" debug in
  let props := SDL_SetBooleanProperty props
                 "SDL_PROP_GPU_CREATEDEVICE_PREFERLOWPOWER_BOOL" preferLowPower in
  let props := SDL_SetStringProperty props
                 "SDL_PROP_GPU_CREATEDEVICE_NAME_STRING" name in
  SDL_GpuCreateDeviceWithProperties backends video hint props.

(** *** Texture creation *)

(** [SDL_GPU_SAMPLECOUNT_1] is the first value of its enumeration: the table
    [SDLToD3D12_SampleCount] of the Direct3D 12 back end is indexed by it. *)
Definition SDL_GPU_SAMPLECOUNT_1 : Z := 0.

Definition SDL_GpuSupportsTextureFormat (w : World)
    (device : option SDL_GpuDevice) (format : SDL_GpuTextureFormat)
    (type : SDL_GpuTextureType) (usage : Z) : World * bool :=
  match device with
  | None => (diag (SDL_SetError "Invalid GPU device") w, false)
  | Some dev => (w, SupportsTextureFormat dev format type usage)
  end.

(** One check of the debug mode, on the world and the flag [failed]: the
    assertion is raised and the flag set when the condition holds. *)
Definition failing (condition : bool) (msg : string) (st : World * bool)
    : World * bool :=
  if condition then (diag (SDL_assert_release msg) st.1, true) else st.

(** The check of the format, which asks the device. *)
Definition failing_unsupported (dev : SDL_GpuDevice)
    (info : SDL_GpuTextureCreateInfo) (type : SDL_GpuTextureType)
    (msg : string) (st : World * bool) : World * bool :=
  let '(w, supported) :=
    SDL_GpuSupportsTextureFormat st.1 (Some dev) (tci_format info) type
      (tci_usageFlags info) in
  failing (negb supported) msg (w, st.2).

Section Texture_creation.

(** From the absent headers: two bits of the usage bitset, and the
    predicate of the integer formats. *)
Variable SDL_GPU_TEXTUREUSAGE_SAMPLER_BIT : Z.
Variable SDL_GPU_TEXTUREUSAGE_GRAPHICS_STORAGE_READ_BIT : Z.
Variable IsIntegerFormat : SDL_GpuTextureFormat -> bool.

(** The [CreateTexture] entry of a device's table: its answer depends on the
    calls delegated so far and on the create info. *)
Variable CreateTexture :
  SDL_GpuDevice -> list BackendCall -> SDL_GpuTextureCreateInfo -> option SDL_GpuTexture.

Definition MAX_2D_DIMENSION : Z := 16384.
Definition MAX_3D_DIMENSION : Z := 2048.

(** The checks of the debug mode, in the order of the source. *)
Definition texture_checks (dev : SDL_GpuDevice) (info : SDL_GpuTextureCreateInfo)
    (w : World) : World * bool :=
  let has bit := nonzero (Z.land (tci_usageFlags info) bit) in
  let st := (w, false) in
  let st :=
    failing ((tci_width info <=? 0) || (tci_height info <=? 0)
             || (tci_depth info <=? 0))
      "For any texture: width, height, and depth must be >= 1" st in
  let st :=
    failing (tci_layerCount info <=? 0)
      "For any texture: layerCount must be >= 1" st in
  let st :=
    failing (tci_levelCount info <=? 0)
      "For any texture: levelCount must be >= 1" st in
  let st :=
    failing (has SDL_GPU_TEXTUREUSAGE_GRAPHICS_STORAGE_READ_BIT
             && has SDL_GPU_TEXTUREUSAGE_SAMPLER_BIT)
      "For any texture: usageFlags cannot contain both GRAPHICS_STORAGE_READ_BIT and SAMPLER_BIT"
      st in
  let st :=
    failing (IsIntegerFormat (tci_format info)
             && has SDL_GPU_TEXTUREUSAGE_SAMPLER_BIT)
      "For any texture: usageFlags cannot contain SAMPLER_BIT for textures with an integer format"
      st in
  match tci_type info with
  | SDL_GPU_TEXTURETYPE_CUBE =>
    let st :=
      failing (negb (tci_width info =? tci_height info))
        "For cube textures: width and height must be identical" st in
    let st :=
      failing ((MAX_2D_DIMENSION <? tci_width info)
               || (MAX_2D_DIMENSION <? tci_height info))
        "For cube textures: width and height must be <= 16384" st in
    let st :=
      failing (1 <? tci_depth info) "For cube textures: depth must be 1" st in
    let st :=
      failing (negb (tci_layerCount info =? 6))
        "For cube textures: layerCount must be 6" st in
    let st :=
      failing (SDL_GPU_SAMPLECOUNT_1 <? tci_sampleCount info)
        "For cube textures: sampleCount must be SDL_GPU_SAMPLECOUNT_1" st in
    failing_unsupported dev info SDL_GPU_TEXTURETYPE_CUBE
      "For cube textures: the format is unsupported for the given usageFlags" st
  | SDL_GPU_TEXTURETYPE_3D =>
    let st :=
      failing ((MAX_3D_DIMENSION <? tci_width info)
               || (MAX_3D_DIMENSION <? tci_height info)
               || (MAX_3D_DIMENSION <? tci_depth info))
        "For 3D textures: width, height, and depth must be <= 2048" st in
    let st :=
      failing (has SDL_GPU_TEXTUREUSAGE_DEPTH_STENCIL_TARGET_BIT)
        "For 3D textures: usageFlags must not contain DEPTH_STENCIL_TARGET_BIT"
        st in
    let st :=
      failing (1 <? tci_layerCount info)
        "For 3D textures: layerCount must be 1" st in
    let st :=
      failing (SDL_GPU_SAMPLECOUNT_1 <? tci_sampleCount info)
        "For 3D textures: sampleCount must be SDL_GPU_SAMPLECOUNT_1" st in
    failing_unsupported dev info SDL_GPU_TEXTURETYPE_3D
      "For 3D textures: the format is unsupported for the given usageFlags" st
  | type =>
    let st :=
      match type with
      | SDL_GPU_TEXTURETYPE_2D_ARRAY =>
        let st :=
          failing (has SDL_GPU_TEXTUREUSAGE_DEPTH_STENCIL_TARGET_BIT)
            "For array textures: usageFlags must not contain DEPTH_STENCIL_TARGET_BIT"
            st in
        failing (SDL_GPU_SAMPLECOUNT_1 <? tci_sampleCount info)
          "For array textures: sampleCount must be SDL_GPU_SAMPLECOUNT_1" st
      | _ =>
        failing ((SDL_GPU_SAMPLECOUNT_1 <? tci_sampleCount info)
                 && (1 <? tci_levelCount info))
          "For 2D textures: if sampleCount is >= SDL_GPU_SAMPLECOUNT_1, then levelCount must be 1"
          st
      end in
    failing_unsupported dev info SDL_GPU_TEXTURETYPE_2D
      "For 2D textures: the format is unsupported for the given usageFlags" st
  end.

Definition SDL_GpuCreateTexture (w : World) (device : option SDL_GpuDevice)
    (textureCreateInfo : option SDL_GpuTextureCreateInfo)
    : World * option SDL_GpuTexture :=
  match device with
  | None => (diag (SDL_SetError "Invalid GPU device") w, None)
  | Some dev =>
    match textureCreateInfo with
    | None => (diag (SDL_InvalidParamError "textureCreateInfo") w, None)
    | Some info =>
      let '(w, failed) :=
        if debugMode dev then texture_checks dev info w else (w, false) in
      if failed then (w, None)
      else (w, CreateTexture dev (calls w) info)
    end
  end.

(** The textures the checks let through, in the terms of a caller. *)
Definition acceptable_texture (dev : SDL_GpuDevice)
    (info : SDL_GpuTextureCreateInfo) : Prop :=
  let has bit := Z.land (tci_usageFlags info) bit <> 0 in
  1 <= tci_width info /\ 1 <= tci_height info /\ 1 <= tci_depth info
  /\ 1 <= tci_layerCount info /\ 1 <= tci_levelCount info
  /\ ~ (has SDL_GPU_TEXTUREUSAGE_GRAPHICS_STORAGE_READ_BIT
        /\ has SDL_GPU_TEXTUREUSAGE_SAMPLER_BIT)
  /\ ~ (IsIntegerFormat (tci_format info) = true
        /\ has SDL_GPU_TEXTUREUSAGE_SAMPLER_BIT)
  /\ match tci_type info with
     | SDL_GPU_TEXTURETYPE_CUBE =>
       tci_width info = tci_height info /\ tci_width info <= 16384
       /\ tci_depth info = 1 /\ tci_layerCount info = 6
       /\ tci_sampleCount info = SDL_GPU_SAMPLECOUNT_1
       /\ SupportsTextureFormat dev (tci_format info) SDL_GPU_TEXTURETYPE_CUBE
            (tci_usageFlags info) = true
     | SDL_GPU_TEXTURETYPE_3D =>
       tci_width info <= 2048 /\ tci_height info <= 2048
       /\ tci_depth info <= 2048
       /\ ~ has SDL_GPU_TEXTUREUSAGE_DEPTH_STENCIL_TARGET_BIT
       /\ tci_layerCount info = 1
       /\ tci_sampleCount info = SDL_GPU_SAMPLECOUNT_1
       /\ SupportsTextureFormat dev (tci_format info) SDL_GPU_TEXTURETYPE_3D
            (tci_usageFlags info) = true
     | SDL_GPU_TEXTURETYPE_2D_ARRAY =>
       ~ has SDL_GPU_TEXTUREUSAGE_DEPTH_STENCIL_TARGET_BIT
       /\ tci_sampleCount info = SDL_GPU_SAMPLECOUNT_1
       /\ SupportsTextureFormat dev (tci_format info) SDL_GPU_TEXTURETYPE_2D
            (tci_usageFlags info) = true
     | SDL_GPU_TEXTURETYPE_2D =>
       (tci_sampleCount info = SDL_GPU_SAMPLECOUNT_1 \/ tci_levelCount info = 1)
       /\ SupportsTextureFormat dev (tci_format info) SDL_GPU_TEXTURETYPE_2D
            (tci_usageFlags info) = true
     end.

End Texture_creation.

(** *** Blit *)

(** Modelled from the spec: the usage bits [SAMPLER] and [COLOR_TARGET] of
    the absent public header, the first and the second of the usage
    bitset. *)
Definition SDL_GPU_TEXTUREUSAGE_SAMPLER_BIT : Z := 1.
Definition SDL_GPU_TEXTUREUSAGE_COLOR_TARGET_BIT : Z := 2.

(** The validation of [SDL_GpuBlit] in debug mode, on the headers of the
    two textures. *)
Definition blit_checks (srcHeader dstHeader : TextureCommonHeader) (w : World)
    : World * bool :=
  let st := (w, false) in
  let st :=
    failing (Z.land (tci_usageFlags (info srcHeader))
               SDL_GPU_TEXTUREUSAGE_SAMPLER_BIT =? 0)
      "Blit source texture must be created with the SAMPLER_BIT usage flag" st in
  let st :=
    failing (Z.land (tci_usageFlags (info dstHeader))
               SDL_GPU_TEXTUREUSAGE_COLOR_TARGET_BIT =? 0)
      "Blit destination texture must be created with the COLOR_TARGET_BIT usage flag"
      st in
  let st :=
    failing ((1 <? tci_layerCount (info srcHeader))
             || (1 <? tci_layerCount (info dstHeader)))
      "Blit source and destination textures must have a layerCount of 1" st in
  failing ((1 <? tci_depth (info srcHeader)) || (1 <? tci_depth (info dstHeader)))
    "Blit source and destination textures must have a depth of 1" st.

(** [SDL_GpuBlit].  In debug mode the headers of the two textures are read
    without a test of the handles: a [NULL] texture is undefined behaviour
    in C, a no-op here. *)
Definition SDL_GpuBlit (w : World) (commandBuffer : option CommandBufferId)
    (source destination : option SDL_GpuTextureRegion)
    (filterMode : SDL_GpuFilter) (cycle : bool) : World :=
  match commandBuffer with
  | None => diag (SDL_InvalidParamError "commandBuffer") w
  | Some cb =>
    match source with
    | None => diag (SDL_InvalidParamError "source") w
    | Some src =>
      match destination with
      | None => diag (SDL_InvalidParamError "destination") w
      | Some dst =>
        match buffers w !! cb with
        | None => w
        | Some h =>
          if debugMode (device h) && CHECK_COMMAND_BUFFER h
          then diag (SDL_assert_release "Command buffer already submitted!") w
          else if debugMode (device h)
          then
            match tr_texture src, tr_texture dst with
            | Some srcHeader, Some dstHeader =>
              let '(w1, failed) := blit_checks srcHeader dstHeader w in
              if failed then w1
              else delegate (BE_Blit cb src dst filterMode cycle) w1
            | _, _ => w
            end
          else delegate (BE_Blit cb src dst filterMode cycle) w
        end
      end
    end
  end.

(** *** Sequences of public calls *)

(** A call of a public entry point that takes a command buffer or a pass,
    or that acquires a command buffer, with its arguments. *)
Inductive ApiCall : Type :=
| Call_InsertDebugLabel (cb : option CommandBufferId) (text : option string)
| Call_PushDebugGroup (cb : option CommandBufferId) (name : option string)
| Call_PopDebugGroup (cb : option CommandBufferId)
| Call_AcquireCommandBuffer (device : option SDL_GpuDevice)
| Call_PushVertexUniformData (cb : option CommandBufferId) (slotIndex : Z)
    (data : option (list Z)) (len : Z)
| Call_PushFragmentUniformData (cb : option CommandBufferId) (slotIndex : Z)
    (data : option (list Z)) (len : Z)
| Call_PushComputeUniformData (cb : option CommandBufferId) (slotIndex : Z)
    (data : option (list Z)) (len : Z)
| Call_BeginRenderPass (cb : option CommandBufferId)
    (infos : option (list ColorAttachmentInfo)) (count : Z)
    (ds : option DepthStencilAttachmentInfo)
| Call_BindGraphicsPipeline (rp : option SDL_GpuRenderPass)
    (pipeline : option SDL_GpuGraphicsPipeline)
| Call_SetViewport (rp : option SDL_GpuRenderPass) (vp : option SDL_GpuViewport)
| Call_SetScissor (rp : option SDL_GpuRenderPass) (sc : option SDL_Rect)
| Call_BindVertexBuffers (rp : option SDL_GpuRenderPass) (first : Z)
    (bindings : option (list SDL_GpuBufferBinding)) (count : Z)
| Call_BindIndexBuffer (rp : option SDL_GpuRenderPass)
    (binding : option SDL_GpuBufferBinding) (size : Z)
| Call_BindVertexSamplers (rp : option SDL_GpuRenderPass) (first : Z)
    (bindings : option (list SDL_GpuTextureSamplerBinding)) (count : Z)
| Call_BindVertexStorageTextures (rp : option SDL_GpuRenderPass) (first : Z)
    (textures : option (list SDL_GpuTexture)) (count : Z)
| Call_BindVertexStorageBuffers (rp : option SDL_GpuRenderPass) (first : Z)
    (bufs : option (list SDL_GpuBuffer)) (count : Z)
| Call_BindFragmentSamplers (rp : option SDL_GpuRenderPass) (first : Z)
    (bindings : option (list SDL_GpuTextureSamplerBinding)) (count : Z)
| Call_BindFragmentStorageTextures (rp : option SDL_GpuRenderPass) (first : Z)
    (textures : option (list SDL_GpuTexture)) (count : Z)
| Call_BindFragmentStorageBuffers (rp : option SDL_GpuRenderPass) (first : Z)
    (bufs : option (list SDL_GpuBuffer)) (count : Z)
| Call_DrawIndexedPrimitives (rp : option SDL_GpuRenderPass)
    (baseVertex startIndex vertexCount instanceCount : Z)
| Call_DrawPrimitives (rp : option SDL_GpuRenderPass) (vertexStart vertexCount : Z)
| Call_DrawPrimitivesIndirect (rp : option SDL_GpuRenderPass)
    (buffer : option SDL_GpuBuffer) (offsetInBytes drawCount stride : Z)
| Call_DrawIndexedPrimitivesIndirect (rp : option SDL_GpuRenderPass)
    (buffer : option SDL_GpuBuffer) (offsetInBytes drawCount stride : Z)
| Call_EndRenderPass (rp : option SDL_GpuRenderPass)
| Call_BeginComputePass (cb : option CommandBufferId)
    (textures : option (list SDL_GpuTexture)) (textureCount : Z)
    (bufs : option (list SDL_GpuBuffer)) (bufferCount : Z)
| Call_BindComputePipeline (cp : option SDL_GpuComputePass)
    (pipeline : option SDL_GpuComputePipeline)
| Call_BindComputeStorageTextures (cp : option SDL_GpuComputePass) (first : Z)
    (textures : option (list SDL_GpuTexture)) (count : Z)
| Call_BindComputeStorageBuffers (cp : option SDL_GpuComputePass) (first : Z)
    (bufs : option (list SDL_GpuBuffer)) (count : Z)
| Call_DispatchCompute (cp : option SDL_GpuComputePass) (x y z : Z)
| Call_DispatchComputeIndirect (cp : option SDL_GpuComputePass)
    (buffer : option SDL_GpuBuffer) (offsetInBytes : Z)
| Call_EndComputePass (cp : option SDL_GpuComputePass)
| Call_BeginCopyPass (cb : option CommandBufferId)
| Call_UploadToTexture (cp : option SDL_GpuCopyPass)
    (source : option SDL_GpuTextureTransferInfo)
    (destination : option SDL_GpuTextureRegion) (cycle : bool)
| Call_UploadToBuffer (cp : option SDL_GpuCopyPass)
    (source : option SDL_GpuTransferBufferLocation)
    (destination : option SDL_GpuBufferRegion) (cycle : bool)
| Call_CopyTextureToTexture (cp : option SDL_GpuCopyPass)
    (source destination : option SDL_GpuTextureLocation) (w h d : Z)
    (cycle : bool)
| Call_CopyBufferToBuffer (cp : option SDL_GpuCopyPass)
    (source destination : option SDL_GpuBufferLocation) (size : Z) (cycle : bool)
| Call_GenerateMipmaps (cp : option SDL_GpuCopyPass)
    (texture : option SDL_GpuTexture)
| Call_DownloadFromTexture (cp : option SDL_GpuCopyPass)
    (source : option SDL_GpuTextureRegion)
    (destination : option SDL_GpuTextureTransferInfo)
| Call_DownloadFromBuffer (cp : option SDL_GpuCopyPass)
    (source : option SDL_GpuBufferRegion)
    (destination : option SDL_GpuTransferBufferLocation)
| Call_EndCopyPass (cp : option SDL_GpuCopyPass)
| Call_Blit (cb : option CommandBufferId)
    (source destination : option SDL_GpuTextureRegion)
    (filterMode : SDL_GpuFilter) (cycle : bool)
| Call_AcquireSwapchainTexture (cb : option CommandBufferId)
    (window : option SDL_Window) (pWidth pHeight : bool)
| Call_Submit (cb : option CommandBufferId)
| Call_SubmitAndAcquireFence (cb : option CommandBufferId).

(** What a call hands back: nothing, or a pointer that may be [NULL]. *)
Inductive ApiResult : Type :=
| Returns_void
| Returns_pointer (nonnull : bool).

Definition pointer_result {A : Type} (p : option A) : ApiResult :=
  Returns_pointer (negb (is_null p)).

Section Calls.

Variable MAX_COLOR_TARGET_BINDINGS : Z.

Definition api (w : World) (c : ApiCall) : World * ApiResult :=
  match c with
  | Call_InsertDebugLabel cb text => (SDL_GpuInsertDebugLabel w cb text, Returns_void)
  | Call_PushDebugGroup cb name => (SDL_GpuPushDebugGroup w cb name, Returns_void)
  | Call_PopDebugGroup cb => (SDL_GpuPopDebugGroup w cb, Returns_void)
  | Call_AcquireCommandBuffer dev =>
      let '(w1, res) := SDL_GpuAcquireCommandBuffer w dev in (w1, pointer_result res)
  | Call_PushVertexUniformData cb slot data len =>
      (SDL_GpuPushVertexUniformData w cb slot data len, Returns_void)
  | Call_PushFragmentUniformData cb slot data len =>
      (SDL_GpuPushFragmentUniformData w cb slot data len, Returns_void)
  | Call_PushComputeUniformData cb slot data len =>
      (SDL_GpuPushComputeUniformData w cb slot data len, Returns_void)
  | Call_BeginRenderPass cb infos count ds =>
      let '(w1, res) :=
        SDL_GpuBeginRenderPass MAX_COLOR_TARGET_BINDINGS w cb infos count ds in
      (w1, pointer_result res)
  | Call_BindGraphicsPipeline rp pipeline =>
      (SDL_GpuBindGraphicsPipeline w rp pipeline, Returns_void)
  | Call_SetViewport rp vp => (SDL_GpuSetViewport w rp vp, Returns_void)
  | Call_SetScissor rp sc => (SDL_GpuSetScissor w rp sc, Returns_void)
  | Call_BindVertexBuffers rp first bindings count =>
      (SDL_GpuBindVertexBuffers w rp first bindings count, Returns_void)
  | Call_BindIndexBuffer rp binding size =>
      (SDL_GpuBindIndexBuffer w rp binding size, Returns_void)
  | Call_BindVertexSamplers rp first bindings count =>
      (SDL_GpuBindVertexSamplers w rp first bindings count, Returns_void)
  | Call_BindVertexStorageTextures rp first textures count =>
      (SDL_GpuBindVertexStorageTextures w rp first textures count, Returns_void)
  | Call_BindVertexStorageBuffers rp first bufs count =>
      (SDL_GpuBindVertexStorageBuffers w rp first bufs count, Returns_void)
  | Call_BindFragmentSamplers rp first bindings count =>
      (SDL_GpuBindFragmentSamplers w rp first bindings count, Returns_void)
  | Call_BindFragmentStorageTextures rp first textures count =>
      (SDL_GpuBindFragmentStorageTextures w rp first textures count, Returns_void)
  | Call_BindFragmentStorageBuffers rp first bufs count =>
      (SDL_GpuBindFragmentStorageBuffers w rp first bufs count, Returns_void)
  | Call_DrawIndexedPrimitives rp baseVertex startIndex vertexCount instanceCount =>
      (SDL_GpuDrawIndexedPrimitives w rp baseVertex startIndex vertexCount
         instanceCount, Returns_void)
  | Call_DrawPrimitives rp vertexStart vertexCount =>
      (SDL_GpuDrawPrimitives w rp vertexStart vertexCount, Returns_void)
  | Call_DrawPrimitivesIndirect rp buffer offsetInBytes drawCount stride =>
      (SDL_GpuDrawPrimitivesIndirect w rp buffer offsetInBytes drawCount stride,
       Returns_void)
  | Call_DrawIndexedPrimitivesIndirect rp buffer offsetInBytes drawCount stride =>
      (SDL_GpuDrawIndexedPrimitivesIndirect w rp buffer offsetInBytes drawCount
         stride, Returns_void)
  | Call_EndRenderPass rp => (SDL_GpuEndRenderPass w rp, Returns_void)
  | Call_BeginComputePass cb textures textureCount bufs bufferCount =>
      let '(w1, res) :=
        SDL_GpuBeginComputePass w cb textures textureCount bufs bufferCount in
      (w1, pointer_result res)
  | Call_BindComputePipeline cp pipeline =>
      (SDL_GpuBindComputePipeline w cp pipeline, Returns_void)
  | Call_BindComputeStorageTextures cp first textures count =>
      (SDL_GpuBindComputeStorageTextures w cp first textures count, Returns_void)
  | Call_BindComputeStorageBuffers cp first bufs count =>
      (SDL_GpuBindComputeStorageBuffers w cp first bufs count, Returns_void)
  | Call_DispatchCompute cp x y z =>
      (SDL_GpuDispatchCompute w cp x y z, Returns_void)
  | Call_DispatchComputeIndirect cp buffer offsetInBytes =>
      (SDL_GpuDispatchComputeIndirect w cp buffer offsetInBytes, Returns_void)
  | Call_EndComputePass cp => (SDL_GpuEndComputePass w cp, Returns_void)
  | Call_BeginCopyPass cb =>
      let '(w1, res) := SDL_GpuBeginCopyPass w cb in (w1, pointer_result res)
  | Call_UploadToTexture cp source destination cycle =>
      (SDL_GpuUploadToTexture w cp source destination cycle, Returns_void)
  | Call_UploadToBuffer cp source destination cycle =>
      (SDL_GpuUploadToBuffer w cp source destination cycle, Returns_void)
  | Call_CopyTextureToTexture cp source destination width height depth cycle =>
      (SDL_GpuCopyTextureToTexture w cp source destination width height depth
         cycle, Returns_void)
  | Call_CopyBufferToBuffer cp source destination size cycle =>
      (SDL_GpuCopyBufferToBuffer w cp source destination size cycle, Returns_void)
  | Call_GenerateMipmaps cp texture =>
      (SDL_GpuGenerateMipmaps w cp texture, Returns_void)
  | Call_DownloadFromTexture cp source destination =>
      (SDL_GpuDownloadFromTexture w cp source destination, Returns_void)
  | Call_DownloadFromBuffer cp source destination =>
      (SDL_GpuDownloadFromBuffer w cp source destination, Returns_void)
  | Call_EndCopyPass cp => (SDL_GpuEndCopyPass w cp, Returns_void)
  | Call_Blit cb source destination filterMode cycle =>
      (SDL_GpuBlit w cb source destination filterMode cycle, Returns_void)
  | Call_AcquireSwapchainTexture cb window pWidth pHeight =>
      let '(w1, res, _) := SDL_GpuAcquireSwapchainTexture w cb window pWidth pHeight in
      (w1, pointer_result res)
  | Call_Submit cb => (SDL_GpuSubmit w cb, Returns_void)
  | Call_SubmitAndAcquireFence cb =>
      let '(w1, res) := SDL_GpuSubmitAndAcquireFence w cb in (w1, pointer_result res)
  end.

(** The world after a sequence of calls. *)
Fixpoint run (w : World) (cs : list ApiCall) : World :=
  match cs with
  | [] => w
  | c :: rest => run (fst (api w c)) rest
  end.

End Calls.

(** At most one of the three pass-in-progress flags is set. *)
Definition at_most_one_pass (h : CommandBufferCommonHeader) : bool :=
  match inProgress (renderPass h), inProgress (computePass h),
        inProgress (copyPass h) with
  | true, true, _ | true, _, true | _, true, true => false
  | _, _, _ => true
  end.

(** The command buffer a begin-pass, end-pass, draw, dispatch or bind call
    is issued on; [None] for the other calls and for a [NULL] handle. *)
Definition pass_call_target (c : ApiCall) : option CommandBufferId :=
  match c with
  | Call_BeginRenderPass cb _ _ _ | Call_BeginComputePass cb _ _ _ _
  | Call_BeginCopyPass cb => cb
  | Call_BindGraphicsPipeline rp _ | Call_SetViewport rp _ | Call_SetScissor rp _
  | Call_BindVertexBuffers rp _ _ _ | Call_BindIndexBuffer rp _ _
  | Call_BindVertexSamplers rp _ _ _ | Call_BindVertexStorageTextures rp _ _ _
  | Call_BindVertexStorageBuffers rp _ _ _ | Call_BindFragmentSamplers rp _ _ _
  | Call_BindFragmentStorageTextures rp _ _ _
  | Call_BindFragmentStorageBuffers rp _ _ _
  | Call_DrawIndexedPrimitives rp _ _ _ _ | Call_DrawPrimitives rp _ _
  | Call_DrawPrimitivesIndirect rp _ _ _ _
  | Call_DrawIndexedPrimitivesIndirect rp _ _ _ _
  | Call_EndRenderPass rp =>
      match rp with Some (RenderPassOf o) => Some o | None => None end
  | Call_BindComputePipeline cp _ | Call_BindComputeStorageTextures cp _ _ _
  | Call_BindComputeStorageBuffers cp _ _ _ | Call_DispatchCompute cp _ _ _
  | Call_DispatchComputeIndirect cp _ _ | Call_EndComputePass cp =>
      match cp with Some (ComputePassOf o) => Some o | None => None end
  | Call_EndCopyPass cp =>
      match cp with Some (CopyPassOf o) => Some o | None => None end
  | _ => None
  end.

Definition is_BindGraphicsPipeline (c : ApiCall) : bool :=
  match c with Call_BindGraphicsPipeline _ _ => true | _ => false end.

Definition is_sentinel (r : ApiResult) : bool :=
  match r with
  | Returns_void => true
  | Returns_pointer nonnull => negb nonnull
  end.

(** The three kinds of pass and their in-progress flags. *)
Inductive PassKind : Type := RenderKind | ComputeKind | CopyKind.

Definition pass_flag (k : PassKind) (h : CommandBufferCommonHeader) : bool :=
  match k with
  | RenderKind => inProgress (renderPass h)
  | ComputeKind => inProgress (computePass h)
  | CopyKind => inProgress (copyPass h)
  end.

Definition begin_kind (c : ApiCall) : option PassKind :=
  match c with
  | Call_BeginRenderPass _ _ _ _ => Some RenderKind
  | Call_BeginComputePass _ _ _ _ _ => Some ComputeKind
  | Call_BeginCopyPass _ => Some CopyKind
  | _ => None
  end.

Definition end_kind (c : ApiCall) : option PassKind :=
  match c with
  | Call_EndRenderPass _ => Some RenderKind
  | Call_EndComputePass _ => Some ComputeKind
  | Call_EndCopyPass _ => Some CopyKind
  | _ => None
  end.

(** The command buffer a call is issued on, for every entry point that
    takes a command buffer or a pass. *)
Definition call_target (c : ApiCall) : option CommandBufferId :=
  match c with
  | Call_AcquireCommandBuffer _ => None
  | Call_InsertDebugLabel cb _ | Call_PushDebugGroup cb _ | Call_PopDebugGroup cb
  | Call_PushVertexUniformData cb _ _ _ | Call_PushFragmentUniformData cb _ _ _
  | Call_PushComputeUniformData cb _ _ _ | Call_Blit cb _ _ _ _
  | Call_AcquireSwapchainTexture cb _ _ _
  | Call_Submit cb | Call_SubmitAndAcquireFence cb => cb
  | Call_UploadToTexture cp _ _ _ | Call_UploadToBuffer cp _ _ _
  | Call_CopyTextureToTexture cp _ _ _ _ _ _ | Call_CopyBufferToBuffer cp _ _ _ _
  | Call_GenerateMipmaps cp _ | Call_DownloadFromTexture cp _ _
  | Call_DownloadFromBuffer cp _ _ =>
      match cp with Some (CopyPassOf o) => Some o | None => None end
  | _ => pass_call_target c
  end.

(** The checks on the arguments of a call as the entry points make them
    before looking at the device: required pointers are non-null, a
    pointer to an array is null only with a count of zero, counts are
    within the limits. *)
Definition argument_checks (MAX_COLOR_TARGET_BINDINGS : Z) (c : ApiCall) : bool :=
  match c with
  | Call_InsertDebugLabel cb text => negb (is_null cb) && negb (is_null text)
  | Call_PushDebugGroup cb name => negb (is_null cb) && negb (is_null name)
  | Call_PopDebugGroup cb => negb (is_null cb)
  | Call_AcquireCommandBuffer dev => negb (is_null dev)
  | Call_PushVertexUniformData cb _ data _ | Call_PushFragmentUniformData cb _ data _
  | Call_PushComputeUniformData cb _ data _ =>
      negb (is_null cb) && negb (is_null data)
  | Call_BeginRenderPass cb infos count _ =>
      negb (is_null cb) && negb (is_null infos && (0 <? count))
      && negb (MAX_COLOR_TARGET_BINDINGS <? count)
  | Call_BindGraphicsPipeline rp pipeline => negb (is_null rp) && negb (is_null pipeline)
  | Call_SetViewport rp vp => negb (is_null rp) && negb (is_null vp)
  | Call_SetScissor rp sc => negb (is_null rp) && negb (is_null sc)
  | Call_BindVertexBuffers rp _ bindings count =>
      negb (is_null rp) && negb (is_null bindings && (0 <? count))
  | Call_BindIndexBuffer rp binding _ => negb (is_null rp) && negb (is_null binding)
  | Call_BindVertexSamplers rp _ bindings count
  | Call_BindFragmentSamplers rp _ bindings count =>
      negb (is_null rp) && negb (is_null bindings && (0 <? count))
  | Call_BindVertexStorageTextures rp _ textures count
  | Call_BindFragmentStorageTextures rp _ textures count =>
      negb (is_null rp) && negb (is_null textures && (0 <? count))
  | Call_BindVertexStorageBuffers rp _ bufs count
  | Call_BindFragmentStorageBuffers rp _ bufs count =>
      negb (is_null rp) && negb (is_null bufs && (0 <? count))
  | Call_DrawIndexedPrimitives rp _ _ _ _ | Call_DrawPrimitives rp _ _
  | Call_EndRenderPass rp => negb (is_null rp)
  | Call_DrawPrimitivesIndirect rp buffer _ _ _
  | Call_DrawIndexedPrimitivesIndirect rp buffer _ _ _ =>
      negb (is_null rp) && negb (is_null buffer)
  | Call_BeginComputePass cb textures textureCount bufs bufferCount =>
      negb (is_null cb)
      && negb (is_null textures && (0 <? textureCount))
      && negb (is_null bufs && (0 <? bufferCount))
      && negb (MAX_COMPUTE_WRITE_TEXTURES <? textureCount)
      && negb (MAX_COMPUTE_WRITE_BUFFERS <? bufferCount)
  | Call_BindComputePipeline cp pipeline => negb (is_null cp) && negb (is_null pipeline)
  | Call_BindComputeStorageTextures cp _ textures count =>
      negb (is_null cp) && negb (is_null textures && (0 <? count))
  | Call_BindComputeStorageBuffers cp _ bufs count =>
      negb (is_null cp) && negb (is_null bufs && (0 <? count))
  | Call_DispatchCompute cp _ _ _ | Call_DispatchComputeIndirect cp _ _
  | Call_EndComputePass cp => negb (is_null cp)
  | Call_BeginCopyPass cb => negb (is_null cb)
  | Call_UploadToTexture cp source destination _ =>
      negb (is_null cp) && negb (is_null source) && negb (is_null destination)
  | Call_UploadToBuffer cp source destination _ =>
      negb (is_null cp) && negb (is_null source) && negb (is_null destination)
  | Call_CopyTextureToTexture cp source destination _ _ _ _ =>
      negb (is_null cp) && negb (is_null source) && negb (is_null destination)
  | Call_CopyBufferToBuffer cp source destination _ _ =>
      negb (is_null cp) && negb (is_null source) && negb (is_null destination)
  | Call_GenerateMipmaps cp texture => negb (is_null cp) && negb (is_null texture)
  | Call_DownloadFromTexture cp source destination =>
      negb (is_null cp) && negb (is_null source) && negb (is_null destination)
  | Call_DownloadFromBuffer cp source destination =>
      negb (is_null cp) && negb (is_null source) && negb (is_null destination)
  | Call_EndCopyPass cp => negb (is_null cp)
  | Call_Blit cb source destination _ _ =>
      negb (is_null cb) && negb (is_null source) && negb (is_null destination)
  | Call_AcquireSwapchainTexture cb window pWidth pHeight =>
      negb (is_null cb) && negb (is_null window) && pWidth && pHeight
  | Call_Submit cb | Call_SubmitAndAcquireFence cb => negb (is_null cb)
  end.

(** The entry of the function table a call on the command buffer [cb] is
    delegated to, with the arguments it is handed. *)
Definition delegation (cb : CommandBufferId) (c : ApiCall) : list BackendCall :=
  match c with
  | Call_InsertDebugLabel _ (Some text) => [BE_InsertDebugLabel cb text]
  | Call_PushDebugGroup _ (Some name) => [BE_PushDebugGroup cb name]
  | Call_PopDebugGroup _ => [BE_PopDebugGroup cb]
  | Call_AcquireCommandBuffer _ => [BE_AcquireCommandBuffer]
  | Call_PushVertexUniformData _ slot (Some data) len =>
      [BE_PushVertexUniformData cb slot data len]
  | Call_PushFragmentUniformData _ slot (Some data) len =>
      [BE_PushFragmentUniformData cb slot data len]
  | Call_PushComputeUniformData _ slot (Some data) len =>
      [BE_PushComputeUniformData cb slot data len]
  | Call_BeginRenderPass _ infos count ds => [BE_BeginRenderPass cb infos count ds]
  | Call_BindGraphicsPipeline _ (Some pipeline) => [BE_BindGraphicsPipeline cb pipeline]
  | Call_SetViewport _ (Some vp) => [BE_SetViewport cb vp]
  | Call_SetScissor _ (Some sc) => [BE_SetScissor cb sc]
  | Call_BindVertexBuffers _ first bindings count =>
      [BE_BindVertexBuffers cb first bindings count]
  | Call_BindIndexBuffer _ (Some binding) size => [BE_BindIndexBuffer cb binding size]
  | Call_BindVertexSamplers _ first bindings count =>
      [BE_BindVertexSamplers cb first bindings count]
  | Call_BindVertexStorageTextures _ first textures count =>
      [BE_BindVertexStorageTextures cb first textures count]
  | Call_BindVertexStorageBuffers _ first bufs count =>
      [BE_BindVertexStorageBuffers cb first bufs count]
  | Call_BindFragmentSamplers _ first bindings count =>
      [BE_BindFragmentSamplers cb first bindings count]
  | Call_BindFragmentStorageTextures _ first textures count =>
      [BE_BindFragmentStorageTextures cb first textures count]
  | Call_BindFragmentStorageBuffers _ first bufs count =>
      [BE_BindFragmentStorageBuffers cb first bufs count]
  | Call_DrawIndexedPrimitives _ baseVertex startIndex vertexCount instanceCount =>
      [BE_DrawIndexedPrimitives cb baseVertex startIndex vertexCount instanceCount]
  | Call_DrawPrimitives _ vertexStart vertexCount =>
      [BE_DrawPrimitives cb vertexStart vertexCount]
  | Call_DrawPrimitivesIndirect _ (Some buffer) offsetInBytes drawCount stride =>
      [BE_DrawPrimitivesIndirect cb buffer offsetInBytes drawCount stride]
  | Call_DrawIndexedPrimitivesIndirect _ (Some buffer) offsetInBytes drawCount stride =>
      [BE_DrawIndexedPrimitivesIndirect cb buffer offsetInBytes drawCount stride]
  | Call_EndRenderPass _ => [BE_EndRenderPass cb]
  | Call_BeginComputePass _ textures textureCount bufs bufferCount =>
      [BE_BeginComputePass cb textures textureCount bufs bufferCount]
  | Call_BindComputePipeline _ (Some pipeline) => [BE_BindComputePipeline cb pipeline]
  | Call_BindComputeStorageTextures _ first textures count =>
      [BE_BindComputeStorageTextures cb first textures count]
  | Call_BindComputeStorageBuffers _ first bufs count =>
      [BE_BindComputeStorageBuffers cb first bufs count]
  | Call_DispatchCompute _ x y z => [BE_DispatchCompute cb x y z]
  | Call_DispatchComputeIndirect _ buffer offsetInBytes =>
      [BE_DispatchComputeIndirect cb buffer offsetInBytes]
  | Call_EndComputePass _ => [BE_EndComputePass cb]
  | Call_BeginCopyPass _ => [BE_BeginCopyPass cb]
  | Call_UploadToTexture _ (Some source) (Some destination) cycle =>
      [BE_UploadToTexture cb source destination cycle]
  | Call_UploadToBuffer _ (Some source) (Some destination) cycle =>
      [BE_UploadToBuffer cb source destination cycle]
  | Call_CopyTextureToTexture _ (Some source) (Some destination) w h d cycle =>
      [BE_CopyTextureToTexture cb source destination w h d cycle]
  | Call_CopyBufferToBuffer _ (Some source) (Some destination) size cycle =>
      [BE_CopyBufferToBuffer cb source destination size cycle]
  | Call_GenerateMipmaps _ (Some texture) => [BE_GenerateMipmaps cb texture]
  | Call_DownloadFromTexture _ (Some source) (Some destination) =>
      [BE_DownloadFromTexture cb source destination]
  | Call_DownloadFromBuffer _ (Some source) (Some destination) =>
      [BE_DownloadFromBuffer cb source destination]
  | Call_EndCopyPass _ => [BE_EndCopyPass cb]
  | Call_Blit _ (Some source) (Some destination) filterMode cycle =>
      [BE_Blit cb source destination filterMode cycle]
  | Call_AcquireSwapchainTexture _ (Some window) _ _ =>
      [BE_AcquireSwapchainTexture cb window]
  | Call_Submit _ => [BE_Submit cb]
  | Call_SubmitAndAcquireFence _ => [BE_SubmitAndAcquireFence cb]
  | _ => []
  end.

(** *** Well-formed worlds *)

(** The header of the command buffer at address [cb] is well formed: the
    back-pointers of its passes designate it, and when its device is in
    debug mode at most one pass is in progress, none once submitted. *)
Definition header_ok (cb : CommandBufferId) (h : CommandBufferCommonHeader) : Prop :=
  commandBuffer (renderPass h) = cb
  /\ commandBuffer (computePass h) = cb
  /\ commandBuffer (copyPass h) = cb
  /\ (debugMode (device h) = true ->
      at_most_one_pass h = true
      /\ (submitted h = true -> CHECK_ANY_PASS_IN_PROGRESS h = false)).

Definition world_ok (w : World) : Prop :=
  forall cb h, buffers w !! cb = Some h -> header_ok cb h.

(** *** Classes of calls *)

(** The four draw entry points. *)
Definition is_draw_api (c : ApiCall) : bool :=
  match c with
  | Call_DrawIndexedPrimitives _ _ _ _ _ | Call_DrawPrimitives _ _ _
  | Call_DrawPrimitivesIndirect _ _ _ _ _
  | Call_DrawIndexedPrimitivesIndirect _ _ _ _ _ => true
  | _ => false
  end.

(** The two dispatch entry points. *)
Definition is_dispatch_api (c : ApiCall) : bool :=
  match c with
  | Call_DispatchCompute _ _ _ _ | Call_DispatchComputeIndirect _ _ _ => true
  | _ => false
  end.

(** The two submission entry points. *)
Definition is_submit_api (c : ApiCall) : bool :=
  match c with
  | Call_Submit _ | Call_SubmitAndAcquireFence _ => true
  | _ => false
  end.

(** The handle a call is made on (device, command buffer or pass) is
    [NULL]. *)
Definition null_handle (c : ApiCall) : bool :=
  match c with
  | Call_AcquireCommandBuffer dev => is_null dev
  | Call_InsertDebugLabel cb _ | Call_PushDebugGroup cb _ | Call_PopDebugGroup cb
  | Call_PushFragmentUniformData cb _ _ _ | Call_PushComputeUniformData cb _ _ _
  | Call_Blit cb _ _ _ _
  | Call_PushVertexUniformData cb _ _ _ | Call_BeginRenderPass cb _ _ _
  | Call_BeginComputePass cb _ _ _ _ | Call_BeginCopyPass cb
  | Call_AcquireSwapchainTexture cb _ _ _ | Call_Submit cb
  | Call_SubmitAndAcquireFence cb => is_null cb
  | Call_BindGraphicsPipeline rp _ | Call_SetViewport rp _ | Call_SetScissor rp _
  | Call_BindVertexBuffers rp _ _ _ | Call_BindIndexBuffer rp _ _
  | Call_BindVertexSamplers rp _ _ _ | Call_BindVertexStorageTextures rp _ _ _
  | Call_BindVertexStorageBuffers rp _ _ _ | Call_BindFragmentSamplers rp _ _ _
  | Call_BindFragmentStorageTextures rp _ _ _
  | Call_BindFragmentStorageBuffers rp _ _ _
  | Call_DrawIndexedPrimitives rp _ _ _ _ | Call_DrawPrimitives rp _ _
  | Call_DrawPrimitivesIndirect rp _ _ _ _
  | Call_DrawIndexedPrimitivesIndirect rp _ _ _ _
  | Call_EndRenderPass rp => is_null rp
  | Call_BindComputePipeline cp _ | Call_BindComputeStorageTextures cp _ _ _
  | Call_BindComputeStorageBuffers cp _ _ _ | Call_DispatchCompute cp _ _ _
  | Call_DispatchComputeIndirect cp _ _ | Call_EndComputePass cp => is_null cp
  | Call_UploadToTexture cp _ _ _ | Call_UploadToBuffer cp _ _ _
  | Call_CopyTextureToTexture cp _ _ _ _ _ _ | Call_CopyBufferToBuffer cp _ _ _ _
  | Call_GenerateMipmaps cp _ | Call_DownloadFromTexture cp _ _
  | Call_DownloadFromBuffer cp _ _ | Call_EndCopyPass cp => is_null cp
  end.

Definition is_parameter_error (d : Diagnostic) : bool :=
  match d with
  | SDL_InvalidParamError _ | SDL_SetError _ => true
  | _ => false
  end.

(** *** A concrete device for examples *)

(** A back end that hands out the command buffer at address 0, a 640x480
    swapchain texture, and a fresh fence per submission. *)
Definition example_device (debug : bool) : SDL_GpuDevice :=
  {| backend := SDL_GPU_DRIVER_VULKAN;
     shaderFormats := SDL_GPU_SHADERFORMAT_SPIRV;
     debugMode := debug;
     SupportsTextureFormat := fun _ _ _ => false;
     CreateGraphicsPipeline := fun _ _ => Some 7%nat;
     AcquireCommandBuffer := fun _ => Some 0%nat;
     AcquireSwapchainTexture := fun _ _ _ => (Some 1%nat, 640, 480);
     GetSwapchainTextureFormat := fun _ _ => SDL_GPU_TEXTUREFORMAT_B8G8R8A8;
     SubmitAndAcquireFence := fun history _ => Some (length history) |}.

(** The same device, but it supports every texture format. *)
Definition permissive_device (debug : bool) : SDL_GpuDevice :=
  {| backend := backend (example_device debug);
     shaderFormats := shaderFormats (example_device debug);
     debugMode := debug;
     SupportsTextureFormat := fun _ _ _ => true;
     CreateGraphicsPipeline := CreateGraphicsPipeline (example_device debug);
     AcquireCommandBuffer := AcquireCommandBuffer (example_device debug);
     AcquireSwapchainTexture := AcquireSwapchainTexture (example_device debug);
     GetSwapchainTextureFormat := GetSwapchainTextureFormat (example_device debug);
     SubmitAndAcquireFence := SubmitAndAcquireFence (example_device debug) |}.

(** A cube texture of six 256x256 faces. *)
Definition example_cube : SDL_GpuTextureCreateInfo :=
  {| tci_width := 256; tci_height := 256; tci_depth := 1;
     tci_type := SDL_GPU_TEXTURETYPE_CUBE;
     tci_layerCount := 6; tci_levelCount := 1;
     tci_sampleCount := SDL_GPU_SAMPLECOUNT_1;
     tci_format := SDL_GPU_TEXTUREFORMAT_B8G8R8A8;
     tci_usageFlags := 1 |}.

(** A registry with one back end that accepts DXBC and DXIL. *)
Definition example_backends : list SDL_GpuBootstrap :=
  [ {| Name := "D3D12";
       backendflag := SDL_GPU_DRIVER_D3D12;
       bootstrap_shaderFormats :=
         Z.lor SDL_GPU_SHADERFORMAT_DXBC SDL_GPU_SHADERFORMAT_DXIL;
       PrepareDriver := fun _ => true;
       CreateDevice := fun debug _ _ => Some (example_device debug) |} ].

(** The header [SDL_GpuAcquireCommandBuffer] leaves at address 0. *)
Definition acquired_header (debug submit : bool) : CommandBufferCommonHeader :=
  {| device := example_device debug;
     renderPass := {| commandBuffer := 0%nat; inProgress := false |};
     graphicsPipelineBound := false;
     computePass := {| commandBuffer := 0%nat; inProgress := false |};
     computePipelineBound := false;
     copyPass := {| commandBuffer := 0%nat; inProgress := false |};
     submitted := submit |}.

(** The header at address 0 inside a render pass, with or without a bound
    pipeline. *)
Definition in_render_pass_header (debug bound : bool) : CommandBufferCommonHeader :=
  {| device := example_device debug;
     renderPass := {| commandBuffer := 0%nat; inProgress := true |};
     graphicsPipelineBound := bound;
     computePass := {| commandBuffer := 0%nat; inProgress := false |};
     computePipelineBound := false;
     copyPass := {| commandBuffer := 0%nat; inProgress := false |};
     submitted := false |}.

(** The header at address 0 inside a compute pass. *)
Definition in_compute_pass_header (debug bound : bool) : CommandBufferCommonHeader :=
  {| device := example_device debug;
     renderPass := {| commandBuffer := 0%nat; inProgress := false |};
     graphicsPipelineBound := false;
     computePass := {| commandBuffer := 0%nat; inProgress := true |};
     computePipelineBound := bound;
     copyPass := {| commandBuffer := 0%nat; inProgress := false |};
     submitted := false |}.

(** Acquire, begin a render pass without attachments, bind a pipeline. *)
Definition render_pass_with_pipeline (debug : bool) : list ApiCall :=
  [ Call_AcquireCommandBuffer (Some (example_device debug));
    Call_BeginRenderPass (Some 0%nat) None 0 None;
    Call_BindGraphicsPipeline (Some (RenderPassOf 0%nat)) (Some 7%nat) ].

(** Acquire and begin a compute pass. *)
Definition compute_pass_begun (debug : bool) : list ApiCall :=
  [ Call_AcquireCommandBuffer (Some (example_device debug));
    Call_BeginComputePass (Some 0%nat) None 0 None 0 ].

Definition nested_passes (debug : bool) : list ApiCall :=
  [ Call_AcquireCommandBuffer (Some (example_device debug));
    Call_BeginRenderPass (Some 0%nat) None 0 None;
    Call_BeginComputePass (Some 0%nat) None 0 None 0 ].

Definition use_after_submit (debug : bool) : list ApiCall :=
  [ Call_AcquireCommandBuffer (Some (example_device debug));
    Call_Submit (Some 0%nat) ].

End FrontEnd.

(** ** The Direct3D 12 back end: [src/gpu/d3d12/SDL_gpu_d3d12.c] *)

Module D3D12.

Definition MAX_ROOT_SIGNATURE_PARAMETERS : Z := 64.
Definition MAX_VERTEX_UNIFORM_BUFFERS : nat := 14.
Definition MAX_FRAGMENT_UNIFORM_BUFFERS : nat := 14.
Definition MAX_UNIFORM_BUFFER_POOL_SIZE : nat := 16.

(** *** Native objects *)

Definition ID3D12Resource : Type := nat.
Definition ID3D12PipelineState : Type := nat.
Definition IDXGISwapChain3 : Type := nat.
Definition ID3DBlob : Type := nat.
Definition D3D12_CPU_DESCRIPTOR_HANDLE : Type := Z.
Definition D3D12_GPU_DESCRIPTOR_HANDLE : Type := Z.
Definition D3D12_GPU_VIRTUAL_ADDRESS : Type := Z.

Inductive D3D12_DESCRIPTOR_RANGE_TYPE : Type :=
| D3D12_DESCRIPTOR_RANGE_TYPE_SRV
| D3D12_DESCRIPTOR_RANGE_TYPE_UAV
| D3D12_DESCRIPTOR_RANGE_TYPE_CBV
| D3D12_DESCRIPTOR_RANGE_TYPE_SAMPLER.

Definition D3D12_DESCRIPTOR_RANGE_OFFSET_APPEND : Z := 4294967295.

Record D3D12_DESCRIPTOR_RANGE : Type :=
  { RangeType : D3D12_DESCRIPTOR_RANGE_TYPE;
    NumDescriptors : Z;
    BaseShaderRegister : Z;
    RegisterSpace : Z;
    OffsetInDescriptorsFromTableStart : Z }.

Inductive D3D12_ROOT_PARAMETER_TYPE : Type :=
| D3D12_ROOT_PARAMETER_TYPE_DESCRIPTOR_TABLE
| D3D12_ROOT_PARAMETER_TYPE_CBV.

Inductive D3D12_SHADER_VISIBILITY : Type :=
| D3D12_SHADER_VISIBILITY_ALL
| D3D12_SHADER_VISIBILITY_VERTEX
| D3D12_SHADER_VISIBILITY_PIXEL.

(** A root parameter; [DescriptorTable] lists the ranges of its table
    ([NumDescriptorRanges] is the length of the list). *)
Record D3D12_ROOT_PARAMETER : Type :=
  { ParameterType : D3D12_ROOT_PARAMETER_TYPE;
    DescriptorTable : list D3D12_DESCRIPTOR_RANGE;
    ShaderVisibility : D3D12_SHADER_VISIBILITY }.

Inductive D3D12_ROOT_SIGNATURE_FLAGS : Type :=
| D3D12_ROOT_SIGNATURE_FLAG_NONE
| D3D12_ROOT_SIGNATURE_FLAG_ALLOW_INPUT_ASSEMBLER_INPUT_LAYOUT.

Record D3D12_ROOT_SIGNATURE_DESC : Type :=
  { NumParameters : Z;
    pParameters : list D3D12_ROOT_PARAMETER;
    NumStaticSamplers : Z;
    Flags : D3D12_ROOT_SIGNATURE_FLAGS }.

(** A native root signature is known by the description it was created
    from. *)
Record ID3D12RootSignature : Type :=
  { signature_desc : D3D12_ROOT_SIGNATURE_DESC }.

Inductive D3D12_RESOURCE_STATES : Type :=
| D3D12_RESOURCE_STATE_PRESENT
| D3D12_RESOURCE_STATE_RENDER_TARGET
| D3D12_RESOURCE_STATE_GENERIC_READ.

Record D3D12_RESOURCE_DESC : Type := { Width : Z; Height : Z }.

(** *** The back end's own records *)

Record D3D12Texture : Type :=
  { resource : ID3D12Resource;
    desc : D3D12_RESOURCE_DESC;
    rtvHandle : D3D12_CPU_DESCRIPTOR_HANDLE;
    isRenderTarget : bool }.

Record D3D12Shader : Type :=
  { bytecode : list Z;
    samplerCount : Z;
    uniformBufferCount : Z;
    storageBufferCount : Z;
    storageTextureCount : Z }.

Record D3D12GraphicsPipeline : Type :=
  { pipelineState : ID3D12PipelineState;
    rootSignature : ID3D12RootSignature;
    pipeline_primitiveType : SDL_GpuPrimitiveType;
    pipeline_blendConstants : float * float * float * float;
    stencilRef : Z;
    vertexSamplerCount : Z;
    vertexUniformBufferCount : Z;
    vertexStorageBufferCount : Z;
    vertexStorageTextureCount : Z;
    fragmentSamplerCount : Z;
    fragmentUniformBufferCount : Z;
    fragmentStorageBufferCount : Z;
    fragmentStorageTextureCount : Z }.

Record D3D12UniformBuffer : Type :=
  { buffer : ID3D12Resource;
    gpuDescriptorHandle : D3D12_GPU_DESCRIPTOR_HANDLE;
    bufferLocation : D3D12_GPU_VIRTUAL_ADDRESS;
    writeOffset : Z;
    drawOffset : Z;
    currentBlockSize : Z }.

(** The address of a heap-allocated [D3D12UniformBuffer]. *)
Definition UniformBufferPtr : Type := nat.

Definition WindowId : Type := nat.

Record D3D12WindowData : Type :=
  { swapchain : IDXGISwapChain3;
    renderTexture : list D3D12Texture;
    frameCounter : Z;
    activeWindow : bool }.

(** The description handed to [ID3D12Device_CreateGraphicsPipelineState]:
    the shaders, the root signature and the attachment formats; the
    converted input layout, rasterizer, blend and depth-stencil tables are
    carried as the create-info's [fixedFunctionState]. *)
Record D3D12_GRAPHICS_PIPELINE_STATE_DESC : Type :=
  { VS : list Z;
    PS : list Z;
    pso_fixedFunctionState : Z;
    NumRenderTargets : Z;
    DSVFormat : SDL_GpuTextureFormat;
    pRootSignature : ID3D12RootSignature }.

(** What is recorded on the native command list and sent to the queue. *)
Inductive NativeCall : Type :=
| RSSetViewports (x y w h minDepth maxDepth : float)
| RSSetScissorRects (left top right bottom : Z)
| ResourceBarrier (res : ID3D12Resource) (StateBefore StateAfter : D3D12_RESOURCE_STATES)
| OMSetRenderTargets (rtv : D3D12_CPU_DESCRIPTOR_HANDLE)
| ClearRenderTargetView (rtv : D3D12_CPU_DESCRIPTOR_HANDLE) (color : SDL_FColor)
| SetPipelineState (pso : ID3D12PipelineState)
| SetGraphicsRootSignature (sig : ID3D12RootSignature)
| IASetPrimitiveTopology (prim : SDL_GpuPrimitiveType)
| OMSetBlendFactor (factor : float * float * float * float)
| OMSetStencilRef (ref : Z)
| SetDescriptorHeaps
| SetGraphicsRootDescriptorTable (index : Z) (handle : D3D12_GPU_DESCRIPTOR_HANDLE)
| CommandList_Close
| ExecuteCommandLists
| SwapChain_Present (sc : IDXGISwapChain3) (SyncInterval PresentFlags : Z)
| CommandQueue_Signal (value : Z)
| WaitForSingleObject (value : Z)
| CommandAllocator_Reset
| CommandList_Reset.

Record D3D12Renderer : Type :=
  { uniformBufferPoolCount : Z;
    uniformBufferPool : list (option UniformBufferPtr) }.

Record D3D12CommandBuffer : Type :=
  { fenceValue : Z;
    nextWindow : list WindowId;
    cb_colorAttachmentCount : Z;
    colorAttachmentTexture : list (option D3D12Texture);
    currentGraphicsPipeline : option D3D12GraphicsPipeline;
    vertexUniformBuffers : list (option UniformBufferPtr);
    fragmentUniformBuffers : list (option UniformBufferPtr);
    needVertexUniformBufferBind : bool;
    needFragmentUniformBufferBind : bool;
    usedUniformBufferCount : Z;
    usedUniformBufferCapacity : Z;
    usedUniformBuffers : list (option UniformBufferPtr) }.

(** The answers of the native library.  [D3D12SerializeRootSignature_func]
    answers whether it succeeded and the [errorBlob] it stored. *)
Record NativeLibrary : Type :=
  { D3D12SerializeRootSignature_func :
      D3D12_ROOT_SIGNATURE_DESC -> bool * option ID3DBlob;
    ID3D12Device_CreateRootSignature : D3D12_ROOT_SIGNATURE_DESC -> bool;
    ID3D12Device_CreateGraphicsPipelineState :
      D3D12_GRAPHICS_PIPELINE_STATE_DESC -> option ID3D12PipelineState;
    ID3D12Device_CreateCommittedResource : Z -> nat -> option ID3D12Resource;
    SUCCEEDED : list NativeCall -> NativeCall -> bool;
    IDXGISwapChain3_GetCurrentBackBufferIndex :
      IDXGISwapChain3 -> list NativeCall -> Z;
    ID3D12Fence_GetCompletedValue : list NativeCall -> Z }.

(** The renderer with its single command buffer, the heap of uniform
    buffers, the claimed windows, and the native calls and error messages
    issued so far. *)
Record State : Type :=
  { renderer : D3D12Renderer;
    commandBuffer : D3D12CommandBuffer;
    heap : gmap UniformBufferPtr D3D12UniformBuffer;
    next_allocation : UniformBufferPtr;
    windows : gmap WindowId D3D12WindowData;
    native : list NativeCall;
    errors : list string;
    lib : NativeLibrary }.

Definition set_renderer (r : D3D12Renderer) (s : State) : State :=
  {| renderer := r; commandBuffer := commandBuffer s; heap := heap s;
     next_allocation := next_allocation s; windows := windows s;
     native := native s; errors := errors s; lib := lib s |}.

Definition set_commandBuffer (c : D3D12CommandBuffer) (s : State) : State :=
  {| renderer := renderer s; commandBuffer := c; heap := heap s;
     next_allocation := next_allocation s; windows := windows s;
     native := native s; errors := errors s; lib := lib s |}.

Definition allocate (u : D3D12UniformBuffer) (s : State) : State :=
  {| renderer := renderer s; commandBuffer := commandBuffer s;
     heap := <[next_allocation s := u]> (heap s);
     next_allocation := S (next_allocation s); windows := windows s;
     native := native s; errors := errors s; lib := lib s |}.

Definition set_windows (ws : gmap WindowId D3D12WindowData) (s : State) : State :=
  {| renderer := renderer s; commandBuffer := commandBuffer s; heap := heap s;
     next_allocation := next_allocation s; windows := ws;
     native := native s; errors := errors s; lib := lib s |}.

(** A call into the native library. *)
Definition record (c : NativeCall) (s : State) : State :=
  {| renderer := renderer s; commandBuffer := commandBuffer s; heap := heap s;
     next_allocation := next_allocation s; windows := windows s;
     native := native s ++ [c]; errors := errors s; lib := lib s |}.

(** [SDL_LogError] and [D3D12_INTERNAL_LogError]. *)
Definition log_error (msg : string) (s : State) : State :=
  {| renderer := renderer s; commandBuffer := commandBuffer s; heap := heap s;
     next_allocation := next_allocation s; windows := windows s;
     native := native s; errors := errors s ++ [msg]; lib := lib s |}.

Definition set_attachments (count : Z) (textures : list (option D3D12Texture))
    (c : D3D12CommandBuffer) : D3D12CommandBuffer :=
  {| fenceValue := fenceValue c; nextWindow := nextWindow c;
     cb_colorAttachmentCount := count; colorAttachmentTexture := textures;
     currentGraphicsPipeline := currentGraphicsPipeline c;
     vertexUniformBuffers := vertexUniformBuffers c;
     fragmentUniformBuffers := fragmentUniformBuffers c;
     needVertexUniformBufferBind := needVertexUniformBufferBind c;
     needFragmentUniformBufferBind := needFragmentUniformBufferBind c;
     usedUniformBufferCount := usedUniformBufferCount c;
     usedUniformBufferCapacity := usedUniformBufferCapacity c;
     usedUniformBuffers := usedUniformBuffers c |}.

Definition set_used (count capacity : Z) (used : list (option UniformBufferPtr))
    (c : D3D12CommandBuffer) : D3D12CommandBuffer :=
  {| fenceValue := fenceValue c; nextWindow := nextWindow c;
     cb_colorAttachmentCount := cb_colorAttachmentCount c;
     colorAttachmentTexture := colorAttachmentTexture c;
     currentGraphicsPipeline := currentGraphicsPipeline c;
     vertexUniformBuffers := vertexUniformBuffers c;
     fragmentUniformBuffers := fragmentUniformBuffers c;
     needVertexUniformBufferBind := needVertexUniformBufferBind c;
     needFragmentUniformBufferBind := needFragmentUniformBufferBind c;
     usedUniformBufferCount := count;
     usedUniformBufferCapacity := capacity;
     usedUniformBuffers := used |}.

Definition set_pipeline (p : option D3D12GraphicsPipeline)
    (c : D3D12CommandBuffer) : D3D12CommandBuffer :=
  {| fenceValue := fenceValue c; nextWindow := nextWindow c;
     cb_colorAttachmentCount := cb_colorAttachmentCount c;
     colorAttachmentTexture := colorAttachmentTexture c;
     currentGraphicsPipeline := p;
     vertexUniformBuffers := vertexUniformBuffers c;
     fragmentUniformBuffers := fragmentUniformBuffers c;
     needVertexUniformBufferBind := needVertexUniformBufferBind c;
     needFragmentUniformBufferBind := needFragmentUniformBufferBind c;
     usedUniformBufferCount := usedUniformBufferCount c;
     usedUniformBufferCapacity := usedUniformBufferCapacity c;
     usedUniformBuffers := usedUniformBuffers c |}.

Definition set_uniformBuffers (vs fs : list (option UniformBufferPtr))
    (needV needF : bool) (c : D3D12CommandBuffer) : D3D12CommandBuffer :=
  {| fenceValue := fenceValue c; nextWindow := nextWindow c;
     cb_colorAttachmentCount := cb_colorAttachmentCount c;
     colorAttachmentTexture := colorAttachmentTexture c;
     currentGraphicsPipeline := currentGraphicsPipeline c;
     vertexUniformBuffers := vs;
     fragmentUniformBuffers := fs;
     needVertexUniformBufferBind := needV;
     needFragmentUniformBufferBind := needF;
     usedUniformBufferCount := usedUniformBufferCount c;
     usedUniformBufferCapacity := usedUniformBufferCapacity c;
     usedUniformBuffers := usedUniformBuffers c |}.

Definition set_submission (fence : Z) (chain : list WindowId)
    (c : D3D12CommandBuffer) : D3D12CommandBuffer :=
  {| fenceValue := fence; nextWindow := chain;
     cb_colorAttachmentCount := cb_colorAttachmentCount c;
     colorAttachmentTexture := colorAttachmentTexture c;
     currentGraphicsPipeline := currentGraphicsPipeline c;
     vertexUniformBuffers := vertexUniformBuffers c;
     fragmentUniformBuffers := fragmentUniformBuffers c;
     needVertexUniformBufferBind := needVertexUniformBufferBind c;
     needFragmentUniformBufferBind := needFragmentUniformBufferBind c;
     usedUniformBufferCount := usedUniformBufferCount c;
     usedUniformBufferCapacity := usedUniformBufferCapacity c;
     usedUniformBuffers := usedUniformBuffers c |}.

(** *** State creation *)

(** One of the four blocks of [D3D12_INTERNAL_CreateRootSignature]: when
    the category is not empty, a descriptor table with a single range is
    appended to [rootParameters]; [None] is the early [return NULL]. *)
Definition define_descriptor_range (rangeType : D3D12_DESCRIPTOR_RANGE_TYPE)
    (count : Z) (rootParameters : list D3D12_ROOT_PARAMETER)
    : option (list D3D12_ROOT_PARAMETER) :=
  if 0 <? count then
    if MAX_ROOT_SIGNATURE_PARAMETERS <=? Z.of_nat (length rootParameters)
    then None
    else
      let descriptorRange :=
        {| RangeType := rangeType;
           NumDescriptors := count;
           BaseShaderRegister := 0;
           RegisterSpace := 0;
           OffsetInDescriptorsFromTableStart :=
             D3D12_DESCRIPTOR_RANGE_OFFSET_APPEND |} in
      Some (rootParameters
              ++ [ {| ParameterType := D3D12_ROOT_PARAMETER_TYPE_DESCRIPTOR_TABLE;
                      DescriptorTable := [descriptorRange];
                      ShaderVisibility := D3D12_SHADER_VISIBILITY_ALL |} ])
  else Some rootParameters.

(** The four blocks in their order: uniform buffers, storage buffers,
    storage textures, samplers. *)
Definition root_parameters
    (samplerCount uniformBufferCount storageBufferCount storageTextureCount : Z)
    : option (list D3D12_ROOT_PARAMETER) :=
  match define_descriptor_range D3D12_DESCRIPTOR_RANGE_TYPE_CBV
          uniformBufferCount [] with
  | None => None
  | Some p1 =>
    match define_descriptor_range D3D12_DESCRIPTOR_RANGE_TYPE_UAV
            storageBufferCount p1 with
    | None => None
    | Some p2 =>
      match define_descriptor_range D3D12_DESCRIPTOR_RANGE_TYPE_UAV
              storageTextureCount p2 with
      | None => None
      | Some p3 =>
        define_descriptor_range D3D12_DESCRIPTOR_RANGE_TYPE_SAMPLER
          samplerCount p3
      end
    end
  end.

Definition D3D12_INTERNAL_CreateRootSignature (s : State)
    (samplerCount uniformBufferCount storageBufferCount storageTextureCount : Z)
    : State * option ID3D12RootSignature :=
  match root_parameters samplerCount uniformBufferCount storageBufferCount
          storageTextureCount with
  | None => (log_error "Too many root signature arguments." s, None)
  | Some rootParameters =>
    let rootSignatureDesc :=
      {| NumParameters := Z.of_nat (length rootParameters);
         pParameters := rootParameters;
         NumStaticSamplers := 0;
         Flags := D3D12_ROOT_SIGNATURE_FLAG_ALLOW_INPUT_ASSEMBLER_INPUT_LAYOUT |} in
    let '(succeeded, errorBlob) :=
      D3D12SerializeRootSignature_func (lib s) rootSignatureDesc in
    if negb succeeded
    then (match errorBlob with
          | Some _ => log_error "Failed to serialize RootSignature: %s" s
          | None => s
          end, None)
    else if negb (ID3D12Device_CreateRootSignature (lib s) rootSignatureDesc)
    then (match errorBlob with
          | Some _ => log_error "Failed to create RootSignature" s
          | None => s
          end, None)
    else (s, Some {| signature_desc := rootSignatureDesc |})
  end.

(** [D3D12_INTERNAL_ConvertRasterizerState]: whether the conversion
    succeeds; the converted state is part of [fixedFunctionState]. *)
Definition D3D12_INTERNAL_ConvertRasterizerState (f : SDL_GpuFrontFace) : bool :=
  match f with
  | SDL_GPU_FRONTFACE_COUNTER_CLOCKWISE => true
  | SDL_GPU_FRONTFACE_CLOCKWISE => true
  | SDL_GPU_FRONTFACE_out_of_range _ => false
  end.

Definition D3D12_CreateGraphicsPipeline (s : State)
    (pipelineCreateInfo : SDL_GpuGraphicsPipelineCreateInfo D3D12Shader)
    : State * option D3D12GraphicsPipeline :=
  let vertShader := vertexShader pipelineCreateInfo in
  let fragShader := fragmentShader pipelineCreateInfo in
  let samplerCount := Z.max (samplerCount vertShader) (samplerCount fragShader) in
  let uniformBufferCount :=
    Z.max (uniformBufferCount vertShader) (uniformBufferCount fragShader) in
  let storageBufferCount :=
    Z.max (storageBufferCount vertShader) (storageBufferCount fragShader) in
  let storageTextureCount :=
    Z.max (storageTextureCount vertShader) (storageTextureCount fragShader) in
  if negb (D3D12_INTERNAL_ConvertRasterizerState (frontFace pipelineCreateInfo))
  then (s, None)
  else
    match D3D12_INTERNAL_CreateRootSignature s samplerCount uniformBufferCount
            storageBufferCount storageTextureCount with
    | (s1, None) => (s1, None)
    | (s1, Some rootSignature) =>
      let psoDesc :=
        {| VS := bytecode vertShader;
           PS := bytecode fragShader;
           pso_fixedFunctionState := fixedFunctionState pipelineCreateInfo;
           NumRenderTargets :=
             colorAttachmentCount (attachmentInfo pipelineCreateInfo);
           DSVFormat := depthStencilFormat (attachmentInfo pipelineCreateInfo);
           pRootSignature := rootSignature |} in
      match ID3D12Device_CreateGraphicsPipelineState (lib s1) psoDesc with
      | None => (log_error "Could not create graphics pipeline state" s1, None)
      | Some pipelineState =>
        (s1,
         Some {| pipelineState := pipelineState;
                 rootSignature := rootSignature;
                 pipeline_primitiveType := primitiveType pipelineCreateInfo;
                 pipeline_blendConstants := blendConstants pipelineCreateInfo;
                 stencilRef := depthStencilReference pipelineCreateInfo;
                 vertexSamplerCount := D3D12.samplerCount vertShader;
                 vertexUniformBufferCount := D3D12.uniformBufferCount vertShader;
                 vertexStorageBufferCount := D3D12.storageBufferCount vertShader;
                 vertexStorageTextureCount := D3D12.storageTextureCount vertShader;
                 fragmentSamplerCount := D3D12.samplerCount fragShader;
                 fragmentUniformBufferCount := D3D12.uniformBufferCount fragShader;
                 fragmentStorageBufferCount := D3D12.storageBufferCount fragShader;
                 fragmentStorageTextureCount := D3D12.storageTextureCount fragShader |})
      end
    end.

(** *** Render pass *)

Definition D3D12ColorAttachmentInfo : Type :=
  SDL_GpuColorAttachmentInfo D3D12Texture.
Definition D3D12DepthStencilAttachmentInfo : Type :=
  SDL_GpuDepthStencilAttachmentInfo D3D12Texture.

(** The fields of the [SDL_GpuViewport] are [float]s and are copied to the
    [FLOAT]s of the native viewport. *)
Definition D3D12_SetViewport (s : State) (x y w h minDepth maxDepth : float)
    : State :=
  record (RSSetViewports x y w h minDepth maxDepth) s.

(** The fields of the [SDL_GpuRect] are [int]s; the sums are taken in
    [int] and wrap around. *)
Definition D3D12_SetScissor (s : State) (x y w h : Z) : State :=
  record (RSSetScissorRects x y (to_int (x + w)) (to_int (y + h))) s.

(** The framebuffer cannot be larger than the smallest attachment. *)
Definition shrink_framebuffer (slice : SDL_GpuTextureSlice D3D12Texture)
    (framebuffer : Z * Z) : Z * Z :=
  let h := Z.shiftr (Height (desc (texture slice))) (mipLevel slice) in
  let w := Z.shiftr (to_int (Width (desc (texture slice)))) (mipLevel slice) in
  (if wrap32 w <? fst framebuffer then wrap32 w else fst framebuffer,
   if h <? snd framebuffer then h else snd framebuffer).

(** The first loop of [D3D12_BeginRenderPass]; [None] when an attachment
    was not designated as a target. *)
Fixpoint color_attachments_extent (infos : list D3D12ColorAttachmentInfo)
    (framebuffer : Z * Z) : option (Z * Z) :=
  match infos with
  | [] => Some framebuffer
  | info :: rest =>
    if negb (isRenderTarget (texture (textureSlice info))) then None
    else color_attachments_extent rest
           (shrink_framebuffer (textureSlice info) framebuffer)
  end.

(** The second loop of [D3D12_BeginRenderPass], from index [i] on. *)
Fixpoint transition_color_attachments (infos : list D3D12ColorAttachmentInfo)
    (i : nat) (s : State) : State :=
  match infos with
  | [] => s
  | info :: rest =>
    let tex := texture (textureSlice info) in
    let s1 :=
      set_commandBuffer
        (set_attachments (cb_colorAttachmentCount (commandBuffer s))
           (<[i := Some tex]> (colorAttachmentTexture (commandBuffer s)))
           (commandBuffer s)) s in
    let s2 := record (ResourceBarrier (resource tex) D3D12_RESOURCE_STATE_PRESENT
                        D3D12_RESOURCE_STATE_RENDER_TARGET) s1 in
    let s3 := record (OMSetRenderTargets (rtvHandle tex)) s2 in
    let s4 := record (ClearRenderTargetView (rtvHandle tex) (clearColor info)) s3 in
    transition_color_attachments rest (S i) s4
  end.

Definition D3D12_BeginRenderPass (s : State)
    (colorAttachmentInfos : list D3D12ColorAttachmentInfo)
    (colorAttachmentCount : Z)
    (depthStencilAttachmentInfo : option D3D12DepthStencilAttachmentInfo)
    : State :=
  let infos := take (Z.to_nat colorAttachmentCount) colorAttachmentInfos in
  match color_attachments_extent infos (UINT32_MAX, UINT32_MAX) with
  | None => log_error "Color attachment texture was not designated as a target!" s
  | Some framebuffer =>
    let extent :=
      match depthStencilAttachmentInfo with
      | None => Some framebuffer
      | Some ds =>
        if negb (isRenderTarget (texture (ds_textureSlice ds))) then None
        else Some (shrink_framebuffer (ds_textureSlice ds) framebuffer)
      end in
    match extent with
    | None =>
      log_error "Depth stencil attachment texture was not designated as a target!" s
    | Some (framebufferWidth, framebufferHeight) =>
      let s1 :=
        set_commandBuffer
          (set_attachments colorAttachmentCount
             (colorAttachmentTexture (commandBuffer s)) (commandBuffer s)) s in
      let s2 := transition_color_attachments infos 0 s1 in
      let s3 := D3D12_SetViewport s2 (to_float 0) (to_float 0)
                  (to_float framebufferWidth) (to_float framebufferHeight)
                  (to_float 0) (to_float 1) in
      D3D12_SetScissor s3 0 0 (to_int framebufferWidth) (to_int framebufferHeight)
    end
  end.

(** The loop of [D3D12_EndRenderPass] over the slots [i], [i+1], ... *)
Fixpoint release_color_attachments (n i : nat) (s : State) : State :=
  match n with
  | O => s
  | S n' =>
    let tex := colorAttachmentTexture (commandBuffer s) !! i in
    let s1 :=
      set_commandBuffer
        (set_attachments (cb_colorAttachmentCount (commandBuffer s))
           (<[i := None]> (colorAttachmentTexture (commandBuffer s)))
           (commandBuffer s)) s in
    let s2 :=
      match tex with
      | Some (Some t) =>
          record (ResourceBarrier (resource t) D3D12_RESOURCE_STATE_RENDER_TARGET
                    D3D12_RESOURCE_STATE_PRESENT) s1
      | _ => s1
      end in
    release_color_attachments n' (S i) s2
  end.

Definition D3D12_EndRenderPass (s : State) : State :=
  let s1 := release_color_attachments
              (Z.to_nat (cb_colorAttachmentCount (commandBuffer s))) 0 s in
  set_commandBuffer
    (set_attachments 0 (colorAttachmentTexture (commandBuffer s1))
       (commandBuffer s1)) s1.

(** *** The uniform ring *)

(** [D3D12_INTERNAL_TrackUniformBuffer].  When the array is full it is
    reallocated with one slot more, and [SDL_zerop] is handed the pointer
    that the new slot holds, which nothing has written yet: the bytes of a
    uniform buffer are cleared at an indeterminate address.  The model
    stops there ([None]). *)
Definition D3D12_INTERNAL_TrackUniformBuffer (s : State)
    (uniformBuffer : option UniformBufferPtr) : option State :=
  let c := commandBuffer s in
  let count := usedUniformBufferCount c in
  if decide (uniformBuffer ∈ take (Z.to_nat count) (usedUniformBuffers c))
  then Some s
  else if count =? usedUniformBufferCapacity c then None
  else
    Some (set_commandBuffer
            (set_used (count + 1) (usedUniformBufferCapacity c)
               (<[Z.to_nat count := uniformBuffer]> (usedUniformBuffers c)) c) s).

Definition D3D12_INTERNAL_CreateUniformBuffer (s : State) (sizeInBytes : Z)
    : State * option UniformBufferPtr :=
  match ID3D12Device_CreateCommittedResource (lib s) sizeInBytes
          (next_allocation s) with
  | None => (log_error "Could not create uniform buffer" s, None)
  | Some res =>
    (allocate {| buffer := res; gpuDescriptorHandle := 0; bufferLocation := 0;
                 writeOffset := 0; drawOffset := 0; currentBlockSize := 0 |} s,
     Some (next_allocation s))
  end.

Section Uniform_ring.

(** [UNIFORM_BUFFER_SIZE] is not defined in the sources. *)
Variable UNIFORM_BUFFER_SIZE : Z.

Definition D3D12_INTERNAL_AcquireUniformBufferFromPool (s : State)
    : option (State * option UniformBufferPtr) :=
  let '(s1, uniformBuffer) :=
    if 0 <? uniformBufferPoolCount (renderer s) then
      (set_renderer
         {| uniformBufferPoolCount := uniformBufferPoolCount (renderer s) - 1;
            uniformBufferPool := uniformBufferPool (renderer s) |} s,
       default None
         (uniformBufferPool (renderer s)
            !! Z.to_nat (uniformBufferPoolCount (renderer s) - 1)))
    else D3D12_INTERNAL_CreateUniformBuffer s UNIFORM_BUFFER_SIZE in
  s2 ← D3D12_INTERNAL_TrackUniformBuffer s1 uniformBuffer;
  Some (s2, uniformBuffer).

Definition descriptor_handle (s : State) (p : option UniformBufferPtr)
    : D3D12_GPU_DESCRIPTOR_HANDLE :=
  default 0 (gpuDescriptorHandle <$> (p ≫= fun a => heap s !! a)).

(** The loop of [D3D12_BindGraphicsPipeline] over the vertex slots. *)
Fixpoint bind_vertex_uniform_buffers (n i : nat) (s : State) : option State :=
  match n with
  | O => Some s
  | S n' =>
    s1 ←
      match vertexUniformBuffers (commandBuffer s) !! i with
      | Some None =>
        '(s', ub) ← D3D12_INTERNAL_AcquireUniformBufferFromPool s;
        Some (set_commandBuffer
                (set_uniformBuffers
                   (<[i := ub]> (vertexUniformBuffers (commandBuffer s')))
                   (fragmentUniformBuffers (commandBuffer s'))
                   (needVertexUniformBufferBind (commandBuffer s'))
                   (needFragmentUniformBufferBind (commandBuffer s'))
                   (commandBuffer s')) s')
      | _ => Some s
      end;
    let s2 :=
      record (SetGraphicsRootDescriptorTable (Z.of_nat i)
                (descriptor_handle s1
                   (default None (vertexUniformBuffers (commandBuffer s1) !! i))))
        s1 in
    bind_vertex_uniform_buffers n' (S i) s2
  end.

(** The loop over the fragment slots; [base] is the pipeline's
    [vertexUniformBufferCount]. *)
Fixpoint bind_fragment_uniform_buffers (base : Z) (n i : nat) (s : State)
    : option State :=
  match n with
  | O => Some s
  | S n' =>
    s1 ←
      match fragmentUniformBuffers (commandBuffer s) !! i with
      | Some None =>
        '(s', ub) ← D3D12_INTERNAL_AcquireUniformBufferFromPool s;
        Some (set_commandBuffer
                (set_uniformBuffers
                   (vertexUniformBuffers (commandBuffer s'))
                   (<[i := ub]> (fragmentUniformBuffers (commandBuffer s')))
                   (needVertexUniformBufferBind (commandBuffer s'))
                   (needFragmentUniformBufferBind (commandBuffer s'))
                   (commandBuffer s')) s')
      | _ => Some s
      end;
    let s2 :=
      record (SetGraphicsRootDescriptorTable (base + Z.of_nat i)
                (descriptor_handle s1
                   (default None (fragmentUniformBuffers (commandBuffer s1) !! i))))
        s1 in
    bind_fragment_uniform_buffers base n' (S i) s2
  end.

Definition D3D12_BindGraphicsPipeline (s : State)
    (pipeline : D3D12GraphicsPipeline) : option State :=
  let s := set_commandBuffer (set_pipeline (Some pipeline) (commandBuffer s)) s in
  let s := record (SetPipelineState (pipelineState pipeline)) s in
  let s := record (SetGraphicsRootSignature (rootSignature pipeline)) s in
  let s := record (IASetPrimitiveTopology (pipeline_primitiveType pipeline)) s in
  let s := record (OMSetBlendFactor (pipeline_blendConstants pipeline)) s in
  let s := record (OMSetStencilRef (stencilRef pipeline)) s in
  let s := record SetDescriptorHeaps s in
  s ← bind_vertex_uniform_buffers
        (Z.to_nat (vertexUniformBufferCount pipeline)) 0 s;
  s ← bind_fragment_uniform_buffers (vertexUniformBufferCount pipeline)
        (Z.to_nat (fragmentUniformBufferCount pipeline)) 0 s;
  Some (set_commandBuffer
          (set_uniformBuffers (vertexUniformBuffers (commandBuffer s))
             (fragmentUniformBuffers (commandBuffer s)) true true
             (commandBuffer s)) s).

End Uniform_ring.

(** *** Submission *)

(** A native call whose [HRESULT] goes through [ERROR_CHECK]. *)
Definition checked (c : NativeCall) (msg : string) (s : State) : State :=
  let s1 := record c s in
  if SUCCEEDED (lib s) (native s) c then s1 else log_error msg s1.

(** The [while (window)] loop of [D3D12_Submit] over the chain of active
    windows. *)
Fixpoint present_windows (chain : list WindowId) (s : State) : State :=
  match chain with
  | [] => s
  | win :: rest =>
    match windows s !! win with
    | None => present_windows rest s
    | Some data =>
      let s1 := record (SwapChain_Present (swapchain data) 1 0) s in
      let index :=
        IDXGISwapChain3_GetCurrentBackBufferIndex (lib s) (swapchain data)
          (native s1) in
      present_windows rest
        (set_windows
           (<[win := {| swapchain := swapchain data;
                        renderTexture := renderTexture data;
                        frameCounter := index;
                        activeWindow := false |}]> (windows s1)) s1)
    end
  end.

Definition D3D12_Submit (s : State) : State :=
  let s := checked CommandList_Close "Could not close graphicsCommandList" s in
  let s := record ExecuteCommandLists s in
  let window := nextWindow (commandBuffer s) in
  let s := set_commandBuffer
             (set_submission (fenceValue (commandBuffer s)) [] (commandBuffer s)) s in
  let s := present_windows window s in
  let fenceToWaitFor := fenceValue (commandBuffer s) in
  let s := checked (CommandQueue_Signal fenceToWaitFor)
             "Could not signale commandQueue" s in
  let s := set_commandBuffer
             (set_submission (wrap64 (fenceValue (commandBuffer s) + 1))
                (nextWindow (commandBuffer s)) (commandBuffer s)) s in
  let s :=
    if ID3D12Fence_GetCompletedValue (lib s) (native s) <? fenceToWaitFor
    then record (WaitForSingleObject fenceToWaitFor) s else s in
  let s := checked CommandAllocator_Reset "Could not reset commandAllocator" s in
  checked CommandList_Reset "Could not reset graphicsCommandList" s.

(** *** The layout the specification asks for *)

(** A descriptor table holding a single range that covers all descriptors
    of a category, starting at register 0, with append offset, visible to
    all stages. *)
Definition descriptor_table (category : D3D12_DESCRIPTOR_RANGE_TYPE * Z)
    : D3D12_ROOT_PARAMETER :=
  {| ParameterType := D3D12_ROOT_PARAMETER_TYPE_DESCRIPTOR_TABLE;
     DescriptorTable :=
       [ {| RangeType := fst category;
            NumDescriptors := snd category;
            BaseShaderRegister := 0;
            RegisterSpace := 0;
            OffsetInDescriptorsFromTableStart :=
              D3D12_DESCRIPTOR_RANGE_OFFSET_APPEND |} ];
     ShaderVisibility := D3D12_SHADER_VISIBILITY_ALL |}.

(** One descriptor table per non-empty category, in the order CBV
    (uniforms), UAV (storage buffers), UAV (storage textures), SAMPLER. *)
Definition specified_layout
    (uniformBuffers storageBuffers storageTextures samplers : Z)
    : list D3D12_ROOT_PARAMETER :=
  descriptor_table
    <$> filter (fun category => 0 < snd category)
          [ (D3D12_DESCRIPTOR_RANGE_TYPE_CBV, uniformBuffers);
            (D3D12_DESCRIPTOR_RANGE_TYPE_UAV, storageBuffers);
            (D3D12_DESCRIPTOR_RANGE_TYPE_UAV, storageTextures);
            (D3D12_DESCRIPTOR_RANGE_TYPE_SAMPLER, samplers) ].

(** The clears among recorded native calls. *)
Definition recorded_clears (l : list NativeCall)
    : list (D3D12_CPU_DESCRIPTOR_HANDLE * SDL_FColor) :=
  omap (fun c => match c with
                 | ClearRenderTargetView rtv color => Some (rtv, color)
                 | _ => None
                 end) l.

(** An attachment with another [loadOp]. *)
Definition with_loadOp (op : SDL_GpuLoadOp) (info : D3D12ColorAttachmentInfo)
    : D3D12ColorAttachmentInfo :=
  {| textureSlice := textureSlice info; clearColor := clearColor info;
     loadOp := op |}.





(** *** Swapchain textures *)

Definition set_chain (chain : list WindowId) (c : D3D12CommandBuffer)
    : D3D12CommandBuffer :=
  set_submission (fenceValue c) chain c.

(** [D3D12_AcquireSwapchainTexture]: a window that is not active joins the
    end of the chain of windows to present and becomes active; the result
    is the texture at the window's [frameCounter] with its extent, or
    [NULL] with extent 0x0.  The chain threaded through the [nextWindow]
    pointers is the list [nextWindow] of the command buffer, and a slot
    past the end of [renderTexture] is a [NULL] slot.  [None] is the failed
    [SDL_assert(windowData)] on a window that was not claimed. *)
Definition D3D12_AcquireSwapchainTexture (s : State) (window : WindowId)
    : option (State * option D3D12Texture * Z * Z) :=
  match windows s !! window with
  | None => None
  | Some windowData =>
    let s1 :=
      if negb (activeWindow windowData) then
        set_windows
          (<[window := {| swapchain := swapchain windowData;
                          renderTexture := renderTexture windowData;
                          frameCounter := frameCounter windowData;
                          activeWindow := true |}]> (windows s))
          (set_commandBuffer
             (set_chain (nextWindow (commandBuffer s) ++ [window])
                (commandBuffer s)) s)
      else s in
    match renderTexture windowData !! Z.to_nat (frameCounter windowData) with
    | Some texture =>
        Some (s1, Some texture, wrap32 (Width (desc texture)),
              Height (desc texture))
    | None => Some (s1, None, 0, 0)
    end
  end.

(** Swapchain textures acquired one after the other for the windows
    [wins]; [None] when one of them was not claimed. *)
Fixpoint acquire_all (s : State) (wins : list WindowId) : option State :=
  match wins with
  | [] => Some s
  | win :: rest =>
    match D3D12_AcquireSwapchainTexture s win with
    | Some (s1, _, _, _) => acquire_all s1 rest
    | None => None
    end
  end.

(** [n] submissions one after the other. *)
Fixpoint submits (n : nat) (s : State) : State :=
  match n with
  | O => s
  | S m => D3D12_Submit (submits m s)
  end.

(** *** Views of the recorded native calls *)

(** The state transitions among recorded native calls. *)
Definition barriers (l : list NativeCall)
    : list (ID3D12Resource * D3D12_RESOURCE_STATES * D3D12_RESOURCE_STATES) :=
  omap (fun c => match c with
                 | ResourceBarrier res before after => Some (res, before, after)
                 | _ => None
                 end) l.

(** The swapchains presented. *)
Definition presented (l : list NativeCall) : list IDXGISwapChain3 :=
  omap (fun c => match c with
                 | SwapChain_Present sc _ _ => Some sc
                 | _ => None
                 end) l.

(** The fence values signalled on the queue. *)
Definition signalled (l : list NativeCall) : list Z :=
  omap (fun c => match c with
                 | CommandQueue_Signal value => Some value
                 | _ => None
                 end) l.

(** The slices a render pass is begun on: the first [count] color
    attachments, then the depth-stencil attachment. *)
Definition attachment_slices (infos : list D3D12ColorAttachmentInfo) (count : Z)
    (ds : option D3D12DepthStencilAttachmentInfo)
    : list (SDL_GpuTextureSlice D3D12Texture) :=
  (textureSlice <$> take (Z.to_nat count) infos)
  ++ option_list (ds_textureSlice <$> ds).

(** The chain of windows to present holds each active window once, and no
    other window. *)
Definition chain_ok (s : State) : Prop :=
  NoDup (nextWindow (commandBuffer s))
  /\ forall win,
       win ∈ nextWindow (commandBuffer s)
       <-> exists data, windows s !! win = Some data /\ activeWindow data = true.


(** *** Claiming windows *)

Definition SWAPCHAIN_BUFFER_COUNT : nat := 2.

Inductive DXGI_FORMAT : Type :=
| DXGI_FORMAT_B8G8R8A8_UNORM
| DXGI_FORMAT_B8G8R8A8_UNORM_SRGB
| DXGI_FORMAT_R16G16B16A16_FLOAT
| DXGI_FORMAT_R10G10B10A2_UNORM.

Inductive DXGI_COLOR_SPACE_TYPE : Type :=
| DXGI_COLOR_SPACE_RGB_FULL_G22_NONE_P709
| DXGI_COLOR_SPACE_RGB_FULL_G10_NONE_P709
| DXGI_COLOR_SPACE_RGB_FULL_G2084_NONE_P2020.

(** The compositions, in the order of the two tables they index; the
    second is the one whose render-target views use the sRGB format. *)
Inductive SDL_GpuSwapchainComposition : Type :=
| SDL_GPU_SWAPCHAINCOMPOSITION_SDR
| SDL_GPU_SWAPCHAINCOMPOSITION_SDR_LINEAR
| SDL_GPU_SWAPCHAINCOMPOSITION_HDR
| SDL_GPU_SWAPCHAINCOMPOSITION_HDR_ADVANCED.

Definition SwapchainCompositionToTextureFormat
    (c : SDL_GpuSwapchainComposition) : DXGI_FORMAT :=
  match c with
  | SDL_GPU_SWAPCHAINCOMPOSITION_SDR => DXGI_FORMAT_B8G8R8A8_UNORM
  | SDL_GPU_SWAPCHAINCOMPOSITION_SDR_LINEAR => DXGI_FORMAT_B8G8R8A8_UNORM
  | SDL_GPU_SWAPCHAINCOMPOSITION_HDR => DXGI_FORMAT_R16G16B16A16_FLOAT
  | SDL_GPU_SWAPCHAINCOMPOSITION_HDR_ADVANCED => DXGI_FORMAT_R10G10B10A2_UNORM
  end.

Definition SwapchainCompositionToColorSpace
    (c : SDL_GpuSwapchainComposition) : DXGI_COLOR_SPACE_TYPE :=
  match c with
  | SDL_GPU_SWAPCHAINCOMPOSITION_SDR => DXGI_COLOR_SPACE_RGB_FULL_G22_NONE_P709
  | SDL_GPU_SWAPCHAINCOMPOSITION_SDR_LINEAR => DXGI_COLOR_SPACE_RGB_FULL_G22_NONE_P709
  | SDL_GPU_SWAPCHAINCOMPOSITION_HDR => DXGI_COLOR_SPACE_RGB_FULL_G10_NONE_P709
  | SDL_GPU_SWAPCHAINCOMPOSITION_HDR_ADVANCED =>
      DXGI_COLOR_SPACE_RGB_FULL_G2084_NONE_P2020
  end.

(** The references to native objects that the claiming of a window obtains
    and releases. *)
Inductive ComObject : Type :=
| Com_SwapChain1 (swapchain : nat)
| Com_SwapChain3 (swapchain3 : IDXGISwapChain3)
| Com_Factory1 (pParent : nat)
| Com_DescriptorHeap (rtvHeap : nat)
| Com_Resource (res : ID3D12Resource).

#[global] Instance ComObject_eq_dec : EqDecision ComObject.
Proof. solve_decision. Defined.

(** What the claiming of windows does to the native side: a call hands out
    a reference, a reference is released, or one of the three calls that
    configure the swapchain is made. *)
Inductive DxgiCall : Type :=
| Com_obtained (o : ComObject)
| Com_Release (o : ComObject)
| SetColorSpace1 (swapchain3 : IDXGISwapChain3) (colorSpace : DXGI_COLOR_SPACE_TYPE)
| MakeWindowAssociation (pParent : nat) (window : WindowId)
| CreateRenderTargetView (res : ID3D12Resource) (Format : DXGI_FORMAT)
    (rtvDescriptor : D3D12_CPU_DESCRIPTOR_HANDLE).

(** The answers of the native side; a failed call answers [None] or
    [false].  The creation of a swapchain and of a descriptor heap answer
    after the calls made so far. *)
Record DxgiLibrary : Type :=
  { IsWindow : WindowId -> bool;
    IDXGIFactory4_CreateSwapChainForHwnd :
      list DxgiCall -> WindowId -> DXGI_FORMAT -> bool -> option nat;
    IDXGISwapChain3_QueryInterface : nat -> option IDXGISwapChain3;
    IDXGISwapChain3_CheckColorSpaceSupport :
      IDXGISwapChain3 -> DXGI_COLOR_SPACE_TYPE -> Z;
    DXGI_SWAP_CHAIN_COLOR_SPACE_SUPPORT_FLAG_PRESENT : Z;
    IDXGISwapChain_GetParent : IDXGISwapChain3 -> option nat;
    IDXGIFactory1_MakeWindowAssociation : nat -> WindowId -> bool;
    ID3D12Device_CreateDescriptorHeap : list DxgiCall -> option nat;
    ID3D12Device_GetDescriptorHandleIncrementSize : Z;
    ID3D12DescriptorHeap_GetCPUDescriptorHandleForHeapStart :
      nat -> D3D12_CPU_DESCRIPTOR_HANDLE;
    IDXGISwapChain3_GetBuffer : IDXGISwapChain3 -> nat -> option ID3D12Resource;
    ID3D12Resource_GetDesc : ID3D12Resource -> D3D12_RESOURCE_DESC;
    (* the color space of value 0, which [SDL_zerop] leaves in a field *)
    zero_color_space : DXGI_COLOR_SPACE_TYPE }.

(** [D3D12WindowData] with the fields the claiming of a window writes and
    reads ([window], [presentMode] and [swapchainComposition] are written
    only); the record [D3D12WindowData] above is the part of it that the
    acquisition of swapchain textures and the submission read. *)
Record ClaimedWindowData : Type :=
  { wd_swapchain : option IDXGISwapChain3;
    wd_swapchainFormat : option DXGI_FORMAT;
    wd_swapchainColorSpace : DXGI_COLOR_SPACE_TYPE;
    wd_rtvHeap : option nat;
    wd_renderTargets : list (option ID3D12Resource);
    wd_renderTexture : list (option D3D12Texture);
    wd_frameCounter : Z;
    wd_activeWindow : bool }.

Definition window_view (windowData : ClaimedWindowData) : option D3D12WindowData :=
  match wd_swapchain windowData with
  | Some sc =>
    Some {| swapchain := sc;
            renderTexture := omap id (wd_renderTexture windowData);
            frameCounter := wd_frameCounter windowData;
            activeWindow := wd_activeWindow windowData |}
  | None => None
  end.

(** The window properties that hold the data of the claimed windows, the
    native calls and the messages logged so far. *)
Record WindowState : Type :=
  { claimed : gmap WindowId ClaimedWindowData;
    dxgi_calls : list DxgiCall;
    window_log : list FrontEnd.Diagnostic }.

Definition dxgi_call (c : DxgiCall) (ws : WindowState) : WindowState :=
  {| claimed := claimed ws; dxgi_calls := dxgi_calls ws ++ [c];
     window_log := window_log ws |}.

Definition window_diag (d : FrontEnd.Diagnostic) (ws : WindowState) : WindowState :=
  {| claimed := claimed ws; dxgi_calls := dxgi_calls ws;
     window_log := window_log ws ++ [d] |}.

Definition set_claimed (m : gmap WindowId ClaimedWindowData) (ws : WindowState)
    : WindowState :=
  {| claimed := m; dxgi_calls := dxgi_calls ws; window_log := window_log ws |}.

Definition set_buffer (i : nat) (target : option ID3D12Resource)
    (texture : option D3D12Texture) (windowData : ClaimedWindowData)
    : ClaimedWindowData :=
  {| wd_swapchain := wd_swapchain windowData;
     wd_swapchainFormat := wd_swapchainFormat windowData;
     wd_swapchainColorSpace := wd_swapchainColorSpace windowData;
     wd_rtvHeap := wd_rtvHeap windowData;
     wd_renderTargets := <[i := target]> (wd_renderTargets windowData);
     wd_renderTexture := <[i := texture]> (wd_renderTexture windowData);
     wd_frameCounter := wd_frameCounter windowData;
     wd_activeWindow := wd_activeWindow windowData |}.

Section Windows.

Variable dxgi : DxgiLibrary.

(** [renderer->supportsTearing]. *)
Variable supportsTearing : bool.

Definition D3D12_INTERNAL_FetchWindowData (ws : WindowState) (window : WindowId)
    : option ClaimedWindowData :=
  claimed ws !! window.

(** The loop of [D3D12_INTERNAL_InitializeSwapchainTexture] from the buffer
    [i] on, [n] buffers being left. *)
Fixpoint initialize_buffers (n i : nat) (swapchain : IDXGISwapChain3)
    (rtvFormat : DXGI_FORMAT) (rtvDescriptor : D3D12_CPU_DESCRIPTOR_HANDLE)
    (rtvDescriptorSize : Z) (ws : WindowState) (windowData : ClaimedWindowData)
    : WindowState * ClaimedWindowData * bool :=
  match n with
  | O => (ws, windowData, true)
  | S m =>
    match IDXGISwapChain3_GetBuffer dxgi swapchain i with
    | None =>
      (window_diag
         (FrontEnd.SDL_LogError "Could not get swapchain buffer descriptor heap!")
         ws, windowData, false)
    | Some buffer =>
      let ws := dxgi_call (Com_obtained (Com_Resource buffer)) ws in
      let ws := dxgi_call (CreateRenderTargetView buffer rtvFormat rtvDescriptor) ws in
      let texture :=
        {| resource := buffer;
           desc := ID3D12Resource_GetDesc dxgi buffer;
           rtvHandle := rtvDescriptor;
           isRenderTarget := true |} in
      let windowData := set_buffer i (Some buffer) (Some texture) windowData in
      initialize_buffers m (S i) swapchain rtvFormat
        (rtvDescriptor + rtvDescriptorSize) rtvDescriptorSize ws windowData
    end
  end.

Definition D3D12_INTERNAL_InitializeSwapchainTexture (ws : WindowState)
    (swapchain : IDXGISwapChain3) (swapchainFormat rtvFormat : DXGI_FORMAT)
    (windowData : ClaimedWindowData)
    : WindowState * ClaimedWindowData * bool :=
  match ID3D12Device_CreateDescriptorHeap dxgi (dxgi_calls ws) with
  | None =>
    (window_diag (FrontEnd.SDL_LogError "Could not create descriptor heap!") ws,
     windowData, false)
  | Some rtvHeap =>
    let ws := dxgi_call (Com_obtained (Com_DescriptorHeap rtvHeap)) ws in
    let windowData :=
      {| wd_swapchain := wd_swapchain windowData;
         wd_swapchainFormat := wd_swapchainFormat windowData;
         wd_swapchainColorSpace := wd_swapchainColorSpace windowData;
         wd_rtvHeap := Some rtvHeap;
         wd_renderTargets := replicate SWAPCHAIN_BUFFER_COUNT None;
         wd_renderTexture := wd_renderTexture windowData;
         wd_frameCounter := wd_frameCounter windowData;
         wd_activeWindow := wd_activeWindow windowData |} in
    initialize_buffers SWAPCHAIN_BUFFER_COUNT 0 swapchain rtvFormat
      (ID3D12DescriptorHeap_GetCPUDescriptorHandleForHeapStart dxgi rtvHeap)
      (ID3D12Device_GetDescriptorHandleIncrementSize dxgi) ws windowData
  end.

(** The loop of [D3D12_INTERNAL_DestroyWindowData], which runs from the last
    buffer down; [n] buffers are left. *)
Fixpoint destroy_buffers (n : nat) (ws : WindowState)
    (windowData : ClaimedWindowData) : WindowState * ClaimedWindowData :=
  match n with
  | O => (ws, windowData)
  | S i =>
    let texture := wd_renderTexture windowData !! i ≫= id in
    let windowData := set_buffer i None None windowData in
    let ws :=
      match texture with
      | Some t => dxgi_call (Com_Release (Com_Resource (resource t))) ws
      | None => ws
      end in
    destroy_buffers i ws windowData
  end.

Definition D3D12_INTERNAL_DestroyWindowData (ws : WindowState)
    (windowData : ClaimedWindowData) : WindowState * ClaimedWindowData :=
  let '(ws, windowData) := destroy_buffers SWAPCHAIN_BUFFER_COUNT ws windowData in
  let ws :=
    match wd_rtvHeap windowData with
    | Some rtvHeap => dxgi_call (Com_Release (Com_DescriptorHeap rtvHeap)) ws
    | None => ws
    end in
  let ws :=
    match wd_swapchain windowData with
    | Some sc => dxgi_call (Com_Release (Com_SwapChain3 sc)) ws
    | None => ws
    end in
  (ws,
   {| wd_swapchain := None;
      wd_swapchainFormat := wd_swapchainFormat windowData;
      wd_swapchainColorSpace := wd_swapchainColorSpace windowData;
      wd_rtvHeap := None;
      wd_renderTargets := wd_renderTargets windowData;
      wd_renderTexture := wd_renderTexture windowData;
      wd_frameCounter := wd_frameCounter windowData;
      wd_activeWindow := wd_activeWindow windowData |}).

Definition D3D12_INTERNAL_CreateSwapchain (ws : WindowState) (window : WindowId)
    (windowData : ClaimedWindowData)
    (swapchainComposition : SDL_GpuSwapchainComposition)
    : WindowState * ClaimedWindowData * bool :=
  let swapchainFormat := SwapchainCompositionToTextureFormat swapchainComposition in
  if negb (IsWindow dxgi window) then (ws, windowData, false)
  else
    match IDXGIFactory4_CreateSwapChainForHwnd dxgi (dxgi_calls ws) window
            swapchainFormat supportsTearing with
    | None =>
      (window_diag (FrontEnd.SDL_LogError "Could not create swapchain") ws,
       windowData, false)
    | Some swapchain =>
      let ws := dxgi_call (Com_obtained (Com_SwapChain1 swapchain)) ws in
      let queried := IDXGISwapChain3_QueryInterface dxgi swapchain in
      let ws :=
        match queried with
        | Some swapchain3 => dxgi_call (Com_obtained (Com_SwapChain3 swapchain3)) ws
        | None => ws
        end in
      let ws := dxgi_call (Com_Release (Com_SwapChain1 swapchain)) ws in
      match queried with
      | None =>
        (window_diag (FrontEnd.SDL_LogError "Could not create IDXGISwapChain3") ws,
         windowData, false)
      | Some swapchain3 =>
        let colorSpaceSupport :=
          IDXGISwapChain3_CheckColorSpaceSupport dxgi swapchain3
            (wd_swapchainColorSpace windowData) in
        if Z.land colorSpaceSupport
             (DXGI_SWAP_CHAIN_COLOR_SPACE_SUPPORT_FLAG_PRESENT dxgi) =? 0
        then
          (window_diag
             (FrontEnd.SDL_LogError "Requested colorspace is unsupported!") ws,
           windowData, false)
        else
          let ws :=
            dxgi_call
              (SetColorSpace1 swapchain3 (wd_swapchainColorSpace windowData)) ws in
          let ws :=
            match IDXGISwapChain_GetParent dxgi swapchain3 with
            | None =>
              window_diag
                (FrontEnd.SDL_LogWarn
                   "Could not get swapchain parent! Error Code: ") ws
            | Some pParent =>
              let ws := dxgi_call (Com_obtained (Com_Factory1 pParent)) ws in
              let ws := dxgi_call (MakeWindowAssociation pParent window) ws in
              let ws :=
                if IDXGIFactory1_MakeWindowAssociation dxgi pParent window then ws
                else
                  window_diag
                    (FrontEnd.SDL_LogWarn
                       "MakeWindowAssociation failed! Error Code: ") ws in
              dxgi_call (Com_Release (Com_Factory1 pParent)) ws
            end in
          let windowData :=
            {| wd_swapchain := Some swapchain3;
               wd_swapchainFormat := Some swapchainFormat;
               wd_swapchainColorSpace :=
                 SwapchainCompositionToColorSpace swapchainComposition;
               wd_rtvHeap := wd_rtvHeap windowData;
               wd_renderTargets := wd_renderTargets windowData;
               wd_renderTexture := wd_renderTexture windowData;
               wd_frameCounter := 0;
               wd_activeWindow := wd_activeWindow windowData |} in
          let rtvFormat :=
            match swapchainComposition with
            | SDL_GPU_SWAPCHAINCOMPOSITION_SDR_LINEAR =>
                DXGI_FORMAT_B8G8R8A8_UNORM_SRGB
            | _ => swapchainFormat
            end in
          let '(ws, windowData, ok) :=
            D3D12_INTERNAL_InitializeSwapchainTexture ws swapchain3
              swapchainFormat rtvFormat windowData in
          if ok then (ws, windowData, true)
          else (dxgi_call (Com_Release (Com_SwapChain3 swapchain3)) ws,
                windowData, false)
      end
    end.

(** The window data after [SDL_malloc] and [SDL_zerop]. *)
Definition zeroed_window_data : ClaimedWindowData :=
  {| wd_swapchain := None;
     wd_swapchainFormat := None;
     wd_swapchainColorSpace := zero_color_space dxgi;
     wd_rtvHeap := None;
     wd_renderTargets := replicate SWAPCHAIN_BUFFER_COUNT None;
     wd_renderTexture := replicate SWAPCHAIN_BUFFER_COUNT None;
     wd_frameCounter := 0;
     wd_activeWindow := false |}.

Definition D3D12_ClaimWindow (ws : WindowState) (window : WindowId)
    (swapchainComposition : SDL_GpuSwapchainComposition)
    : WindowState * bool :=
  match D3D12_INTERNAL_FetchWindowData ws window with
  | None =>
    let '(ws, windowData, ok) :=
      D3D12_INTERNAL_CreateSwapchain ws window zeroed_window_data
        swapchainComposition in
    if ok then (set_claimed (<[window := windowData]> (claimed ws)) ws, true)
    else
      (window_diag
         (FrontEnd.SDL_LogError
            "Could not create swapchain, failed to claim window!") ws,
       false)
  | Some _ =>
    (window_diag (FrontEnd.SDL_LogWarn "Window already claimed!") ws, false)
  end.

(** [None] is the failed [SDL_assert(!windowData->activeWindow)]. *)
Definition D3D12_UnclaimWindow (ws : WindowState) (window : WindowId)
    : option WindowState :=
  match D3D12_INTERNAL_FetchWindowData ws window with
  | None =>
    Some (window_diag (FrontEnd.SDL_LogWarn "Window already unclaimed!") ws)
  | Some windowData =>
    if wd_activeWindow windowData then None
    else
      let '(ws, _) := D3D12_INTERNAL_DestroyWindowData ws windowData in
      Some (set_claimed (delete window (claimed ws)) ws)
  end.

(** The enumerator of [SDL_GpuTextureFormat] that has a given value; the
    header that numbers the enumeration is not among the sources. *)
Variable texture_format_of_value : Z -> SDL_GpuTextureFormat.

(** [D3D12_GetSwapchainTextureFormat]; the two failing branches return the
    literal 0. *)
Definition D3D12_GetSwapchainTextureFormat (ws : WindowState) (window : WindowId)
    : WindowState * SDL_GpuTextureFormat :=
  match D3D12_INTERNAL_FetchWindowData ws window with
  | None =>
    (window_diag
       (FrontEnd.SDL_LogError
          "Cannot get swapchain format, window has not been claimed!") ws,
     texture_format_of_value 0)
  | Some windowData =>
    match wd_swapchainFormat windowData with
    | Some DXGI_FORMAT_B8G8R8A8_UNORM => (ws, SDL_GPU_TEXTUREFORMAT_B8G8R8A8)
    | Some DXGI_FORMAT_B8G8R8A8_UNORM_SRGB => (ws, SDL_GPU_TEXTUREFORMAT_B8G8R8A8_SRGB)
    | Some DXGI_FORMAT_R16G16B16A16_FLOAT =>
        (ws, SDL_GPU_TEXTUREFORMAT_R16G16B16A16_SFLOAT)
    | Some DXGI_FORMAT_R10G10B10A2_UNORM => (ws, SDL_GPU_TEXTUREFORMAT_R10G10B10A2)
    | None =>
      (window_diag (FrontEnd.SDL_LogError "Unrecognized swapchain format!") ws,
       texture_format_of_value 0)
    end
  end.

End Windows.

(** The references obtained and released by a sequence of calls. *)
Definition com_obtained (calls : list DxgiCall) : list ComObject :=
  omap (fun c => match c with Com_obtained o => Some o | _ => None end) calls.

Definition com_released (calls : list DxgiCall) : list ComObject :=
  omap (fun c => match c with Com_Release o => Some o | _ => None end) calls.

Definition color_spaces_set (calls : list DxgiCall) : list DXGI_COLOR_SPACE_TYPE :=
  omap (fun c => match c with SetColorSpace1 _ cs => Some cs | _ => None end) calls.

Definition rtv_formats (calls : list DxgiCall) : list DXGI_FORMAT :=
  omap (fun c => match c with CreateRenderTargetView _ f _ => Some f | _ => None end)
    calls.

(** A native side on which every call succeeds: swapchains and heaps are
    numbered by the calls made so far, and the buffers of a swapchain are
    the resources 10 and 11. *)
Definition example_dxgi : DxgiLibrary :=
  {| IsWindow := fun _ => true;
     IDXGIFactory4_CreateSwapChainForHwnd := fun calls _ _ _ => Some (length calls);
     IDXGISwapChain3_QueryInterface := fun sc => Some sc;
     IDXGISwapChain3_CheckColorSpaceSupport := fun _ _ => 1;
     DXGI_SWAP_CHAIN_COLOR_SPACE_SUPPORT_FLAG_PRESENT := 1;
     IDXGISwapChain_GetParent := fun _ => Some 3%nat;
     IDXGIFactory1_MakeWindowAssociation := fun _ _ => true;
     ID3D12Device_CreateDescriptorHeap := fun calls => Some (length calls);
     ID3D12Device_GetDescriptorHandleIncrementSize := 32;
     ID3D12DescriptorHeap_GetCPUDescriptorHandleForHeapStart := fun _ => 4096;
     IDXGISwapChain3_GetBuffer := fun _ i => Some (10 + i)%nat;
     ID3D12Resource_GetDesc := fun _ => {| Width := 640; Height := 480 |};
     zero_color_space := DXGI_COLOR_SPACE_RGB_FULL_G22_NONE_P709 |}.

Definition no_windows : WindowState :=
  {| claimed := ∅; dxgi_calls := []; window_log := [] |}.

(** *** Error messages *)

Definition MAX_ERROR_LEN : Z := 1024.

(** What [D3D12_INTERNAL_LogError] hands to [SDL_LogError]: the message and
    the code, with the text of the system for the code when there is one. *)
Inductive ErrorLine : Type :=
| Error_code (msg : string) (res : Z)
| Error_text (msg : string) (text : list Z) (res : Z).

(** The loop over the tail of the message: [dwChars] goes down while the
    character before it is at most a blank.  The buffer holds bytes, which
    the comparison reads as [char]s. *)
Fixpoint trim_tail (wszMsgBuff : list Z) (dwChars : nat) : nat :=
  match dwChars with
  | O => O
  | S n =>
    if to_char (nth n wszMsgBuff 0) <=? 32 then trim_tail wszMsgBuff n else S n
  end.

Section Error_messages.

(** From the absent Windows headers: the code [DXGI_ERROR_DEVICE_REMOVED],
    the reason a device gives for its removal, and the characters
    [FormatMessage] stores in the buffer for a code (it returns their
    number). *)
Variable DXGI_ERROR_DEVICE_REMOVED : Z.
Variable ID3D12Device_GetDeviceRemovedReason : nat -> Z.
Variable FormatMessage : Z -> list Z.

Definition D3D12_INTERNAL_LogError
    (device : option nat) (msg : string) (res : Z) : ErrorLine :=
  let res :=
    if res =? DXGI_ERROR_DEVICE_REMOVED
    then match device with
         | Some d => ID3D12Device_GetDeviceRemovedReason d
         | None => res
         end
    else res in
  let wszMsgBuff := FormatMessage res in
  let dwChars := Z.of_nat (length wszMsgBuff) in
  if dwChars =? 0 then Error_code msg res
  else
    let dwChars := Z.min dwChars MAX_ERROR_LEN in
    let dwChars := trim_tail wszMsgBuff (Z.to_nat dwChars) in
    Error_text msg (take dwChars wszMsgBuff) res.

End Error_messages.

(** *** A concrete renderer for examples *)

Definition example_lib : NativeLibrary :=
  {| D3D12SerializeRootSignature_func := fun _ => (true, None);
     ID3D12Device_CreateRootSignature := fun _ => true;
     ID3D12Device_CreateGraphicsPipelineState := fun _ => Some 1%nat;
     ID3D12Device_CreateCommittedResource := fun _ n => Some (100 + n)%nat;
     SUCCEEDED := fun _ _ => true;
     IDXGISwapChain3_GetCurrentBackBufferIndex :=
       fun _ history => Z.of_nat (length history) mod 2;
     ID3D12Fence_GetCompletedValue := fun _ => 0 |}.

(** A freshly created renderer: empty pool, idle command buffer. *)
Definition example_state : State :=
  {| renderer := {| uniformBufferPoolCount := 0;
                    uniformBufferPool := replicate MAX_UNIFORM_BUFFER_POOL_SIZE None |};
     commandBuffer :=
       {| fenceValue := 0; nextWindow := [];
          cb_colorAttachmentCount := 0;
          colorAttachmentTexture := replicate 4 None;
          currentGraphicsPipeline := None;
          vertexUniformBuffers := replicate MAX_VERTEX_UNIFORM_BUFFERS None;
          fragmentUniformBuffers := replicate MAX_FRAGMENT_UNIFORM_BUFFERS None;
          needVertexUniformBufferBind := false;
          needFragmentUniformBufferBind := false;
          usedUniformBufferCount := 0;
          usedUniformBufferCapacity := 0;
          usedUniformBuffers := [] |};
     heap := ∅; next_allocation := 0%nat; windows := ∅;
     native := []; errors := []; lib := example_lib |}.


Definition example_shader (samplers uniforms : Z) : D3D12Shader :=
  {| bytecode := []; samplerCount := samplers; uniformBufferCount := uniforms;
     storageBufferCount := 0; storageTextureCount := 0 |}.

(** The create-info of the renderer's textured-triangle pipeline: a vertex
    shader with one uniform buffer, a fragment shader with one sampler. *)
Definition example_create_info : SDL_GpuGraphicsPipelineCreateInfo D3D12Shader :=
  {| vertexShader := example_shader 0 1;
     fragmentShader := example_shader 1 0;
     primitiveType := SDL_GPU_PRIMITIVETYPE_TRIANGLELIST;
     frontFace := SDL_GPU_FRONTFACE_COUNTER_CLOCKWISE;
     fixedFunctionState := 0;
     depthStencilReference := 0;
     attachmentInfo :=
       {| colorAttachmentCount := 1; hasDepthStencilAttachment := false;
          depthStencilFormat := SDL_GPU_TEXTUREFORMAT_INVALID |};
     blendConstants := (0, 0, 0, 0) |}.

(** A 640x480 swapchain back buffer. *)
Definition example_backbuffer : D3D12Texture :=
  {| resource := 5%nat; desc := {| Width := 640; Height := 480 |};
     rtvHandle := 9; isRenderTarget := true |}.

Definition example_attachment (op : SDL_GpuLoadOp) : D3D12ColorAttachmentInfo :=
  {| textureSlice := {| texture := example_backbuffer; mipLevel := 0 |};
     clearColor := {| r := 1048576000; g := 1056964608; b := 1061158912;
                      a := 1065353216 |};
     loadOp := op |}.

(** The renderer with one claimed window that has two back buffers. *)
Definition example_window_state : State :=
  set_windows
    {[ 0%nat := {| swapchain := 8%nat;
                   renderTexture := [example_backbuffer; example_backbuffer];
                   frameCounter := 0;
                   activeWindow := false |} ]}
    example_state.

(** A pipeline with one vertex and one fragment uniform buffer. *)
Definition example_pipeline : D3D12GraphicsPipeline :=
  {| pipelineState := 1%nat;
     rootSignature :=
       {| signature_desc :=
            {| NumParameters := 1;
               pParameters := specified_layout 1 0 0 0;
               NumStaticSamplers := 0;
               Flags := D3D12_ROOT_SIGNATURE_FLAG_ALLOW_INPUT_ASSEMBLER_INPUT_LAYOUT |} |};
     pipeline_primitiveType := SDL_GPU_PRIMITIVETYPE_TRIANGLELIST;
     pipeline_blendConstants := (0, 0, 0, 0);
     stencilRef := 0;
     vertexSamplerCount := 0; vertexUniformBufferCount := 1;
     vertexStorageBufferCount := 0; vertexStorageTextureCount := 0;
     fragmentSamplerCount := 0; fragmentUniformBufferCount := 1;
     fragmentStorageBufferCount := 0; fragmentStorageTextureCount := 0 |}.

End D3D12.

(** ** The 2D renderer: [src/render/sdlgpu/SDL_render_gpu.c] *)

Module Render.

Import FrontEnd.

Inductive SDL_RenderCommandType : Type :=
| SDL_RENDERCMD_NO_OP
| SDL_RENDERCMD_SETVIEWPORT
| SDL_RENDERCMD_SETCLIPRECT
| SDL_RENDERCMD_SETDRAWCOLOR
| SDL_RENDERCMD_CLEAR
| SDL_RENDERCMD_DRAW_POINTS
| SDL_RENDERCMD_DRAW_LINES
| SDL_RENDERCMD_FILL_RECTS
| SDL_RENDERCMD_COPY
| SDL_RENDERCMD_COPY_EX
| SDL_RENDERCMD_GEOMETRY.

#[global] Instance SDL_RenderCommandType_eq_dec : EqDecision SDL_RenderCommandType.
Proof. solve_decision. Defined.

Inductive GPU_VertexShaderID : Type :=
| VERT_SHADER_LINEPOINT
| VERT_SHADER_TRI_COLOR
| VERT_SHADER_TRI_TEXTURE.

Inductive GPU_FragmentShaderID : Type :=
| FRAG_SHADER_COLOR
| FRAG_SHADER_TEXTURE_RGBA.

Inductive SDL_TextureAddressMode : Type :=
| SDL_TEXTURE_ADDRESS_CLAMP
| SDL_TEXTURE_ADDRESS_WRAP.

Inductive SDL_ScaleMode : Type :=
| SDL_SCALEMODE_NEAREST
| SDL_SCALEMODE_LINEAR
| SDL_SCALEMODE_BEST.

Definition SDL_BlendMode : Type := Z.
Definition SDL_BLENDMODE_NONE : SDL_BlendMode := 0.

(** The address of an [SDL_Texture]. *)
Definition TexturePtr : Type := nat.

Record GPU_TextureData : Type :=
  { td_texture : option SDL_GpuTexture;
    td_format : SDL_GpuTextureFormat;
    td_shader : GPU_FragmentShaderID }.

Record SDL_Texture : Type :=
  { tex_w : Z; tex_h : Z;
    scaleMode : SDL_ScaleMode;
    internal : GPU_TextureData }.

(** [cmd->data.draw]. *)
Record DrawData : Type :=
  { first : Z;
    count : Z;
    blend : SDL_BlendMode;
    draw_texture : option TexturePtr;
    texture_address_mode : SDL_TextureAddressMode }.

(** A node of the render-command list: its kind and the members of the
    [data] union. *)
Record SDL_RenderCommand : Type :=
  { command : SDL_RenderCommandType;
    viewport_rect : SDL_Rect;
    cliprect_enabled : bool;
    cliprect_rect : SDL_Rect;
    draw : DrawData;
    color_scale : float;
    color : SDL_FColor }.

Record GPU_PipelineParameters : Type :=
  { blend_mode : SDL_BlendMode;
    frag_shader : GPU_FragmentShaderID;
    vert_shader : GPU_VertexShaderID;
    attachment_format : SDL_GpuTextureFormat;
    primitive_type : SDL_GpuPrimitiveType }.

(** [data->state]. *)
Record RenderState : Type :=
  { render_pass : option SDL_GpuRenderPass;
    render_target : option TexturePtr;
    command_buffer : option CommandBufferId;
    color_attachment : ColorAttachmentInfo;
    viewport : SDL_GpuViewport;
    scissor : SDL_Rect;
    draw_color : SDL_FColor;
    scissor_enabled : bool }.

Record Swapchain : Type :=
  { sc_texture : option SDL_GpuTexture;
    sc_format : SDL_GpuTextureFormat;
    sc_width : Z;
    sc_height : Z }.

(** [GPU_RenderData].  The pipeline cache of the absent
    [SDL_pipeline_gpu.c] is the function [GPU_GetPipeline] computes on a
    key: the cached or newly built pipeline, or [NULL]. *)
Record GPU_RenderData : Type :=
  { rd_device : option SDL_GpuDevice;
    pipeline_cache : GPU_PipelineParameters -> option SDL_GpuGraphicsPipeline;
    present_fence : option SDL_GpuFence;
    swapchain : Swapchain;
    vertices_transfer_buf : option SDL_GpuTransferBuffer;
    vertices_buffer : option SDL_GpuBuffer;
    state : RenderState;
    samplers : SDL_ScaleMode -> SDL_TextureAddressMode -> option SDL_GpuSampler }.

(** The fields of [SDL_Renderer] the back end reads. *)
Record SDL_Renderer : Type :=
  { target : option TexturePtr;
    window : option SDL_Window;
    textures : gmap TexturePtr SDL_Texture;
    (* the floating-point part of [GetDrawCmdColor] *)
    GetDrawCmdColor : SDL_RenderCommand -> SDL_FColor }.

Definition set_state (st : RenderState) (d : GPU_RenderData) : GPU_RenderData :=
  {| rd_device := rd_device d; pipeline_cache := pipeline_cache d;
     present_fence := present_fence d; swapchain := swapchain d;
     vertices_transfer_buf := vertices_transfer_buf d;
     vertices_buffer := vertices_buffer d; state := st; samplers := samplers d |}.

Definition set_present_fence (f : option SDL_GpuFence) (d : GPU_RenderData) :=
  {| rd_device := rd_device d; pipeline_cache := pipeline_cache d;
     present_fence := f; swapchain := swapchain d;
     vertices_transfer_buf := vertices_transfer_buf d;
     vertices_buffer := vertices_buffer d; state := state d;
     samplers := samplers d |}.

Definition set_swapchain (sc : Swapchain) (d : GPU_RenderData) :=
  {| rd_device := rd_device d; pipeline_cache := pipeline_cache d;
     present_fence := present_fence d; swapchain := sc;
     vertices_transfer_buf := vertices_transfer_buf d;
     vertices_buffer := vertices_buffer d; state := state d;
     samplers := samplers d |}.

Definition set_render_pass (p : option SDL_GpuRenderPass) (st : RenderState) :=
  {| render_pass := p; render_target := render_target st;
     command_buffer := command_buffer st; color_attachment := color_attachment st;
     viewport := viewport st; scissor := scissor st; draw_color := draw_color st;
     scissor_enabled := scissor_enabled st |}.

Definition set_command_buffer (c : option CommandBufferId) (st : RenderState) :=
  {| render_pass := render_pass st; render_target := render_target st;
     command_buffer := c; color_attachment := color_attachment st;
     viewport := viewport st; scissor := scissor st; draw_color := draw_color st;
     scissor_enabled := scissor_enabled st |}.

Definition set_color_attachment (a : ColorAttachmentInfo) (st : RenderState) :=
  {| render_pass := render_pass st; render_target := render_target st;
     command_buffer := command_buffer st; color_attachment := a;
     viewport := viewport st; scissor := scissor st; draw_color := draw_color st;
     scissor_enabled := scissor_enabled st |}.

Definition set_viewport (v : SDL_GpuViewport) (st : RenderState) :=
  {| render_pass := render_pass st; render_target := render_target st;
     command_buffer := command_buffer st; color_attachment := color_attachment st;
     viewport := v; scissor := scissor st; draw_color := draw_color st;
     scissor_enabled := scissor_enabled st |}.

Definition set_scissor (r : SDL_Rect) (enabled : bool) (st : RenderState) :=
  {| render_pass := render_pass st; render_target := render_target st;
     command_buffer := command_buffer st; color_attachment := color_attachment st;
     viewport := viewport st; scissor := r; draw_color := draw_color st;
     scissor_enabled := enabled |}.

Definition set_draw_color (c : SDL_FColor) (st : RenderState) :=
  {| render_pass := render_pass st; render_target := render_target st;
     command_buffer := command_buffer st; color_attachment := color_attachment st;
     viewport := viewport st; scissor := scissor st; draw_color := c;
     scissor_enabled := scissor_enabled st |}.

Definition set_loadOp (op : SDL_GpuLoadOp) (a : ColorAttachmentInfo) : ColorAttachmentInfo :=
  {| textureSlice := textureSlice a; clearColor := clearColor a; loadOp := op |}.

Definition set_clearColor (c : SDL_FColor) (a : ColorAttachmentInfo) : ColorAttachmentInfo :=
  {| textureSlice := textureSlice a; clearColor := c; loadOp := loadOp a |}.

Definition set_attachment_texture (t : option SDL_GpuTexture)
    (a : ColorAttachmentInfo) : ColorAttachmentInfo :=
  {| textureSlice := {| texture := t; mipLevel := mipLevel (textureSlice a) |};
     clearColor := clearColor a; loadOp := loadOp a |}.

Section Renderer.

Variable MAX_COLOR_TARGET_BINDINGS : Z.

Definition RestartRenderPass (w : World) (data : GPU_RenderData)
    : World * GPU_RenderData :=
  let w :=
    match render_pass (state data) with
    | Some _ => SDL_GpuEndRenderPass w (render_pass (state data))
    | None => w
    end in
  let '(w, pass) :=
    SDL_GpuBeginRenderPass MAX_COLOR_TARGET_BINDINGS w
      (command_buffer (state data)) (Some [color_attachment (state data)]) 1 None in
  let data := set_state (set_render_pass pass (state data)) data in
  let w :=
    if (0 <? vp_w (viewport (state data))) && (0 <? vp_h (viewport (state data)))
    then SDL_GpuSetViewport w (render_pass (state data))
           (Some (viewport (state data)))
    else w in
  let w :=
    if scissor_enabled (state data)
    then SDL_GpuSetScissor w (render_pass (state data)) (Some (scissor (state data)))
    else w in
  (w,
   set_state
     (set_color_attachment
        (set_loadOp SDL_GPU_LOADOP_LOAD (color_attachment (state data)))
        (state data)) data).

(** [cmd->data.draw.texture], dereferenced. *)
Definition texture_of (renderer : SDL_Renderer) (p : option TexturePtr)
    : option SDL_Texture :=
  match p with
  | Some a => textures renderer !! a
  | None => None
  end.

(** [PushUniforms]: the uniform block is carried as the values it is
    computed from (viewport extent, draw color, texture size). *)
Definition PushUniforms (w : World) (data : GPU_RenderData)
    (renderer : SDL_Renderer) (cmd : SDL_RenderCommand) : World :=
  let texture_size :=
    match texture_of renderer (draw_texture (draw cmd)) with
    | Some t => [tex_w t; tex_h t]
    | None => [0; 0]
    end in
  let uniforms :=
    [ vp_w (viewport (state data)); vp_h (viewport (state data));
      r (draw_color (state data)); g (draw_color (state data));
      b (draw_color (state data)); a (draw_color (state data)) ]
    ++ texture_size in
  SDL_GpuPushVertexUniformData w (command_buffer (state data)) 0 (Some uniforms) 88.

Definition SamplerPointer (data : GPU_RenderData)
    (address_mode : SDL_TextureAddressMode) (scale_mode : SDL_ScaleMode)
    : option SDL_GpuSampler :=
  samplers data scale_mode address_mode.

Definition Draw (w : World) (data : GPU_RenderData) (renderer : SDL_Renderer)
    (cmd : SDL_RenderCommand) (num_verts offset : Z) (prim : SDL_GpuPrimitiveType)
    : World * GPU_RenderData :=
  let '(w, data) :=
    match render_pass (state data) with
    | None => RestartRenderPass w data
    | Some _ => (w, data)
    end in
  let pass := render_pass (state data) in
  let tdata := internal <$> texture_of renderer (draw_texture (draw cmd)) in
  let '(v_shader, f_shader) :=
    match prim with
    | SDL_GPU_PRIMITIVETYPE_TRIANGLELIST =>
      match draw_texture (draw cmd) with
      | Some _ =>
          (VERT_SHADER_TRI_TEXTURE,
           default FRAG_SHADER_TEXTURE_RGBA (td_shader <$> tdata))
      | None => (VERT_SHADER_TRI_COLOR, FRAG_SHADER_COLOR)
      end
    | _ => (VERT_SHADER_LINEPOINT, FRAG_SHADER_COLOR)
    end in
  let pipe_params :=
    {| blend_mode := blend (draw cmd);
       frag_shader := f_shader;
       vert_shader := v_shader;
       attachment_format :=
         match render_target (state data) with
         | Some t =>
             default SDL_GPU_TEXTUREFORMAT_INVALID
               ((td_format ∘ internal) <$> textures renderer !! t)
         | None => sc_format (swapchain data)
         end;
       primitive_type := prim |} in
  match pipeline_cache data pipe_params with
  | None => (w, data)
  | Some pipe =>
    let w := SDL_GpuBindGraphicsPipeline w (render_pass (state data)) (Some pipe) in
    let w :=
      match tdata with
      | Some td =>
        SDL_GpuBindFragmentSamplers w pass 0
          (Some [ {| tsb_texture := td_texture td;
                     tsb_sampler :=
                       SamplerPointer data (texture_address_mode (draw cmd))
                         (default SDL_SCALEMODE_NEAREST
                            (scaleMode
                               <$> texture_of renderer (draw_texture (draw cmd)))) |} ])
          1
      | None => w
      end in
    let w :=
      SDL_GpuBindVertexBuffers w pass 0
        (Some [ {| bb_buffer := vertices_buffer data; bb_offset := offset |} ]) 1 in
    let w := PushUniforms w data renderer cmd in
    (SDL_GpuDrawPrimitives w (render_pass (state data)) 0 num_verts, data)
  end.

(** [UploadVertices]; the batch is [vertsize] bytes long.  The renderer
    takes the mapping as the result of [SDL_GpuMapTransferBuffer]; the
    front end of this tree returns it through an out-pointer, which is
    never null here. *)
Definition UploadVertices (w : World) (data : GPU_RenderData) (vertsize : Z)
    : World * Z :=
  if vertsize =? 0 then (w, 0)
  else
    let w := SDL_GpuMapTransferBuffer w (rd_device data)
               (vertices_transfer_buf data) true true in
    let w := SDL_GpuUnmapTransferBuffer w (rd_device data)
               (vertices_transfer_buf data) in
    let '(w, pass) := SDL_GpuBeginCopyPass w (command_buffer (state data)) in
    match pass with
    | None => (w, -1)
    | Some _ =>
      let w :=
        SDL_GpuUploadToBuffer w pass
          (Some {| tbl_transferBuffer := vertices_transfer_buf data; tbl_offset := 0 |})
          (Some {| br_buffer := vertices_buffer data; br_offset := 0;
                   br_size := wrap32 vertsize |})
          true in
      (SDL_GpuEndCopyPass w pass, 0)
    end.

(** The inner [while (nextcmd)] loops: commands are combined into the
    current draw call as long as [combinable] accepts them.  The result is
    the vertex count and the list from the first command left out. *)
Fixpoint combine (combinable : SDL_RenderCommand -> bool) (count : Z)
    (nextcmd : list SDL_RenderCommand) : Z * list SDL_RenderCommand :=
  match nextcmd with
  | [] => (count, [])
  | c :: next =>
    if combinable c
    then combine combinable (wrap32 (count + wrap32 (Render.count (draw c)))) next
    else (count, nextcmd)
  end.

(** The tests of the [SDL_RENDERCMD_DRAW_LINES] case. *)
Definition line_segment_of (thisblend : SDL_BlendMode) (nextcmd : SDL_RenderCommand)
    : bool :=
  bool_decide (command nextcmd = SDL_RENDERCMD_DRAW_LINES)
  && (Render.count (draw nextcmd) =? 2)
  && (blend (draw nextcmd) =? thisblend).

(** The tests of the [SDL_RENDERCMD_DRAW_POINTS]/[SDL_RENDERCMD_GEOMETRY] case. *)
Definition same_draw (thiscmdtype : SDL_RenderCommandType)
    (thistexture : option TexturePtr) (thisblend : SDL_BlendMode)
    (nextcmd : SDL_RenderCommand) : bool :=
  bool_decide (command nextcmd = thiscmdtype)
  && bool_decide (draw_texture (draw nextcmd) = thistexture)
  && (blend (draw nextcmd) =? thisblend).

(** One iteration of the [while (cmd)] loop of [GPU_RunCommandQueue] on the
    command [cmd] followed by [next]: the state after it and the commands
    still to run. *)
Definition run_command (renderer : SDL_Renderer) (w : World) (data : GPU_RenderData)
    (cmd : SDL_RenderCommand) (next : list SDL_RenderCommand)
    : World * GPU_RenderData * list SDL_RenderCommand :=
  match command cmd with
  | SDL_RENDERCMD_SETDRAWCOLOR =>
    (w, set_state (set_draw_color (GetDrawCmdColor renderer cmd) (state data)) data,
     next)
  | SDL_RENDERCMD_SETVIEWPORT =>
    let rect := viewport_rect cmd in
    let data :=
      set_state
        (set_viewport {| vp_x := rect_x rect; vp_y := rect_y rect;
                         vp_w := rect_w rect; vp_h := rect_h rect;
                         minDepth := 0; maxDepth := 1 |} (state data)) data in
    let w :=
      if negb (is_null (render_pass (state data)))
         && (0 <? rect_w rect) && (0 <? rect_h rect)
      then SDL_GpuSetViewport w (render_pass (state data))
             (Some (viewport (state data)))
      else w in
    (w, data, next)
  | SDL_RENDERCMD_SETCLIPRECT =>
    let data :=
      set_state (set_scissor (cliprect_rect cmd) (cliprect_enabled cmd) (state data))
        data in
    let w :=
      if negb (is_null (render_pass (state data))) && cliprect_enabled cmd
      then SDL_GpuSetScissor w (render_pass (state data))
             (Some (scissor (state data)))
      else w in
    (w, data, next)
  | SDL_RENDERCMD_CLEAR =>
    let data :=
      set_state
        (set_color_attachment
           (set_loadOp SDL_GPU_LOADOP_CLEAR
              (set_clearColor (GetDrawCmdColor renderer cmd)
                 (color_attachment (state data))))
           (state data)) data in
    let '(w, data) :=
      match render_pass (state data) with
      | Some _ => RestartRenderPass w data
      | None => (w, data)
      end in
    (w, data, next)
  | SDL_RENDERCMD_FILL_RECTS | SDL_RENDERCMD_COPY | SDL_RENDERCMD_COPY_EX =>
    (w, data, next)
  | SDL_RENDERCMD_DRAW_LINES =>
    let count := wrap32 (Render.count (draw cmd)) in
    let offset := wrap32 (first (draw cmd)) in
    if 2 <? count then
      (Draw w data renderer cmd count offset SDL_GPU_PRIMITIVETYPE_LINESTRIP, next)
    else
      let '(count, rest) := combine (line_segment_of (blend (draw cmd))) count next in
      (Draw w data renderer cmd count offset SDL_GPU_PRIMITIVETYPE_LINELIST, rest)
  | SDL_RENDERCMD_DRAW_POINTS | SDL_RENDERCMD_GEOMETRY =>
    let '(count, rest) :=
      combine (same_draw (command cmd) (draw_texture (draw cmd)) (blend (draw cmd)))
        (wrap32 (Render.count (draw cmd))) next in
    let offset := wrap32 (first (draw cmd)) in
    let prim :=
      if decide (command cmd = SDL_RENDERCMD_DRAW_POINTS)
      then SDL_GPU_PRIMITIVETYPE_POINTLIST
      else SDL_GPU_PRIMITIVETYPE_TRIANGLELIST in
    (Draw w data renderer cmd count offset prim, rest)
  | SDL_RENDERCMD_NO_OP => (w, data, next)
  end.

Lemma combine_length (combinable : SDL_RenderCommand -> bool) (nextcmd : list SDL_RenderCommand) :
  forall count, (length (combine combinable count nextcmd).2 <= length nextcmd)%nat.
Proof.
  induction nextcmd as [|c next IH]; intros count0; cbn; [lia|].
  destruct (combinable c); cbn; [|lia].
  specialize (IH (wrap32 (count0 + wrap32 (Render.count (draw c))))). lia.
Qed.

Lemma run_command_length (renderer : SDL_Renderer) (w : World) (data : GPU_RenderData)
    (cmd : SDL_RenderCommand) (next : list SDL_RenderCommand) :
  (length (run_command renderer w data cmd next).2 <= length next)%nat.
Proof.
  unfold run_command.
  destruct (command cmd); cbn; try lia.
  - destruct (match render_pass _ with Some _ => _ | None => _ end); cbn; lia.
  - match goal with |- context [combine ?f ?n next] =>
      pose proof (combine_length f next n); destruct (combine f n next) end.
    cbn in *; lia.
  - destruct (2 <? _); cbn; [lia|].
    match goal with |- context [combine ?f ?n next] =>
      pose proof (combine_length f next n); destruct (combine f n next) end.
    cbn in *; lia.
  - match goal with |- context [combine ?f ?n next] =>
      pose proof (combine_length f next n); destruct (combine f n next) end.
    cbn in *; lia.
Qed.

(** The [while (cmd)] loop of [GPU_RunCommandQueue]. *)
Equations? run_commands (renderer : SDL_Renderer) (w : World) (data : GPU_RenderData)
    (cmd : list SDL_RenderCommand) : World * GPU_RenderData
    by wf (length cmd) lt :=
run_commands renderer w data [] := (w, data);
run_commands renderer w data (c :: next) :=
  run_commands renderer
    (run_command renderer w data c next).1.1
    (run_command renderer w data c next).1.2
    (run_command renderer w data c next).2.
Proof.
  pose proof (run_command_length renderer w data c next). cbn. lia.
Qed.

(** [GPU_RunCommandQueue] on the command list [cmd] and a vertex batch of
    [vertsize] bytes; the last component is the returned [int].  The
    renderer's [color_attachment.texture] is the [textureSlice.texture] of
    the front end's attachment record. *)
Definition GPU_RunCommandQueue (renderer : SDL_Renderer) (w : World)
    (data : GPU_RenderData) (cmd : list SDL_RenderCommand) (vertsize : Z)
    : World * GPU_RenderData * Z :=
  let '(w, uploaded) := UploadVertices w data vertsize in
  if negb (uploaded =? 0) then (w, data, -1)
  else
    let attachment := set_loadOp SDL_GPU_LOADOP_LOAD (color_attachment (state data)) in
    let attachment :=
      match target renderer with
      | Some t =>
          set_attachment_texture
            (textures renderer !! t ≫= (td_texture ∘ internal)) attachment
      | None => set_attachment_texture (sc_texture (swapchain data)) attachment
      end in
    let data := set_state (set_color_attachment attachment (state data)) data in
    if is_null (texture (textureSlice (color_attachment (state data))))
    then (diag (SDL_SetError "Render target texture is NULL") w, data, -1)
    else
      let '(w, data) := run_commands renderer w data cmd in
      let '(w, data) :=
        if negb (bool_decide (loadOp (color_attachment (state data)) = SDL_GPU_LOADOP_LOAD))
           && is_null (render_pass (state data))
        then RestartRenderPass w data
        else (w, data) in
      match render_pass (state data) with
      | Some _ =>
        (SDL_GpuEndRenderPass w (render_pass (state data)),
         set_state (set_render_pass None (state data)) data, 0)
      | None => (w, data, 0)
      end.

End Renderer.

Definition RenewSwapchain (renderer : SDL_Renderer) (w : World)
    (data : GPU_RenderData) : World * GPU_RenderData :=
  let '(w, acquired, extent) :=
    SDL_GpuAcquireSwapchainTexture w (command_buffer (state data))
      (window renderer) true true in
  let sc := swapchain data in
  let sc :=
    {| sc_texture := acquired; sc_format := sc_format sc;
       sc_width := default (sc_width sc) (fst <$> extent);
       sc_height := default (sc_height sc) (snd <$> extent) |} in
  match acquired with
  | Some _ =>
    let '(w, format) :=
      SDL_GpuGetSwapchainTextureFormat w (rd_device data) (window renderer) in
    (w, set_swapchain {| sc_texture := sc_texture sc; sc_format := format;
                         sc_width := sc_width sc; sc_height := sc_height sc |} data)
  | None => (w, set_swapchain sc data)
  end.

(** [GPU_RenderPresent].  [SDL_assert(next_fence != NULL)] is compiled out
    of release builds: a [NULL] fence is stored like any other. *)
Definition GPU_RenderPresent (renderer : SDL_Renderer) (w : World)
    (data : GPU_RenderData) : World * GPU_RenderData * Z :=
  let '(w, next_fence) :=
    SDL_GpuSubmitAndAcquireFence w (command_buffer (state data)) in
  let w :=
    match present_fence data with
    | Some fence =>
      let w := SDL_GpuWaitForFences w (rd_device data) true (Some [fence]) 1 in
      SDL_GpuReleaseFence w (rd_device data) (present_fence data)
    | None => w
    end in
  let data := set_present_fence next_fence data in
  let '(w, cb) := SDL_GpuAcquireCommandBuffer w (rd_device data) in
  let data := set_state (set_command_buffer cb (state data)) data in
  let '(w, data) := RenewSwapchain renderer w data in
  (w, data, 0).

(** [n] frames presented back to back. *)
Fixpoint presents (renderer : SDL_Renderer) (n : nat) (w : World)
    (data : GPU_RenderData) : World * GPU_RenderData :=
  match n with
  | O => (w, data)
  | S m =>
    let '(w, data) := presents renderer m w data in
    (GPU_RenderPresent renderer w data).1
  end.

(** [n] frames: each runs its command queue, then presents.  [queue k] is
    the command list and the size of the vertex batch of frame [k]. *)
Fixpoint frames (MAX_COLOR_TARGET_BINDINGS : Z) (renderer : SDL_Renderer)
    (queue : nat -> list SDL_RenderCommand * Z) (n : nat) (w : World)
    (data : GPU_RenderData) : World * GPU_RenderData :=
  match n with
  | O => (w, data)
  | S m =>
    let '(w, data) := frames MAX_COLOR_TARGET_BINDINGS renderer queue m w data in
    let '(w, data, _) :=
      GPU_RunCommandQueue MAX_COLOR_TARGET_BINDINGS renderer w data
        (queue m).1 (queue m).2 in
    (GPU_RenderPresent renderer w data).1
  end.

(** ** Texture updates: the staging copy of [GPU_UpdateTexture] *)

(** A pointer is a block of bytes and an offset into it.  [memcpy] of [n]
    bytes from [src + soff] to [dst + doff]: [None] when a byte read or
    written lies outside its block. *)
Definition read_bytes (block : list Z) (off n : Z) : option (list Z) :=
  if (0 <=? off) && (0 <=? n) && (off + n <=? Z.of_nat (length block))
  then Some (take (Z.to_nat n) (drop (Z.to_nat off) block))
  else None.

Definition write_bytes (block : list Z) (off : Z) (bytes : list Z)
    : option (list Z) :=
  if (0 <=? off) && (off + Z.of_nat (length bytes) <=? Z.of_nat (length block))
  then Some (take (Z.to_nat off) block ++ bytes
             ++ drop (Z.to_nat off + length bytes) block)
  else None.

Definition memcpy (dst : list Z) (doff : Z) (src : list Z) (soff n : Z)
    : option (list Z) :=
  bytes ← read_bytes src soff n; write_bytes dst doff bytes.

(** The loop over the rows: [output] and [input] advance by [row_size] and
    by [pitch]. *)
Fixpoint copy_rows (rows : nat) (mapped : list Z) (output : Z)
    (pixels : list Z) (input : Z) (row_size pitch : Z) : option (list Z) :=
  match rows with
  | O => Some mapped
  | S m =>
    mapped ← memcpy mapped output pixels input row_size;
    copy_rows m mapped (output + row_size) pixels (input + pitch) row_size pitch
  end.

(** Lines 2446 to 2475 of [GPU_UpdateTexture]: the pixels, at offset [start]
    of their block, are copied into the mapped transfer buffer, [mapped],
    which was created with [data_size] bytes.  [texturebpp] is
    [SDL_BYTESPERPIXEL] of the texture's format.  The result is the content
    of the transfer buffer. *)
Definition GPU_UpdateTexture_staging (texturebpp : Z) (rect : SDL_Rect)
    (pixels : list Z) (start : Z) (pitch : Z) (mapped : list Z)
    : option (list Z) :=
  let row_size := wrap32 (texturebpp * rect_w rect) in
  let data_size := wrap32 (row_size * rect_h rect) in
  if wrap32 pitch =? row_size
  then memcpy mapped 0 pixels start data_size
  else copy_rows (Z.to_nat (rect_h rect)) mapped 0 pixels start row_size pitch.

(** Row [i] of a rectangle whose rows of [row_size] bytes lie [pitch] bytes
    apart from offset [start] of [pixels]. *)
Definition pixel_row (pixels : list Z) (start pitch row_size : Z) (i : nat)
    : list Z :=
  take (Z.to_nat row_size) (drop (Z.to_nat (start + Z.of_nat i * pitch)) pixels).

Definition pixel_rows (pixels : list Z) (start pitch row_size : Z) (rows : nat)
    : list Z :=
  mjoin (pixel_row pixels start pitch row_size <$> seq 0 rows).

(** ** The coalescing rule in the words of the specification *)

(** Two adjacent commands belong to one run: same kind among points and
    geometry with the same texture and blend mode, or two two-vertex line
    segments with the same blend mode. *)
Definition spec_coalesced (c d : SDL_RenderCommand) : bool :=
  match command c with
  | SDL_RENDERCMD_DRAW_POINTS | SDL_RENDERCMD_GEOMETRY =>
    bool_decide (command d = command c)
    && bool_decide (draw_texture (draw d) = draw_texture (draw c))
    && (blend (draw d) =? blend (draw c))
  | SDL_RENDERCMD_DRAW_LINES =>
    bool_decide (command d = SDL_RENDERCMD_DRAW_LINES)
    && (count (draw c) =? 2) && (count (draw d) =? 2)
    && (blend (draw d) =? blend (draw c))
  | _ => false
  end.

(** The maximal runs of adjacent coalesced commands, in order. *)
Fixpoint spec_runs (cmds : list SDL_RenderCommand) : list (list SDL_RenderCommand) :=
  match cmds with
  | [] => []
  | c :: rest =>
    match spec_runs rest with
    | (d :: run) :: others =>
      if spec_coalesced c d then (c :: d :: run) :: others
      else [c] :: (d :: run) :: others
    | others => [c] :: others
    end
  end.

Definition is_draw_command (c : SDL_RenderCommand) : bool :=
  match command c with
  | SDL_RENDERCMD_DRAW_POINTS | SDL_RENDERCMD_DRAW_LINES | SDL_RENDERCMD_GEOMETRY => true
  | _ => false
  end.

(** The sum of the per-command counts of a run. *)
Definition spec_vertex_count (run : list SDL_RenderCommand) : Z :=
  foldr (fun c n => count (draw c) + n) 0 run.

(** The vertex counts of the draw calls expected for a command list: one
    per run of draw commands. *)
Definition spec_draws (cmds : list SDL_RenderCommand) : list Z :=
  omap (fun run =>
          match run with
          | c :: _ => if is_draw_command c then Some (spec_vertex_count run) else None
          | [] => None
          end) (spec_runs cmds).

(** A command as the renderer front end queues it: a count that fits the
    [Uint32] of the draw call, and at least two vertices in a line. *)
Definition queued (c : SDL_RenderCommand) : Prop :=
  0 <= count (draw c) <= UINT32_MAX
  /\ (command c = SDL_RENDERCMD_DRAW_LINES -> 2 <= count (draw c)).

(** The back-end calls that draw. *)
Definition is_draw_call (c : BackendCall) : bool :=
  match c with
  | BE_DrawPrimitives _ _ _ | BE_DrawIndexedPrimitives _ _ _ _ _
  | BE_DrawPrimitivesIndirect _ _ _ _ _
  | BE_DrawIndexedPrimitivesIndirect _ _ _ _ _ => true
  | _ => false
  end.

(** The draw calls a world has delegated, in order. *)
Definition draws (w : World) : list BackendCall :=
  filter is_draw_call (calls w).

(** The texture [GPU_RunCommandQueue] renders to. *)
Definition target_texture (renderer : SDL_Renderer) (data : GPU_RenderData)
    : option SDL_GpuTexture :=
  match target renderer with
  | Some t => textures renderer !! t ≫= (td_texture ∘ internal)
  | None => sc_texture (swapchain data)
  end.

(** The command buffer [cb] is live and, when its device checks its calls,
    can be recorded into: it is not submitted, has no compute or copy pass
    open, and its render pass is open or not as [in_render_pass] says. *)
Definition live (w : World) (cb : CommandBufferId) (in_render_pass : bool) : Prop :=
  exists h,
    buffers w !! cb = Some h
    /\ commandBuffer (renderPass h) = cb
    /\ commandBuffer (copyPass h) = cb
    /\ (debugMode (device h) = true ->
        submitted h = false
        /\ inProgress (computePass h) = false
        /\ inProgress (copyPass h) = false
        /\ inProgress (renderPass h) = in_render_pass).

(** The renderer records into the command buffer [cb]: every pipeline
    lookup succeeds, the pass handle it holds, if any, is that of [cb], and
    the render pass of [cb] is open exactly when the renderer holds its
    handle. *)
Definition recording (w : World) (data : GPU_RenderData) (cb : CommandBufferId) : Prop :=
  command_buffer (state data) = Some cb
  /\ (forall k, is_Some (pipeline_cache data k))
  /\ (render_pass (state data) = None
      \/ render_pass (state data) = Some (RenderPassOf cb))
  /\ live w cb (negb (is_null (render_pass (state data)))).

(** The color attachments of the render passes a world has begun, in
    order. *)
Definition begun (w : World) : list (option (list ColorAttachmentInfo)) :=
  omap (fun c => match c with
                 | BE_BeginRenderPass _ infos _ _ => Some infos
                 | _ => None
                 end) (calls w).

(** A render pass on the single color attachment [target] that keeps its
    contents. *)
Definition loads (target : option SDL_GpuTexture)
    (infos : option (list ColorAttachmentInfo)) : Prop :=
  exists a, infos = Some [a]
            /\ loadOp a = SDL_GPU_LOADOP_LOAD
            /\ texture (textureSlice a) = target.

(** A render pass on the single color attachment [target] that clears it
    to [color]. *)
Definition clears (target : option SDL_GpuTexture) (color : SDL_FColor)
    (infos : option (list ColorAttachmentInfo)) : Prop :=
  exists a, infos = Some [a]
            /\ loadOp a = SDL_GPU_LOADOP_CLEAR
            /\ clearColor a = color
            /\ texture (textureSlice a) = target.

(** ** Fences of the present cycle *)

Definition is_fence_call (c : BackendCall) : bool :=
  match c with
  | BE_SubmitAndAcquireFence _ | BE_WaitForFences _ _ _ | BE_ReleaseFence _ => true
  | _ => false
  end.

(** The fences released by a sequence of back-end calls, in order. *)
Definition released (cs : list BackendCall) : list SDL_GpuFence :=
  omap (fun c => match c with BE_ReleaseFence f => Some f | _ => None end) cs.

(** The fences the device [dev] handed out along the calls [cs] made after
    [history], in order. *)
Fixpoint acquired (dev : SDL_GpuDevice) (history cs : list BackendCall)
    : list SDL_GpuFence :=
  match cs with
  | [] => []
  | c :: cs' =>
    match c with
    | BE_SubmitAndAcquireFence cb =>
        option_list (SubmitAndAcquireFence dev history cb)
    | _ => []
    end ++ acquired dev (history ++ [c]) cs'
  end.

(** Waiting on the stored fence and releasing it. *)
Definition fence_swap (stored : option SDL_GpuFence) : list BackendCall :=
  match stored with
  | Some f => [BE_WaitForFences true (Some [f]) 1; BE_ReleaseFence f]
  | None => []
  end.

(** The renderer is about to present on the device [dev]: its command
    buffer is live on [dev] and can be submitted, [dev] hands out a command
    buffer and a fence whenever asked, and the fences handed out so far and
    not released are the stored one, if any. *)
Definition presenting (w : World) (data : GPU_RenderData) (dev : SDL_GpuDevice) : Prop :=
  rd_device data = Some dev
  /\ (forall history, is_Some (AcquireCommandBuffer dev history))
  /\ (forall history cb, is_Some (SubmitAndAcquireFence dev history cb))
  /\ acquired dev [] (calls w) = released (calls w) ++ option_list (present_fence data)
  /\ exists cb h,
       command_buffer (state data) = Some cb
       /\ buffers w !! cb = Some h
       /\ device h = dev
       /\ (debugMode dev = true ->
           submitted h = false /\ CHECK_ANY_PASS_IN_PROGRESS h = false).

(** The calls [w'] made beyond those of [w] touch no fence, and the
    command buffers of [w'] are command buffers of [w], on the same
    devices. *)
Definition fence_quiet (w w' : World) : Prop :=
  (exists l, calls w' = calls w ++ l
             /\ forallb (negb ∘ is_fence_call) l = true)
  /\ forall cb h', buffers w' !! cb = Some h' ->
       exists h, buffers w !! cb = Some h /\ device h' = device h.

(** ** A concrete renderer for examples *)

Definition example_renderer : SDL_Renderer :=
  {| target := None; window := Some 0%nat; textures := ∅;
     GetDrawCmdColor := color |}.

Definition example_rect : SDL_Rect :=
  {| rect_x := 0; rect_y := 0; rect_w := 640; rect_h := 480 |}.

(** The renderer data after [GPU_CreateRenderer]: debug device, no fence,
    the command buffer at address 0, a swapchain texture. *)
Definition example_data : GPU_RenderData :=
  {| rd_device := Some (example_device true);
     pipeline_cache := fun _ => Some 7%nat;
     present_fence := None;
     swapchain := {| sc_texture := Some 1%nat;
                     sc_format := SDL_GPU_TEXTUREFORMAT_B8G8R8A8;
                     sc_width := 640; sc_height := 480 |};
     vertices_transfer_buf := Some 2%nat;
     vertices_buffer := Some 3%nat;
     state :=
       {| render_pass := None; render_target := None;
          command_buffer := Some 0%nat;
          color_attachment :=
            {| textureSlice := {| texture := None; mipLevel := 0 |};
               clearColor := {| r := 0; g := 0; b := 0; a := 0 |};
               loadOp := SDL_GPU_LOADOP_LOAD |};
          viewport := {| vp_x := 0; vp_y := 0; vp_w := 640; vp_h := 480;
                         minDepth := 0; maxDepth := 1 |};
          scissor := example_rect;
          draw_color := {| r := 0; g := 0; b := 0; a := 0 |};
          scissor_enabled := false |};
     samplers := fun _ _ => Some 4%nat |}.

Definition example_world : World :=
  (SDL_GpuAcquireCommandBuffer empty_world (Some (example_device true))).1.

Definition example_command (kind : SDL_RenderCommandType) (vertices : Z)
    : SDL_RenderCommand :=
  {| command := kind;
     viewport_rect := example_rect;
     cliprect_enabled := false;
     cliprect_rect := example_rect;
     draw := {| first := 0; count := vertices; blend := SDL_BLENDMODE_NONE;
                draw_texture := None;
                texture_address_mode := SDL_TEXTURE_ADDRESS_CLAMP |};
     color_scale := 0;
     color := {| r := 0; g := 0; b := 0; a := 0 |} |}.

(** Fifty single points with no texture and blend mode NONE. *)
Definition fifty_points : list SDL_RenderCommand :=
  replicate 50 (example_command SDL_RENDERCMD_DRAW_POINTS 1).

(** A joined line of three vertices between two-vertex segments. *)
Definition example_lines : list SDL_RenderCommand :=
  [ example_command SDL_RENDERCMD_DRAW_LINES 2;
    example_command SDL_RENDERCMD_DRAW_LINES 2;
    example_command SDL_RENDERCMD_DRAW_LINES 3;
    example_command SDL_RENDERCMD_DRAW_LINES 2 ].

End Render.

(** ** The shaders of the 2D renderer: [src/render/sdlgpu/SDL_shaders_gpu.c] *)

Module Shaders.

Import FrontEnd.

(** *** Shader creation in the front end *)

Inductive SDL_GpuShaderStage : Type :=
| SDL_GPU_SHADERSTAGE_VERTEX
| SDL_GPU_SHADERSTAGE_FRAGMENT.

Record SDL_GpuShaderCreateInfo : Type :=
  { codeSize : Z;
    code : list Z;
    entryPointName : string;
    format : Z;
    stage : SDL_GpuShaderStage;
    samplerCount : Z;
    storageTextureCount : Z;
    storageBufferCount : Z;
    uniformBufferCount : Z }.

(** What the shader entry points leave behind: a call that reached the
    [CreateShader] entry of the device's table, with its answer, one that
    reached [ReleaseShader], or a diagnostic. *)
Inductive ShaderEvent : Type :=
| CreateShader_called (info : SDL_GpuShaderCreateInfo) (shader : option SDL_GpuShader)
| ReleaseShader_called (shader : SDL_GpuShader)
| Raised (d : Diagnostic).

Section Shader_entries.

(** The [CreateShader] entry of a device's table: its answer depends on the
    events so far and on the create info. *)
Variable CreateShader :
  SDL_GpuDevice -> list ShaderEvent -> SDL_GpuShaderCreateInfo -> option SDL_GpuShader.

(** The arrays of the absent [shaders/spir-v.h]. *)
Variable linepoint_vert_spv tri_color_vert_spv tri_texture_vert_spv : list Z.
Variable color_frag_spv texture_rgba_frag_spv : list Z.

Definition SDL_GpuGetDriver (t : list ShaderEvent) (device : option SDL_GpuDevice)
    : list ShaderEvent * SDL_GpuDriver :=
  match device with
  | None => (t ++ [Raised (SDL_SetError "Invalid GPU device")], SDL_GPU_DRIVER_INVALID)
  | Some dev => (t, backend dev)
  end.

Definition SDL_GpuCreateShader (t : list ShaderEvent)
    (device : option SDL_GpuDevice)
    (shaderCreateInfo : option SDL_GpuShaderCreateInfo)
    : list ShaderEvent * option SDL_GpuShader :=
  match device with
  | None => (t ++ [Raised (SDL_SetError "Invalid GPU device")], None)
  | Some dev =>
    match shaderCreateInfo with
    | None => (t ++ [Raised (SDL_InvalidParamError "shaderCreateInfo")], None)
    | Some info =>
      if debugMode dev && (Z.land (format info) (shaderFormats dev) =? 0)
      then (t ++ [Raised (SDL_assert_release
                            "Incompatible shader format for GPU backend")], None)
      else
        let shader := CreateShader dev t info in
        (t ++ [CreateShader_called info shader], shader)
    end
  end.

Definition SDL_GpuReleaseShader (t : list ShaderEvent)
    (device : option SDL_GpuDevice) (shader : option SDL_GpuShader)
    : list ShaderEvent :=
  match device with
  | None => t ++ [Raised (SDL_SetError "Invalid GPU device")]
  | Some _ =>
    match shader with
    | None => t
    | Some sh => t ++ [ReleaseShader_called sh]
    end
  end.

(** *** The shader table of the renderer *)

Record GPU_ShaderModuleSource : Type :=
  { sms_code : list Z; code_len : Z; sms_format : Z }.

Record GPU_ShaderSources : Type :=
  { spirv : GPU_ShaderModuleSource;
    num_samplers : Z;
    num_uniform_buffers : Z }.

Definition SHADER_SPIRV (spv : list Z) : GPU_ShaderModuleSource :=
  {| sms_code := spv; code_len := Z.of_nat (length spv);
     sms_format := SDL_GPU_SHADERFORMAT_SPIRV |}.

(** In the order of [GPU_VertexShaderID] and of [GPU_FragmentShaderID]. *)
Definition vert_shader_sources : list GPU_ShaderSources :=
  [ {| spirv := SHADER_SPIRV linepoint_vert_spv;
       num_samplers := 0; num_uniform_buffers := 1 |};
    {| spirv := SHADER_SPIRV tri_color_vert_spv;
       num_samplers := 0; num_uniform_buffers := 1 |};
    {| spirv := SHADER_SPIRV tri_texture_vert_spv;
       num_samplers := 0; num_uniform_buffers := 1 |} ].

Definition frag_shader_sources : list GPU_ShaderSources :=
  [ {| spirv := SHADER_SPIRV color_frag_spv;
       num_samplers := 0; num_uniform_buffers := 0 |};
    {| spirv := SHADER_SPIRV texture_rgba_frag_spv;
       num_samplers := 1; num_uniform_buffers := 0 |} ].

(** [GPU_Shaders]: the two arrays of shader handles, one slot per source. *)
Record GPU_Shaders : Type :=
  { vert_shaders : list (option SDL_GpuShader);
    frag_shaders : list (option SDL_GpuShader) }.

Definition CompileShader (t : list ShaderEvent) (sources : GPU_ShaderSources)
    (device : option SDL_GpuDevice) (stage : SDL_GpuShaderStage)
    : list ShaderEvent * option SDL_GpuShader :=
  let '(t, driver) := SDL_GpuGetDriver t device in
  match driver with
  | SDL_GPU_DRIVER_VULKAN =>
    let sms := spirv sources in
    let sci :=
      {| codeSize := code_len sms;
         code := sms_code sms;
         entryPointName := "main";
         format := sms_format sms;
         stage := stage;
         samplerCount := num_samplers sources;
         storageTextureCount := 0;
         storageBufferCount := 0;
         uniformBufferCount := num_uniform_buffers sources |} in
    SDL_GpuCreateShader t device (Some sci)
  | _ => (t ++ [Raised (SDL_SetError "Unsupported GPU backend")], None)
  end.

(** The two loops of [GPU_ReleaseShaders] run over the slots of an array. *)
Fixpoint release_slots (t : list ShaderEvent) (device : option SDL_GpuDevice)
    (slots : list (option SDL_GpuShader))
    : list ShaderEvent * list (option SDL_GpuShader) :=
  match slots with
  | [] => (t, [])
  | shader :: rest =>
    let t := SDL_GpuReleaseShader t device shader in
    let '(t, rest) := release_slots t device rest in
    (t, None :: rest)
  end.

Definition GPU_ReleaseShaders (t : list ShaderEvent) (shaders : GPU_Shaders)
    (device : option SDL_GpuDevice) : list ShaderEvent * GPU_Shaders :=
  let '(t, vs) := release_slots t device (vert_shaders shaders) in
  let '(t, fs) := release_slots t device (frag_shaders shaders) in
  (t, {| vert_shaders := vs; frag_shaders := fs |}).

(** A loop of [GPU_InitShaders] from index [i] on, over the sources left:
    it stops at the first shader that is [NULL], which it has stored. *)
Fixpoint compile_slots (t : list ShaderEvent) (sources : list GPU_ShaderSources)
    (device : option SDL_GpuDevice) (stage : SDL_GpuShaderStage) (i : nat)
    (slots : list (option SDL_GpuShader))
    : list ShaderEvent * list (option SDL_GpuShader) * bool :=
  match sources with
  | [] => (t, slots, true)
  | source :: rest =>
    let '(t, shader) := CompileShader t source device stage in
    let slots := <[i := shader]> slots in
    match shader with
    | None => (t, slots, false)
    | Some _ => compile_slots t rest device stage (S i) slots
    end
  end.

Definition GPU_InitShaders (t : list ShaderEvent) (shaders : GPU_Shaders)
    (device : option SDL_GpuDevice) : list ShaderEvent * GPU_Shaders * Z :=
  let '(t, vs, ok) :=
    compile_slots t vert_shader_sources device SDL_GPU_SHADERSTAGE_VERTEX 0
      (vert_shaders shaders) in
  let shaders := {| vert_shaders := vs; frag_shaders := frag_shaders shaders |} in
  if negb ok then (GPU_ReleaseShaders t shaders device, -1)
  else
    let '(t, fs, ok) :=
      compile_slots t frag_shader_sources device SDL_GPU_SHADERSTAGE_FRAGMENT 0
        (frag_shaders shaders) in
    let shaders := {| vert_shaders := vs; frag_shaders := fs |} in
    if negb ok then (GPU_ReleaseShaders t shaders device, -1)
    else (t, shaders, 0).

End Shader_entries.

(** *** Views of the events *)

(** The shaders the device created, and the ones handed back to it. *)
Definition shaders_created (t : list ShaderEvent) : list SDL_GpuShader :=
  omap (fun e => match e with CreateShader_called _ shader => shader | _ => None end) t.

Definition shaders_released (t : list ShaderEvent) : list SDL_GpuShader :=
  omap (fun e => match e with ReleaseShader_called shader => Some shader | _ => None end) t.

Definition errors_set (t : list ShaderEvent) : list Diagnostic :=
  omap (fun e => match e with Raised d => Some d | _ => None end) t.

(** *** A concrete device for examples *)


Definition picky_CreateShader (dev : SDL_GpuDevice) (t : list ShaderEvent)
    (info : SDL_GpuShaderCreateInfo) : option SDL_GpuShader :=
  if samplerCount info =? 0 then Some (length (shaders_created t)) else None.

Definition empty_shaders : GPU_Shaders :=
  {| vert_shaders := [None; None; None]; frag_shaders := [None; None] |}.


End Shaders.
(** * Properties *)

(** ** Front end: the command-buffer state machine *)

Import FrontEnd.

Lemma RENDERPASS_Some w rp pass h :
  RENDERPASS w rp = Some (pass, h) ->
  exists h0, buffers w !! (match rp with RenderPassOf o => o end) = Some h0
             /\ pass = renderPass h0
             /\ buffers w !! commandBuffer pass = Some h.
Proof.
  destruct rp as [o]. cbn.
  destruct (buffers w !! o) as [h0|] eqn:E0; cbn; [|done].
  destruct (buffers w !! commandBuffer (renderPass h0)) as [hc|] eqn:Ec; cbn; [|done].
  intros [= <- <-]. eauto.
Qed.

Lemma COMPUTEPASS_Some w cp pass h :
  COMPUTEPASS w cp = Some (pass, h) ->
  exists h0, buffers w !! (match cp with ComputePassOf o => o end) = Some h0
             /\ pass = computePass h0
             /\ buffers w !! commandBuffer pass = Some h.
Proof.
  destruct cp as [o]. cbn.
  destruct (buffers w !! o) as [h0|] eqn:E0; cbn; [|done].
  destruct (buffers w !! commandBuffer (computePass h0)) as [hc|] eqn:Ec; cbn; [|done].
  intros [= <- <-]. eauto.
Qed.

Lemma COPYPASS_Some w cp pass h :
  COPYPASS w cp = Some (pass, h) ->
  exists h0, buffers w !! (match cp with CopyPassOf o => o end) = Some h0
             /\ pass = copyPass h0
             /\ buffers w !! commandBuffer pass = Some h.
Proof.
  destruct cp as [o]. cbn.
  destruct (buffers w !! o) as [h0|] eqn:E0; cbn; [|done].
  destruct (buffers w !! commandBuffer (copyPass h0)) as [hc|] eqn:Ec; cbn; [|done].
  intros [= <- <-]. eauto.
Qed.

(** Splits the body of an entry point into its return paths. *)
Ltac split_paths :=
  repeat match goal with
         | |- context [match ?x with _ => _ end] =>
             lazymatch x with
             | context [match _ with _ => _ end] => fail
             | _ => destruct x eqn:?
             end
         end.

Ltac use_pass_lookup :=
  repeat match goal with
         | H : RENDERPASS _ _ = Some _ |- _ =>
             apply RENDERPASS_Some in H; destruct H as (? & ? & ? & ?)
         | H : COMPUTEPASS _ _ = Some _ |- _ =>
             apply COMPUTEPASS_Some in H; destruct H as (? & ? & ? & ?)
         | H : COPYPASS _ _ = Some _ |- _ =>
             apply COPYPASS_Some in H; destruct H as (? & ? & ? & ?)
         end.

Ltac unfold_entry_points :=
  unfold SDL_GpuInsertDebugLabel, SDL_GpuPushDebugGroup, SDL_GpuPopDebugGroup,
    SDL_GpuPushFragmentUniformData, SDL_GpuPushComputeUniformData,
    SDL_GpuUploadToTexture, SDL_GpuCopyTextureToTexture,
    SDL_GpuCopyBufferToBuffer, SDL_GpuGenerateMipmaps,
    SDL_GpuDownloadFromTexture, SDL_GpuDownloadFromBuffer, SDL_GpuBlit,
    SDL_GpuAcquireCommandBuffer, SDL_GpuPushVertexUniformData,
    SDL_GpuBeginRenderPass, SDL_GpuBindGraphicsPipeline, SDL_GpuSetViewport,
    SDL_GpuSetScissor, SDL_GpuBindVertexBuffers, SDL_GpuBindIndexBuffer,
    SDL_GpuBindVertexSamplers, SDL_GpuBindVertexStorageTextures,
    SDL_GpuBindVertexStorageBuffers, SDL_GpuBindFragmentSamplers,
    SDL_GpuBindFragmentStorageTextures, SDL_GpuBindFragmentStorageBuffers,
    SDL_GpuDrawIndexedPrimitives, SDL_GpuDrawPrimitives,
    SDL_GpuDrawPrimitivesIndirect, SDL_GpuDrawIndexedPrimitivesIndirect,
    SDL_GpuEndRenderPass, SDL_GpuBeginComputePass, SDL_GpuBindComputePipeline,
    SDL_GpuBindComputeStorageTextures, SDL_GpuBindComputeStorageBuffers,
    SDL_GpuDispatchCompute, SDL_GpuDispatchComputeIndirect,
    SDL_GpuEndComputePass, SDL_GpuBeginCopyPass, SDL_GpuUploadToBuffer,
    SDL_GpuEndCopyPass, SDL_GpuAcquireSwapchainTexture, SDL_GpuSubmit,
    SDL_GpuSubmitAndAcquireFence.

(** The pass of a well-formed header points back to its command buffer. *)
Lemma RENDERPASS_ok w cb h :
  world_ok w -> buffers w !! cb = Some h ->
  RENDERPASS w (RenderPassOf cb) = Some (renderPass h, h)
  /\ commandBuffer (renderPass h) = cb.
Proof.
  intros Hw Hl. destruct (Hw _ _ Hl) as (E & _). cbn.
  rewrite Hl. cbn. rewrite E, Hl. done.
Qed.

Lemma COMPUTEPASS_ok w cb h :
  world_ok w -> buffers w !! cb = Some h ->
  COMPUTEPASS w (ComputePassOf cb) = Some (computePass h, h)
  /\ commandBuffer (computePass h) = cb.
Proof.
  intros Hw Hl. destruct (Hw _ _ Hl) as (_ & E & _). cbn.
  rewrite Hl. cbn. rewrite E, Hl. done.
Qed.

Lemma COPYPASS_ok w cb h :
  world_ok w -> buffers w !! cb = Some h ->
  COPYPASS w (CopyPassOf cb) = Some (copyPass h, h)
  /\ commandBuffer (copyPass h) = cb.
Proof.
  intros Hw Hl. destruct (Hw _ _ Hl) as (_ & _ & E & _). cbn.
  rewrite Hl. cbn. rewrite E, Hl. done.
Qed.

(** Rewrites the dereference of a pass handle of the command buffer whose
    header is known. *)
Ltac deref_passes Hw Hl :=
  let E := fresh "E" in
  try (destruct (RENDERPASS_ok _ _ _ Hw Hl) as [-> E]; try rewrite E);
  try (destruct (COMPUTEPASS_ok _ _ _ Hw Hl) as [-> E]; try rewrite E);
  try (destruct (COPYPASS_ok _ _ _ Hw Hl) as [-> E]; try rewrite E).

Section FrontEnd_state_machine.

Variable MAX_COLOR_TARGET_BINDINGS : Z.

Lemma world_ok_empty : world_ok empty_world.
Proof. intros cb h H. cbn in H. by rewrite lookup_empty in H. Qed.

Lemma world_ok_diag d w : world_ok w -> world_ok (diag d w).
Proof. done. Qed.

Lemma world_ok_delegate c w : world_ok w -> world_ok (delegate c w).
Proof. done. Qed.

Lemma world_ok_store cb h w :
  world_ok w -> header_ok cb h -> world_ok (store cb h w).
Proof.
  intros Hw Hh cb' h'. cbn. rewrite lookup_insert.
  case_decide; [ intros [= <-]; by subst | apply Hw ].
Qed.

Lemma failing_frame condition msg st :
  buffers (failing condition msg st).1 = buffers st.1
  /\ calls (failing condition msg st).1 = calls st.1.
Proof. unfold failing. by destruct condition. Qed.

(** The validation of a blit only raises assertions. *)
Lemma blit_checks_frame srcHeader dstHeader w :
  buffers (blit_checks srcHeader dstHeader w).1 = buffers w
  /\ calls (blit_checks srcHeader dstHeader w).1 = calls w.
Proof.
  unfold blit_checks.
  repeat match goal with
         | |- context [failing ?c ?m ?st] =>
             let Hb := fresh in let Hc := fresh in
             destruct (failing_frame c m st) as [Hb Hc];
             rewrite Hb, Hc; clear Hb Hc
         end.
  done.
Qed.

Lemma world_ok_blit_checks srcHeader dstHeader w w' failed :
  blit_checks srcHeader dstHeader w = (w', failed) -> world_ok w -> world_ok w'.
Proof.
  intros E Hw cb h Hl. apply (Hw cb h).
  rewrite <- (proj1 (blit_checks_frame srcHeader dstHeader w)), E. exact Hl.
Qed.

Lemma header_ok_flags cb h h' :
  header_ok cb h ->
  commandBuffer (renderPass h') = commandBuffer (renderPass h) ->
  commandBuffer (computePass h') = commandBuffer (computePass h) ->
  commandBuffer (copyPass h') = commandBuffer (copyPass h) ->
  (debugMode (device h') = true ->
   debugMode (device h) = true
   /\ at_most_one_pass h' = true
   /\ (submitted h' = true -> CHECK_ANY_PASS_IN_PROGRESS h' = false)) ->
  header_ok cb h'.
Proof.
  intros (H1 & H2 & H3 & H4) E1 E2 E3 H.
  split; [congruence|]. split; [congruence|]. split; [congruence|].
  intros Hd. destruct (H Hd) as (? & ? & ?). auto.
Qed.

Lemma api_preserves_world_ok w c :
  world_ok w -> world_ok (fst (api MAX_COLOR_TARGET_BINDINGS w c)).
Proof.
  intros Hw.
  destruct c; cbn [api].
  all: unfold_entry_points.
  all: split_paths; cbn [fst]; use_pass_lookup; subst.
  all: repeat first [ apply world_ok_diag | apply world_ok_delegate
                    | apply world_ok_store
                    | eapply world_ok_blit_checks; [eassumption|] ];
    try assumption.
  all: try match goal with
           | H : buffers _ !! ?cb = Some ?h |- header_ok ?cb _ =>
               apply (header_ok_flags cb h); [ by apply Hw | done.. | ]
           end.
  all: try (repeat split; done).
  all: cbn [device set_renderPass set_computePass set_copyPass set_submitted
              set_graphicsPipelineBound set_computePipelineBound];
    intros Hd; split; [done|];
    match goal with
    | H : buffers _ !! _ = Some ?h |- context [?h] =>
        destruct (Hw _ _ H) as (_ & _ & _ & Hh); destruct (Hh Hd) as [Ha Hs];
        clear Hh
    end;
    unfold at_most_one_pass, CHECK_ANY_PASS_IN_PROGRESS, CHECK_COMMAND_BUFFER in *;
    cbn in *;
    try rewrite Hd in *; cbn in *;
    repeat match goal with
           | H : context [inProgress ?p] |- _ => destruct (inProgress p); cbn in *
           end;
    repeat match goal with
           | H : context [submitted ?p] |- _ => destruct (submitted p); cbn in *
           end;
    try done; intuition congruence.
Qed.

Lemma begin_refused_in_debug w cb h c k :
  buffers w !! cb = Some h -> debugMode (device h) = true ->
  CHECK_ANY_PASS_IN_PROGRESS h = true ->
  begin_kind c = Some k -> pass_call_target c = Some cb ->
  snd (api MAX_COLOR_TARGET_BINDINGS w c) = Returns_pointer false
  /\ buffers (fst (api MAX_COLOR_TARGET_BINDINGS w c)) = buffers w
  /\ calls (fst (api MAX_COLOR_TARGET_BINDINGS w c)) = calls w.
Proof.
  intros Hl Hd Hp Hk Ht.
  destruct c; try discriminate Hk; cbn in Ht; subst; cbn [api];
    unfold_entry_points; rewrite ?Hl, ?Hd, ?Hp; cbn;
    split_paths; done.
Qed.

Lemma begin_sets_own_flag w cb h c k :
  buffers w !! cb = Some h ->
  begin_kind c = Some k -> pass_call_target c = Some cb ->
  snd (api MAX_COLOR_TARGET_BINDINGS w c) = Returns_pointer true ->
  exists h', buffers (fst (api MAX_COLOR_TARGET_BINDINGS w c)) !! cb = Some h'
             /\ pass_flag k h' = true
             /\ forall k', k' <> k -> pass_flag k' h' = pass_flag k' h.
Proof.
  intros Hl Hk Ht.
  destruct c; try discriminate Hk; cbn in Ht; subst; cbn [api];
    injection Hk as <-;
    unfold_entry_points; rewrite ?Hl; cbn;
    split_paths; cbn; try discriminate; intros _;
    (eexists; split; [apply lookup_insert_eq|]; split; [done|]);
    intros [] ?; done.
Qed.

Lemma end_clears_own_flag w cb h c k :
  world_ok w -> buffers w !! cb = Some h ->
  end_kind c = Some k -> pass_call_target c = Some cb ->
  exists h', buffers (fst (api MAX_COLOR_TARGET_BINDINGS w c)) !! cb = Some h'
             /\ pass_flag k h' = false
             /\ forall k', k' <> k -> pass_flag k' h' = pass_flag k' h.
Proof.
  intros Hw Hl Hk Ht.
  destruct c; try discriminate Hk; cbn in Ht; injection Hk as <-.
  all: match goal with
       | H : match ?p with Some _ => _ | None => _ end = Some _ |- _ =>
           destruct p as [[o]|]; [injection H as ->|discriminate H]
       end.
  all: cbn [api]; unfold_entry_points; deref_passes Hw Hl.
  all: split_paths; cbn.
  all: try (eexists; split; [apply lookup_insert_eq|]; split; [done|]; intros [] ?; done).
  all: exists h; split; [done|]; split; [|done].
  all: cbn; match goal with
            | H : _ && negb ?b = true |- ?b = false =>
                apply andb_prop in H; destruct H as [_ H]; by destruct b
            end.
Qed.

Lemma run_preserves_world_ok cs : forall w,
  world_ok w -> world_ok (run MAX_COLOR_TARGET_BINDINGS w cs).
Proof.
  induction cs as [|c cs IH]; intros w Hw; cbn; [done|].
  apply IH. by apply api_preserves_world_ok.
Qed.

Lemma reachable_world_ok cs : world_ok (run MAX_COLOR_TARGET_BINDINGS empty_world cs).
Proof. apply run_preserves_world_ok, world_ok_empty. Qed.

End FrontEnd_state_machine.

(** ** C1 *)

Section C1.

(** C1, as stated, fails: on a device that is not in debug mode
    [SDL_GpuBeginComputePass] succeeds inside a render pass and the header
    then has two pass-in-progress flags set. *)
Lemma C1_nested_passes_without_debug :
  snd (api 4 (run 4 empty_world
                [ Call_AcquireCommandBuffer (Some (example_device false));
                  Call_BeginRenderPass (Some 0%nat) None 0 None ])
         (Call_BeginComputePass (Some 0%nat) None 0 None 0))
  = Returns_pointer true
  /\ at_most_one_pass
       <$> (buffers (run 4 empty_world (nested_passes false)) !! 0%nat)
     = Some false.
Proof. split; vm_compute; reflexivity. Qed.

(** C1 (amended): on a device in debug mode, every command buffer reached
    through the public entry points has at most one pass-in-progress flag
    set; a begin-pass call on it refuses (returns NULL, leaves the headers
    alone) while a pass is in progress and, when it succeeds, sets its own
    flag and no other; an end-pass call leaves its own flag cleared and
    the other two unchanged. *)
Theorem C1_at_most_one_pass_in_debug_mode
    (MAX_COLOR_TARGET_BINDINGS : Z) (cs : list ApiCall)
    (cb : CommandBufferId) (h : CommandBufferCommonHeader) :
  buffers (run MAX_COLOR_TARGET_BINDINGS empty_world cs) !! cb = Some h ->
  debugMode (device h) = true ->
  at_most_one_pass h = true
  /\ (forall c k,
        begin_kind c = Some k -> pass_call_target c = Some cb ->
        (CHECK_ANY_PASS_IN_PROGRESS h = true ->
         snd (api MAX_COLOR_TARGET_BINDINGS
                (run MAX_COLOR_TARGET_BINDINGS empty_world cs) c)
         = Returns_pointer false
         /\ buffers (fst (api MAX_COLOR_TARGET_BINDINGS
                            (run MAX_COLOR_TARGET_BINDINGS empty_world cs) c))
            = buffers (run MAX_COLOR_TARGET_BINDINGS empty_world cs))
        /\ (snd (api MAX_COLOR_TARGET_BINDINGS
                   (run MAX_COLOR_TARGET_BINDINGS empty_world cs) c)
            = Returns_pointer true ->
            exists h',
              buffers (fst (api MAX_COLOR_TARGET_BINDINGS
                              (run MAX_COLOR_TARGET_BINDINGS empty_world cs) c))
                !! cb = Some h'
              /\ pass_flag k h' = true
              /\ forall k', k' <> k -> pass_flag k' h' = pass_flag k' h))
  /\ (forall c k,
        end_kind c = Some k -> pass_call_target c = Some cb ->
        exists h',
          buffers (fst (api MAX_COLOR_TARGET_BINDINGS
                          (run MAX_COLOR_TARGET_BINDINGS empty_world cs) c))
            !! cb = Some h'
          /\ pass_flag k h' = false
          /\ forall k', k' <> k -> pass_flag k' h' = pass_flag k' h).
Proof.
  intros Hl Hd.
  pose proof (reachable_world_ok MAX_COLOR_TARGET_BINDINGS cs) as Hw.
  split; [|split].
  - destruct (Hw _ _ Hl) as (_ & _ & _ & Hh). by destruct (Hh Hd).
  - intros c k Hk Ht. split.
    + intros Hp.
      destruct (begin_refused_in_debug MAX_COLOR_TARGET_BINDINGS _ _ _ _ _
                  Hl Hd Hp Hk Ht) as (? & ? & _).
      done.
    + by apply begin_sets_own_flag.
  - intros c k Hk Ht. by apply end_clears_own_flag.
Qed.

Lemma C1_at_most_one_pass_in_debug_mode_witness :
  buffers (run 4 empty_world [Call_AcquireCommandBuffer (Some (example_device true))])
    !! 0%nat = Some (acquired_header true false)
  /\ debugMode (device (acquired_header true false)) = true
  /\ at_most_one_pass (acquired_header true false) = true.
Proof.
  split; [vm_compute; reflexivity|]. split; [reflexivity|].
  exact (proj1 (C1_at_most_one_pass_in_debug_mode 4
                  [Call_AcquireCommandBuffer (Some (example_device true))]
                  0%nat (acquired_header true false) eq_refl eq_refl)).
Defined.

End C1.

(** ** C2 *)

Section C2.

(** C2, as stated, fails.  Without debug mode a submitted command buffer
    still begins a render pass: the call returns a pass and sets the flag.
    In debug mode [SDL_GpuBindGraphicsPipeline], which carries no check, is
    delegated and sets [graphicsPipelineBound]. *)
Lemma C2_submitted_buffer_still_mutated :
  (snd (api 4 (run 4 empty_world (use_after_submit false))
          (Call_BeginRenderPass (Some 0%nat) None 0 None))
   = Returns_pointer true
   /\ (inProgress ∘ renderPass)
        <$> (buffers (fst (api 4 (run 4 empty_world (use_after_submit false))
                             (Call_BeginRenderPass (Some 0%nat) None 0 None)))
               !! 0%nat)
      = Some true)
  /\ (submitted <$> (buffers (run 4 empty_world (use_after_submit true)) !! 0%nat)
      = Some true
      /\ graphicsPipelineBound
           <$> (buffers (fst (api 4 (run 4 empty_world (use_after_submit true))
                                (Call_BindGraphicsPipeline
                                   (Some (RenderPassOf 0%nat)) (Some 7%nat))))
                  !! 0%nat)
         = Some true
      /\ calls (fst (api 4 (run 4 empty_world (use_after_submit true))
                       (Call_BindGraphicsPipeline
                          (Some (RenderPassOf 0%nat)) (Some 7%nat))))
         = calls (run 4 empty_world (use_after_submit true))
             ++ [BE_BindGraphicsPipeline 0%nat 7%nat]).
Proof. repeat split; vm_compute; reflexivity. Qed.

(** C2 (amended): on a device in debug mode, a begin-pass, end-pass, draw,
    dispatch or bind call other than [SDL_GpuBindGraphicsPipeline] on a
    submitted command buffer returns its sentinel, changes no header and
    delegates nothing. *)
Theorem C2_submitted_is_inert_in_debug_mode
    (MAX_COLOR_TARGET_BINDINGS : Z) (cs : list ApiCall)
    (cb : CommandBufferId) (h : CommandBufferCommonHeader) (c : ApiCall) :
  buffers (run MAX_COLOR_TARGET_BINDINGS empty_world cs) !! cb = Some h ->
  debugMode (device h) = true ->
  submitted h = true ->
  pass_call_target c = Some cb ->
  is_BindGraphicsPipeline c = false ->
  is_sentinel (snd (api MAX_COLOR_TARGET_BINDINGS
                      (run MAX_COLOR_TARGET_BINDINGS empty_world cs) c)) = true
  /\ buffers (fst (api MAX_COLOR_TARGET_BINDINGS
                     (run MAX_COLOR_TARGET_BINDINGS empty_world cs) c))
     = buffers (run MAX_COLOR_TARGET_BINDINGS empty_world cs)
  /\ calls (fst (api MAX_COLOR_TARGET_BINDINGS
                   (run MAX_COLOR_TARGET_BINDINGS empty_world cs) c))
     = calls (run MAX_COLOR_TARGET_BINDINGS empty_world cs).
Proof.
  pose proof (reachable_world_ok MAX_COLOR_TARGET_BINDINGS cs) as Hw.
  generalize dependent (run MAX_COLOR_TARGET_BINDINGS empty_world cs).
  intros w Hw Hl Hd Hs Ht Hb.
  destruct (Hw _ _ Hl) as (_ & _ & _ & Hh).
  destruct (Hh Hd) as [_ Hnone]. specialize (Hnone Hs).
  unfold CHECK_ANY_PASS_IN_PROGRESS in Hnone.
  apply orb_false_elim in Hnone as [Hnone Hy].
  apply orb_false_elim in Hnone as [Hr Hc].
  destruct c; try discriminate Ht; try discriminate Hb; cbn in Ht.
  all: try match goal with
       | H : match ?p with Some _ => _ | None => _ end = Some _ |- _ =>
           destruct p as [[o]|]; [injection H as ->|discriminate H]
       end.
  all: subst; cbn [api]; unfold_entry_points; deref_passes Hw Hl.
  all: rewrite ?Hl, ?Hd, ?Hr, ?Hc, ?Hy; unfold CHECK_COMMAND_BUFFER;
    rewrite ?Hs; cbn.
  all: split_paths; done.
Qed.

Lemma C2_submitted_is_inert_in_debug_mode_witness :
  buffers (run 4 empty_world (use_after_submit true)) !! 0%nat
  = Some (acquired_header true true)
  /\ debugMode (device (acquired_header true true)) = true
  /\ submitted (acquired_header true true) = true
  /\ pass_call_target (Call_DrawPrimitives (Some (RenderPassOf 0%nat)) 0 3)
     = Some 0%nat
  /\ is_BindGraphicsPipeline (Call_DrawPrimitives (Some (RenderPassOf 0%nat)) 0 3)
     = false
  /\ calls (fst (api 4 (run 4 empty_world (use_after_submit true))
                   (Call_DrawPrimitives (Some (RenderPassOf 0%nat)) 0 3)))
     = calls (run 4 empty_world (use_after_submit true)).
Proof.
  split; [vm_compute; reflexivity|]. repeat (split; [reflexivity|]).
  exact (proj2 (proj2 (C2_submitted_is_inert_in_debug_mode 4
                         (use_after_submit true) 0%nat (acquired_header true true)
                         (Call_DrawPrimitives (Some (RenderPassOf 0%nat)) 0 3)
                         eq_refl eq_refl eq_refl eq_refl eq_refl))).
Defined.

End C2.

(** ** C3 *)

Section C3.




End C3.

(** ** C7 *)

Section C7.

Lemma create_on_selected_Some backends selected debug preferLowPower props dev :
  create_on_selected backends selected debug preferLowPower props = Some dev ->
  exists bk result,
    bk ∈ backends
    /\ backendflag bk = selected
    /\ CreateDevice bk debug preferLowPower props = Some result
    /\ dev = set_device_identity bk debug result.
Proof.
  induction backends as [|bk rest IH]; cbn; [done|].
  case_decide as Hflag.
  - destruct (CreateDevice bk debug preferLowPower props) as [result|] eqn:Hc.
    + intros [= <-]. exists bk, result. split; [left|]; done.
    + intros H. destruct (IH H) as (bk' & result & Hin & ?).
      exists bk', result. split; [by right|done].
  - intros H. destruct (IH H) as (bk' & result & Hin & ?).
    exists bk', result. split; [by right|done].
Qed.

(** C7, as stated, fails: asked for DXBC only, the device built on a back
    end that supports DXBC and DXIL stores both formats, not the
    intersection with the request. *)
Lemma C7_stores_supported_formats_not_intersection :
  shaderFormats
    <$> fst (SDL_GpuCreateDevice example_backends (Some 0%nat) None
               SDL_GPU_SHADERFORMAT_DXBC true false None)
  = Some 12
  /\ Z.land SDL_GPU_SHADERFORMAT_DXBC
       (Z.lor SDL_GPU_SHADERFORMAT_DXBC SDL_GPU_SHADERFORMAT_DXIL) = 4.
Proof. split; vm_compute; reflexivity. Qed.

(** C7 (amended): a successfully constructed device stores the identifier
    of the selected back end, that back end's whole set of supported
    shader formats, and the debug flag read from the properties. *)
Theorem C7_device_identity
    (backends : list SDL_GpuBootstrap) (video : option SDL_VideoDevice)
    (hint : option string) (props : SDL_Properties)
    (dev : SDL_GpuDevice) (diags : list Diagnostic) :
  SDL_GpuCreateDeviceWithProperties backends video hint props = (Some dev, diags) ->
  exists (_this : SDL_VideoDevice) (bk : SDL_GpuBootstrap),
    video = Some _this
    /\ bk ∈ backends
    /\ backendflag bk
       = fst (SDL_GpuSelectBackend backends _this
                (match hint with
                 | Some name => Some name
                 | None => SDL_GetStringProperty props
                             "SDL_PROP_GPU_CREATEDEVICE_NAME_STRING" None
                 end)
                (requested_formatFlags props))
    /\ backend dev = backendflag bk
    /\ shaderFormats dev = bootstrap_shaderFormats bk
    /\ debugMode dev
       = SDL_GetBooleanProperty props "SDL_PROP_GPU_CREATEDEVICE_DEBUGMODE_BOOL" true.
Proof.
  unfold SDL_GpuCreateDeviceWithProperties.
  destruct video as [_this|]; [|done].
  destruct (SDL_GpuSelectBackend backends _this _ _) as [selected ds] eqn:Hsel.
  case_decide as Hinv; [done|].
  intros [= Hc <-].
  destruct (create_on_selected_Some _ _ _ _ _ _ Hc) as (bk & result & Hin & Hf & _ & ->).
  exists _this, bk. cbn. by rewrite Hsel.
Qed.

Lemma C7_device_identity_witness :
  SDL_GpuCreateDeviceWithProperties example_backends (Some 0%nat) None
    (SDL_SetBooleanProperty ∅ "SDL_PROP_GPU_CREATEDEVICE_SHADERS_DXBC_BOOL" true)
  = (Some (set_device_identity
             {| Name := "D3D12";
                backendflag := SDL_GPU_DRIVER_D3D12;
                bootstrap_shaderFormats := 12;
                PrepareDriver := fun _ => true;
                CreateDevice := fun debug _ _ => Some (example_device debug) |}
             true (example_device true)), [])
  /\ exists (_this : SDL_VideoDevice) (bk : SDL_GpuBootstrap),
       Some 0%nat = Some _this
       /\ bk ∈ example_backends
       /\ backendflag bk
          = fst (SDL_GpuSelectBackend example_backends _this
                   (SDL_GetStringProperty
                      (SDL_SetBooleanProperty ∅
                         "SDL_PROP_GPU_CREATEDEVICE_SHADERS_DXBC_BOOL" true)
                      "SDL_PROP_GPU_CREATEDEVICE_NAME_STRING" None)
                   (requested_formatFlags
                      (SDL_SetBooleanProperty ∅
                         "SDL_PROP_GPU_CREATEDEVICE_SHADERS_DXBC_BOOL" true)))
       /\ backend (set_device_identity
                     {| Name := "D3D12";
                        backendflag := SDL_GPU_DRIVER_D3D12;
                        bootstrap_shaderFormats := 12;
                        PrepareDriver := fun _ => true;
                        CreateDevice := fun debug _ _ => Some (example_device debug) |}
                     true (example_device true)) = backendflag bk
       /\ shaderFormats (set_device_identity
                     {| Name := "D3D12";
                        backendflag := SDL_GPU_DRIVER_D3D12;
                        bootstrap_shaderFormats := 12;
                        PrepareDriver := fun _ => true;
                        CreateDevice := fun debug _ _ => Some (example_device debug) |}
                     true (example_device true)) = bootstrap_shaderFormats bk
       /\ debugMode (set_device_identity
                     {| Name := "D3D12";
                        backendflag := SDL_GPU_DRIVER_D3D12;
                        bootstrap_shaderFormats := 12;
                        PrepareDriver := fun _ => true;
                        CreateDevice := fun debug _ _ => Some (example_device debug) |}
                     true (example_device true))
          = SDL_GetBooleanProperty
              (SDL_SetBooleanProperty ∅
                 "SDL_PROP_GPU_CREATEDEVICE_SHADERS_DXBC_BOOL" true)
              "SDL_PROP_GPU_CREATEDEVICE_DEBUGMODE_BOOL" true.
Proof.
  split; [vm_compute; reflexivity|].
  apply (C7_device_identity example_backends (Some 0%nat) None
           (SDL_SetBooleanProperty ∅ "SDL_PROP_GPU_CREATEDEVICE_SHADERS_DXBC_BOOL" true)
           _ []).
  vm_compute; reflexivity.
Defined.

End C7.

(** ** C10 *)

Section C10.

(** C10: [SDL_GpuCreateGraphicsPipeline] overwrites the depth-stencil format
    of the caller's create-info exactly when a depth-stencil attachment is
    requested and the device does not support its format as a 2D
    depth-stencil target.  The record the caller is left with then holds the
    paired fallback in [depthStencilFormat] (D24_UNORM and D32_SFLOAT are
    exchanged, D24_UNORM_S8_UINT and D32_SFLOAT_S8_UINT are exchanged, any
    other format becomes D16_UNORM) and the caller's values in every other
    field; the call logs a warning and nothing else, and the back end is
    handed the overwritten record.  In every other case the record is
    unchanged. *)
Theorem C10_create_info_overwritten_in_place
    (w : World) (device : option SDL_GpuDevice) (ci : GraphicsPipelineCreateInfo) :
  let unsupported dev :=
    hasDepthStencilAttachment (attachmentInfo ci)
    && negb (SupportsTextureFormat dev (depthStencilFormat (attachmentInfo ci))
               SDL_GPU_TEXTURETYPE_2D
               SDL_GPU_TEXTUREUSAGE_DEPTH_STENCIL_TARGET_BIT) in
  let old := depthStencilFormat (attachmentInfo ci) in
  forall w' ci' pipeline,
    SDL_GpuCreateGraphicsPipeline w device (Some ci) = (w', ci', pipeline) ->
    match device with
    | None => ci' = Some ci /\ calls w' = calls w
    | Some dev =>
      if unsupported dev then
        exists newFormat overwritten,
          ci' = Some overwritten
          /\ overwritten = set_depthStencilFormat newFormat ci
          /\ depthStencilFormat (attachmentInfo overwritten) = newFormat
          /\ newFormat
             = match old with
               | SDL_GPU_TEXTUREFORMAT_D24_UNORM => SDL_GPU_TEXTUREFORMAT_D32_SFLOAT
               | SDL_GPU_TEXTUREFORMAT_D32_SFLOAT => SDL_GPU_TEXTUREFORMAT_D24_UNORM
               | SDL_GPU_TEXTUREFORMAT_D24_UNORM_S8_UINT =>
                   SDL_GPU_TEXTUREFORMAT_D32_SFLOAT_S8_UINT
               | SDL_GPU_TEXTUREFORMAT_D32_SFLOAT_S8_UINT =>
                   SDL_GPU_TEXTUREFORMAT_D24_UNORM_S8_UINT
               | _ => SDL_GPU_TEXTUREFORMAT_D16_UNORM
               end
          /\ (vertexShader overwritten = vertexShader ci
              /\ fragmentShader overwritten = fragmentShader ci
              /\ primitiveType overwritten = primitiveType ci
              /\ frontFace overwritten = frontFace ci
              /\ fixedFunctionState overwritten = fixedFunctionState ci
              /\ depthStencilReference overwritten = depthStencilReference ci
              /\ blendConstants overwritten = blendConstants ci
              /\ colorAttachmentCount (attachmentInfo overwritten)
                 = colorAttachmentCount (attachmentInfo ci)
              /\ hasDepthStencilAttachment (attachmentInfo overwritten)
                 = hasDepthStencilAttachment (attachmentInfo ci))
          /\ (old = SDL_GPU_TEXTUREFORMAT_D24_UNORM ->
              newFormat = SDL_GPU_TEXTUREFORMAT_D32_SFLOAT)
          /\ (old = SDL_GPU_TEXTUREFORMAT_D32_SFLOAT ->
              newFormat = SDL_GPU_TEXTUREFORMAT_D24_UNORM)
          /\ (old = SDL_GPU_TEXTUREFORMAT_D24_UNORM_S8_UINT ->
              newFormat = SDL_GPU_TEXTUREFORMAT_D32_SFLOAT_S8_UINT)
          /\ (old = SDL_GPU_TEXTUREFORMAT_D32_SFLOAT_S8_UINT ->
              newFormat = SDL_GPU_TEXTUREFORMAT_D24_UNORM_S8_UINT)
          /\ (old <> SDL_GPU_TEXTUREFORMAT_D24_UNORM ->
              old <> SDL_GPU_TEXTUREFORMAT_D32_SFLOAT ->
              old <> SDL_GPU_TEXTUREFORMAT_D24_UNORM_S8_UINT ->
              old <> SDL_GPU_TEXTUREFORMAT_D32_SFLOAT_S8_UINT ->
              newFormat = SDL_GPU_TEXTUREFORMAT_D16_UNORM)
          /\ log w'
             = log w ++ [SDL_LogWarn
                 "Requested unsupported depth format %d, falling back to format %d!"]
          /\ calls w' = calls w ++ [BE_CreateGraphicsPipeline overwritten]
          /\ pipeline = CreateGraphicsPipeline dev (calls w) overwritten
      else
        ci' = Some ci /\ log w' = log w
        /\ calls w' = calls w ++ [BE_CreateGraphicsPipeline ci]
        /\ pipeline = CreateGraphicsPipeline dev (calls w) ci
    end.
Proof.
  intros unsupported old w' ci' pipeline.
  unfold SDL_GpuCreateGraphicsPipeline.
  destruct device as [dev|]; [|by intros [= <- <- <-]].
  subst unsupported. cbn beta.
  destruct (hasDepthStencilAttachment (attachmentInfo ci) && _) eqn:Hu.
  - intros [= <- <- <-].
    exists (fallback_depth_format old), (set_depthStencilFormat (fallback_depth_format old) ci).
    subst old.
    repeat split; try done.
    all: try (intros ->; done).
    intros. by destruct (depthStencilFormat (attachmentInfo ci)).
  - by intros [= <- <- <-].
Qed.

Lemma C10_create_info_overwritten_in_place_witness :
  let ci : GraphicsPipelineCreateInfo :=
    {| vertexShader := Some 1%nat; fragmentShader := Some 2%nat;
       primitiveType := SDL_GPU_PRIMITIVETYPE_TRIANGLELIST;
       frontFace := SDL_GPU_FRONTFACE_CLOCKWISE;
       fixedFunctionState := 0; depthStencilReference := 0;
       attachmentInfo :=
         {| colorAttachmentCount := 1; hasDepthStencilAttachment := true;
            depthStencilFormat := SDL_GPU_TEXTUREFORMAT_D24_UNORM |};
       blendConstants := (0, 0, 0, 0) |} in
  exists overwritten,
    snd (fst (SDL_GpuCreateGraphicsPipeline empty_world
                (Some (example_device true)) (Some ci)))
    = Some overwritten
    /\ depthStencilFormat (attachmentInfo ci) = SDL_GPU_TEXTUREFORMAT_D24_UNORM
    /\ depthStencilFormat (attachmentInfo overwritten)
       = SDL_GPU_TEXTUREFORMAT_D32_SFLOAT
    /\ vertexShader overwritten = Some 1%nat
    /\ fragmentShader overwritten = Some 2%nat
    /\ colorAttachmentCount (attachmentInfo overwritten) = 1
    /\ hasDepthStencilAttachment (attachmentInfo overwritten) = true.
Proof.
  intros ci.
  destruct (SDL_GpuCreateGraphicsPipeline empty_world (Some (example_device true))
              (Some ci)) as [[w' ci'] pipeline] eqn:E.
  destruct (C10_create_info_overwritten_in_place empty_world
              (Some (example_device true)) ci w' ci' pipeline E)
    as (newFormat & overwritten & -> & _ & Hnew & -> & Hsame & _).
  destruct Hsame as (Hv & Hf & _ & _ & _ & _ & _ & Hc & Hd).
  exists overwritten. cbn [fst snd].
  repeat split; [exact Hnew|by rewrite Hv|by rewrite Hf|by rewrite Hc|by rewrite Hd].
Defined.

End C10.

(** ** C4 *)

Section C4.

Import D3D12.

Lemma define_descriptor_range_spec rangeType count params :
  Z.of_nat (length params) < MAX_ROOT_SIGNATURE_PARAMETERS ->
  define_descriptor_range rangeType count params
  = Some (params
            ++ (descriptor_table
                  <$> filter (fun category => 0 < snd category)
                        [(rangeType, count)])).
Proof.
  intros Hlen. unfold define_descriptor_range.
  rewrite filter_cons. cbn [snd]. rewrite filter_nil.
  destruct (Z.ltb_spec 0 count) as [Hpos|Hneg].
  - destruct (Z.leb_spec MAX_ROOT_SIGNATURE_PARAMETERS (Z.of_nat (length params)));
      [lia|].
    rewrite decide_True by done. reflexivity.
  - rewrite decide_False by lia. cbn. by rewrite app_nil_r.
Qed.

Lemma define_descriptor_range_length rangeType count params params' :
  define_descriptor_range rangeType count params = Some params' ->
  (length params' <= S (length params))%nat.
Proof.
  unfold define_descriptor_range.
  destruct (0 <? count); [|intros [= <-]; lia].
  destruct (_ <=? _); [done|]. intros [= <-]. rewrite length_app. cbn. lia.
Qed.

Lemma single_category_length (category : D3D12_DESCRIPTOR_RANGE_TYPE * Z) :
  (length (descriptor_table
             <$> filter (fun category => (0 < snd category)%Z) [category]) <= 1)%nat.
Proof.
  rewrite length_fmap, filter_cons, filter_nil. case_decide; cbn; lia.
Qed.

(** The four blocks never run out of root parameters and build the
    specified layout. *)
Lemma root_parameters_spec samplers uniforms storageBuffers storageTextures :
  root_parameters samplers uniforms storageBuffers storageTextures
  = Some (specified_layout uniforms storageBuffers storageTextures samplers).
Proof.
  unfold root_parameters, specified_layout.
  pose proof (single_category_length (D3D12_DESCRIPTOR_RANGE_TYPE_CBV, uniforms)) as H1.
  pose proof (single_category_length (D3D12_DESCRIPTOR_RANGE_TYPE_UAV, storageBuffers))
    as H2.
  pose proof (single_category_length (D3D12_DESCRIPTOR_RANGE_TYPE_UAV, storageTextures))
    as H3.
  rewrite (define_descriptor_range_spec _ _ [])
    by (cbn; unfold MAX_ROOT_SIGNATURE_PARAMETERS; lia).
  cbn [app].
  rewrite define_descriptor_range_spec
    by (unfold MAX_ROOT_SIGNATURE_PARAMETERS; lia).
  rewrite define_descriptor_range_spec
    by (rewrite length_app; unfold MAX_ROOT_SIGNATURE_PARAMETERS; lia).
  rewrite define_descriptor_range_spec
    by (rewrite !length_app; unfold MAX_ROOT_SIGNATURE_PARAMETERS; lia).
  f_equal.
  rewrite <- !fmap_app, <- !filter_app. reflexivity.
Qed.

(** C4: a graphics pipeline created from create-info [P] stores, per stage,
    the resource counts of [P]'s vertex and fragment shaders, and its root
    signature has one descriptor table per non-empty category, in the order
    CBV (uniforms), UAV (storage buffers), UAV (storage textures), SAMPLER,
    each sized by the larger of the two stages' counts. *)
Theorem C4_pipeline_counts_and_root_signature
    (s : State) (P : SDL_GpuGraphicsPipelineCreateInfo D3D12Shader)
    (s' : State) (pipeline : D3D12GraphicsPipeline) :
  D3D12_CreateGraphicsPipeline s P = (s', Some pipeline) ->
  (vertexSamplerCount pipeline = samplerCount (vertexShader P)
   /\ vertexUniformBufferCount pipeline = uniformBufferCount (vertexShader P)
   /\ vertexStorageBufferCount pipeline = storageBufferCount (vertexShader P)
   /\ vertexStorageTextureCount pipeline = storageTextureCount (vertexShader P)
   /\ fragmentSamplerCount pipeline = samplerCount (fragmentShader P)
   /\ fragmentUniformBufferCount pipeline = uniformBufferCount (fragmentShader P)
   /\ fragmentStorageBufferCount pipeline = storageBufferCount (fragmentShader P)
   /\ fragmentStorageTextureCount pipeline
      = storageTextureCount (fragmentShader P))
  /\ pParameters (signature_desc (rootSignature pipeline))
     = specified_layout
         (Z.max (uniformBufferCount (vertexShader P))
            (uniformBufferCount (fragmentShader P)))
         (Z.max (storageBufferCount (vertexShader P))
            (storageBufferCount (fragmentShader P)))
         (Z.max (storageTextureCount (vertexShader P))
            (storageTextureCount (fragmentShader P)))
         (Z.max (samplerCount (vertexShader P)) (samplerCount (fragmentShader P)))
  /\ NumParameters (signature_desc (rootSignature pipeline))
     = Z.of_nat (length (pParameters (signature_desc (rootSignature pipeline)))).
Proof.
  unfold D3D12_CreateGraphicsPipeline, D3D12_INTERNAL_CreateRootSignature.
  rewrite root_parameters_spec.
  destruct (negb (D3D12_INTERNAL_ConvertRasterizerState _)); [done|].
  destruct (D3D12SerializeRootSignature_func _ _) as [succeeded errorBlob].
  destruct (negb succeeded); [by destruct errorBlob|].
  destruct (negb (ID3D12Device_CreateRootSignature _ _)); [by destruct errorBlob|].
  destruct (ID3D12Device_CreateGraphicsPipelineState _ _); [|done].
  intros [= <- <-]. cbn. done.
Qed.

Lemma C4_pipeline_counts_and_root_signature_witness :
  D3D12_CreateGraphicsPipeline example_state example_create_info
  = (example_state,
     Some {| pipelineState := 1%nat;
             rootSignature :=
               {| signature_desc :=
                    {| NumParameters := 2;
                       pParameters := specified_layout 1 0 0 1;
                       NumStaticSamplers := 0;
                       Flags :=
                         D3D12_ROOT_SIGNATURE_FLAG_ALLOW_INPUT_ASSEMBLER_INPUT_LAYOUT |} |};
             pipeline_primitiveType := SDL_GPU_PRIMITIVETYPE_TRIANGLELIST;
             pipeline_blendConstants := (0, 0, 0, 0);
             stencilRef := 0;
             vertexSamplerCount := 0; vertexUniformBufferCount := 1;
             vertexStorageBufferCount := 0; vertexStorageTextureCount := 0;
             fragmentSamplerCount := 1; fragmentUniformBufferCount := 0;
             fragmentStorageBufferCount := 0; fragmentStorageTextureCount := 0 |})
  /\ specified_layout 1 0 0 1
     = specified_layout (Z.max 1 0) (Z.max 0 0) (Z.max 0 0) (Z.max 0 1).
Proof.
  split; [vm_compute; reflexivity|].
  exact (proj1 (proj2 (C4_pipeline_counts_and_root_signature example_state
                         example_create_info example_state _ eq_refl))).
Defined.

End C4.

(** ** C5 *)

Section C5.

Import D3D12.

Lemma omap_app {A B} (f : A -> option B) (l1 l2 : list A) :
  omap f (l1 ++ l2) = omap f l1 ++ omap f l2.
Proof.
  induction l1 as [|x l1 IH]; cbn; [done|]. rewrite IH. by destruct (f x).
Qed.

Lemma transition_color_attachments_clears infos : forall i s,
  recorded_clears (native (transition_color_attachments infos i s))
  = recorded_clears (native s)
      ++ ((fun info => (rtvHandle (texture (textureSlice info)), clearColor info))
            <$> infos).
Proof.
  induction infos as [|info rest IH]; intros i s; cbn [transition_color_attachments].
  - by rewrite app_nil_r.
  - rewrite IH. cbn. unfold recorded_clears. rewrite !omap_app. cbn.
    rewrite !app_nil_r, <- app_assoc. reflexivity.
Qed.

(** Whenever [D3D12_BeginRenderPass] accepts its attachments it records one
    clear per color attachment, with the attachment's clear color, without
    looking at [loadOp]. *)
Lemma BeginRenderPass_clears_every_attachment s infos count ds :
  errors (D3D12_BeginRenderPass s infos count ds) = errors s ->
  recorded_clears (native (D3D12_BeginRenderPass s infos count ds))
  = recorded_clears (native s)
      ++ ((fun info => (rtvHandle (texture (textureSlice info)), clearColor info))
            <$> take (Z.to_nat count) infos).
Proof.
  unfold D3D12_BeginRenderPass.
  destruct (color_attachments_extent _ _) as [fb|].
  2: { cbn. intros H. apply (f_equal length) in H. rewrite length_app in H.
       cbn in H. lia. }
  destruct (match ds with Some _ => _ | None => _ end) as [[fw fh]|].
  2: { cbn. intros H. apply (f_equal length) in H. rewrite length_app in H.
       cbn in H. lia. }
  intros _. unfold D3D12_SetScissor, D3D12_SetViewport. cbn [native record].
  unfold recorded_clears at 1. rewrite !omap_app. cbn. rewrite !app_nil_r.
  apply (transition_color_attachments_clears _ 0%nat
           (set_commandBuffer
              (set_attachments count (colorAttachmentTexture (commandBuffer s))
                 (commandBuffer s)) s)).
Qed.

Lemma color_attachments_extent_with_loadOp op infos : forall fb,
  color_attachments_extent (with_loadOp op <$> infos) fb
  = color_attachments_extent infos fb.
Proof.
  induction infos as [|info rest IH]; intros fb; cbn; [done|].
  destruct (negb (isRenderTarget (texture (textureSlice info)))); [done|].
  apply IH.
Qed.

Lemma transition_color_attachments_with_loadOp op infos : forall i s,
  transition_color_attachments (with_loadOp op <$> infos) i s
  = transition_color_attachments infos i s.
Proof.
  induction infos as [|info rest IH]; intros i s; cbn; [done|]. apply IH.
Qed.

(** [D3D12_BeginRenderPass] does not read [loadOp]. *)
Lemma BeginRenderPass_ignores_loadOp op s infos count ds :
  D3D12_BeginRenderPass s (with_loadOp op <$> infos) count ds
  = D3D12_BeginRenderPass s infos count ds.
Proof.
  unfold D3D12_BeginRenderPass. rewrite <- fmap_take.
  rewrite color_attachments_extent_with_loadOp.
  destruct (color_attachments_extent _ _) as [fb|]; [|done].
  destruct (match ds with Some _ => _ | None => _ end) as [[fw fh]|]; [|done].
  by rewrite transition_color_attachments_with_loadOp.
Qed.

(** C5, as stated, fails: with [loadOp = LOAD] the render-pass begin still
    records a clear of the attachment with the provided clear color. *)
Lemma C5_clear_recorded_with_loadOp_LOAD :
  loadOp (example_attachment SDL_GPU_LOADOP_LOAD) = SDL_GPU_LOADOP_LOAD
  /\ native (D3D12_BeginRenderPass example_state
               [example_attachment SDL_GPU_LOADOP_LOAD] 1 None)
     = [ ResourceBarrier 5%nat D3D12_RESOURCE_STATE_PRESENT
           D3D12_RESOURCE_STATE_RENDER_TARGET;
         OMSetRenderTargets 9;
         ClearRenderTargetView 9
           (clearColor (example_attachment SDL_GPU_LOADOP_LOAD));
         RSSetViewports (to_float 0) (to_float 0) (to_float 640) (to_float 480)
           (to_float 0) (to_float 1);
         RSSetScissorRects 0 0 640 480 ].
Proof. split; vm_compute; reflexivity. Qed.

(** C5 (amended): when [D3D12_BeginRenderPass] accepts its attachments it
    records exactly one clear per color attachment, in order, each with the
    clear color of its attachment, whatever the [loadOp] of the attachment
    is: the back end does not read [loadOp], and giving the attachments
    another [loadOp] changes nothing of what the call does. *)
Theorem C5_clear_recorded_whatever_loadOp
    (s : State) (infos : list D3D12ColorAttachmentInfo) (count : Z)
    (ds : option D3D12DepthStencilAttachmentInfo) :
  errors (D3D12_BeginRenderPass s infos count ds) = errors s ->
  recorded_clears (native (D3D12_BeginRenderPass s infos count ds))
  = recorded_clears (native s)
      ++ ((fun info => (rtvHandle (texture (textureSlice info)), clearColor info))
            <$> take (Z.to_nat count) infos)
  /\ forall op,
       D3D12_BeginRenderPass s (with_loadOp op <$> infos) count ds
       = D3D12_BeginRenderPass s infos count ds.
Proof.
  intros Herr. split.
  - by apply BeginRenderPass_clears_every_attachment.
  - intros op. apply BeginRenderPass_ignores_loadOp.
Qed.

Lemma C5_clear_recorded_whatever_loadOp_witness :
  errors (D3D12_BeginRenderPass example_state
            [example_attachment SDL_GPU_LOADOP_LOAD] 1 None)
  = errors example_state
  /\ recorded_clears
       (native (D3D12_BeginRenderPass example_state
                  [example_attachment SDL_GPU_LOADOP_LOAD] 1 None))
     = [(9, clearColor (example_attachment SDL_GPU_LOADOP_LOAD))].
Proof.
  split; [reflexivity|].
  exact (proj1 (C5_clear_recorded_whatever_loadOp example_state
                  [example_attachment SDL_GPU_LOADOP_LOAD] 1 None eq_refl)).
Defined.

End C5.

(** ** C6 *)

Section C6.

Import D3D12.

Variable UNIFORM_BUFFER_SIZE : Z.










(** On a renderer whose command buffer was just zeroed the used list has no
    slot: the first lease has to grow the array, where the model stops. *)
Lemma first_lease_grows_used_list :
  D3D12_BindGraphicsPipeline 32768 example_state example_pipeline = None.
Proof. vm_compute. reflexivity. Qed.



End C6.



(** ** The present cycle of the 2D renderer *)

Import Render.

Section Present_cycle.

Lemma acquired_app dev cs1 : forall history cs2,
  acquired dev history (cs1 ++ cs2)
  = acquired dev history cs1 ++ acquired dev (history ++ cs1) cs2.
Proof.
  induction cs1 as [|c cs1 IH]; intros history cs2; cbn.
  - by rewrite app_nil_r.
  - rewrite IH, <- (app_assoc history [c] cs1). cbn. by rewrite app_assoc.
Qed.

Lemma released_app cs1 cs2 : released (cs1 ++ cs2) = released cs1 ++ released cs2.
Proof.
  unfold released. induction cs1 as [|c cs1 IH]; [done|].
  cbn. destruct c; cbn; by rewrite ?IH.
Qed.

Lemma acquired_no_fence dev cs : forall history,
  forallb (negb ∘ is_fence_call) cs = true -> acquired dev history cs = [].
Proof.
  induction cs as [|c cs IH]; intros history H; [done|].
  cbn in H. apply andb_true_iff in H as [Hc H].
  cbn. rewrite IH by done. by destruct c.
Qed.

Lemma released_no_fence cs :
  forallb (negb ∘ is_fence_call) cs = true -> released cs = [].
Proof.
  induction cs as [|c cs IH]; intros H; [done|].
  cbn in H. apply andb_true_iff in H as [Hc H].
  unfold released in *. cbn. rewrite IH by done. by destruct c.
Qed.

Lemma acquired_fence_swap dev stored history :
  acquired dev history (fence_swap stored) = [].
Proof. by destruct stored. Qed.

Lemma released_fence_swap stored : released (fence_swap stored) = option_list stored.
Proof. by destruct stored. Qed.

Lemma present_balance dev cs cb stored f rest :
  acquired dev [] cs = released cs ++ option_list stored ->
  SubmitAndAcquireFence dev cs cb = Some f ->
  forallb (negb ∘ is_fence_call) rest = true ->
  acquired dev []
    (cs ++ BE_SubmitAndAcquireFence cb
        :: fence_swap stored ++ BE_AcquireCommandBuffer :: rest)
  = released (cs ++ BE_SubmitAndAcquireFence cb
                 :: fence_swap stored ++ BE_AcquireCommandBuffer :: rest)
    ++ [f].
Proof.
  intros Hbal Hf Hrest.
  rewrite acquired_app, released_app, Hbal. cbn [acquired app].
  rewrite Hf. cbn [option_list app].
  rewrite acquired_app, acquired_fence_swap. cbn [acquired app].
  rewrite (acquired_no_fence _ _ _ Hrest).
  change (released (BE_SubmitAndAcquireFence cb
                      :: fence_swap stored ++ BE_AcquireCommandBuffer :: rest))
    with (released (fence_swap stored ++ BE_AcquireCommandBuffer :: rest)).
  rewrite released_app, released_fence_swap.
  change (released (BE_AcquireCommandBuffer :: rest)) with (released rest).
  rewrite (released_no_fence _ Hrest).
  cbn. by rewrite !app_nil_r.
Qed.

(** One present: what it asks of the back end, and what it leaves. *)
Lemma GPU_RenderPresent_trace renderer w data dev :
  presenting w data dev ->
  exists cb f rest,
    command_buffer (state data) = Some cb
    /\ SubmitAndAcquireFence dev (calls w) cb = Some f
    /\ (GPU_RenderPresent renderer w data).2 = 0
    /\ present_fence (GPU_RenderPresent renderer w data).1.2 = Some f
    /\ calls (GPU_RenderPresent renderer w data).1.1
       = calls w ++ BE_SubmitAndAcquireFence cb
                 :: fence_swap (present_fence data)
                 ++ BE_AcquireCommandBuffer :: rest
    /\ forallb (negb ∘ is_fence_call) rest = true
    /\ presenting (GPU_RenderPresent renderer w data).1.1
         (GPU_RenderPresent renderer w data).1.2 dev.
Proof.
  intros (Hdev & Hcb & Hfence & Hbal & cb & h & Hc & Hl & <- & Hdebug).
  destruct (Hfence (calls w) cb) as [f Hf].
  exists cb, f.
  remember (GPU_RenderPresent renderer w data) as result eqn:Hr.
  unfold GPU_RenderPresent, SDL_GpuSubmitAndAcquireFence in Hr.
  rewrite Hc, Hl, Hdev, Hf in Hr.
  assert (debugMode (device h) && CHECK_COMMAND_BUFFER h = false) as Hsub.
  { unfold CHECK_COMMAND_BUFFER. destruct (debugMode (device h)); [|done].
    by destruct Hdebug as [-> _]. }
  assert (debugMode (device h)
          && (inProgress (renderPass h) || inProgress (computePass h)
              || inProgress (copyPass h)) = false) as Hpass.
  { destruct (debugMode (device h)); [|done].
    destruct Hdebug as [_ H]; [done|]. apply H. }
  rewrite Hsub, Hpass in Hr.
  unfold SDL_GpuWaitForFences, SDL_GpuReleaseFence, SDL_GpuAcquireCommandBuffer in Hr.
  cbn in Hr. rewrite Hdev in Hr.
  assert (exists w1,
    match present_fence data with
    | Some fence =>
      match present_fence data with
      | Some f0 =>
        delegate (BE_ReleaseFence f0)
          (delegate (BE_WaitForFences true (Some [fence]) 1)
             (delegate (BE_SubmitAndAcquireFence cb)
                (store cb (set_submitted true h) w)))
      | None =>
        delegate (BE_WaitForFences true (Some [fence]) 1)
          (delegate (BE_SubmitAndAcquireFence cb)
             (store cb (set_submitted true h) w))
      end
    | None => delegate (BE_SubmitAndAcquireFence cb) (store cb (set_submitted true h) w)
    end = w1
    /\ calls w1 = calls w ++ BE_SubmitAndAcquireFence cb
                          :: fence_swap (present_fence data))
    as (w1 & Ew1 & Hw1).
  { destruct (present_fence data); eexists; (split; [reflexivity|]); cbn;
      by rewrite <- ?app_assoc. }
  rewrite Ew1 in Hr. clear Ew1.
  destruct (Hcb (calls w1)) as [cb' Hcb']. rewrite Hcb' in Hr.
  unfold RenewSwapchain, SDL_GpuAcquireSwapchainTexture,
    SDL_GpuGetSwapchainTextureFormat in Hr.
  cbn in Hr. rewrite Hdev in Hr.
  assert (forall w' data' rest,
    result = (w', data', 0) ->
    calls w' = calls w1 ++ BE_AcquireCommandBuffer :: rest ->
    forallb (negb ∘ is_fence_call) rest = true ->
    rd_device data' = Some (device h) ->
    present_fence data' = Some f ->
    command_buffer (state data') = Some cb' ->
    (exists h', buffers w' !! cb' = Some h' /\ device h' = device h
                /\ submitted h' = false /\ CHECK_ANY_PASS_IN_PROGRESS h' = false) ->
    exists rest : list BackendCall,
      command_buffer (state data) = Some cb
      /\ SubmitAndAcquireFence (device h) (calls w) cb = Some f
      /\ result.2 = 0
      /\ present_fence result.1.2 = Some f
      /\ calls result.1.1
         = calls w ++ BE_SubmitAndAcquireFence cb
                   :: fence_swap (present_fence data)
                   ++ BE_AcquireCommandBuffer :: rest
      /\ forallb (negb ∘ is_fence_call) rest = true
      /\ presenting result.1.1 result.1.2 (device h)) as Hgoal.
  { intros w' data' rest -> Hcalls Hrest Hd' Hf' Hc' (h' & Hl' & Hdev' & Hs' & Hp').
    assert (calls w' = calls w ++ BE_SubmitAndAcquireFence cb
                       :: fence_swap (present_fence data)
                       ++ BE_AcquireCommandBuffer :: rest) as Hall.
    { rewrite Hcalls, Hw1, <- app_assoc. done. }
    exists rest. cbn. do 6 (split; [done|]).
    split; [done|]. split; [apply Hcb|]. split; [apply Hfence|].
    split; [rewrite Hall, Hf'; by apply present_balance|].
    exists cb', h'. by repeat split. }
  destruct (window renderer) as [win|]; cbn in Hr.
  - rewrite lookup_insert_eq in Hr. cbn in Hr. rewrite andb_false_r in Hr.
    destruct (AcquireSwapchainTexture _ _ _ _) as [[[tex|] width] height];
      cbn in Hr.
    + eapply (Hgoal _ _ [BE_AcquireSwapchainTexture cb' win;
                         BE_GetSwapchainTextureFormat win]);
        [exact Hr| | | | | |]; try done.
      * cbn. by rewrite <- !app_assoc.
      * eexists. split; [cbn; apply lookup_insert_eq|]. done.
    + eapply (Hgoal _ _ [BE_AcquireSwapchainTexture cb' win]);
        [exact Hr| | | | | |]; try done.
      * cbn. by rewrite <- !app_assoc.
      * eexists. split; [cbn; apply lookup_insert_eq|]. done.
  - eapply (Hgoal _ _ []); [exact Hr| | | | | |]; try done.
    eexists. split; [cbn; apply lookup_insert_eq|]. done.
Qed.

Lemma presents_S renderer n w data :
  presents renderer (S n) w data
  = (GPU_RenderPresent renderer (presents renderer n w data).1
       (presents renderer n w data).2).1.
Proof. cbn. by destruct (presents renderer n w data). Qed.

Lemma presents_presenting renderer dev n : forall w data,
  presenting w data dev ->
  presenting (presents renderer n w data).1 (presents renderer n w data).2 dev.
Proof.
  induction n as [|n IH]; intros w data H; [done|].
  rewrite presents_S.
  by destruct (GPU_RenderPresent_trace renderer _ _ dev (IH w data H))
    as (? & ? & ? & ? & ? & ? & ? & ? & ? & ?).
Qed.

(** C9 (present cycle).  Let the renderer be about to present on a device
    that hands out a command buffer and a fence whenever asked, and call
    frame N the (n+1)-th of a series of presents made back to back.  The
    present of frame N submits the current command buffer [cb1] and obtains
    the fence [f1], waits on and releases the fence stored before it, if
    any, stores [f1] and only then acquires the next command buffer.  After
    it the fences handed out and not yet released are exactly [f1].  The
    present of frame N+1 submits [cb2], then waits on [f1] and releases it,
    and only then acquires the command buffer in which frame N+2 is
    recorded; after it exactly one fence, [f2], is outstanding.  Nothing
    else in either present touches a fence. *)
Theorem C9_present_fence_rotation
    (renderer : SDL_Renderer) (w : World) (data : GPU_RenderData)
    (dev : SDL_GpuDevice) (n : nat) :
  presenting w data dev ->
  exists cb1 cb2 f1 f2 rest1 rest2,
    let s0 := presents renderer n w data in
    let s1 := presents renderer (S n) w data in
    let s2 := presents renderer (S (S n)) w data in
    command_buffer (state s0.2) = Some cb1
    /\ SubmitAndAcquireFence dev (calls s0.1) cb1 = Some f1
    /\ calls s1.1
       = calls s0.1 ++ BE_SubmitAndAcquireFence cb1
                    :: fence_swap (present_fence s0.2)
                    ++ BE_AcquireCommandBuffer :: rest1
    /\ present_fence s1.2 = Some f1
    /\ acquired dev [] (calls s1.1) = released (calls s1.1) ++ [f1]
    /\ command_buffer (state s1.2) = Some cb2
    /\ SubmitAndAcquireFence dev (calls s1.1) cb2 = Some f2
    /\ calls s2.1
       = calls s1.1 ++ BE_SubmitAndAcquireFence cb2
                    :: BE_WaitForFences true (Some [f1]) 1
                    :: BE_ReleaseFence f1
                    :: BE_AcquireCommandBuffer :: rest2
    /\ present_fence s2.2 = Some f2
    /\ acquired dev [] (calls s2.1) = released (calls s2.1) ++ [f2]
    /\ forallb (negb ∘ is_fence_call) (rest1 ++ rest2) = true.
Proof.
  intros H.
  pose proof (presents_presenting renderer dev n w data H) as H0.
  destruct (GPU_RenderPresent_trace renderer _ _ dev H0)
    as (cb1 & f1 & rest1 & Hc1 & Hf1 & _ & Hp1 & Hcalls1 & Hrest1 & H1).
  destruct (GPU_RenderPresent_trace renderer _ _ dev H1)
    as (cb2 & f2 & rest2 & Hc2 & Hf2 & _ & Hp2 & Hcalls2 & Hrest2 & H2).
  rewrite <- presents_S in Hc2, Hf2, Hp2, Hcalls2, H2, Hp1, Hcalls1, H1.
  rewrite <- presents_S in Hp2, Hcalls2, H2.
  exists cb1, cb2, f1, f2, rest1, rest2. cbn zeta.
  rewrite Hp1 in Hcalls2. cbn [fence_swap app] in Hcalls2.
  destruct H1 as (_ & _ & _ & Hbal1 & _). rewrite Hp1 in Hbal1.
  destruct H2 as (_ & _ & _ & Hbal2 & _). rewrite Hp2 in Hbal2.
  repeat split; try done.
  rewrite forallb_app. by rewrite Hrest1, Hrest2.
Qed.

(** Three frames presented back to back by the example renderer. *)
Lemma C9_present_fence_rotation_witness :
  exists cb1 cb2 f1 f2 rest1 rest2,
    let s0 := presents example_renderer 1 example_world example_data in
    let s1 := presents example_renderer 2 example_world example_data in
    let s2 := presents example_renderer 3 example_world example_data in
    command_buffer (state s0.2) = Some cb1
    /\ SubmitAndAcquireFence (example_device true) (calls s0.1) cb1 = Some f1
    /\ calls s1.1
       = calls s0.1 ++ BE_SubmitAndAcquireFence cb1
                    :: fence_swap (present_fence s0.2)
                    ++ BE_AcquireCommandBuffer :: rest1
    /\ present_fence s1.2 = Some f1
    /\ acquired (example_device true) [] (calls s1.1)
       = released (calls s1.1) ++ [f1]
    /\ command_buffer (state s1.2) = Some cb2
    /\ SubmitAndAcquireFence (example_device true) (calls s1.1) cb2 = Some f2
    /\ calls s2.1
       = calls s1.1 ++ BE_SubmitAndAcquireFence cb2
                    :: BE_WaitForFences true (Some [f1]) 1
                    :: BE_ReleaseFence f1
                    :: BE_AcquireCommandBuffer :: rest2
    /\ present_fence s2.2 = Some f2
    /\ acquired (example_device true) [] (calls s2.1)
       = released (calls s2.1) ++ [f2]
    /\ forallb (negb ∘ is_fence_call) (rest1 ++ rest2) = true.
Proof.
  apply (C9_present_fence_rotation example_renderer example_world example_data
           (example_device true) 1).
  split; [reflexivity|].
  split; [intros history; exists 0%nat; reflexivity|].
  split; [intros history cb; exists (length history); reflexivity|].
  split; [reflexivity|].
  exists 0%nat, (acquired_header true false).
  repeat split; reflexivity.
Defined.

End Present_cycle.

(** ** The command queue of the 2D renderer *)

Section Command_queue.

Variable MAX_COLOR_TARGET_BINDINGS : Z.
Hypothesis one_color_target : 1 <= MAX_COLOR_TARGET_BINDINGS.

Lemma live_buffers w w' cb open :
  buffers w' = buffers w -> live w cb open -> live w' cb open.
Proof. intros E (h & Hl & H). exists h. by rewrite E. Qed.

Lemma live_RENDERPASS w cb open :
  live w cb open ->
  exists h, RENDERPASS w (RenderPassOf cb) = Some (renderPass h, h)
            /\ buffers w !! cb = Some h
            /\ commandBuffer (renderPass h) = cb
            /\ (debugMode (device h) = true -> inProgress (renderPass h) = open).
Proof.
  intros (h & Hl & Hb & _ & Hd). exists h. unfold RENDERPASS.
  rewrite Hl. cbn. rewrite Hb, Hl. cbn. repeat split; try done.
  intros Ht. by destruct (Hd Ht) as (_ & _ & _ & ?).
Qed.

Lemma draws_delegate c w :
  draws (delegate c w) = draws w ++ (if is_draw_call c then [c] else []).
Proof.
  unfold draws. cbn. rewrite filter_app. f_equal.
  unfold filter; cbn. by destruct (is_draw_call c).
Qed.

Lemma draws_diag d w : draws (diag d w) = draws w.
Proof. done. Qed.

Lemma draws_store cb h w : draws (store cb h w) = draws w.
Proof. done. Qed.

Ltac quiet_entry :=
  repeat case_match;
  rewrite ?draws_delegate, ?draws_diag, ?draws_store; cbn;
  rewrite ?app_nil_r; done.

(** The entry points the renderer uses that neither draw nor change a
    command buffer. *)
Lemma SDL_GpuSetViewport_quiet w rp vp :
  buffers (SDL_GpuSetViewport w rp vp) = buffers w
  /\ draws (SDL_GpuSetViewport w rp vp) = draws w.
Proof. unfold SDL_GpuSetViewport. quiet_entry. Qed.

Lemma SDL_GpuSetScissor_quiet w rp sc :
  buffers (SDL_GpuSetScissor w rp sc) = buffers w
  /\ draws (SDL_GpuSetScissor w rp sc) = draws w.
Proof. unfold SDL_GpuSetScissor. quiet_entry. Qed.

Lemma SDL_GpuBindVertexBuffers_quiet w rp first bindings n :
  buffers (SDL_GpuBindVertexBuffers w rp first bindings n) = buffers w
  /\ draws (SDL_GpuBindVertexBuffers w rp first bindings n) = draws w.
Proof. unfold SDL_GpuBindVertexBuffers. quiet_entry. Qed.

Lemma SDL_GpuBindFragmentSamplers_quiet w rp first bindings n :
  buffers (SDL_GpuBindFragmentSamplers w rp first bindings n) = buffers w
  /\ draws (SDL_GpuBindFragmentSamplers w rp first bindings n) = draws w.
Proof. unfold SDL_GpuBindFragmentSamplers. quiet_entry. Qed.

Lemma SDL_GpuPushVertexUniformData_quiet w cb slot data len :
  buffers (SDL_GpuPushVertexUniformData w cb slot data len) = buffers w
  /\ draws (SDL_GpuPushVertexUniformData w cb slot data len) = draws w.
Proof. unfold SDL_GpuPushVertexUniformData. quiet_entry. Qed.

Lemma SDL_GpuMapTransferBuffer_quiet w dev tb cycle ppData :
  buffers (SDL_GpuMapTransferBuffer w dev tb cycle ppData) = buffers w
  /\ draws (SDL_GpuMapTransferBuffer w dev tb cycle ppData) = draws w.
Proof. unfold SDL_GpuMapTransferBuffer. quiet_entry. Qed.

Lemma SDL_GpuUnmapTransferBuffer_quiet w dev tb :
  buffers (SDL_GpuUnmapTransferBuffer w dev tb) = buffers w
  /\ draws (SDL_GpuUnmapTransferBuffer w dev tb) = draws w.
Proof. unfold SDL_GpuUnmapTransferBuffer. quiet_entry. Qed.

Lemma SDL_GpuUploadToBuffer_quiet w pass src dst cycle :
  buffers (SDL_GpuUploadToBuffer w pass src dst cycle) = buffers w
  /\ draws (SDL_GpuUploadToBuffer w pass src dst cycle) = draws w.
Proof. unfold SDL_GpuUploadToBuffer. quiet_entry. Qed.

(** Ending the open render pass of a live command buffer. *)
Lemma SDL_GpuEndRenderPass_live w cb :
  live w cb true ->
  live (SDL_GpuEndRenderPass w (Some (RenderPassOf cb))) cb false
  /\ draws (SDL_GpuEndRenderPass w (Some (RenderPassOf cb))) = draws w.
Proof.
  intros H. destruct (live_RENDERPASS _ _ _ H) as (h & Hrp & Hl' & Hb' & Hopen).
  destruct H as (h0 & Hl & Hb & Hcp & Hd).
  assert (h0 = h) as -> by congruence.
  unfold SDL_GpuEndRenderPass. rewrite Hrp.
  assert (debugMode (device h) && negb (inProgress (renderPass h)) = false) as ->.
  { destruct (debugMode (device h)); [|done]. by rewrite Hopen. }
  rewrite Hb. split; [|by rewrite draws_store, draws_delegate, app_nil_r].
  eexists. split; [cbn; apply lookup_insert_eq|]. cbn.
  repeat split; try done; by destruct (Hd H) as (? & ? & ? & ?).
Qed.

(** Beginning a render pass with one color attachment on a live command
    buffer with no pass open. *)
Lemma SDL_GpuBeginRenderPass_live w cb info :
  live w cb false ->
  exists w',
    SDL_GpuBeginRenderPass MAX_COLOR_TARGET_BINDINGS w (Some cb) (Some [info]) 1 None
    = (w', Some (RenderPassOf cb))
    /\ live w' cb true /\ draws w' = draws w.
Proof.
  intros (h & Hl & Hb & Hcp & Hd).
  unfold SDL_GpuBeginRenderPass. cbn [is_null andb].
  destruct (Z.ltb_spec MAX_COLOR_TARGET_BINDINGS 1) as [?|_]; [lia|].
  rewrite Hl.
  assert (debugMode (device h) && CHECK_COMMAND_BUFFER h = false) as ->.
  { unfold CHECK_COMMAND_BUFFER. destruct (debugMode (device h)); [|done].
    by destruct Hd as (-> & _). }
  assert (debugMode (device h) && CHECK_ANY_PASS_IN_PROGRESS h = false) as ->.
  { unfold CHECK_ANY_PASS_IN_PROGRESS. destruct (debugMode (device h)); [|done].
    by destruct Hd as (_ & -> & -> & ->). }
  eexists. split; [reflexivity|].
  split; [|by rewrite draws_store, draws_delegate, app_nil_r].
  eexists. split; [cbn; apply lookup_insert_eq|]. cbn.
  repeat split; try done; by destruct (Hd H) as (? & ? & ? & ?).
Qed.

(** Binding a pipeline in the render pass of a live command buffer. *)
Lemma SDL_GpuBindGraphicsPipeline_live w cb open pipeline :
  live w cb open ->
  live (SDL_GpuBindGraphicsPipeline w (Some (RenderPassOf cb)) (Some pipeline)) cb open
  /\ (exists h, buffers (SDL_GpuBindGraphicsPipeline w (Some (RenderPassOf cb))
                           (Some pipeline)) !! cb = Some h
                /\ graphicsPipelineBound h = true)
  /\ draws (SDL_GpuBindGraphicsPipeline w (Some (RenderPassOf cb)) (Some pipeline))
     = draws w.
Proof.
  intros H. destruct (live_RENDERPASS _ _ _ H) as (h & Hrp & Hl' & Hb' & Hopen).
  destruct H as (h0 & Hl & Hb & Hcp & Hd).
  assert (h0 = h) as -> by congruence.
  unfold SDL_GpuBindGraphicsPipeline. rewrite Hrp, Hb.
  split; [|split]; [| |by rewrite draws_store, draws_delegate, app_nil_r].
  - eexists. split; [cbn; apply lookup_insert_eq|]. cbn.
    repeat split; try done; by destruct (Hd H) as (? & ? & ? & ?).
  - eexists. split; [cbn; apply lookup_insert_eq|]. done.
Qed.

(** Drawing in the open render pass of a live command buffer with a bound
    pipeline reaches the back end. *)
Lemma SDL_GpuDrawPrimitives_live w cb h vertexStart vertexCount :
  live w cb true ->
  buffers w !! cb = Some h -> graphicsPipelineBound h = true ->
  SDL_GpuDrawPrimitives w (Some (RenderPassOf cb)) vertexStart vertexCount
  = delegate (BE_DrawPrimitives cb vertexStart vertexCount) w.
Proof.
  intros H Hl Hbound.
  destruct (live_RENDERPASS _ _ _ H) as (h' & Hrp & Hl' & Hb' & Hopen).
  assert (h' = h) as -> by congruence.
  unfold SDL_GpuDrawPrimitives. rewrite Hrp, Hb', Hbound.
  destruct (debugMode (device h)); [|done].
  by rewrite Hopen.
Qed.

Lemma quiet_if (b : bool) w w' :
  buffers w' = buffers w /\ draws w' = draws w ->
  buffers (if b then w' else w) = buffers w
  /\ draws (if b then w' else w) = draws w.
Proof. by destruct b. Qed.

Lemma RestartRenderPass_recording w data cb :
  recording w data cb ->
  recording (RestartRenderPass MAX_COLOR_TARGET_BINDINGS w data).1
    (RestartRenderPass MAX_COLOR_TARGET_BINDINGS w data).2 cb
  /\ render_pass (state (RestartRenderPass MAX_COLOR_TARGET_BINDINGS w data).2)
     = Some (RenderPassOf cb)
  /\ draws (RestartRenderPass MAX_COLOR_TARGET_BINDINGS w data).1 = draws w.
Proof.
  intros (Hc & Hp & Hrp & Hlive). unfold RestartRenderPass.
  assert (exists w1,
    match render_pass (state data) with
    | Some _ => SDL_GpuEndRenderPass w (render_pass (state data))
    | None => w
    end = w1 /\ live w1 cb false /\ draws w1 = draws w) as (w1 & -> & Hl1 & Hd1).
  { destruct Hrp as [E|E]; rewrite E in *; cbn in Hlive; eexists;
      (split; [reflexivity|]); [done|by apply SDL_GpuEndRenderPass_live]. }
  rewrite Hc.
  destruct (SDL_GpuBeginRenderPass_live w1 cb (color_attachment (state data)) Hl1)
    as (w2 & -> & Hl2 & Hd2).
  cbn [state set_state set_render_pass render_pass viewport scissor_enabled
       scissor color_attachment fst snd].
  match goal with |- context [if ?b then SDL_GpuSetViewport w2 ?rp ?vp else w2] =>
    destruct (quiet_if b w2 _ (SDL_GpuSetViewport_quiet w2 rp vp)) as [Hb3 Hd3];
    set (w3 := if b then SDL_GpuSetViewport w2 rp vp else w2) in *
  end.
  match goal with |- context [if ?b then SDL_GpuSetScissor w3 ?rp ?sc else w3] =>
    destruct (quiet_if b w3 _ (SDL_GpuSetScissor_quiet w3 rp sc)) as [Hb4 Hd4];
    set (w4 := if b then SDL_GpuSetScissor w3 rp sc else w3) in *
  end.
  cbn. split; [|split; [done|congruence]].
  split; [done|]. split; [done|]. split; [by right|].
  cbn. apply (live_buffers w2); [congruence|done].
Qed.

Lemma Draw_recording renderer w data cb cmd num_verts offset prim :
  recording w data cb ->
  recording (Draw MAX_COLOR_TARGET_BINDINGS w data renderer cmd num_verts offset prim).1
    (Draw MAX_COLOR_TARGET_BINDINGS w data renderer cmd num_verts offset prim).2 cb
  /\ draws (Draw MAX_COLOR_TARGET_BINDINGS w data renderer cmd num_verts offset prim).1
     = draws w ++ [BE_DrawPrimitives cb 0 num_verts].
Proof.
  intros H. unfold Draw.
  assert (exists w1 data1,
    match render_pass (state data) with
    | None => RestartRenderPass MAX_COLOR_TARGET_BINDINGS w data
    | Some _ => (w, data)
    end = (w1, data1)
    /\ recording w1 data1 cb
    /\ render_pass (state data1) = Some (RenderPassOf cb)
    /\ draws w1 = draws w) as (w1 & data1 & -> & H1 & Hrp1 & Hd1).
  { destruct (render_pass (state data)) as [p|] eqn:E.
    - exists w, data. split; [done|]. split; [done|]. split; [|done].
      destruct H as (_ & _ & [?|?] & _); congruence.
    - destruct (RestartRenderPass_recording w data cb H) as (? & ? & ?).
      eexists _, _. split; [apply surjective_pairing|]. done. }
  destruct H1 as (Hc1 & Hp1 & _ & Hl1). rewrite Hrp1 in Hl1. cbn in Hl1.
  match goal with |- context [let '(v, f) := ?m in _] => destruct m as [v_shader f_shader] end.
  match goal with |- context [pipeline_cache data1 ?k] =>
    destruct (Hp1 k) as [pipe ->] end.
  rewrite Hrp1.
  destruct (SDL_GpuBindGraphicsPipeline_live w1 cb true pipe Hl1)
    as (Hl2 & (h2 & Hh2 & Hbound) & Hd2).
  set (w2 := SDL_GpuBindGraphicsPipeline w1 (Some (RenderPassOf cb)) (Some pipe)) in *.
  match goal with |- context [SDL_GpuBindVertexBuffers ?w ?rp ?f ?b ?n] =>
    assert (buffers w = buffers w2 /\ draws w = draws w2) as [Hb3 Hd3]
      by (destruct (internal <$> _);
          [apply SDL_GpuBindFragmentSamplers_quiet|done]);
    set (w3 := w) in *;
    destruct (SDL_GpuBindVertexBuffers_quiet w3 rp f b n) as [Hb4 Hd4];
    set (w4 := SDL_GpuBindVertexBuffers w3 rp f b n) in *
  end.
  unfold PushUniforms.
  match goal with |- context [SDL_GpuPushVertexUniformData w4 ?c ?s ?d ?l] =>
    destruct (SDL_GpuPushVertexUniformData_quiet w4 c s d l) as [Hb5 Hd5];
    set (w5 := SDL_GpuPushVertexUniformData w4 c s d l) in *
  end.
  assert (buffers w5 = buffers w2) as Hb by congruence.
  rewrite (SDL_GpuDrawPrimitives_live w5 cb h2).
  - cbn [fst snd]. split.
    + split; [done|]. split; [done|]. split; [by right|].
      rewrite Hrp1. cbn. by apply (live_buffers w2).
    + rewrite draws_delegate. cbn. congruence.
  - by apply (live_buffers w2).
  - by rewrite Hb.
  - done.
Qed.

(** *** Runs *)

Lemma spec_runs_head c rest :
  exists run others, spec_runs (c :: rest) = (c :: run) :: others.
Proof.
  cbn. destruct (spec_runs rest) as [|[|d run] others]; [by eauto..|].
  destruct (spec_coalesced c d); by eauto.
Qed.

Lemma spec_runs_separate c d rest :
  spec_coalesced c d = false ->
  spec_runs (c :: d :: rest) = [c] :: spec_runs (d :: rest).
Proof.
  intros H. destruct (spec_runs_head d rest) as (run & others & E).
  change (spec_runs (c :: d :: rest))
    with (match spec_runs (d :: rest) with
          | (d :: run) :: others =>
            if spec_coalesced c d then (c :: d :: run) :: others
            else [c] :: (d :: run) :: others
          | others => [c] :: others
          end).
  by rewrite E, H.
Qed.

Lemma spec_runs_join c d rest run others :
  spec_coalesced c d = true ->
  spec_runs (d :: rest) = (d :: run) :: others ->
  spec_runs (c :: d :: rest) = (c :: d :: run) :: others.
Proof.
  intros H E.
  change (spec_runs (c :: d :: rest))
    with (match spec_runs (d :: rest) with
          | (d :: run) :: others =>
            if spec_coalesced c d then (c :: d :: run) :: others
            else [c] :: (d :: run) :: others
          | others => [c] :: others
          end).
  by rewrite E, H.
Qed.

Lemma spec_runs_alone c next :
  (forall e, spec_coalesced c e = false) ->
  spec_runs (c :: next) = [c] :: spec_runs next.
Proof.
  intros H. destruct next as [|d rest]; [done|]. by apply spec_runs_separate.
Qed.

(** The inner loop takes the rest of the run that starts at [p]. *)
Lemma combine_spec_runs (combinable : SDL_RenderCommand -> bool) next : forall p n,
  (forall e, spec_coalesced p e = combinable e) ->
  (forall d, combinable d = true -> forall e, spec_coalesced d e = combinable e) ->
  exists taken,
    (combine combinable n next).1
    = foldl (fun acc c => wrap32 (acc + wrap32 (count (draw c)))) n taken
    /\ next = taken ++ (combine combinable n next).2
    /\ spec_runs (p :: next) = (p :: taken) :: spec_runs (combine combinable n next).2.
Proof.
  induction next as [|d next IH]; intros p n Hp Hstep.
  - by exists [].
  - cbn [combine]. destruct (combinable d) eqn:Hd.
    + destruct (IH d (wrap32 (n + wrap32 (count (draw d)))) (Hstep d Hd) Hstep)
        as (taken & Hn & Hnext & Hruns).
      exists (d :: taken). split; [done|]. split; [cbn; by f_equal|].
      apply spec_runs_join; [by rewrite Hp|done].
    + exists []. split; [done|]. split; [done|].
      apply spec_runs_separate. by rewrite Hp.
Qed.

Lemma wrap32_add a b : wrap32 (wrap32 a + wrap32 b) = wrap32 (a + b).
Proof. unfold wrap32. by rewrite <- Zplus_mod. Qed.

Lemma wrap32_small z : 0 <= z <= UINT32_MAX -> wrap32 z = z.
Proof. unfold wrap32, UINT32_MAX. intros H. apply Z.mod_small. lia. Qed.

Lemma foldl_counts taken : forall n,
  foldl (fun acc c => wrap32 (acc + wrap32 (count (draw c)))) (wrap32 n) taken
  = wrap32 (n + spec_vertex_count taken).
Proof.
  unfold spec_vertex_count.
  induction taken as [|c taken IH]; intros n; cbn.
  - by rewrite Z.add_0_r.
  - rewrite wrap32_add, IH. f_equal. lia.
Qed.

Lemma spec_vertex_count_nonneg run :
  Forall queued run -> 0 <= spec_vertex_count run.
Proof.
  unfold spec_vertex_count.
  induction 1 as [|c run [Hc _] _ IH]; cbn; lia.
Qed.

Lemma recording_state w data cb st :
  command_buffer st = command_buffer (state data) ->
  render_pass st = render_pass (state data) ->
  recording w data cb -> recording w (set_state st data) cb.
Proof.
  intros Hc Hrp (H1 & H2 & H3 & H4). unfold recording. cbn.
  by rewrite Hc, Hrp.
Qed.

Lemma recording_buffers w w' data cb :
  buffers w' = buffers w -> recording w data cb -> recording w' data cb.
Proof.
  intros E (H1 & H2 & H3 & H4). repeat split; try done.
  by apply (live_buffers w).
Qed.

Lemma step_alone c next w w' data' cb :
  (forall e, spec_coalesced c e = false) ->
  recording w' data' cb -> draws w' = draws w ->
  exists taken,
    spec_runs (c :: next) = (c :: taken) :: spec_runs (w', data', next).2
    /\ next = taken ++ (w', data', next).2
    /\ recording (w', data', next).1.1 (w', data', next).1.2 cb
    /\ draws (w', data', next).1.1 = draws w ++ [].
Proof.
  intros Halone Hrec Hdraws. exists []. cbn [fst snd app].
  rewrite (spec_runs_alone c next Halone), app_nil_r. done.
Qed.

Lemma step_draw renderer c next w data cb num_verts rest taken offset prim :
  recording w data cb ->
  spec_runs (c :: next) = (c :: taken) :: spec_runs rest ->
  next = taken ++ rest ->
  num_verts = wrap32 (spec_vertex_count (c :: taken)) ->
  exists taken,
    spec_runs (c :: next)
    = (c :: taken)
      :: spec_runs (Draw MAX_COLOR_TARGET_BINDINGS w data renderer c num_verts
                      offset prim, rest).2
    /\ next
       = taken ++ (Draw MAX_COLOR_TARGET_BINDINGS w data renderer c num_verts
                     offset prim, rest).2
    /\ recording
         (Draw MAX_COLOR_TARGET_BINDINGS w data renderer c num_verts offset prim,
          rest).1.1
         (Draw MAX_COLOR_TARGET_BINDINGS w data renderer c num_verts offset prim,
          rest).1.2 cb
    /\ draws
         (Draw MAX_COLOR_TARGET_BINDINGS w data renderer c num_verts offset prim,
          rest).1.1
       = draws w ++ [BE_DrawPrimitives cb 0 (wrap32 (spec_vertex_count (c :: taken)))].
Proof.
  intros Hrec Hruns Hnext ->. exists taken. cbn [fst snd].
  destruct (Draw_recording renderer w data cb c
              (wrap32 (spec_vertex_count (c :: taken))) offset prim Hrec)
    as [H1 H2].
  done.
Qed.

(** The run of points or geometry that starts at [c]. *)
Lemma combine_same_draw c next :
  command c = SDL_RENDERCMD_DRAW_POINTS \/ command c = SDL_RENDERCMD_GEOMETRY ->
  exists taken,
    (combine (same_draw (command c) (draw_texture (draw c)) (blend (draw c)))
       (wrap32 (count (draw c))) next).1
    = wrap32 (spec_vertex_count (c :: taken))
    /\ next
       = taken ++ (combine (same_draw (command c) (draw_texture (draw c))
                              (blend (draw c)))
                     (wrap32 (count (draw c))) next).2
    /\ spec_runs (c :: next)
       = (c :: taken)
         :: spec_runs (combine (same_draw (command c) (draw_texture (draw c))
                                  (blend (draw c)))
                         (wrap32 (count (draw c))) next).2.
Proof.
  intros Hk.
  destruct (combine_spec_runs
              (same_draw (command c) (draw_texture (draw c)) (blend (draw c)))
              next c (wrap32 (count (draw c)))) as (taken & Hn & Hnext & Hruns).
  - intros e. unfold spec_coalesced, same_draw. by destruct Hk as [->| ->].
  - intros d Hd e. unfold same_draw in Hd.
    apply andb_true_iff in Hd as [Hd Hblend].
    apply andb_true_iff in Hd as [Hkind Htex].
    apply bool_decide_eq_true in Hkind, Htex. apply Z.eqb_eq in Hblend.
    unfold spec_coalesced, same_draw. rewrite Hkind, Htex, Hblend.
    by destruct Hk as [->| ->].
  - exists taken. split; [|done].
    rewrite Hn, foldl_counts. done.
Qed.

(** The run of two-vertex segments that starts at the segment [c]. *)
Lemma combine_line_segment_of c next :
  command c = SDL_RENDERCMD_DRAW_LINES -> count (draw c) = 2 ->
  exists taken,
    (combine (line_segment_of (blend (draw c))) (wrap32 (count (draw c))) next).1
    = wrap32 (spec_vertex_count (c :: taken))
    /\ next
       = taken ++ (combine (line_segment_of (blend (draw c)))
                     (wrap32 (count (draw c))) next).2
    /\ spec_runs (c :: next)
       = (c :: taken)
         :: spec_runs (combine (line_segment_of (blend (draw c)))
                         (wrap32 (count (draw c))) next).2.
Proof.
  intros Hk Hcount.
  destruct (combine_spec_runs (line_segment_of (blend (draw c)))
              next c (wrap32 (count (draw c)))) as (taken & Hn & Hnext & Hruns).
  - intros e. unfold spec_coalesced, line_segment_of. rewrite Hk, Hcount.
    cbn. by rewrite andb_true_r.
  - intros d Hd e. unfold line_segment_of in Hd.
    apply andb_true_iff in Hd as [Hd Hblend].
    apply andb_true_iff in Hd as [Hkind Hsegment].
    apply bool_decide_eq_true in Hkind. apply Z.eqb_eq in Hblend, Hsegment.
    unfold spec_coalesced, line_segment_of. rewrite Hkind, Hsegment, Hblend.
    cbn. by rewrite andb_true_r.
  - exists taken. split; [|done].
    rewrite Hn, foldl_counts. done.
Qed.

(** One iteration of the loop: it consumes the run that starts at the
    current command, and draws once if it is a run of draw commands. *)
Lemma run_command_step renderer w data cb c next :
  recording w data cb -> queued c ->
  exists taken,
    spec_runs (c :: next)
    = (c :: taken)
      :: spec_runs (run_command MAX_COLOR_TARGET_BINDINGS renderer w data c next).2
    /\ next
       = taken ++ (run_command MAX_COLOR_TARGET_BINDINGS renderer w data c next).2
    /\ recording (run_command MAX_COLOR_TARGET_BINDINGS renderer w data c next).1.1
         (run_command MAX_COLOR_TARGET_BINDINGS renderer w data c next).1.2 cb
    /\ draws (run_command MAX_COLOR_TARGET_BINDINGS renderer w data c next).1.1
       = draws w
         ++ (if is_draw_command c
             then [BE_DrawPrimitives cb 0 (wrap32 (spec_vertex_count (c :: taken)))]
             else []).
Proof.
  intros H [Hrange Hline].
  assert (is_draw_command c = false -> forall e, spec_coalesced c e = false)
    as Halone.
  { unfold is_draw_command, spec_coalesced. intros Hk e.
    by destruct (command c). }
  unfold run_command, is_draw_command in *.
  destruct (command c) eqn:Hk.
  - (* NO_OP *)
    by apply step_alone; auto.
  - (* SETVIEWPORT *)
    apply step_alone; [by auto| |].
    + apply recording_state; [done..|].
      eapply recording_buffers; [|done].
      apply quiet_if, SDL_GpuSetViewport_quiet.
    + apply quiet_if, SDL_GpuSetViewport_quiet.
  - (* SETCLIPRECT *)
    apply step_alone; [by auto| |].
    + apply recording_state; [done..|].
      eapply recording_buffers; [|done].
      apply quiet_if, SDL_GpuSetScissor_quiet.
    + apply quiet_if, SDL_GpuSetScissor_quiet.
  - (* SETDRAWCOLOR *)
    apply step_alone; [by auto| |done].
    by apply recording_state.
  - (* CLEAR *)
    match goal with |- context [set_state ?st data] =>
      assert (recording w (set_state st data) cb) as H'
        by (by apply recording_state);
      set (data0 := set_state st data) in *
    end.
    destruct (RestartRenderPass_recording w data0 cb H') as (Hr1 & _ & Hr2).
    destruct (render_pass (state data0)).
    + destruct (RestartRenderPass MAX_COLOR_TARGET_BINDINGS w data0) as [w' data'].
      by apply step_alone; auto.
    + by apply step_alone; auto.
  - (* DRAW_POINTS *)
    destruct (combine_same_draw c next) as (taken & Hn & Hnext & Hruns);
      [by left|].
    rewrite Hk in Hn, Hnext, Hruns.
    destruct (combine _ _ next) as [num_verts rest].
    by eapply step_draw.
  - (* DRAW_LINES *)
    rewrite (wrap32_small _ Hrange).
    destruct (Z.ltb_spec 2 (count (draw c))) as [Hjoined|Hsegment].
    + apply step_draw with (taken := []); [done| |done|].
      * apply spec_runs_alone. intros e. unfold spec_coalesced. rewrite Hk.
        destruct (Z.eqb_spec (count (draw c)) 2); [lia|].
        by rewrite andb_false_r.
      * cbn. rewrite Z.add_0_r. by rewrite wrap32_small.
    + assert (count (draw c) = 2) as Htwo by (specialize (Hline eq_refl); lia).
      destruct (combine_line_segment_of c next Hk Htwo)
        as (taken & Hn & Hnext & Hruns).
      rewrite (wrap32_small _ Hrange) in Hn, Hnext, Hruns.
      destruct (combine _ _ next) as [num_verts rest].
      by eapply step_draw.
  - (* FILL_RECTS *)
    by apply step_alone; auto.
  - (* COPY *)
    by apply step_alone; auto.
  - (* COPY_EX *)
    by apply step_alone; auto.
  - (* GEOMETRY *)
    destruct (combine_same_draw c next) as (taken & Hn & Hnext & Hruns);
      [by right|].
    rewrite Hk in Hn, Hnext, Hruns.
    destruct (combine _ _ next) as [num_verts rest].
    by eapply step_draw.
Qed.

(** The whole loop draws once per run of draw commands. *)
Lemma run_commands_draws renderer n : forall cmds w data cb,
  (length cmds <= n)%nat ->
  recording w data cb ->
  Forall queued cmds ->
  Forall (fun run => spec_vertex_count run <= UINT32_MAX) (spec_runs cmds) ->
  recording (run_commands MAX_COLOR_TARGET_BINDINGS renderer w data cmds).1
    (run_commands MAX_COLOR_TARGET_BINDINGS renderer w data cmds).2 cb
  /\ draws (run_commands MAX_COLOR_TARGET_BINDINGS renderer w data cmds).1
     = draws w ++ map (BE_DrawPrimitives cb 0) (spec_draws cmds).
Proof.
  induction n as [|n IH]; intros [|c next] w data cb Hlen Hrec Hq Hfits;
    rewrite ?run_commands_equation_1, ?run_commands_equation_2;
    try (cbn in Hlen; lia); try (by rewrite app_nil_r).
  apply Forall_cons in Hq as [Hc Hq].
  destruct (run_command_step renderer w data cb c next Hrec Hc)
    as (taken & Hruns & Hnext & Hrec' & Hdraws').
  set (r := run_command MAX_COLOR_TARGET_BINDINGS renderer w data c next) in *.
  assert (Forall queued taken /\ Forall queued r.2) as [Hqt Hqr]
    by (apply Forall_app; by rewrite <- Hnext).
  rewrite Hruns in Hfits. apply Forall_cons in Hfits as [Hfit Hfits].
  destruct (IH r.2 r.1.1 r.1.2 cb) as [Hrec'' Hdraws'']; try done.
  { apply (f_equal length) in Hnext. rewrite length_app in Hnext.
    cbn in Hlen. lia. }
  split; [done|].
  rewrite wrap32_small in Hdraws'
    by (split; [apply spec_vertex_count_nonneg; by constructor|done]).
  rewrite Hdraws'', Hdraws', <- app_assoc. f_equal.
  unfold spec_draws. rewrite Hruns. cbn.
  by destruct (is_draw_command c).
Qed.

(** Uploading the vertex batch opens and closes a copy pass. *)
Lemma UploadVertices_recording w data cb vertsize :
  recording w data cb -> render_pass (state data) = None ->
  (UploadVertices w data vertsize).2 = 0
  /\ recording (UploadVertices w data vertsize).1 data cb
  /\ draws (UploadVertices w data vertsize).1 = draws w.
Proof.
  intros Hrec Hnone. unfold UploadVertices.
  destruct (vertsize =? 0); [done|].
  match goal with |- context [SDL_GpuUnmapTransferBuffer ?w1 ?d ?t] =>
    destruct (SDL_GpuUnmapTransferBuffer_quiet w1 d t) as [Hb2 Hd2];
    set (w2 := SDL_GpuUnmapTransferBuffer w1 d t) in *
  end.
  match type of Hb2 with _ = buffers (SDL_GpuMapTransferBuffer ?w ?d ?t ?c ?p) =>
    destruct (SDL_GpuMapTransferBuffer_quiet w d t c p) as [Hb1 Hd1]
  end.
  assert (buffers w2 = buffers w) as Hb by congruence.
  assert (draws w2 = draws w) as Hd by congruence.
  clearbody w2. clear Hb1 Hd1 Hb2 Hd2.
  destruct Hrec as (Hc & Hp & Hrp & h & Hl & Hrb & Hcb & Hdebug).
  rewrite Hnone in Hdebug. cbn in Hdebug.
  unfold SDL_GpuBeginCopyPass. rewrite Hc, Hb, Hl.
  assert (debugMode (device h) && CHECK_COMMAND_BUFFER h = false) as ->.
  { unfold CHECK_COMMAND_BUFFER. destruct (debugMode (device h)); [|done].
    by destruct Hdebug as (-> & _). }
  assert (debugMode (device h) && CHECK_ANY_PASS_IN_PROGRESS h = false) as ->.
  { unfold CHECK_ANY_PASS_IN_PROGRESS. destruct (debugMode (device h)); [|done].
    by destruct Hdebug as (_ & -> & -> & ->). }
  match goal with |- context [SDL_GpuUploadToBuffer ?w3 ?p ?src ?dst ?c] =>
    destruct (SDL_GpuUploadToBuffer_quiet w3 p src dst c) as [Hb4 Hd4];
    set (w4 := SDL_GpuUploadToBuffer w3 p src dst c) in *
  end.
  clearbody w4.
  unfold SDL_GpuEndCopyPass, COPYPASS. rewrite Hb4. cbn [buffers store delegate].
  rewrite lookup_insert_eq. cbn. rewrite Hcb, lookup_insert_eq. cbn.
  rewrite andb_false_r, Hcb.
  split; [done|]. split.
  - split; [done|]. split; [done|]. split; [done|].
    rewrite Hnone. cbn.
    eexists. split; [cbn; apply lookup_insert_eq|]. cbn.
    repeat split; try done; by destruct (Hdebug H) as (? & ? & ? & ?).
  - rewrite draws_store, draws_delegate, Hd4, draws_store, draws_delegate.
    cbn. by rewrite !app_nil_r.
Qed.

(** The runs partition the command list. *)
Lemma spec_runs_concat cmds : concat (spec_runs cmds) = cmds.
Proof.
  induction cmds as [|c rest IH]; [done|].
  cbn [spec_runs]. destruct (spec_runs rest) as [|[|d run] others].
  - cbn in *. by rewrite <- IH.
  - cbn in *. by rewrite <- IH.
  - destruct (spec_coalesced c d); cbn in *; by rewrite <- IH.
Qed.

(** A joined line is a run of its own. *)
Lemma spec_runs_joined_line_alone cmds :
  Forall (fun run =>
            forall c, c ∈ run -> command c = SDL_RENDERCMD_DRAW_LINES ->
                      2 < count (draw c) -> run = [c])
    (spec_runs cmds).
Proof.
  induction cmds as [|c rest IH]; [by constructor|].
  cbn [spec_runs]. destruct (spec_runs rest) as [|[|d run] others].
  - constructor; [|done]. intros x Hx _ _.
    apply list_elem_of_singleton in Hx. by subst.
  - constructor; [|done]. intros x Hx _ _.
    apply list_elem_of_singleton in Hx. by subst.
  - apply Forall_cons in IH as [Hrun IH].
    destruct (spec_coalesced c d) eqn:Hcd.
    + constructor; [|done]. intros x Hx Hk Hjoined. exfalso.
      unfold spec_coalesced in Hcd.
      apply elem_of_cons in Hx as [->|Hx].
      * rewrite Hk in Hcd.
        destruct (Z.eqb_spec (count (draw c)) 2); [lia|].
        by rewrite andb_false_r in Hcd.
      * specialize (Hrun x Hx Hk Hjoined). injection Hrun as -> ->.
        destruct (command c);
          repeat (apply andb_true_iff in Hcd as [Hcd ?]); try done.
        -- apply bool_decide_eq_true in Hcd. congruence.
        -- destruct (Z.eqb_spec (count (draw x)) 2); [lia|done].
        -- apply bool_decide_eq_true in Hcd. congruence.
    + constructor; [|by constructor]. intros x Hx _ _.
      apply list_elem_of_singleton in Hx. by subst.
Qed.

(** C8 (coalescing of draw commands).  Let the renderer record into a live
    command buffer [cb] with no render pass open, a render target at hand
    and every pipeline available, and let the queue hold commands as the
    renderer front end queues them: counts that fit a [Uint32], lines of at
    least two vertices, and runs whose summed count fits a [Uint32].  Then
    [GPU_RunCommandQueue] returns 0 and the draw calls it makes are, in
    order, one [DrawPrimitives] per maximal run of adjacent draw commands
    of the specification, with vertex start 0 and as vertex count the sum of
    the counts of the run: points or geometry of the same kind, texture and
    blend mode form a run, two-vertex line segments of the same blend mode
    form a run, and every other draw command, a joined line in particular,
    is a run of its own.  It makes no other draw call. *)
Theorem C8_runs_coalesced_into_single_draws
    (renderer : SDL_Renderer) (w : World) (data : GPU_RenderData)
    (cb : CommandBufferId) (cmds : list SDL_RenderCommand) (vertsize : Z) :
  recording w data cb ->
  render_pass (state data) = None ->
  is_Some (target_texture renderer data) ->
  Forall queued cmds ->
  Forall (fun run => spec_vertex_count run <= UINT32_MAX) (spec_runs cmds) ->
  (GPU_RunCommandQueue MAX_COLOR_TARGET_BINDINGS renderer w data cmds vertsize).2 = 0
  /\ draws (GPU_RunCommandQueue MAX_COLOR_TARGET_BINDINGS renderer w data cmds
              vertsize).1.1
     = draws w ++ map (BE_DrawPrimitives cb 0) (spec_draws cmds).
Proof.
  intros Hrec Hnone Htarget Hq Hfits. unfold GPU_RunCommandQueue.
  destruct (UploadVertices_recording w data cb vertsize Hrec Hnone)
    as (Hup & Hrec1 & Hd1).
  destruct (UploadVertices w data vertsize) as [w1 uploaded].
  cbn in Hup, Hrec1, Hd1. subst uploaded. cbn [Z.eqb negb].
  match goal with |- context [set_state ?st data] =>
    assert (recording w1 (set_state st data) cb) as Hrec2
      by (by apply recording_state);
    assert (is_null (texture (textureSlice
                                (color_attachment (state (set_state st data)))))
            = false) as Htex;
    [|rewrite Htex; set (data2 := set_state st data) in *]
  end.
  { unfold target_texture in Htarget. destruct Htarget as [t Ht].
    destruct (target renderer); cbn; by rewrite Ht. }
  clearbody data2.
  destruct (run_commands_draws renderer (length cmds) cmds w1 data2 cb)
    as [Hrec3 Hd3]; try done.
  destruct (run_commands _ _ _ _ cmds) as [w3 data3]. cbn [fst snd] in Hrec3, Hd3.
  assert (exists w4 data4,
    (if negb (bool_decide (loadOp (color_attachment (state data3))
                           = SDL_GPU_LOADOP_LOAD))
        && is_null (render_pass (state data3))
     then RestartRenderPass MAX_COLOR_TARGET_BINDINGS w3 data3
     else (w3, data3)) = (w4, data4)
    /\ recording w4 data4 cb /\ draws w4 = draws w3)
    as (w4 & data4 & -> & Hrec4 & Hd4).
  { destruct (_ && _).
    - destruct (RestartRenderPass_recording w3 data3 cb Hrec3) as (? & _ & ?).
      eexists _, _. split; [apply surjective_pairing|]. done.
    - by exists w3, data3. }
  destruct Hrec4 as (_ & _ & Hrp4 & Hlive4).
  destruct (render_pass (state data4)) as [p|] eqn:Ep; cbn [fst snd].
  - destruct Hrp4 as [?|Hp]; [done|]. injection Hp as ->.
    destruct (SDL_GpuEndRenderPass_live w4 cb Hlive4) as [_ Hd5].
    split; [done|]. congruence.
  - split; [done|]. congruence.
Qed.

End Command_queue.

(** Fifty single points with no texture and blend mode NONE, queued on the
    example renderer, are drawn by one call with vertex count 50. *)
Lemma C8_runs_coalesced_into_single_draws_witness :
  (GPU_RunCommandQueue 4 example_renderer example_world example_data
     fifty_points 800).2 = 0
  /\ draws (GPU_RunCommandQueue 4 example_renderer example_world example_data
              fifty_points 800).1.1
     = [BE_DrawPrimitives 0%nat 0 50].
Proof.
  change [BE_DrawPrimitives 0%nat 0 50]
    with (draws example_world
          ++ map (BE_DrawPrimitives 0%nat 0) (spec_draws fifty_points)).
  apply (C8_runs_coalesced_into_single_draws 4 ltac:(lia) example_renderer
           example_world example_data 0%nat fifty_points 800).
  - split; [reflexivity|]. split; [intros k; by exists 7%nat|].
    split; [by left|].
    exists (acquired_header true false). repeat split; reflexivity.
  - reflexivity.
  - by exists 1%nat.
  - apply Forall_replicate. split; [cbn; unfold UINT32_MAX; lia|discriminate].
  - assert (spec_runs fifty_points = [fifty_points]) as ->
      by (vm_compute; reflexivity).
    constructor; [|constructor]. vm_compute. discriminate.
Defined.


(** * Further properties of the code *)

(** ** Front end: what reaches the back end *)

Section FrontEnd_gating.

Variable MAX_COLOR_TARGET_BINDINGS : Z.

(** X1 (draw calls in debug mode).  On a device in debug mode, a draw call
    ([SDL_GpuDrawPrimitives], [SDL_GpuDrawIndexedPrimitives] and their
    indirect forms) on a command buffer reached through the entry points
    is handed to the back end exactly when the render pass of the command
    buffer is in progress and a graphics pipeline is bound; otherwise it
    raises the assertion that names the first condition that fails and
    reaches no back end.  No draw call changes a command-buffer header. *)
Theorem X1_draw_needs_pass_and_pipeline
    (cs : list ApiCall) (cb : CommandBufferId) (h : CommandBufferCommonHeader)
    (c : ApiCall) :
  buffers (run MAX_COLOR_TARGET_BINDINGS empty_world cs) !! cb = Some h ->
  debugMode (device h) = true ->
  is_draw_api c = true ->
  pass_call_target c = Some cb ->
  argument_checks MAX_COLOR_TARGET_BINDINGS c = true ->
  buffers (fst (api MAX_COLOR_TARGET_BINDINGS
                  (run MAX_COLOR_TARGET_BINDINGS empty_world cs) c))
  = buffers (run MAX_COLOR_TARGET_BINDINGS empty_world cs)
  /\ calls (fst (api MAX_COLOR_TARGET_BINDINGS
                   (run MAX_COLOR_TARGET_BINDINGS empty_world cs) c))
     = calls (run MAX_COLOR_TARGET_BINDINGS empty_world cs)
         ++ (if inProgress (renderPass h) && graphicsPipelineBound h
             then delegation cb c else [])
  /\ log (fst (api MAX_COLOR_TARGET_BINDINGS
                 (run MAX_COLOR_TARGET_BINDINGS empty_world cs) c))
     = log (run MAX_COLOR_TARGET_BINDINGS empty_world cs)
         ++ (if negb (inProgress (renderPass h))
             then [SDL_assert_release "Render pass not in progress!"]
             else if negb (graphicsPipelineBound h)
                  then [SDL_assert_release "Graphics pipeline not bound!"]
                  else []).
Proof.
  pose proof (reachable_world_ok MAX_COLOR_TARGET_BINDINGS cs) as Hw.
  generalize dependent (run MAX_COLOR_TARGET_BINDINGS empty_world cs).
  intros w Hw Hl Hd Hdraw Ht Hargs.
  destruct c; try discriminate Hdraw; cbn in Ht.
  all: match goal with
       | H : match ?p with Some _ => _ | None => _ end = Some _ |- _ =>
           destruct p as [[o]|]; [injection H as ->|discriminate H]
       end.
  all: cbn [api]; unfold_entry_points; deref_passes Hw Hl.
  all: rewrite Hd; cbn in Hargs |- *.
  all: try match goal with
           | |- context [match ?b with Some _ => _ | None => _ end] =>
               destruct b; [|discriminate Hargs]
           end.
  all: destruct (inProgress (renderPass h)), (graphicsPipelineBound h); cbn;
    rewrite ?app_nil_r; done.
Qed.

(** X2 (dispatch calls in debug mode).  On a device in debug mode,
    [SDL_GpuDispatchCompute] and [SDL_GpuDispatchComputeIndirect] on a
    command buffer reached through the entry points are handed to the back
    end exactly when the compute pass is in progress and a compute
    pipeline is bound; otherwise the assertion naming the first failed
    condition is raised and nothing reaches the back end. *)
Theorem X2_dispatch_needs_pass_and_pipeline
    (cs : list ApiCall) (cb : CommandBufferId) (h : CommandBufferCommonHeader)
    (c : ApiCall) :
  buffers (run MAX_COLOR_TARGET_BINDINGS empty_world cs) !! cb = Some h ->
  debugMode (device h) = true ->
  is_dispatch_api c = true ->
  pass_call_target c = Some cb ->
  buffers (fst (api MAX_COLOR_TARGET_BINDINGS
                  (run MAX_COLOR_TARGET_BINDINGS empty_world cs) c))
  = buffers (run MAX_COLOR_TARGET_BINDINGS empty_world cs)
  /\ calls (fst (api MAX_COLOR_TARGET_BINDINGS
                   (run MAX_COLOR_TARGET_BINDINGS empty_world cs) c))
     = calls (run MAX_COLOR_TARGET_BINDINGS empty_world cs)
         ++ (if inProgress (computePass h) && computePipelineBound h
             then delegation cb c else [])
  /\ log (fst (api MAX_COLOR_TARGET_BINDINGS
                 (run MAX_COLOR_TARGET_BINDINGS empty_world cs) c))
     = log (run MAX_COLOR_TARGET_BINDINGS empty_world cs)
         ++ (if negb (inProgress (computePass h))
             then [SDL_assert_release "Compute pass not in progress!"]
             else if negb (computePipelineBound h)
                  then [SDL_assert_release "Compute pipeline not bound!"]
                  else []).
Proof.
  pose proof (reachable_world_ok MAX_COLOR_TARGET_BINDINGS cs) as Hw.
  generalize dependent (run MAX_COLOR_TARGET_BINDINGS empty_world cs).
  intros w Hw Hl Hd Hdispatch Ht.
  destruct c; try discriminate Hdispatch; cbn in Ht.
  all: match goal with
       | H : match ?p with Some _ => _ | None => _ end = Some _ |- _ =>
           destruct p as [[o]|]; [injection H as ->|discriminate H]
       end.
  all: cbn [api]; unfold_entry_points; deref_passes Hw Hl.
  all: rewrite Hd; cbn.
  all: destruct (inProgress (computePass h)), (computePipelineBound h); cbn;
    rewrite ?app_nil_r; done.
Qed.

(** X3 (a pipeline binding ends with its pass).  On a device in debug
    mode, let a render pass be in progress on a command buffer reached
    through the entry points.  Ending the pass, beginning a new one with
    attachments that pass the argument checks and drawing at once hands
    the end and the begin to the back end but not the draw: the binding
    made in the first pass does not carry over, and the draw raises
    "Graphics pipeline not bound!". *)
Theorem X3_pipeline_binding_ends_with_pass
    (cs : list ApiCall) (cb : CommandBufferId) (h : CommandBufferCommonHeader)
    (infos : option (list ColorAttachmentInfo)) (count : Z)
    (ds : option DepthStencilAttachmentInfo) (vertexStart vertexCount : Z) :
  buffers (run MAX_COLOR_TARGET_BINDINGS empty_world cs) !! cb = Some h ->
  debugMode (device h) = true ->
  inProgress (renderPass h) = true ->
  argument_checks MAX_COLOR_TARGET_BINDINGS
    (Call_BeginRenderPass (Some cb) infos count ds) = true ->
  calls (run MAX_COLOR_TARGET_BINDINGS
           (run MAX_COLOR_TARGET_BINDINGS empty_world cs)
           [ Call_EndRenderPass (Some (RenderPassOf cb));
             Call_BeginRenderPass (Some cb) infos count ds;
             Call_DrawPrimitives (Some (RenderPassOf cb)) vertexStart vertexCount ])
  = calls (run MAX_COLOR_TARGET_BINDINGS empty_world cs)
      ++ [ BE_EndRenderPass cb; BE_BeginRenderPass cb infos count ds ]
  /\ log (run MAX_COLOR_TARGET_BINDINGS
            (run MAX_COLOR_TARGET_BINDINGS empty_world cs)
            [ Call_EndRenderPass (Some (RenderPassOf cb));
              Call_BeginRenderPass (Some cb) infos count ds;
              Call_DrawPrimitives (Some (RenderPassOf cb)) vertexStart vertexCount ])
     = log (run MAX_COLOR_TARGET_BINDINGS empty_world cs)
         ++ [SDL_assert_release "Graphics pipeline not bound!"].
Proof.
  pose proof (reachable_world_ok MAX_COLOR_TARGET_BINDINGS cs) as Hw.
  generalize dependent (run MAX_COLOR_TARGET_BINDINGS empty_world cs).
  intros w Hw Hl Hd Hin Hargs.
  destruct (Hw _ _ Hl) as (Hb1 & Hb2 & Hb3 & Hh).
  destruct (Hh Hd) as [Hone Hsub].
  assert (inProgress (computePass h) = false /\ inProgress (copyPass h) = false
          /\ submitted h = false) as (Hc & Hy & Hs).
  { unfold at_most_one_pass, CHECK_ANY_PASS_IN_PROGRESS in *.
    rewrite Hin in *. cbn in *.
    destruct (inProgress (computePass h)), (inProgress (copyPass h)),
      (submitted h); try done; by specialize (Hsub eq_refl). }
  cbn in Hargs.
  apply andb_prop in Hargs as [Hargs Hmax]. apply negb_true_iff in Hargs, Hmax.
  cbn [run api fst].
  unfold SDL_GpuEndRenderPass. deref_passes Hw Hl. rewrite Hd, Hin. cbn.
  unfold SDL_GpuBeginRenderPass. rewrite Hargs, Hmax. cbn.
  rewrite lookup_insert_eq. cbn. rewrite Hd.
  unfold CHECK_COMMAND_BUFFER, CHECK_ANY_PASS_IN_PROGRESS. cbn.
  rewrite Hs, Hc, Hy. cbn.
  unfold SDL_GpuDrawPrimitives, RENDERPASS. cbn.
  rewrite insert_insert_eq, lookup_insert_eq. cbn. rewrite Hb1, lookup_insert_eq.
  cbn. rewrite Hd. cbn. by rewrite <- !app_assoc.
Qed.

(** X4 (no second submission in debug mode).  On a device in debug mode, of
    two submissions of a command buffer made one after the other through
    [SDL_GpuSubmit] or [SDL_GpuSubmitAndAcquireFence], whichever way they
    are mixed, the second never reaches the back end and changes no
    header; when it asks for a fence it gets [NULL]. *)
Theorem X4_second_submission_refused
    (cs : list ApiCall) (cb : CommandBufferId) (h : CommandBufferCommonHeader)
    (c1 c2 : ApiCall) :
  buffers (run MAX_COLOR_TARGET_BINDINGS empty_world cs) !! cb = Some h ->
  debugMode (device h) = true ->
  is_submit_api c1 = true -> call_target c1 = Some cb ->
  is_submit_api c2 = true -> call_target c2 = Some cb ->
  calls (fst (api MAX_COLOR_TARGET_BINDINGS
                (fst (api MAX_COLOR_TARGET_BINDINGS
                        (run MAX_COLOR_TARGET_BINDINGS empty_world cs) c1)) c2))
  = calls (fst (api MAX_COLOR_TARGET_BINDINGS
                  (run MAX_COLOR_TARGET_BINDINGS empty_world cs) c1))
  /\ buffers (fst (api MAX_COLOR_TARGET_BINDINGS
                     (fst (api MAX_COLOR_TARGET_BINDINGS
                             (run MAX_COLOR_TARGET_BINDINGS empty_world cs) c1)) c2))
     = buffers (fst (api MAX_COLOR_TARGET_BINDINGS
                       (run MAX_COLOR_TARGET_BINDINGS empty_world cs) c1))
  /\ is_sentinel
       (snd (api MAX_COLOR_TARGET_BINDINGS
               (fst (api MAX_COLOR_TARGET_BINDINGS
                       (run MAX_COLOR_TARGET_BINDINGS empty_world cs) c1)) c2))
     = true.
Proof.
  generalize dependent (run MAX_COLOR_TARGET_BINDINGS empty_world cs).
  intros w Hl Hd Hs1 Ht1 Hs2 Ht2.
  destruct c1; try discriminate Hs1; destruct c2; try discriminate Hs2;
    cbn in Ht1, Ht2; subst.
  all: cbn [api]; unfold SDL_GpuSubmit, SDL_GpuSubmitAndAcquireFence;
    rewrite Hl, Hd; unfold CHECK_COMMAND_BUFFER; cbn.
  all: destruct (submitted h) eqn:Hs; cbn; rewrite ?Hl, ?Hd, ?Hs; cbn;
    [done|].
  all: destruct (inProgress (renderPass h) || inProgress (computePass h)
                 || inProgress (copyPass h)) eqn:Hp; cbn;
    rewrite ?Hl, ?lookup_insert_eq, ?Hd, ?Hs, ?Hp; cbn; rewrite ?Hd; done.
Qed.

(** X5 (calls on a NULL handle).  Every entry point called with a [NULL]
    device, command buffer or pass only sets an error: it leaves every
    command-buffer header as it is, hands nothing to the back end, and
    returns nothing or [NULL]. *)
Theorem X5_null_handle_only_sets_error (w : World) (c : ApiCall) :
  null_handle c = true ->
  exists d,
    is_parameter_error d = true
    /\ fst (api MAX_COLOR_TARGET_BINDINGS w c) = diag d w
    /\ is_sentinel (snd (api MAX_COLOR_TARGET_BINDINGS w c)) = true.
Proof.
  intros Hnull.
  destruct c; cbn in Hnull;
    match type of Hnull with
    | is_null ?p = true => destruct p; [discriminate Hnull|]
    end; cbn; eexists; (split; [|split; reflexivity]); reflexivity.
Qed.

(** X6 (acquiring resets the header).  When the back end hands out a
    command buffer, [SDL_GpuAcquireCommandBuffer] leaves at its address a
    header of the acquiring device with no pass in progress, no pipeline
    bound and not submitted, whatever was there before, and touches no
    other header; so a command buffer that was submitted and is handed out
    again begins a pass even on a device in debug mode. *)
Theorem X6_acquire_resets_header
    (w : World) (dev : SDL_GpuDevice) (cb : CommandBufferId) :
  AcquireCommandBuffer dev (calls w) = Some cb ->
  exists h,
    buffers (fst (SDL_GpuAcquireCommandBuffer w (Some dev))) !! cb = Some h
    /\ snd (SDL_GpuAcquireCommandBuffer w (Some dev)) = Some cb
    /\ device h = dev
    /\ submitted h = false
    /\ CHECK_ANY_PASS_IN_PROGRESS h = false
    /\ graphicsPipelineBound h = false
    /\ computePipelineBound h = false
    /\ (forall cb', cb' <> cb ->
          buffers (fst (SDL_GpuAcquireCommandBuffer w (Some dev))) !! cb'
          = buffers w !! cb')
    /\ snd (SDL_GpuBeginCopyPass (fst (SDL_GpuAcquireCommandBuffer w (Some dev)))
              (Some cb)) = Some (CopyPassOf cb).
Proof.
  intros Hcb. unfold SDL_GpuAcquireCommandBuffer. rewrite Hcb. cbn.
  eexists. split; [apply lookup_insert_eq|]. repeat split; try done.
  - intros cb' Hne. by apply lookup_insert_ne.
  - unfold SDL_GpuBeginCopyPass. cbn. rewrite lookup_insert_eq. cbn.
    by rewrite !andb_false_r.
Qed.

End FrontEnd_gating.

Lemma X1_draw_needs_pass_and_pipeline_witness :
  buffers (run 4 empty_world (render_pass_with_pipeline true)) !! 0%nat
  = Some (in_render_pass_header true true)
  /\ calls (fst (api 4 (run 4 empty_world (render_pass_with_pipeline true))
                   (Call_DrawPrimitives (Some (RenderPassOf 0%nat)) 0 3)))
     = calls (run 4 empty_world (render_pass_with_pipeline true))
         ++ [BE_DrawPrimitives 0%nat 0 3].
Proof.
  split; [vm_compute; reflexivity|].
  exact (proj1 (proj2 (X1_draw_needs_pass_and_pipeline 4
                         (render_pass_with_pipeline true) 0%nat
                         (in_render_pass_header true true)
                         (Call_DrawPrimitives (Some (RenderPassOf 0%nat)) 0 3)
                         eq_refl eq_refl eq_refl eq_refl eq_refl))).
Defined.

Lemma X2_dispatch_needs_pass_and_pipeline_witness :
  buffers (run 4 empty_world (compute_pass_begun true)) !! 0%nat
  = Some (in_compute_pass_header true false)
  /\ log (fst (api 4 (run 4 empty_world (compute_pass_begun true))
                 (Call_DispatchCompute (Some (ComputePassOf 0%nat)) 1 1 1)))
     = log (run 4 empty_world (compute_pass_begun true))
         ++ [SDL_assert_release "Compute pipeline not bound!"].
Proof.
  split; [vm_compute; reflexivity|].
  exact (proj2 (proj2 (X2_dispatch_needs_pass_and_pipeline 4
                         (compute_pass_begun true) 0%nat
                         (in_compute_pass_header true false)
                         (Call_DispatchCompute (Some (ComputePassOf 0%nat)) 1 1 1)
                         eq_refl eq_refl eq_refl eq_refl))).
Defined.

Lemma X3_pipeline_binding_ends_with_pass_witness :
  buffers (run 4 empty_world (render_pass_with_pipeline true)) !! 0%nat
  = Some (in_render_pass_header true true)
  /\ calls (run 4 (run 4 empty_world (render_pass_with_pipeline true))
              [ Call_EndRenderPass (Some (RenderPassOf 0%nat));
                Call_BeginRenderPass (Some 0%nat) None 0 None;
                Call_DrawPrimitives (Some (RenderPassOf 0%nat)) 0 3 ])
     = calls (run 4 empty_world (render_pass_with_pipeline true))
         ++ [ BE_EndRenderPass 0%nat; BE_BeginRenderPass 0%nat None 0 None ].
Proof.
  split; [vm_compute; reflexivity|].
  exact (proj1 (X3_pipeline_binding_ends_with_pass 4
                  (render_pass_with_pipeline true) 0%nat
                  (in_render_pass_header true true) None 0 None 0 3
                  eq_refl eq_refl eq_refl eq_refl)).
Defined.

Lemma X4_second_submission_refused_witness :
  buffers (run 4 empty_world [Call_AcquireCommandBuffer (Some (example_device true))])
    !! 0%nat
  = Some (acquired_header true false)
  /\ calls (fst (api 4
                   (fst (api 4
                           (run 4 empty_world
                              [Call_AcquireCommandBuffer (Some (example_device true))])
                           (Call_Submit (Some 0%nat))))
                   (Call_SubmitAndAcquireFence (Some 0%nat))))
     = calls (fst (api 4
                     (run 4 empty_world
                        [Call_AcquireCommandBuffer (Some (example_device true))])
                     (Call_Submit (Some 0%nat)))).
Proof.
  split; [vm_compute; reflexivity|].
  exact (proj1 (X4_second_submission_refused 4
                  [Call_AcquireCommandBuffer (Some (example_device true))] 0%nat
                  (acquired_header true false)
                  (Call_Submit (Some 0%nat))
                  (Call_SubmitAndAcquireFence (Some 0%nat))
                  eq_refl eq_refl eq_refl eq_refl eq_refl eq_refl)).
Defined.

Lemma X5_null_handle_only_sets_error_witness :
  null_handle (Call_BeginRenderPass None None 0 None) = true
  /\ exists d,
       is_parameter_error d = true
       /\ fst (api 4 (run 4 empty_world (render_pass_with_pipeline true))
                 (Call_BeginRenderPass None None 0 None))
          = diag d (run 4 empty_world (render_pass_with_pipeline true))
       /\ is_sentinel
            (snd (api 4 (run 4 empty_world (render_pass_with_pipeline true))
                    (Call_BeginRenderPass None None 0 None))) = true.
Proof.
  split; [reflexivity|].
  exact (X5_null_handle_only_sets_error 4
           (run 4 empty_world (render_pass_with_pipeline true))
           (Call_BeginRenderPass None None 0 None) eq_refl).
Defined.

Lemma X6_acquire_resets_header_witness :
  AcquireCommandBuffer (example_device true)
    (calls (run 4 empty_world (use_after_submit true))) = Some 0%nat
  /\ exists h,
       buffers (fst (SDL_GpuAcquireCommandBuffer
                       (run 4 empty_world (use_after_submit true))
                       (Some (example_device true)))) !! 0%nat = Some h
       /\ submitted h = false.
Proof.
  split; [reflexivity|].
  destruct (X6_acquire_resets_header
              (run 4 empty_world (use_after_submit true))
              (example_device true) 0%nat eq_refl)
    as (h & Hl & _ & _ & Hs & _).
  exists h. split; [exact Hl|exact Hs].
Defined.

(** ** Device creation *)

Section Device_creation.

Lemma nonzero_land_bit (f : Z) (i : Z) :
  0 <= i -> nonzero (Z.land f (2 ^ i)) = Z.testbit f i.
Proof.
  intros Hi. unfold nonzero.
  destruct (Z.testbit f i) eqn:Hb.
  - apply negb_true_iff, Z.eqb_neq. intros H0.
    apply (f_equal (fun z => Z.testbit z i)) in H0.
    rewrite Z.land_spec, Hb, Z.pow2_bits_true, Z.bits_0 in H0 by done. done.
  - apply negb_false_iff, Z.eqb_eq. apply Z.bits_inj'. intros n Hn.
    rewrite Z.land_spec, Z.bits_0, Z.pow2_bits_eqb by done.
    destruct (Z.eqb_spec i n) as [->|]; [by rewrite Hb|by rewrite andb_false_r].
Qed.

Lemma low_six_bits (f : Z) :
  Z.land f 63
  = flag_if (Z.testbit f 5) 32
      (flag_if (Z.testbit f 4) 16
         (flag_if (Z.testbit f 3) 8
            (flag_if (Z.testbit f 2) 4
               (flag_if (Z.testbit f 1) 2
                  (flag_if (Z.testbit f 0) 1 0))))).
Proof.
  apply Z.bits_inj'. intros n Hn.
  rewrite Z.land_spec.
  change 63 with (Z.ones 6).
  destruct (Z.ltb_spec n 6) as [Hlt|Hge].
  - rewrite Z.ones_spec_low by lia. rewrite andb_true_r.
    assert (n = 0 \/ n = 1 \/ n = 2 \/ n = 3 \/ n = 4 \/ n = 5) as Hcases by lia.
    destruct Hcases as [-> | [-> | [-> | [-> | [-> | ->]]]]];
      destruct (Z.testbit f 0), (Z.testbit f 1), (Z.testbit f 2),
        (Z.testbit f 3), (Z.testbit f 4), (Z.testbit f 5); reflexivity.
  - rewrite Z.ones_spec_high by lia. rewrite andb_false_r.
    symmetry.
    assert (forall k, 0 <= k < 64 -> Z.testbit k n = false) as Hsmall.
    { intros k Hk. destruct (Z.eq_dec k 0) as [->|]; [apply Z.bits_0|].
      apply Z.bits_above_log2; [lia|].
      apply Z.log2_lt_pow2; [lia|].
      apply Z.lt_le_trans with (2 ^ 6); [lia|].
      apply Z.pow_le_mono_r; lia. }
    apply Hsmall.
    destruct (Z.testbit f 0), (Z.testbit f 1), (Z.testbit f 2),
      (Z.testbit f 3), (Z.testbit f 4), (Z.testbit f 5); vm_compute; split; congruence.
Qed.

Lemma SDL_GpuCreateDevice_props backends video hint formatFlags debug
    preferLowPower name :
  exists props,
    SDL_GpuCreateDevice backends video hint formatFlags debug preferLowPower name
    = SDL_GpuCreateDeviceWithProperties backends video hint props
    /\ requested_formatFlags props = Z.land formatFlags 63
    /\ SDL_GetBooleanProperty props "SDL_PROP_GPU_CREATEDEVICE_DEBUGMODE_BOOL" true
       = debug
    /\ SDL_GetBooleanProperty props
         "SDL_PROP_GPU_CREATEDEVICE_PREFERLOWPOWER_BOOL" true = preferLowPower
    /\ SDL_GetStringProperty props "SDL_PROP_GPU_CREATEDEVICE_NAME_STRING" None
       = name.
Proof.
  eexists. split; [reflexivity|].
  rewrite low_six_bits. unfold set_if_flag.
  change SDL_GPU_SHADERFORMAT_SECRET with (2 ^ 0).
  change SDL_GPU_SHADERFORMAT_SPIRV with (2 ^ 1).
  change SDL_GPU_SHADERFORMAT_DXBC with (2 ^ 2).
  change SDL_GPU_SHADERFORMAT_DXIL with (2 ^ 3).
  change SDL_GPU_SHADERFORMAT_MSL with (2 ^ 4).
  change SDL_GPU_SHADERFORMAT_METALLIB with (2 ^ 5).
  rewrite !nonzero_land_bit by lia.
  destruct (Z.testbit formatFlags 0), (Z.testbit formatFlags 1),
    (Z.testbit formatFlags 2), (Z.testbit formatFlags 3),
    (Z.testbit formatFlags 4), (Z.testbit formatFlags 5), debug, preferLowPower;
    (split; [vm_compute; reflexivity|]);
    (split; [vm_compute; reflexivity|]);
    (split; [vm_compute; reflexivity|]);
    unfold SDL_GetStringProperty, SDL_SetStringProperty;
    by rewrite lookup_insert_eq.
Qed.

Lemma SDL_GpuSelectBackend_valid backends _this gpudriver formatFlags selected diags :
  SDL_GpuSelectBackend backends _this gpudriver formatFlags = (selected, diags) ->
  selected <> SDL_GPU_DRIVER_INVALID ->
  diags = []
  /\ exists bk,
       bk ∈ backends
       /\ backendflag bk = selected
       /\ PrepareDriver bk _this = true
       /\ (forall name, gpudriver = Some name ->
             SDL_strcasecmp_is_zero name (Name bk) = true
             /\ Z.land (bootstrap_shaderFormats bk) formatFlags <> 0).
Proof.
  unfold SDL_GpuSelectBackend. intros Hsel Hvalid.
  destruct gpudriver as [name|].
  - destruct (find _ backends) as [bk|] eqn:Hfind;
      injection Hsel as <- <-; [|done].
    apply find_some in Hfind as [Hin Hok].
    apply andb_prop in Hok as [Hok Hprep]. apply andb_prop in Hok as [Hname Hfmt].
    split; [done|]. exists bk. split; [by apply list_elem_of_In|].
    split; [done|]. split; [done|]. intros ? [= <-]. split; [done|].
    unfold nonzero in Hfmt. apply negb_true_iff in Hfmt. by apply Z.eqb_neq.
  - destruct (find _ backends) as [bk|] eqn:Hfind;
      injection Hsel as <- <-; [|done].
    apply find_some in Hfind as [Hin Hprep].
    split; [done|]. exists bk. split; [by apply list_elem_of_In|]. done.
Qed.

(** X7 (the arguments survive the property bag).  [SDL_GpuCreateDevice]
    hands [SDL_GpuCreateDeviceWithProperties] a property bag from which it
    reads back the debug flag, the low-power preference and the name as
    they were given, and as requested shader formats the six known bits of
    [formatFlags]: any other bit of [formatFlags] is dropped. *)
Theorem X7_CreateDevice_arguments_round_trip
    (backends : list SDL_GpuBootstrap) (video : option SDL_VideoDevice)
    (hint : option string) (formatFlags : Z) (debug preferLowPower : bool)
    (name : option string) :
  exists props,
    SDL_GpuCreateDevice backends video hint formatFlags debug preferLowPower name
    = SDL_GpuCreateDeviceWithProperties backends video hint props
    /\ requested_formatFlags props = Z.land formatFlags 63
    /\ SDL_GetBooleanProperty props "SDL_PROP_GPU_CREATEDEVICE_DEBUGMODE_BOOL" true
       = debug
    /\ SDL_GetBooleanProperty props
         "SDL_PROP_GPU_CREATEDEVICE_PREFERLOWPOWER_BOOL" true = preferLowPower
    /\ SDL_GetStringProperty props "SDL_PROP_GPU_CREATEDEVICE_NAME_STRING" None
       = name.
Proof. apply SDL_GpuCreateDevice_props. Qed.

(** X8 (which back end a device comes from).  A device returned by
    [SDL_GpuCreateDevice] has the requested debug mode and no error was
    logged.  It was created by a registered back end with the flag of the
    back end that was selected, and the selected back end prepared its
    driver; when a driver name was given, by the hint or else by the
    argument, the selected back end has that name up to letter case and
    supports one of the requested shader formats. *)
Theorem X8_device_comes_from_selected_backend
    (backends : list SDL_GpuBootstrap) (video : option SDL_VideoDevice)
    (hint : option string) (formatFlags : Z) (debug preferLowPower : bool)
    (name : option string) (dev : SDL_GpuDevice) (diags : list Diagnostic) :
  SDL_GpuCreateDevice backends video hint formatFlags debug preferLowPower name
  = (Some dev, diags) ->
  diags = []
  /\ debugMode dev = debug
  /\ exists (_this : SDL_VideoDevice) (selected bk : SDL_GpuBootstrap),
       video = Some _this
       /\ selected ∈ backends /\ bk ∈ backends
       /\ PrepareDriver selected _this = true
       /\ (forall n, match hint with Some h => Some h | None => name end = Some n ->
             SDL_strcasecmp_is_zero n (Name selected) = true
             /\ Z.land (bootstrap_shaderFormats selected) (Z.land formatFlags 63) <> 0)
       /\ backendflag bk = backendflag selected
       /\ backend dev = backendflag bk
       /\ shaderFormats dev = bootstrap_shaderFormats bk.
Proof.
  destruct (SDL_GpuCreateDevice_props backends video hint formatFlags debug
              preferLowPower name) as (props & -> & Hflags & Hdebug & _ & Hname).
  unfold SDL_GpuCreateDeviceWithProperties.
  destruct video as [_this|]; [|done].
  rewrite Hflags, Hdebug, Hname.
  destruct (SDL_GpuSelectBackend backends _this _ _) as [sel ds] eqn:Hsel.
  case_decide as Hinv; [done|].
  intros [= Hc <-].
  destruct (SDL_GpuSelectBackend_valid _ _ _ _ _ _ Hsel Hinv)
    as (-> & selected & Hin & Hflag & Hprep & Hnamed).
  destruct (create_on_selected_Some _ _ _ _ _ _ Hc)
    as (bk & result & Hbk & Hf & _ & ->).
  split; [done|]. split; [done|].
  exists _this, selected, bk. cbn.
  split; [done|]. split; [done|]. split; [done|]. split; [done|].
  split; [exact Hnamed|]. split; [congruence|]. done.
Qed.

Lemma X8_device_comes_from_selected_backend_witness :
  SDL_GpuCreateDevice example_backends (Some 0%nat) None
    SDL_GPU_SHADERFORMAT_DXBC true false (Some "d3d12")
  = (Some (set_device_identity
             {| Name := "D3D12";
                backendflag := SDL_GPU_DRIVER_D3D12;
                bootstrap_shaderFormats := 12;
                PrepareDriver := fun _ => true;
                CreateDevice := fun debug _ _ => Some (example_device debug) |}
             true (example_device true)), [])
  /\ debugMode
       (set_device_identity
          {| Name := "D3D12";
             backendflag := SDL_GPU_DRIVER_D3D12;
             bootstrap_shaderFormats := 12;
             PrepareDriver := fun _ => true;
             CreateDevice := fun debug _ _ => Some (example_device debug) |}
          true (example_device true)) = true.
Proof.
  assert (SDL_GpuCreateDevice example_backends (Some 0%nat) None
            SDL_GPU_SHADERFORMAT_DXBC true false (Some "d3d12")
          = (Some (set_device_identity
                     {| Name := "D3D12";
                        backendflag := SDL_GPU_DRIVER_D3D12;
                        bootstrap_shaderFormats := 12;
                        PrepareDriver := fun _ => true;
                        CreateDevice :=
                          fun debug _ _ => Some (example_device debug) |}
                     true (example_device true)), [])) as Hcreated
    by (vm_compute; reflexivity).
  split; [exact Hcreated|].
  exact (proj1 (proj2 (X8_device_comes_from_selected_backend _ _ _ _ _ _ _ _ _
                         Hcreated))).
Defined.

End Device_creation.

Section D3D12_render_pass.

Import D3D12.

Lemma transition_color_attachments_native infos : forall i s,
  native (transition_color_attachments infos i s)
  = native s
      ++ (infos ≫= fun info =>
            [ ResourceBarrier (resource (texture (textureSlice info)))
                D3D12_RESOURCE_STATE_PRESENT D3D12_RESOURCE_STATE_RENDER_TARGET;
              OMSetRenderTargets (rtvHandle (texture (textureSlice info)));
              ClearRenderTargetView (rtvHandle (texture (textureSlice info)))
                (clearColor info) ]).
Proof.
  induction infos as [|info rest IH]; intros i s; cbn [transition_color_attachments].
  - cbn. by rewrite app_nil_r.
  - rewrite IH. cbn. by rewrite <- !app_assoc.
Qed.

Lemma transition_color_attachments_slots infos : forall i s,
  (i + length infos <= length (colorAttachmentTexture (commandBuffer s)))%nat ->
  colorAttachmentTexture (commandBuffer (transition_color_attachments infos i s))
  = take i (colorAttachmentTexture (commandBuffer s))
      ++ (Some ∘ texture ∘ textureSlice <$> infos)
      ++ drop (i + length infos) (colorAttachmentTexture (commandBuffer s))
  /\ cb_colorAttachmentCount (commandBuffer (transition_color_attachments infos i s))
     = cb_colorAttachmentCount (commandBuffer s)
  /\ errors (transition_color_attachments infos i s) = errors s.
Proof.
  induction infos as [|info rest IH]; intros i s Hlen;
    cbn [transition_color_attachments].
  - cbn. rewrite Nat.add_0_r, take_drop. done.
  - cbn in Hlen.
    match goal with |- context [transition_color_attachments rest (S i) ?s4] =>
      destruct (IH (S i) s4) as (Hs & Hc & He) end.
    { cbn. rewrite length_insert. lia. }
    rewrite Hs, Hc, He. cbn. split; [|done].
    rewrite (take_S_r _ _ (Some (texture (textureSlice info))))
      by (apply list_lookup_insert_eq; lia).
    rewrite take_insert_ge by lia.
    rewrite drop_insert_lt by lia.
    rewrite <- app_assoc. cbn.
    by replace (i + S (length rest))%nat with (S i + length rest)%nat by lia.
Qed.

Lemma color_attachments_extent_None infos : forall fb,
  color_attachments_extent infos fb = None
  <-> Exists (fun info => isRenderTarget (texture (textureSlice info)) = false) infos.
Proof.
  induction infos as [|info rest IH]; intros fb; cbn.
  - split; [done|]. by intros ?%Exists_nil.
  - rewrite Exists_cons.
    destruct (isRenderTarget (texture (textureSlice info))); cbn.
    + rewrite IH. split; [by right|]. by intros [?|?].
    + split; [by left|done].
Qed.

Lemma release_color_attachments_spec n : forall i s,
  (i + n <= length (colorAttachmentTexture (commandBuffer s)))%nat ->
  native (release_color_attachments n i s)
  = native s
      ++ (take n (drop i (colorAttachmentTexture (commandBuffer s))) ≫= fun slot =>
            match slot with
            | Some t => [ResourceBarrier (resource t) D3D12_RESOURCE_STATE_RENDER_TARGET
                           D3D12_RESOURCE_STATE_PRESENT]
            | None => []
            end)
  /\ colorAttachmentTexture (commandBuffer (release_color_attachments n i s))
     = take i (colorAttachmentTexture (commandBuffer s))
         ++ replicate n None
         ++ drop (i + n) (colorAttachmentTexture (commandBuffer s))
  /\ errors (release_color_attachments n i s) = errors s.
Proof.
  induction n as [|n IH]; intros i s Hlen; cbn [release_color_attachments].
  - cbn. rewrite Nat.add_0_r, take_drop, app_nil_r. done.
  - destruct (lookup_lt_is_Some_2 (colorAttachmentTexture (commandBuffer s)) i)
      as [slot Hslot]; [lia|].
    rewrite Hslot.
    match goal with |- context [release_color_attachments n (S i) ?s2] =>
      destruct (IH (S i) s2) as (Hn & Hs & He);
      [|rewrite Hn, Hs, He;
        assert (colorAttachmentTexture (commandBuffer s2)
                = <[i := None]> (colorAttachmentTexture (commandBuffer s))) as ->
          by (by destruct slot);
        assert (errors s2 = errors s) as -> by (by destruct slot);
        assert (native s2
                = native s
                    ++ match slot with
                       | Some t => [ResourceBarrier (resource t)
                                      D3D12_RESOURCE_STATE_RENDER_TARGET
                                      D3D12_RESOURCE_STATE_PRESENT]
                       | None => []
                       end) as ->
          by (destruct slot; cbn; by rewrite ?app_nil_r)]
    end.
    { destruct slot; cbn; rewrite length_insert; lia. }
    split; [|split; [|done]].
    + rewrite <- app_assoc. f_equal.
      rewrite (drop_S _ _ _ Hslot). cbn. f_equal.
      by rewrite drop_insert_lt by lia.
    + rewrite (take_S_r _ _ None) by (apply list_lookup_insert_eq; lia).
      rewrite take_insert_ge by lia.
      rewrite drop_insert_lt by lia. rewrite <- app_assoc. cbn.
      by replace (i + S n)%nat with (S i + n)%nat by lia.
Qed.



Lemma color_attachments_extent_Some infos : forall fb,
  Forall (fun info => isRenderTarget (texture (textureSlice info)) = true) infos ->
  color_attachments_extent infos fb
  = Some (foldl (fun fb slice => shrink_framebuffer slice fb) fb
            (textureSlice <$> infos)).
Proof.
  induction infos as [|info rest IH]; intros fb Hok; cbn; [done|].
  apply Forall_cons in Hok as [-> Hok]. cbn. by apply IH.
Qed.

(** X9 (a refused render pass records nothing).  When one of the first
    [colorAttachmentCount] color attachments, or the depth-stencil
    attachment, is a texture that was not created as a render target,
    [D3D12_BeginRenderPass] logs one error and returns: nothing is recorded
    on the command list and the command buffer keeps its attachments. *)
Theorem X9_BeginRenderPass_refuses_non_targets
    (s : State) (infos : list D3D12ColorAttachmentInfo) (count : Z)
    (ds : option D3D12DepthStencilAttachmentInfo) :
  Exists (fun slice => isRenderTarget (texture slice) = false)
    (attachment_slices infos count ds) ->
  native (D3D12_BeginRenderPass s infos count ds) = native s
  /\ commandBuffer (D3D12_BeginRenderPass s infos count ds) = commandBuffer s
  /\ exists msg, errors (D3D12_BeginRenderPass s infos count ds) = errors s ++ [msg].
Proof.
  unfold attachment_slices. rewrite Exists_app, Exists_fmap.
  intros Hex. unfold D3D12_BeginRenderPass.
  destruct (color_attachments_extent _ _) as [fb|] eqn:Hext;
    [|by eauto].
  destruct Hex as [Hex|Hex].
  { apply (color_attachments_extent_None _ (UINT32_MAX, UINT32_MAX)) in Hex.
    congruence. }
  destruct ds as [d|]; cbn in Hex; [|by apply Exists_nil in Hex].
  apply Exists_cons in Hex as [Hex|Hex]; [|by apply Exists_nil in Hex].
  rewrite Hex. cbn. by eauto.
Qed.

Lemma X9_BeginRenderPass_refuses_non_targets_witness :
  native (D3D12_BeginRenderPass example_state
            [example_attachment SDL_GPU_LOADOP_CLEAR;
             {| textureSlice :=
                  {| texture := {| resource := 6%nat;
                                   desc := {| Width := 64; Height := 64 |};
                                   rtvHandle := 0; isRenderTarget := false |};
                     mipLevel := 0 |};
                clearColor := {| r := 0; g := 0; b := 0; a := 0 |};
                loadOp := SDL_GPU_LOADOP_CLEAR |}] 2 None)
  = native example_state.
Proof.
  apply X9_BeginRenderPass_refuses_non_targets.
  unfold attachment_slices. cbn. apply Exists_cons. right.
  apply Exists_cons. left. reflexivity.
Defined.

(** X10 (transitions are paired).  Let [D3D12_BeginRenderPass] be called
    with [colorAttachmentCount] color attachments that are all render
    targets and fit the attachment slots of the command buffer.  Then the
    pass begins by moving each attachment's resource from PRESENT to
    RENDER_TARGET, in order, and [D3D12_EndRenderPass] moves the same
    resources back from RENDER_TARGET to PRESENT, in the same order; after
    it the command buffer has no attachment left and no error was
    logged. *)
Theorem X10_render_pass_transitions_paired
    (s : State) (infos : list D3D12ColorAttachmentInfo) (count : Z)
    (ds : option D3D12DepthStencilAttachmentInfo) :
  0 <= count <= Z.of_nat (length infos) ->
  (Z.to_nat count <= length (colorAttachmentTexture (commandBuffer s)))%nat ->
  Forall (fun slice => isRenderTarget (texture slice) = true)
    (attachment_slices infos count ds) ->
  barriers (native (D3D12_EndRenderPass (D3D12_BeginRenderPass s infos count ds)))
  = barriers (native s)
      ++ ((fun info => (resource (texture (textureSlice info)),
                        D3D12_RESOURCE_STATE_PRESENT,
                        D3D12_RESOURCE_STATE_RENDER_TARGET))
            <$> take (Z.to_nat count) infos)
      ++ ((fun info => (resource (texture (textureSlice info)),
                        D3D12_RESOURCE_STATE_RENDER_TARGET,
                        D3D12_RESOURCE_STATE_PRESENT))
            <$> take (Z.to_nat count) infos)
  /\ cb_colorAttachmentCount
       (commandBuffer (D3D12_EndRenderPass (D3D12_BeginRenderPass s infos count ds)))
     = 0
  /\ take (Z.to_nat count)
       (colorAttachmentTexture
          (commandBuffer (D3D12_EndRenderPass
                            (D3D12_BeginRenderPass s infos count ds))))
     = replicate (Z.to_nat count) None
  /\ errors (D3D12_EndRenderPass (D3D12_BeginRenderPass s infos count ds))
     = errors s.
Proof.
  intros Hcount Hslots Hok. unfold attachment_slices in Hok.
  apply Forall_app in Hok as [Hcolor Hds]. rewrite Forall_fmap in Hcolor.
  set (taken := take (Z.to_nat count) infos) in *.
  assert (length taken = Z.to_nat count) as Htaken
    by (unfold taken; rewrite length_take; lia).
  unfold D3D12_BeginRenderPass. fold taken.
  rewrite color_attachments_extent_Some by done.
  assert (exists fw fh,
    match ds with
    | Some ds0 =>
      if negb (isRenderTarget (texture (ds_textureSlice ds0))) then None
      else Some (shrink_framebuffer (ds_textureSlice ds0)
                   (foldl (fun fb slice => shrink_framebuffer slice fb)
                      (UINT32_MAX, UINT32_MAX) (textureSlice <$> taken)))
    | None => Some (foldl (fun fb slice => shrink_framebuffer slice fb)
                      (UINT32_MAX, UINT32_MAX) (textureSlice <$> taken))
    end = Some (fw, fh)) as (fw & fh & ->).
  { destruct ds as [d|]; cbn in Hds.
    - apply Forall_cons in Hds as [-> _]. cbn.
      destruct (shrink_framebuffer _ _); by eauto.
    - destruct (foldl _ _ _); by eauto. }
  set (s1 := set_commandBuffer _ s).
  destruct (transition_color_attachments_slots taken 0 s1) as (Hs2 & Hc2 & He2);
    [cbn; lia|].
  pose proof (transition_color_attachments_native taken 0 s1) as Hn2.
  set (s2 := transition_color_attachments taken 0 s1) in *.
  unfold D3D12_EndRenderPass, D3D12_SetScissor, D3D12_SetViewport.
  cbn [commandBuffer record set_commandBuffer cb_colorAttachmentCount
       set_attachments colorAttachmentTexture].
  set (s4 := record _ (record _ s2)).
  assert (cb_colorAttachmentCount (commandBuffer s4) = count) as Hc4
    by (cbn; by rewrite Hc2).
  assert (colorAttachmentTexture (commandBuffer s4)
          = (Some ∘ texture ∘ textureSlice <$> taken)
              ++ drop (Z.to_nat count) (colorAttachmentTexture (commandBuffer s)))
    as Hs4 by (cbn; rewrite Hs2; cbn; by rewrite Htaken).
  replace (cb_colorAttachmentCount (commandBuffer s2)) with count
    by (by rewrite Hc2).
  destruct (release_color_attachments_spec (Z.to_nat count) 0 s4)
    as (Hn5 & Hs5 & He5).
  { rewrite Hs4, length_app, length_fmap, length_drop.
    unfold D3D12ColorAttachmentInfo in *. lia. }
  cbn [native errors commandBuffer set_commandBuffer set_attachments
       cb_colorAttachmentCount colorAttachmentTexture].
  rewrite Hn5, Hs5, He5. cbn [take drop app].
  split; [|split; [done|split]].
  - rewrite Hs4, drop_0. rewrite take_app_length' by (by rewrite length_fmap).
    unfold s4. cbn [native record]. rewrite Hn2. cbn [native s1 set_commandBuffer].
    unfold barriers. rewrite !omap_app. cbn. rewrite app_nil_r, <- !app_assoc.
    f_equal. f_equal.
    + clear. induction taken as [|info rest IH]; [done|]. cbn in *. by f_equal.
    + clear. induction taken as [|info rest IH]; [done|]. cbn in *. by f_equal.
  - rewrite take_0. cbn [app]. rewrite take_app_length'; [done|].
    by rewrite length_replicate.
  - unfold s4. cbn [errors record]. by rewrite He2.
Qed.

Lemma X10_render_pass_transitions_paired_witness :
  barriers (native (D3D12_EndRenderPass
                      (D3D12_BeginRenderPass example_state
                         [example_attachment SDL_GPU_LOADOP_CLEAR] 1 None)))
  = [ (5%nat, D3D12_RESOURCE_STATE_PRESENT, D3D12_RESOURCE_STATE_RENDER_TARGET);
      (5%nat, D3D12_RESOURCE_STATE_RENDER_TARGET, D3D12_RESOURCE_STATE_PRESENT) ].
Proof.
  refine (proj1 (X10_render_pass_transitions_paired example_state
                   [example_attachment SDL_GPU_LOADOP_CLEAR] 1 None _ _ _)).
  - cbn. lia.
  - cbn. lia.
  - repeat constructor.
Defined.






End D3D12_render_pass.
Section D3D12_uniform_buffers.

Import D3D12.

Variable UNIFORM_BUFFER_SIZE : Z.










End D3D12_uniform_buffers.


Section D3D12_submission.

Import D3D12.

Lemma checked_frame c msg s :
  native (checked c msg s) = native s ++ [c]
  /\ windows (checked c msg s) = windows s
  /\ commandBuffer (checked c msg s) = commandBuffer s
  /\ lib (checked c msg s) = lib s.
Proof. unfold checked. by destruct (SUCCEEDED _ _ _). Qed.

(** The presentation loop only presents. *)
Lemma present_windows_frame chain : forall s,
  commandBuffer (present_windows chain s) = commandBuffer s
  /\ lib (present_windows chain s) = lib s
  /\ errors (present_windows chain s) = errors s
  /\ exists scs,
       native (present_windows chain s)
       = native s ++ ((fun sc => SwapChain_Present sc 1 0) <$> scs).
Proof.
  induction chain as [|win rest IH]; intros s; cbn [present_windows].
  - repeat split; try done. exists []. cbn. by rewrite app_nil_r.
  - destruct (windows s !! win) as [data|]; [|apply IH].
    match goal with |- context [present_windows rest ?s2] =>
      destruct (IH s2) as (-> & -> & -> & scs & ->) end.
    repeat split; try done. exists (swapchain data :: scs).
    cbn. by rewrite <- app_assoc.
Qed.

(** It presents every claimed window of the chain, in order, and leaves it
    inactive. *)
Lemma present_windows_spec chain : forall s,
  (forall win, win ∈ chain -> is_Some (windows s !! win)) ->
  (exists scs,
     native (present_windows chain s)
     = native s ++ ((fun sc => SwapChain_Present sc 1 0) <$> scs)
     /\ Forall2 (fun win sc => swapchain <$> windows s !! win = Some sc) chain scs)
  /\ (forall win, swapchain <$> windows (present_windows chain s) !! win
                  = swapchain <$> windows s !! win)
  /\ (forall win, win ∈ chain ->
        exists data, windows (present_windows chain s) !! win = Some data
                     /\ activeWindow data = false)
  /\ (forall win, win ∉ chain ->
        windows (present_windows chain s) !! win = windows s !! win).
Proof.
  induction chain as [|win rest IH]; intros s Hclaimed; cbn [present_windows].
  - split; [exists []; cbn; by rewrite app_nil_r|].
    split; [done|]. split; [|done]. by intros win ?%elem_of_nil.
  - destruct (Hclaimed win) as [data Hdata]; [by left|]. rewrite Hdata.
    match goal with |- context [present_windows rest ?t] =>
      set (s2 := t) in *;
      destruct (IH s2) as ((scs & Hn & Hscs) & Hsc & Hin & Hout) end.
    { intros w Hw. unfold s2. cbn. destruct (decide (w = win)) as [->|Hne].
      - rewrite lookup_insert_eq. by eexists.
      - rewrite lookup_insert_ne by done. apply Hclaimed. by right. }
    assert (forall w, swapchain <$> windows s2 !! w = swapchain <$> windows s !! w)
      as Hsc2.
    { intros w. unfold s2. cbn. destruct (decide (w = win)) as [->|Hne].
      - by rewrite lookup_insert_eq, Hdata.
      - by rewrite lookup_insert_ne. }
    split; [|split; [|split]].
    + exists (swapchain data :: scs). rewrite Hn. unfold s2. cbn.
      rewrite <- app_assoc. split; [done|].
      constructor; [by rewrite Hdata|].
      eapply Forall2_impl; [exact Hscs|]. intros w sc. cbn. by rewrite <- Hsc2.
    + intros w. by rewrite Hsc, Hsc2.
    + intros w Hw. destruct (decide (w ∈ rest)) as [Hr|Hr]; [by apply Hin|].
      apply elem_of_cons in Hw as [->|Hw]; [|done].
      rewrite (Hout win Hr). unfold s2. cbn. rewrite lookup_insert_eq.
      by eexists.
    + intros w Hw. apply not_elem_of_cons in Hw as [Hne Hw].
      rewrite (Hout w Hw). unfold s2. cbn. by rewrite lookup_insert_ne.
Qed.

Lemma presented_app l1 l2 : presented (l1 ++ l2) = presented l1 ++ presented l2.
Proof. apply omap_app. Qed.

Lemma presented_presents scs :
  presented ((fun sc => SwapChain_Present sc 1 0) <$> scs) = scs.
Proof. induction scs as [|sc scs IH]; cbn; [done|]. by f_equal. Qed.

Lemma signalled_app l1 l2 : signalled (l1 ++ l2) = signalled l1 ++ signalled l2.
Proof. apply omap_app. Qed.

Lemma signalled_presents scs :
  signalled ((fun sc => SwapChain_Present sc 1 0) <$> scs) = [].
Proof. induction scs as [|sc scs IH]; cbn; [done|]. exact IH. Qed.

(** One submission: the calls it records and the state it leaves. *)
Lemma D3D12_Submit_spec s :
  (forall win, win ∈ nextWindow (commandBuffer s) -> is_Some (windows s !! win)) ->
  (exists scs,
     presented (native (D3D12_Submit s)) = presented (native s) ++ scs
     /\ Forall2 (fun win sc => swapchain <$> windows s !! win = Some sc)
          (nextWindow (commandBuffer s)) scs)
  /\ nextWindow (commandBuffer (D3D12_Submit s)) = []
  /\ (forall win, win ∈ nextWindow (commandBuffer s) ->
        exists data, windows (D3D12_Submit s) !! win = Some data
                     /\ activeWindow data = false)
  /\ (forall win, win ∉ nextWindow (commandBuffer s) ->
        windows (D3D12_Submit s) !! win = windows s !! win).
Proof.
  intros Hclaimed. unfold D3D12_Submit. cbn zeta.
  destruct (checked_frame CommandList_Close "Could not close graphicsCommandList" s)
    as (Hn1 & Hw1 & Hc1 & Hl1).
  set (s1 := checked CommandList_Close _ s) in *.
  cbn [commandBuffer record set_commandBuffer nextWindow set_submission fenceValue].
  rewrite Hc1.
  match goal with |- context [present_windows ?chain ?t] =>
    set (s3 := t) in *;
    destruct (present_windows_spec chain s3) as ((scs & Hn4 & Hscs) & Hsc4 & Hin4 & Hout4);
    [|destruct (present_windows_frame chain s3) as (Hc4 & Hl4 & He4 & _);
      set (s4 := present_windows chain s3) in *]
  end.
  { intros win Hwin. unfold s3. cbn. rewrite Hw1. by apply Hclaimed. }
  match goal with |- context [checked (CommandQueue_Signal ?v) ?m s4] =>
    destruct (checked_frame (CommandQueue_Signal v) m s4) as (Hn5 & Hw5 & Hc5 & Hl5);
    set (s5 := checked (CommandQueue_Signal v) m s4) in *
  end.
  match goal with |- context [checked CommandAllocator_Reset ?m ?t] =>
    set (s7 := t) in *;
    destruct (checked_frame CommandAllocator_Reset m s7) as (Hn8 & Hw8 & Hc8 & Hl8);
    set (s8 := checked CommandAllocator_Reset m s7) in *
  end.
  match goal with |- context [checked CommandList_Reset ?m s8] =>
    destruct (checked_frame CommandList_Reset m s8) as (Hn9 & Hw9 & Hc9 & Hl9)
  end.
  assert (windows s7 = windows s4 /\ nextWindow (commandBuffer s7) = []
          /\ presented (native s7) = presented (native s5)) as (Hw7 & Hc7 & Hn7).
  { unfold s7. destruct (_ <? _); cbn; rewrite ?Hw5, ?Hc5, ?Hc4;
      rewrite ?presented_app; cbn; rewrite ?app_nil_r; done. }
  rewrite Hn9, Hw9, Hc9, Hn8, Hw8, Hc8, Hw7, Hc7.
  rewrite !presented_app, Hn7, Hn5, presented_app, Hn4, presented_app.
  rewrite presented_presents. cbn [presented omap app]. rewrite !app_nil_r.
  split; [|split; [done|split]].
  - exists scs. unfold s3. cbn [native record set_commandBuffer]. rewrite Hn1.
    rewrite !presented_app. cbn. rewrite !app_nil_r. split; [done|].
    eapply Forall2_impl; [exact Hscs|]. intros w sc. unfold s3. cbn.
    by rewrite Hw1.
  - exact Hin4.
  - intros win Hwin. rewrite (Hout4 win Hwin). unfold s3. cbn. by rewrite Hw1.
Qed.

(** Acquiring a swapchain texture keeps the chain in order. *)
Lemma AcquireSwapchainTexture_chain s win s1 t w h :
  D3D12_AcquireSwapchainTexture s win = Some (s1, t, w, h) ->
  chain_ok s ->
  chain_ok s1
  /\ native s1 = native s
  /\ (forall x, swapchain <$> windows s1 !! x = swapchain <$> windows s !! x)
  /\ (forall x, x ∈ nextWindow (commandBuffer s1)
                <-> x ∈ nextWindow (commandBuffer s) \/ x = win).
Proof.
  unfold D3D12_AcquireSwapchainTexture.
  destruct (windows s !! win) as [data|] eqn:Hdata; [|done].
  intros Hacq [Hnodup Hchain].
  assert (s1 = if negb (activeWindow data)
               then set_windows
                      (<[win := {| swapchain := swapchain data;
                                   renderTexture := renderTexture data;
                                   frameCounter := frameCounter data;
                                   activeWindow := true |}]> (windows s))
                      (set_commandBuffer
                         (set_chain (nextWindow (commandBuffer s) ++ [win])
                            (commandBuffer s)) s)
               else s) as ->
    by (destruct (renderTexture data !! _); by injection Hacq as <-).
  clear Hacq. destruct (activeWindow data) eqn:Hactive; cbn [negb].
  - split; [done|]. split; [done|]. split; [done|].
    intros x. split; [by left|]. intros [? | ->]; [done|].
    apply Hchain. by exists data.
  - assert (win ∉ nextWindow (commandBuffer s)) as Hfresh.
    { intros Hin. apply Hchain in Hin as (d & Hd & Ha). congruence. }
    unfold chain_ok. cbn. split; [split|split; [done|split]].
    + apply NoDup_app. split; [done|]. split; [|apply NoDup_singleton].
      intros x Hx ->%list_elem_of_singleton. done.
    + intros x. rewrite elem_of_app, list_elem_of_singleton.
      destruct (decide (x = win)) as [->|Hne].
      * rewrite lookup_insert_eq. split; [by eexists|by right].
      * rewrite lookup_insert_ne by done. rewrite <- Hchain. split; [|by left].
        by intros [?|?].
    + intros x. destruct (decide (x = win)) as [->|Hne].
      * by rewrite lookup_insert_eq, Hdata.
      * by rewrite lookup_insert_ne.
    + intros x. by rewrite elem_of_app, list_elem_of_singleton.
Qed.

Lemma acquire_all_chain wins : forall s s1,
  acquire_all s wins = Some s1 ->
  chain_ok s ->
  chain_ok s1
  /\ native s1 = native s
  /\ (forall x, swapchain <$> windows s1 !! x = swapchain <$> windows s !! x)
  /\ (forall x, x ∈ nextWindow (commandBuffer s1)
                <-> x ∈ nextWindow (commandBuffer s) \/ x ∈ wins).
Proof.
  induction wins as [|win rest IH]; intros s s1; cbn [acquire_all].
  - intros [= <-] Hok. split; [done|]. split; [done|]. split; [done|].
    intros x. split; [by left|]. by intros [?|?%elem_of_nil].
  - destruct (D3D12_AcquireSwapchainTexture s win) as [[[[s' t] w] h]|] eqn:Hacq;
      [|done].
    intros Hrest Hok.
    destruct (AcquireSwapchainTexture_chain _ _ _ _ _ _ Hacq Hok)
      as (Hok' & Hn' & Hsc' & Hin').
    destruct (IH _ _ Hrest Hok') as (Hok1 & Hn1 & Hsc1 & Hin1).
    split; [done|]. split; [congruence|]. split.
    + intros x. by rewrite Hsc1, Hsc'.
    + intros x. rewrite Hin1, Hin', elem_of_cons. tauto.
Qed.

(** X13 (each acquired window is presented once).  Let the chain of
    windows to present hold each active window once.  After swapchain
    textures were acquired for claimed windows, however often for each,
    [D3D12_Submit] presents every window of the chain once with its own
    swapchain: the chain holds no window twice and holds exactly the
    windows that were in it or were acquired.  The submission empties the
    chain and leaves no window active. *)
Theorem X13_acquired_windows_presented_once
    (s s1 : State) (wins : list WindowId) :
  chain_ok s ->
  acquire_all s wins = Some s1 ->
  NoDup (nextWindow (commandBuffer s1))
  /\ (forall win, win ∈ nextWindow (commandBuffer s1)
                  <-> win ∈ nextWindow (commandBuffer s) \/ win ∈ wins)
  /\ (exists scs,
        presented (native (D3D12_Submit s1)) = presented (native s) ++ scs
        /\ Forall2 (fun win sc => swapchain <$> windows s !! win = Some sc)
             (nextWindow (commandBuffer s1)) scs)
  /\ nextWindow (commandBuffer (D3D12_Submit s1)) = []
  /\ chain_ok (D3D12_Submit s1).
Proof.
  intros Hok Hacq.
  destruct (acquire_all_chain _ _ _ Hacq Hok) as ([Hnodup Hchain] & Hn & Hsc & Hin).
  destruct (D3D12_Submit_spec s1)
    as ((scs & Hp & Hscs) & Hempty & Hinactive & Hother).
  { intros win Hwin. apply Hchain in Hwin as (d & -> & _). by eexists. }
  split; [done|]. split; [done|]. split; [|split; [done|]].
  - exists scs. rewrite Hp, Hn. split; [done|].
    eapply Forall2_impl; [exact Hscs|]. intros w sc. cbn. by rewrite Hsc.
  - split; rewrite Hempty; [apply NoDup_nil_2|].
    intros win. split; [by intros ?%elem_of_nil|].
    intros (d & Hd & Ha). exfalso.
    destruct (decide (win ∈ nextWindow (commandBuffer s1))) as [Hwin|Hwin].
    + destruct (Hinactive win Hwin) as (d' & Hd' & Ha'). congruence.
    + rewrite (Hother win Hwin) in Hd. apply Hwin, Hchain. by exists d.
Qed.

Lemma X13_acquired_windows_presented_once_witness :
  exists s1,
    acquire_all example_window_state [0%nat; 0%nat] = Some s1
    /\ nextWindow (commandBuffer s1) = [0%nat]
    /\ NoDup (nextWindow (commandBuffer s1)).
Proof.
  eexists. split; [vm_compute; reflexivity|]. split; [reflexivity|].
  refine (proj1 (X13_acquired_windows_presented_once example_window_state _
                   [0%nat; 0%nat] _ eq_refl)).
  split; [apply NoDup_nil_2|].
  intros win. split; [by intros ?%elem_of_nil|].
  intros (d & Hd & Ha). exfalso. cbn in Hd.
  apply lookup_singleton_Some in Hd as [_ <-]. discriminate Ha.
Defined.

Lemma D3D12_Submit_signals s :
  signalled (native (D3D12_Submit s))
  = signalled (native s) ++ [fenceValue (commandBuffer s)]
  /\ fenceValue (commandBuffer (D3D12_Submit s))
     = wrap64 (fenceValue (commandBuffer s) + 1).
Proof.
  unfold D3D12_Submit. cbn zeta.
  destruct (checked_frame CommandList_Close "Could not close graphicsCommandList" s)
    as (Hn1 & Hw1 & Hc1 & Hl1).
  set (s1 := checked CommandList_Close _ s) in *.
  cbn [commandBuffer record set_commandBuffer nextWindow set_submission fenceValue].
  rewrite Hc1.
  match goal with |- context [present_windows ?chain ?t] =>
    set (s3 := t) in *;
    destruct (present_windows_frame chain s3) as (Hc4 & Hl4 & He4 & scs & Hn4);
    set (s4 := present_windows chain s3) in *
  end.
  assert (fenceValue (commandBuffer s4) = fenceValue (commandBuffer s)) as Hf4
    by (by rewrite Hc4).
  rewrite Hf4.
  match goal with |- context [checked (CommandQueue_Signal ?v) ?m s4] =>
    destruct (checked_frame (CommandQueue_Signal v) m s4) as (Hn5 & Hw5 & Hc5 & Hl5);
    set (s5 := checked (CommandQueue_Signal v) m s4) in *
  end.
  match goal with |- context [checked CommandAllocator_Reset ?m ?t] =>
    set (s7 := t) in *;
    destruct (checked_frame CommandAllocator_Reset m s7) as (Hn8 & Hw8 & Hc8 & Hl8);
    set (s8 := checked CommandAllocator_Reset m s7) in *
  end.
  match goal with |- context [checked CommandList_Reset ?m s8] =>
    destruct (checked_frame CommandList_Reset m s8) as (Hn9 & Hw9 & Hc9 & Hl9)
  end.
  assert (fenceValue (commandBuffer s7)
          = wrap64 (fenceValue (commandBuffer s) + 1)
          /\ signalled (native s7) = signalled (native s5)) as (Hc7 & Hn7).
  { unfold s7. destruct (_ <? _); cbn; rewrite ?Hc5, ?Hf4, ?signalled_app; cbn;
      rewrite ?app_nil_r; done. }
  rewrite Hn9, Hc9, Hn8, Hc8, Hc7. split; [|done].
  rewrite !signalled_app, Hn7, Hn5, signalled_app, Hn4, signalled_app.
  rewrite signalled_presents. unfold s3. cbn [native record set_commandBuffer].
  rewrite Hn1, !signalled_app. cbn. by rewrite !app_nil_r.
Qed.

Lemma wrap64_succ (z : Z) : wrap64 (wrap64 z + 1) = wrap64 (z + 1).
Proof. unfold wrap64. by rewrite Zplus_mod_idemp_l. Qed.

Lemma wrap64_small (z : Z) : 0 <= z < 18446744073709551616 -> wrap64 z = z.
Proof. apply Z.mod_small. Qed.

(** X14 (fence values of successive submissions).  Let [v] be the fence
    value of the command buffer, a [UINT64].  [n] submissions made one after
    the other signal the queue with the fence values [v], [v + 1], ...,
    [v + n - 1] taken modulo 2^64, in this order, and leave the fence value
    [v + n] modulo 2^64; as long as [v + n] is below 2^64 nothing wraps
    around and the values signalled increase one by one.  This holds
    whatever the native calls answer. *)
Theorem X14_submissions_signal_increasing_fences (n : nat) (s : State) :
  0 <= fenceValue (commandBuffer s) < 18446744073709551616 ->
  (signalled (native (submits n s))
   = signalled (native s)
       ++ ((fun k => wrap64 (fenceValue (commandBuffer s) + Z.of_nat k))
             <$> seq 0 n)
   /\ fenceValue (commandBuffer (submits n s))
      = wrap64 (fenceValue (commandBuffer s) + Z.of_nat n))
  /\ (fenceValue (commandBuffer s) + Z.of_nat n < 18446744073709551616 ->
      signalled (native (submits n s))
      = signalled (native s)
          ++ ((fun k => fenceValue (commandBuffer s) + Z.of_nat k) <$> seq 0 n)
      /\ fenceValue (commandBuffer (submits n s))
         = fenceValue (commandBuffer s) + Z.of_nat n).
Proof.
  intros Hv.
  assert (signalled (native (submits n s))
          = signalled (native s)
              ++ ((fun k => wrap64 (fenceValue (commandBuffer s) + Z.of_nat k))
                    <$> seq 0 n)
          /\ fenceValue (commandBuffer (submits n s))
             = wrap64 (fenceValue (commandBuffer s) + Z.of_nat n)) as [Hs Hf].
  { induction n as [|n [IHs IHf]]; cbn [submits].
    - cbn. rewrite app_nil_r, Z.add_0_r, wrap64_small by done. done.
    - destruct (D3D12_Submit_signals (submits n s)) as [-> ->].
      rewrite IHs, IHf, wrap64_succ. split; [|f_equal; lia].
      rewrite seq_S, fmap_app, app_assoc. done. }
  split; [done|]. intros Hn. rewrite Hs, Hf. split.
  - f_equal. apply list_fmap_ext. intros i k Hk.
    apply lookup_seq in Hk as [-> Hk]. apply wrap64_small. lia.
  - apply wrap64_small. lia.
Qed.

Lemma X14_submissions_signal_increasing_fences_witness :
  signalled (native (submits 3 example_state)) = [0; 1; 2]
  /\ fenceValue (commandBuffer (submits 3 example_state)) = 3.
Proof.
  refine (proj2 (X14_submissions_signal_increasing_fences 3 example_state _) _);
    cbn; lia.
Defined.

End D3D12_submission.

Section Renderer_passes.

Variable MAX_COLOR_TARGET_BINDINGS : Z.

Lemma begun_delegate c w :
  begun (delegate c w)
  = begun w ++ match c with
               | BE_BeginRenderPass _ infos _ _ => [infos]
               | _ => []
               end.
Proof. unfold begun. cbn. rewrite omap_app. cbn. by destruct c. Qed.

Lemma begun_diag d w : begun (diag d w) = begun w.
Proof. done. Qed.

Lemma begun_store cb h w : begun (store cb h w) = begun w.
Proof. done. Qed.

Ltac begun_entry :=
  repeat case_match; cbn [fst snd];
  repeat (rewrite begun_store || rewrite begun_diag || rewrite begun_delegate);
  cbn; rewrite ?app_nil_r; done.

Lemma SDL_GpuSetViewport_begun w rp vp : begun (SDL_GpuSetViewport w rp vp) = begun w.
Proof. unfold SDL_GpuSetViewport. begun_entry. Qed.

Lemma SDL_GpuSetScissor_begun w rp sc : begun (SDL_GpuSetScissor w rp sc) = begun w.
Proof. unfold SDL_GpuSetScissor. begun_entry. Qed.

Lemma SDL_GpuBindVertexBuffers_begun w rp first bindings n :
  begun (SDL_GpuBindVertexBuffers w rp first bindings n) = begun w.
Proof. unfold SDL_GpuBindVertexBuffers. begun_entry. Qed.

Lemma SDL_GpuBindFragmentSamplers_begun w rp first bindings n :
  begun (SDL_GpuBindFragmentSamplers w rp first bindings n) = begun w.
Proof. unfold SDL_GpuBindFragmentSamplers. begun_entry. Qed.

Lemma SDL_GpuPushVertexUniformData_begun w cb slot data len :
  begun (SDL_GpuPushVertexUniformData w cb slot data len) = begun w.
Proof. unfold SDL_GpuPushVertexUniformData. begun_entry. Qed.

Lemma SDL_GpuMapTransferBuffer_begun w dev tb cycle ppData :
  begun (SDL_GpuMapTransferBuffer w dev tb cycle ppData) = begun w.
Proof. unfold SDL_GpuMapTransferBuffer. begun_entry. Qed.

Lemma SDL_GpuUnmapTransferBuffer_begun w dev tb :
  begun (SDL_GpuUnmapTransferBuffer w dev tb) = begun w.
Proof. unfold SDL_GpuUnmapTransferBuffer. begun_entry. Qed.

Lemma SDL_GpuUploadToBuffer_begun w pass src dst cycle :
  begun (SDL_GpuUploadToBuffer w pass src dst cycle) = begun w.
Proof. unfold SDL_GpuUploadToBuffer. begun_entry. Qed.

Lemma SDL_GpuBeginCopyPass_begun w cb : begun (SDL_GpuBeginCopyPass w cb).1 = begun w.
Proof. unfold SDL_GpuBeginCopyPass. begun_entry. Qed.

Lemma SDL_GpuEndCopyPass_begun w pass : begun (SDL_GpuEndCopyPass w pass) = begun w.
Proof. unfold SDL_GpuEndCopyPass. begun_entry. Qed.

Lemma SDL_GpuEndRenderPass_begun w pass : begun (SDL_GpuEndRenderPass w pass) = begun w.
Proof. unfold SDL_GpuEndRenderPass. begun_entry. Qed.

Lemma SDL_GpuBindGraphicsPipeline_begun w pass pipeline :
  begun (SDL_GpuBindGraphicsPipeline w pass pipeline) = begun w.
Proof. unfold SDL_GpuBindGraphicsPipeline. begun_entry. Qed.

Lemma SDL_GpuDrawPrimitives_begun w pass vertexStart vertexCount :
  begun (SDL_GpuDrawPrimitives w pass vertexStart vertexCount) = begun w.
Proof. unfold SDL_GpuDrawPrimitives. begun_entry. Qed.

Lemma SDL_GpuBeginRenderPass_begun w cb infos count ds :
  begun (SDL_GpuBeginRenderPass MAX_COLOR_TARGET_BINDINGS w cb infos count ds).1
  = begun w
    ++ match (SDL_GpuBeginRenderPass MAX_COLOR_TARGET_BINDINGS w cb infos count ds).2
       with Some _ => [infos] | None => [] end.
Proof. unfold SDL_GpuBeginRenderPass. begun_entry. Qed.

Lemma UploadVertices_begun w data vertsize :
  begun (UploadVertices w data vertsize).1 = begun w.
Proof.
  unfold UploadVertices. destruct (vertsize =? 0); [done|].
  destruct (SDL_GpuBeginCopyPass _ _) as [w1 pass] eqn:Hcopy.
  assert (begun w1 = begun w) as Hw1.
  { change w1 with (w1, pass).1. rewrite <- Hcopy, SDL_GpuBeginCopyPass_begun.
    by rewrite SDL_GpuUnmapTransferBuffer_begun, SDL_GpuMapTransferBuffer_begun. }
  destruct pass; cbn [fst snd]; [|done].
  by rewrite SDL_GpuEndCopyPass_begun, SDL_GpuUploadToBuffer_begun.
Qed.

(** Restarting the render pass begins at most one pass, on the stored
    attachment, and stores load operation LOAD. *)
Lemma RestartRenderPass_begun w data :
  begun (RestartRenderPass MAX_COLOR_TARGET_BINDINGS w data).1
  = begun w
    ++ match render_pass
               (state (RestartRenderPass MAX_COLOR_TARGET_BINDINGS w data).2)
       with Some _ => [Some [color_attachment (state data)]] | None => [] end
  /\ color_attachment (state (RestartRenderPass MAX_COLOR_TARGET_BINDINGS w data).2)
     = set_loadOp SDL_GPU_LOADOP_LOAD (color_attachment (state data)).
Proof.
  unfold RestartRenderPass.
  set (w0 := match render_pass (state data) with
             | Some _ => SDL_GpuEndRenderPass w (render_pass (state data))
             | None => w
             end).
  assert (begun w0 = begun w) as Hw0.
  { unfold w0. destruct (render_pass (state data)); [|done].
    apply SDL_GpuEndRenderPass_begun. }
  pose proof (SDL_GpuBeginRenderPass_begun w0 (command_buffer (state data))
                (Some [color_attachment (state data)]) 1 None) as Hb.
  destruct (SDL_GpuBeginRenderPass _ w0 _ _ _ _) as [w1 pass].
  cbn [fst snd] in Hb.
  cbn [state set_state set_render_pass render_pass viewport scissor_enabled
       scissor color_attachment set_color_attachment fst snd].
  split; [|done].
  rewrite <- Hw0, <- Hb.
  repeat match goal with
         | |- context [if ?b then _ else _] => destruct b
         end;
    by rewrite ?SDL_GpuSetScissor_begun, ?SDL_GpuSetViewport_begun.
Qed.

(** [Draw] begins a pass only to restart the render pass. *)
Lemma Draw_begun renderer w data cmd num_verts offset prim :
  begun (Draw MAX_COLOR_TARGET_BINDINGS w data renderer cmd num_verts offset prim).1
  = begun (match render_pass (state data) with
           | None => RestartRenderPass MAX_COLOR_TARGET_BINDINGS w data
           | Some _ => (w, data)
           end).1
  /\ (Draw MAX_COLOR_TARGET_BINDINGS w data renderer cmd num_verts offset prim).2
     = (match render_pass (state data) with
        | None => RestartRenderPass MAX_COLOR_TARGET_BINDINGS w data
        | Some _ => (w, data)
        end).2.
Proof.
  unfold Draw.
  destruct (match render_pass (state data) with
            | None => RestartRenderPass MAX_COLOR_TARGET_BINDINGS w data
            | Some _ => (w, data)
            end) as [w1 data1].
  match goal with |- context [let '(v, f) := ?m in _] => destruct m as [v_shader f_shader] end.
  destruct (pipeline_cache data1 _) as [pipe|]; [|done].
  cbn [fst snd]. split; [|done].
  unfold PushUniforms.
  rewrite SDL_GpuDrawPrimitives_begun, SDL_GpuPushVertexUniformData_begun,
    SDL_GpuBindVertexBuffers_begun.
  destruct (internal <$> _);
    by rewrite ?SDL_GpuBindFragmentSamplers_begun, SDL_GpuBindGraphicsPipeline_begun.
Qed.

Lemma combine_suffix (combinable : SDL_RenderCommand -> bool) nextcmd : forall n,
  exists taken, nextcmd = taken ++ (combine combinable n nextcmd).2.
Proof.
  induction nextcmd as [|c next IH]; intros n; cbn; [by exists []|].
  destruct (combinable c); [|by exists []].
  destruct (IH (wrap32 (n + wrap32 (count (draw c))))) as [taken Ht].
  exists (c :: taken). cbn. by f_equal.
Qed.

(** An iteration of the loop leaves a suffix of the commands. *)
Lemma run_command_suffix renderer w data c next :
  exists taken,
    next = taken ++ (run_command MAX_COLOR_TARGET_BINDINGS renderer w data c next).2.
Proof.
  unfold run_command.
  destruct (command c); cbn [snd]; try (by exists []).
  - destruct (match render_pass _ with Some _ => _ | None => _ end).
    by exists [].
  - match goal with |- context [combine ?f ?n next] =>
      destruct (combine_suffix f next n) as [taken Ht];
      destruct (combine f n next) end.
    by exists taken.
  - destruct (2 <? _); [by exists []|].
    match goal with |- context [combine ?f ?n next] =>
      destruct (combine_suffix f next n) as [taken Ht];
      destruct (combine f n next) end.
    by exists taken.
  - match goal with |- context [combine ?f ?n next] =>
      destruct (combine_suffix f next n) as [taken Ht];
      destruct (combine f n next) end.
    by exists taken.
Qed.

Lemma loads_stored target a :
  loadOp a = SDL_GPU_LOADOP_LOAD -> texture (textureSlice a) = target ->
  loads target (Some [a]).
Proof. intros. by exists a. Qed.

(** While load operation LOAD is stored, a restart begins a pass that
    loads. *)
Lemma RestartRenderPass_loads target w data :
  loadOp (color_attachment (state data)) = SDL_GPU_LOADOP_LOAD ->
  texture (textureSlice (color_attachment (state data))) = target ->
  (exists l,
     begun (RestartRenderPass MAX_COLOR_TARGET_BINDINGS w data).1 = begun w ++ l
     /\ Forall (loads target) l)
  /\ loadOp (color_attachment
               (state (RestartRenderPass MAX_COLOR_TARGET_BINDINGS w data).2))
     = SDL_GPU_LOADOP_LOAD
  /\ texture (textureSlice
                (color_attachment
                   (state (RestartRenderPass MAX_COLOR_TARGET_BINDINGS w data).2)))
     = target.
Proof.
  intros Hload Htex. destruct (RestartRenderPass_begun w data) as [-> ->].
  split; [|done]. eexists. split; [reflexivity|].
  destruct (render_pass _); [|done].
  constructor; [|done]. by apply loads_stored.
Qed.

Lemma Draw_loads target renderer w data cmd num_verts offset prim :
  loadOp (color_attachment (state data)) = SDL_GPU_LOADOP_LOAD ->
  texture (textureSlice (color_attachment (state data))) = target ->
  (exists l,
     begun (Draw MAX_COLOR_TARGET_BINDINGS w data renderer cmd num_verts offset
              prim).1 = begun w ++ l
     /\ Forall (loads target) l)
  /\ loadOp (color_attachment
               (state (Draw MAX_COLOR_TARGET_BINDINGS w data renderer cmd num_verts
                         offset prim).2))
     = SDL_GPU_LOADOP_LOAD
  /\ texture (textureSlice
                (color_attachment
                   (state (Draw MAX_COLOR_TARGET_BINDINGS w data renderer cmd
                             num_verts offset prim).2)))
     = target.
Proof.
  intros Hload Htex. destruct (Draw_begun renderer w data cmd num_verts offset prim)
    as [-> ->].
  destruct (render_pass (state data)).
  - cbn. split; [|done]. exists []. by rewrite app_nil_r.
  - by apply RestartRenderPass_loads.
Qed.

Lemma begun_if (b : bool) w w' :
  begun w' = begun w -> begun (if b then w' else w) = begun w.
Proof. by destruct b. Qed.

(** An iteration of the loop on a command other than CLEAR. *)
Lemma run_command_loads target renderer w data c next :
  command c <> SDL_RENDERCMD_CLEAR ->
  loadOp (color_attachment (state data)) = SDL_GPU_LOADOP_LOAD ->
  texture (textureSlice (color_attachment (state data))) = target ->
  (exists l,
     begun (run_command MAX_COLOR_TARGET_BINDINGS renderer w data c next).1.1
     = begun w ++ l
     /\ Forall (loads target) l)
  /\ loadOp (color_attachment
               (state (run_command MAX_COLOR_TARGET_BINDINGS renderer w data c
                         next).1.2))
     = SDL_GPU_LOADOP_LOAD
  /\ texture (textureSlice
                (color_attachment
                   (state (run_command MAX_COLOR_TARGET_BINDINGS renderer w data c
                             next).1.2)))
     = target.
Proof.
  intros Hc Hload Htex. unfold run_command.
  assert (forall w', begun w' = begun w ->
            exists l, begun w' = begun w ++ l /\ Forall (loads target) l) as Hquiet.
  { intros w' ->. exists []. by rewrite app_nil_r. }
  destruct (command c); try done; cbn [fst snd].
  - split; [by apply Hquiet|done].
  - split; [|done]. apply Hquiet, begun_if, SDL_GpuSetViewport_begun.
  - split; [|done]. apply Hquiet, begun_if, SDL_GpuSetScissor_begun.
  - split; [by apply Hquiet|done].
  - destruct (combine _ _ next). by apply Draw_loads.
  - destruct (2 <? _); [by apply Draw_loads|].
    destruct (combine _ _ next). by apply Draw_loads.
  - split; [by apply Hquiet|done].
  - split; [by apply Hquiet|done].
  - split; [by apply Hquiet|done].
  - destruct (combine _ _ next). by apply Draw_loads.
Qed.

Lemma run_commands_loads target renderer n : forall cmds w data,
  (length cmds <= n)%nat ->
  Forall (fun c => command c <> SDL_RENDERCMD_CLEAR) cmds ->
  loadOp (color_attachment (state data)) = SDL_GPU_LOADOP_LOAD ->
  texture (textureSlice (color_attachment (state data))) = target ->
  (exists l,
     begun (run_commands MAX_COLOR_TARGET_BINDINGS renderer w data cmds).1
     = begun w ++ l
     /\ Forall (loads target) l)
  /\ loadOp (color_attachment
               (state (run_commands MAX_COLOR_TARGET_BINDINGS renderer w data
                         cmds).2))
     = SDL_GPU_LOADOP_LOAD
  /\ texture (textureSlice
                (color_attachment
                   (state (run_commands MAX_COLOR_TARGET_BINDINGS renderer w data
                             cmds).2)))
     = target.
Proof.
  induction n as [|n IH]; intros [|c next] w data Hlen Hcmds Hload Htex;
    rewrite ?run_commands_equation_1, ?run_commands_equation_2;
    try (cbn in Hlen; lia);
    try (split; [exists []; by rewrite app_nil_r|done]).
  apply Forall_cons in Hcmds as [Hc Hnext].
  destruct (run_command_loads target renderer w data c next Hc Hload Htex)
    as ((l1 & Hb1 & Hl1) & Hload1 & Htex1).
  destruct (run_command_suffix renderer w data c next) as [taken Htaken].
  set (r := run_command MAX_COLOR_TARGET_BINDINGS renderer w data c next) in *.
  destruct (IH r.2 r.1.1 r.1.2) as ((l2 & Hb2 & Hl2) & Hload2 & Htex2); try done.
  { apply (f_equal length) in Htaken. rewrite length_app in Htaken.
    cbn in Hlen. lia. }
  { rewrite Htaken in Hnext. by apply Forall_app in Hnext as [_ ?]. }
  split; [|done]. exists (l1 ++ l2). rewrite Hb2, Hb1, <- app_assoc.
  split; [done|]. by apply Forall_app.
Qed.

(** X15 (no CLEAR command, no clearing pass).  Whatever the state of the
    renderer and of the command buffer, a run of [GPU_RunCommandQueue] on
    a command list without CLEAR command begins render passes only on the
    single color attachment that holds the render target, with load
    operation LOAD: nothing drawn before is cleared. *)
Theorem X15_no_clear_command_no_clearing_pass
    (renderer : SDL_Renderer) (w : World) (data : GPU_RenderData)
    (cmds : list SDL_RenderCommand) (vertsize : Z) :
  Forall (fun c => command c <> SDL_RENDERCMD_CLEAR) cmds ->
  exists passes,
    begun (GPU_RunCommandQueue MAX_COLOR_TARGET_BINDINGS renderer w data cmds
             vertsize).1.1
    = begun w ++ passes
    /\ Forall (loads (target_texture renderer data)) passes.
Proof.
  intros Hcmds. unfold GPU_RunCommandQueue.
  pose proof (UploadVertices_begun w data vertsize) as Hup.
  destruct (UploadVertices w data vertsize) as [w1 uploaded]. cbn [fst] in Hup.
  destruct (negb (uploaded =? 0));
    [exists []; cbn [fst snd]; by rewrite ?begun_diag, app_nil_r, Hup|].
  match goal with |- context [set_state ?st data] =>
    set (data2 := set_state st data) in *
  end.
  assert (loadOp (color_attachment (state data2)) = SDL_GPU_LOADOP_LOAD) as Hload
    by (unfold data2; by destruct (target renderer)).
  assert (texture (textureSlice (color_attachment (state data2)))
          = target_texture renderer data) as Htex
    by (unfold data2, target_texture; by destruct (target renderer)).
  destruct (is_null _);
    [exists []; cbn [fst snd]; by rewrite ?begun_diag, app_nil_r, Hup|].
  destruct (run_commands_loads (target_texture renderer data) renderer
              (length cmds) cmds w1 data2)
    as ((l & Hb & Hl) & Hload3 & Htex3); try done.
  destruct (run_commands _ _ _ _ cmds) as [w3 data3]. cbn [fst snd] in *.
  rewrite Hload3. rewrite bool_decide_eq_true_2 by done. cbn [negb andb].
  exists l. split; [|done].
  destruct (render_pass (state data3)); cbn [fst snd];
    rewrite ?SDL_GpuEndRenderPass_begun; congruence.
Qed.

End Renderer_passes.

Lemma X15_no_clear_command_no_clearing_pass_witness :
  exists passes,
    begun (GPU_RunCommandQueue 4 example_renderer example_world example_data
             fifty_points 800).1.1
    = begun example_world ++ passes
    /\ Forall (loads (target_texture example_renderer example_data)) passes.
Proof.
  apply (X15_no_clear_command_no_clearing_pass 4 example_renderer example_world
           example_data fifty_points 800).
  apply Forall_replicate. discriminate.
Defined.

Section Renderer_clear.

Variable MAX_COLOR_TARGET_BINDINGS : Z.
Hypothesis one_color_target : 1 <= MAX_COLOR_TARGET_BINDINGS.

(** An iteration of the loop keeps the renderer recording, whatever the
    command counts. *)
Lemma run_command_recording renderer w data cb c next :
  recording w data cb ->
  recording (run_command MAX_COLOR_TARGET_BINDINGS renderer w data c next).1.1
    (run_command MAX_COLOR_TARGET_BINDINGS renderer w data c next).1.2 cb.
Proof.
  intros H. unfold run_command.
  destruct (command c); cbn [fst snd]; try done.
  - apply recording_state; [done..|].
    eapply recording_buffers; [|done]. apply quiet_if, SDL_GpuSetViewport_quiet.
  - apply recording_state; [done..|].
    eapply recording_buffers; [|done]. apply quiet_if, SDL_GpuSetScissor_quiet.
  - match goal with |- context [set_state ?st data] =>
      assert (recording w (set_state st data) cb) as H'
        by (by apply recording_state);
      set (data0 := set_state st data) in *
    end.
    destruct (RestartRenderPass_recording MAX_COLOR_TARGET_BINDINGS one_color_target
                w data0 cb H') as (Hr1 & _ & _).
    destruct (render_pass (state data0)); [|done].
    by destruct (RestartRenderPass MAX_COLOR_TARGET_BINDINGS w data0).
  - destruct (combine _ _ next).
    by apply (Draw_recording MAX_COLOR_TARGET_BINDINGS one_color_target).
  - destruct (2 <? _);
      [by apply (Draw_recording MAX_COLOR_TARGET_BINDINGS one_color_target)|].
    destruct (combine _ _ next).
    by apply (Draw_recording MAX_COLOR_TARGET_BINDINGS one_color_target).
  - destruct (combine _ _ next).
    by apply (Draw_recording MAX_COLOR_TARGET_BINDINGS one_color_target).
Qed.

Lemma run_commands_recording renderer n : forall cmds w data cb,
  (length cmds <= n)%nat ->
  recording w data cb ->
  recording (run_commands MAX_COLOR_TARGET_BINDINGS renderer w data cmds).1
    (run_commands MAX_COLOR_TARGET_BINDINGS renderer w data cmds).2 cb.
Proof.
  induction n as [|n IH]; intros [|c next] w data cb Hlen Hrec;
    rewrite ?run_commands_equation_1, ?run_commands_equation_2;
    try (cbn in Hlen; lia); try done.
  destruct (run_command_suffix MAX_COLOR_TARGET_BINDINGS renderer w data c next)
    as [taken Htaken].
  apply IH; [|by apply run_command_recording].
  apply (f_equal length) in Htaken. rewrite length_app in Htaken.
  cbn in Hlen. lia.
Qed.

(** A pending clear: the stored attachment asks for a clear to [color] and
    no pass was begun since; or the clear was made by the pass [first] and
    every pass begun after it loads. *)
Lemma run_command_clear target color renderer w0 w data cb c next :
  command c <> SDL_RENDERCMD_CLEAR ->
  recording w data cb ->
  texture (textureSlice (color_attachment (state data))) = target ->
  (render_pass (state data) = None
   /\ loadOp (color_attachment (state data)) = SDL_GPU_LOADOP_CLEAR
   /\ clearColor (color_attachment (state data)) = color
   /\ begun w = begun w0)
  \/ (loadOp (color_attachment (state data)) = SDL_GPU_LOADOP_LOAD
      /\ exists first later,
           begun w = begun w0 ++ first :: later
           /\ clears target color first /\ Forall (loads target) later) ->
  let r := run_command MAX_COLOR_TARGET_BINDINGS renderer w data c next in
  texture (textureSlice (color_attachment (state r.1.2))) = target
  /\ ((render_pass (state r.1.2) = None
       /\ loadOp (color_attachment (state r.1.2)) = SDL_GPU_LOADOP_CLEAR
       /\ clearColor (color_attachment (state r.1.2)) = color
       /\ begun r.1.1 = begun w0)
      \/ (loadOp (color_attachment (state r.1.2)) = SDL_GPU_LOADOP_LOAD
          /\ exists first later,
               begun r.1.1 = begun w0 ++ first :: later
               /\ clears target color first /\ Forall (loads target) later)).
Proof.
  intros Hc Hrec Htex [(Hnone & Hop & Hcol & Hb)|(Hop & first & later & Hb & Hf & Hl)];
    cbn zeta.
  2: { destruct (run_command_loads MAX_COLOR_TARGET_BINDINGS target renderer w data
                   c next Hc Hop Htex) as ((l & Hb' & Hl') & Hop' & Htex').
       split; [done|]. right. split; [done|].
       exists first, (later ++ l). rewrite Hb', Hb, <- app_assoc. cbn.
       split; [done|]. split; [done|]. by apply Forall_app. }
  assert (forall num_verts offset prim,
    let d := Draw MAX_COLOR_TARGET_BINDINGS w data renderer c num_verts offset prim in
    texture (textureSlice (color_attachment (state d.2))) = target
    /\ (loadOp (color_attachment (state d.2)) = SDL_GPU_LOADOP_LOAD
        /\ exists first later,
             begun d.1 = begun w0 ++ first :: later
             /\ clears target color first /\ Forall (loads target) later))
    as Hdraw.
  { intros num_verts offset prim. cbn zeta.
    destruct (Draw_begun MAX_COLOR_TARGET_BINDINGS renderer w data c num_verts
                offset prim) as [-> ->].
    rewrite Hnone.
    destruct (RestartRenderPass_begun MAX_COLOR_TARGET_BINDINGS w data) as [-> ->].
    destruct (RestartRenderPass_recording MAX_COLOR_TARGET_BINDINGS one_color_target
                w data cb Hrec) as (_ & -> & _).
    cbn. split; [done|]. split; [done|].
    exists (Some [color_attachment (state data)]), []. rewrite Hb.
    split; [done|]. split; [|done]. by eexists. }
  unfold run_command.
  destruct (command c); try done; cbn [fst snd].
  - split; [done|]. by left.
  - split; [done|]. left. cbn. rewrite Hnone. cbn. done.
  - split; [done|]. left. cbn. rewrite Hnone. cbn. done.
  - split; [done|]. by left.
  - destruct (combine _ _ next). destruct (Hdraw z (wrap32 (first (draw c)))
                                             SDL_GPU_PRIMITIVETYPE_POINTLIST)
      as [? ?]. cbn [fst snd]. split; [done|]. by right.
  - destruct (2 <? _).
    + destruct (Hdraw (wrap32 (count (draw c))) (wrap32 (first (draw c)))
                  SDL_GPU_PRIMITIVETYPE_LINESTRIP) as [? ?].
      split; [done|]. by right.
    + destruct (combine _ _ next).
      destruct (Hdraw z (wrap32 (first (draw c))) SDL_GPU_PRIMITIVETYPE_LINELIST)
        as [? ?]. cbn [fst snd]. split; [done|]. by right.
  - split; [done|]. by left.
  - split; [done|]. by left.
  - split; [done|]. by left.
  - destruct (combine _ _ next).
    destruct (Hdraw z (wrap32 (first (draw c))) SDL_GPU_PRIMITIVETYPE_TRIANGLELIST)
      as [? ?]. cbn [fst snd]. split; [done|]. by right.
Qed.

Lemma run_commands_clear target color renderer w0 n : forall cmds w data cb,
  (length cmds <= n)%nat ->
  Forall (fun c => command c <> SDL_RENDERCMD_CLEAR) cmds ->
  recording w data cb ->
  texture (textureSlice (color_attachment (state data))) = target ->
  (render_pass (state data) = None
   /\ loadOp (color_attachment (state data)) = SDL_GPU_LOADOP_CLEAR
   /\ clearColor (color_attachment (state data)) = color
   /\ begun w = begun w0)
  \/ (loadOp (color_attachment (state data)) = SDL_GPU_LOADOP_LOAD
      /\ exists first later,
           begun w = begun w0 ++ first :: later
           /\ clears target color first /\ Forall (loads target) later) ->
  let r := run_commands MAX_COLOR_TARGET_BINDINGS renderer w data cmds in
  recording r.1 r.2 cb
  /\ texture (textureSlice (color_attachment (state r.2))) = target
  /\ ((render_pass (state r.2) = None
       /\ loadOp (color_attachment (state r.2)) = SDL_GPU_LOADOP_CLEAR
       /\ clearColor (color_attachment (state r.2)) = color
       /\ begun r.1 = begun w0)
      \/ (loadOp (color_attachment (state r.2)) = SDL_GPU_LOADOP_LOAD
          /\ exists first later,
               begun r.1 = begun w0 ++ first :: later
               /\ clears target color first /\ Forall (loads target) later)).
Proof.
  induction n as [|n IH]; intros [|c next] w data cb Hlen Hcmds Hrec Htex Hstate;
    cbn zeta;
    rewrite ?run_commands_equation_1, ?run_commands_equation_2;
    try (cbn in Hlen; lia); try done.
  apply Forall_cons in Hcmds as [Hc Hnext].
  destruct (run_command_clear target color renderer w0 w data cb c next Hc Hrec Htex
              Hstate) as [Htex1 Hstate1].
  pose proof (run_command_recording renderer w data cb c next Hrec) as Hrec1.
  destruct (run_command_suffix MAX_COLOR_TARGET_BINDINGS renderer w data c next)
    as [taken Htaken].
  set (r := run_command MAX_COLOR_TARGET_BINDINGS renderer w data c next) in *.
  apply (IH r.2 r.1.1 r.1.2 cb); try done.
  - apply (f_equal length) in Htaken. rewrite length_app in Htaken.
    cbn in Hlen. lia.
  - rewrite Htaken in Hnext. by apply Forall_app in Hnext as [_ ?].
Qed.

(** X16 (a CLEAR command clears with the next pass).  Let the renderer
    record into a live command buffer with no render pass open and a
    render target at hand, and let the queue start with a CLEAR command
    and hold no other.  Then [GPU_RunCommandQueue] begins at least one
    render pass: the first one clears the render target to the color of
    the CLEAR command, also when nothing is drawn, and every later one
    loads. *)
Theorem X16_clear_command_clears_first_pass
    (renderer : SDL_Renderer) (w : World) (data : GPU_RenderData)
    (cb : CommandBufferId) (c : SDL_RenderCommand) (rest : list SDL_RenderCommand)
    (vertsize : Z) :
  recording w data cb ->
  render_pass (state data) = None ->
  is_Some (target_texture renderer data) ->
  command c = SDL_RENDERCMD_CLEAR ->
  Forall (fun c => command c <> SDL_RENDERCMD_CLEAR) rest ->
  exists first later,
    begun (GPU_RunCommandQueue MAX_COLOR_TARGET_BINDINGS renderer w data (c :: rest)
             vertsize).1.1
    = begun w ++ first :: later
    /\ clears (target_texture renderer data) (GetDrawCmdColor renderer c) first
    /\ Forall (loads (target_texture renderer data)) later.
Proof.
  intros Hrec Hnone Htarget Hc Hrest. unfold GPU_RunCommandQueue.
  destruct (UploadVertices_recording w data cb vertsize Hrec Hnone)
    as (Hup & Hrec1 & _).
  pose proof (UploadVertices_begun w data vertsize) as Hb1.
  destruct (UploadVertices w data vertsize) as [w1 uploaded].
  cbn [fst snd] in Hup, Hrec1, Hb1. subst uploaded. cbn [Z.eqb negb].
  match goal with |- context [set_state ?st data] =>
    assert (recording w1 (set_state st data) cb) as Hrec2
      by (by apply recording_state);
    assert (texture (textureSlice (color_attachment (state (set_state st data))))
            = target_texture renderer data) as Htex
      by (unfold target_texture; by destruct (target renderer));
    assert (render_pass (state (set_state st data)) = None) as Hnone2 by done;
    set (data2 := set_state st data) in *
  end.
  clearbody data2. rewrite Htex.
  destruct Htarget as [t Ht]. rewrite Ht. cbn [is_null].
  rewrite run_commands_equation_2.
  unfold run_command at 1 2 3. rewrite Hc. cbn [fst snd].
  match goal with |- context [set_state ?st data2] =>
    assert (recording w1 (set_state st data2) cb) as Hrec3
      by (by apply recording_state);
    assert (texture (textureSlice (color_attachment (state (set_state st data2))))
            = Some t) as Htex3 by (cbn; congruence);
    assert (render_pass (state (set_state st data2)) = None) as Hnone3 by done;
    assert (loadOp (color_attachment (state (set_state st data2)))
            = SDL_GPU_LOADOP_CLEAR) as Hop3 by done;
    assert (clearColor (color_attachment (state (set_state st data2)))
            = GetDrawCmdColor renderer c) as Hcol3 by done;
    set (data3 := set_state st data2) in *
  end.
  clearbody data3. rewrite Hnone3. cbn [fst snd].
  destruct (run_commands_clear (Some t) (GetDrawCmdColor renderer c) renderer w1
              (length rest) rest w1 data3 cb)
    as (Hrec4 & Htex4 & Hstate4); try done.
  { by left. }
  cbn zeta in Hrec4, Htex4, Hstate4.
  destruct (run_commands _ _ _ _ rest) as [w4 data4]. cbn [fst snd] in *.
  destruct Hstate4 as [(Hnone4 & Hop4 & Hcol4 & Hb4)
                      |(Hop4 & first & later & Hb4 & Hf4 & Hl4)].
  - rewrite Hop4, Hnone4. rewrite bool_decide_eq_false_2 by done.
    cbn [negb andb is_null].
    destruct (RestartRenderPass_begun MAX_COLOR_TARGET_BINDINGS w4 data4)
      as [Hb5 _].
    destruct (RestartRenderPass_recording MAX_COLOR_TARGET_BINDINGS one_color_target
                w4 data4 cb Hrec4) as (_ & Hpass5 & _).
    destruct (RestartRenderPass MAX_COLOR_TARGET_BINDINGS w4 data4) as [w5 data5].
    cbn [fst snd] in *. rewrite Hpass5 in *. cbn [fst snd].
    rewrite SDL_GpuEndRenderPass_begun, Hb5, Hb4, Hb1.
    exists (Some [color_attachment (state data4)]), [].
    split; [done|]. split; [|done]. by eexists.
  - rewrite Hop4. rewrite bool_decide_eq_true_2 by done. cbn [negb andb].
    exists first, later. split; [|done].
    destruct (render_pass (state data4)); cbn [fst snd];
      rewrite ?SDL_GpuEndRenderPass_begun; congruence.
Qed.

(** X17 (no render target).  Let the renderer record into a live command
    buffer with no render pass open.  When there is no texture to render
    to (the render target has none, or no swapchain texture was acquired),
    [GPU_RunCommandQueue] returns -1 with the error "Render target texture
    is NULL" set, whatever the queue holds: no render pass is begun,
    nothing is drawn, and the command buffer can still be recorded
    into. *)
Theorem X17_missing_render_target
    (renderer : SDL_Renderer) (w : World) (data : GPU_RenderData)
    (cb : CommandBufferId) (cmds : list SDL_RenderCommand) (vertsize : Z) :
  recording w data cb ->
  render_pass (state data) = None ->
  target_texture renderer data = None ->
  (GPU_RunCommandQueue MAX_COLOR_TARGET_BINDINGS renderer w data cmds vertsize).2 = -1
  /\ last (log (GPU_RunCommandQueue MAX_COLOR_TARGET_BINDINGS renderer w data cmds
                  vertsize).1.1)
     = Some (SDL_SetError "Render target texture is NULL")
  /\ begun (GPU_RunCommandQueue MAX_COLOR_TARGET_BINDINGS renderer w data cmds
              vertsize).1.1 = begun w
  /\ draws (GPU_RunCommandQueue MAX_COLOR_TARGET_BINDINGS renderer w data cmds
              vertsize).1.1 = draws w
  /\ recording
       (GPU_RunCommandQueue MAX_COLOR_TARGET_BINDINGS renderer w data cmds
          vertsize).1.1
       (GPU_RunCommandQueue MAX_COLOR_TARGET_BINDINGS renderer w data cmds
          vertsize).1.2 cb.
Proof.
  intros Hrec Hnone Htarget. unfold GPU_RunCommandQueue.
  destruct (UploadVertices_recording w data cb vertsize Hrec Hnone)
    as (Hup & Hrec1 & Hd1).
  pose proof (UploadVertices_begun w data vertsize) as Hb1.
  destruct (UploadVertices w data vertsize) as [w1 uploaded].
  cbn [fst snd] in Hup, Hrec1, Hb1, Hd1. subst uploaded. cbn [Z.eqb negb].
  match goal with |- context [set_state ?st data] =>
    assert (recording w1 (set_state st data) cb) as Hrec2
      by (by apply recording_state);
    assert (texture (textureSlice (color_attachment (state (set_state st data))))
            = target_texture renderer data) as Htex
      by (unfold target_texture; by destruct (target renderer));
    set (data2 := set_state st data) in *
  end.
  clearbody data2. rewrite Htex, Htarget. cbn [is_null fst snd].
  split; [done|]. split; [cbn; apply last_snoc|]. split; [done|]. split; [done|].
  by apply (recording_buffers w1).
Qed.

End Renderer_clear.

Lemma X17_missing_render_target_witness :
  (GPU_RunCommandQueue 4 example_renderer example_world
     (set_swapchain {| sc_texture := None;
                       sc_format := SDL_GPU_TEXTUREFORMAT_B8G8R8A8;
                       sc_width := 640; sc_height := 480 |} example_data)
     fifty_points 800).2 = -1.
Proof.
  refine (proj1 (X17_missing_render_target 4 example_renderer
                   example_world _ 0%nat fifty_points 800 _ _ _)).
  - split; [reflexivity|]. split; [intros k; by exists 7%nat|].
    split; [by left|].
    exists (acquired_header true false). repeat split; reflexivity.
  - reflexivity.
  - reflexivity.
Defined.

Lemma X16_clear_command_clears_first_pass_witness :
  exists first later,
    begun (GPU_RunCommandQueue 4 example_renderer example_world example_data
             (example_command SDL_RENDERCMD_CLEAR 0 :: fifty_points) 800).1.1
    = begun example_world ++ first :: later
    /\ clears (target_texture example_renderer example_data)
         (GetDrawCmdColor example_renderer (example_command SDL_RENDERCMD_CLEAR 0))
         first
    /\ Forall (loads (target_texture example_renderer example_data)) later.
Proof.
  apply (X16_clear_command_clears_first_pass 4 ltac:(lia) example_renderer
           example_world example_data 0%nat).
  - split; [reflexivity|]. split; [intros k; by exists 7%nat|].
    split; [by left|].
    exists (acquired_header true false). repeat split; reflexivity.
  - reflexivity.
  - by exists 1%nat.
  - reflexivity.
  - apply Forall_replicate. discriminate.
Defined.

(** ** Frames of the 2D renderer *)

Section Renderer_frames.

Variable MAX_COLOR_TARGET_BINDINGS : Z.
Hypothesis one_color_target : 1 <= MAX_COLOR_TARGET_BINDINGS.

Lemma fence_quiet_refl w : fence_quiet w w.
Proof.
  split; [exists []; by rewrite app_nil_r|]. intros cb h' ?. by exists h'.
Qed.

Lemma fence_quiet_trans w1 w2 w3 :
  fence_quiet w1 w2 -> fence_quiet w2 w3 -> fence_quiet w1 w3.
Proof.
  intros [(l1 & Hc1 & Hl1) Hb1] [(l2 & Hc2 & Hl2) Hb2]. split.
  - exists (l1 ++ l2). rewrite Hc2, Hc1, <- app_assoc. split; [done|].
    by rewrite forallb_app, Hl1, Hl2.
  - intros cb h3 H3. destruct (Hb2 _ _ H3) as (h2 & H2 & E2).
    destruct (Hb1 _ _ H2) as (h1 & H1 & E1). exists h1. split; [done|congruence].
Qed.

Lemma fence_quiet_diag d w w1 : fence_quiet w w1 -> fence_quiet w (diag d w1).
Proof. done. Qed.

Lemma fence_quiet_delegate c w w1 :
  fence_quiet w w1 -> is_fence_call c = false -> fence_quiet w (delegate c w1).
Proof.
  intros [(l & Hc & Hl) Hb] Hq. split; [|done].
  exists (l ++ [c]). cbn. rewrite Hc, <- app_assoc. split; [done|].
  rewrite forallb_app, Hl. cbn. by rewrite Hq.
Qed.

Lemma fence_quiet_store cb h' w w1 :
  fence_quiet w w1 ->
  (exists h, buffers w1 !! cb = Some h /\ device h' = device h) ->
  fence_quiet w (store cb h' w1).
Proof.
  intros [Hc Hb] (h & Hl & Hd). split; [done|].
  intros cb0 h0. cbn. destruct (decide (cb0 = cb)) as [->|Hne].
  - rewrite lookup_insert_eq. intros [= <-].
    destruct (Hb _ _ Hl) as (h1 & ? & ?). exists h1. split; [done|congruence].
  - rewrite lookup_insert_ne by done. apply Hb.
Qed.

Ltac fence_quiet_entry :=
  repeat case_match; use_pass_lookup; subst; cbn [fst snd];
  repeat first
    [ apply fence_quiet_refl
    | apply fence_quiet_diag
    | apply fence_quiet_store; [|eexists; split; [cbn; eassumption|reflexivity]]
    | apply fence_quiet_delegate; [|reflexivity] ].

Lemma SDL_GpuSetViewport_fence_quiet w rp vp :
  fence_quiet w (SDL_GpuSetViewport w rp vp).
Proof. unfold SDL_GpuSetViewport. fence_quiet_entry. Qed.

Lemma SDL_GpuSetScissor_fence_quiet w rp sc :
  fence_quiet w (SDL_GpuSetScissor w rp sc).
Proof. unfold SDL_GpuSetScissor. fence_quiet_entry. Qed.

Lemma SDL_GpuBindVertexBuffers_fence_quiet w rp first bindings n :
  fence_quiet w (SDL_GpuBindVertexBuffers w rp first bindings n).
Proof. unfold SDL_GpuBindVertexBuffers. fence_quiet_entry. Qed.

Lemma SDL_GpuBindFragmentSamplers_fence_quiet w rp first bindings n :
  fence_quiet w (SDL_GpuBindFragmentSamplers w rp first bindings n).
Proof. unfold SDL_GpuBindFragmentSamplers. fence_quiet_entry. Qed.

Lemma SDL_GpuPushVertexUniformData_fence_quiet w cb slot data len :
  fence_quiet w (SDL_GpuPushVertexUniformData w cb slot data len).
Proof. unfold SDL_GpuPushVertexUniformData. fence_quiet_entry. Qed.

Lemma SDL_GpuMapTransferBuffer_fence_quiet w dev tb cycle ppData :
  fence_quiet w (SDL_GpuMapTransferBuffer w dev tb cycle ppData).
Proof. unfold SDL_GpuMapTransferBuffer. fence_quiet_entry. Qed.

Lemma SDL_GpuUnmapTransferBuffer_fence_quiet w dev tb :
  fence_quiet w (SDL_GpuUnmapTransferBuffer w dev tb).
Proof. unfold SDL_GpuUnmapTransferBuffer. fence_quiet_entry. Qed.

Lemma SDL_GpuUploadToBuffer_fence_quiet w pass src dst cycle :
  fence_quiet w (SDL_GpuUploadToBuffer w pass src dst cycle).
Proof. unfold SDL_GpuUploadToBuffer. fence_quiet_entry. Qed.

Lemma SDL_GpuBeginCopyPass_fence_quiet w cb :
  fence_quiet w (SDL_GpuBeginCopyPass w cb).1.
Proof. unfold SDL_GpuBeginCopyPass. fence_quiet_entry. Qed.

Lemma SDL_GpuEndCopyPass_fence_quiet w pass :
  fence_quiet w (SDL_GpuEndCopyPass w pass).
Proof. unfold SDL_GpuEndCopyPass. fence_quiet_entry. Qed.

Lemma SDL_GpuEndRenderPass_fence_quiet w pass :
  fence_quiet w (SDL_GpuEndRenderPass w pass).
Proof. unfold SDL_GpuEndRenderPass. fence_quiet_entry. Qed.

Lemma SDL_GpuBindGraphicsPipeline_fence_quiet w pass pipeline :
  fence_quiet w (SDL_GpuBindGraphicsPipeline w pass pipeline).
Proof. unfold SDL_GpuBindGraphicsPipeline. fence_quiet_entry. Qed.

Lemma SDL_GpuDrawPrimitives_fence_quiet w pass vertexStart vertexCount :
  fence_quiet w (SDL_GpuDrawPrimitives w pass vertexStart vertexCount).
Proof. unfold SDL_GpuDrawPrimitives. fence_quiet_entry. Qed.

Lemma SDL_GpuBeginRenderPass_fence_quiet w cb infos count ds :
  fence_quiet w
    (SDL_GpuBeginRenderPass MAX_COLOR_TARGET_BINDINGS w cb infos count ds).1.
Proof. unfold SDL_GpuBeginRenderPass. fence_quiet_entry. Qed.

Ltac fence_quiet_chain :=
  repeat first
    [ apply fence_quiet_refl
    | assumption
    | eapply fence_quiet_trans;
      [|first [ apply SDL_GpuSetViewport_fence_quiet
              | apply SDL_GpuSetScissor_fence_quiet
              | apply SDL_GpuBindVertexBuffers_fence_quiet
              | apply SDL_GpuBindFragmentSamplers_fence_quiet
              | apply SDL_GpuPushVertexUniformData_fence_quiet
              | apply SDL_GpuMapTransferBuffer_fence_quiet
              | apply SDL_GpuUnmapTransferBuffer_fence_quiet
              | apply SDL_GpuUploadToBuffer_fence_quiet
              | apply SDL_GpuEndCopyPass_fence_quiet
              | apply SDL_GpuEndRenderPass_fence_quiet
              | apply SDL_GpuBindGraphicsPipeline_fence_quiet
              | apply SDL_GpuDrawPrimitives_fence_quiet ]]
    | match goal with
      | |- fence_quiet _ (if ?b then _ else _) => destruct b
      | |- fence_quiet _ (match ?x with Some _ => _ | None => _ end) => destruct x
      end ].

Lemma UploadVertices_fence_quiet w data vertsize :
  fence_quiet w (UploadVertices w data vertsize).1.
Proof.
  unfold UploadVertices. destruct (vertsize =? 0); [apply fence_quiet_refl|].
  match goal with |- context [SDL_GpuBeginCopyPass ?w2 ?cb] =>
    pose proof (SDL_GpuBeginCopyPass_fence_quiet w2 cb) as Hcopy;
    assert (fence_quiet w w2) as Hw2 by fence_quiet_chain;
    destruct (SDL_GpuBeginCopyPass w2 cb) as [w3 pass]
  end.
  cbn [fst] in Hcopy.
  assert (fence_quiet w w3) as Hw3 by (by eapply fence_quiet_trans).
  destruct pass; cbn [fst]; fence_quiet_chain.
Qed.

Lemma RestartRenderPass_fence_quiet w data :
  fence_quiet w (RestartRenderPass MAX_COLOR_TARGET_BINDINGS w data).1.
Proof.
  unfold RestartRenderPass.
  match goal with |- context [SDL_GpuBeginRenderPass _ ?w0 ?cb ?infos ?n ?ds] =>
    pose proof (SDL_GpuBeginRenderPass_fence_quiet w0 cb infos n ds) as Hbegin;
    assert (fence_quiet w w0) as Hw0 by fence_quiet_chain;
    destruct (SDL_GpuBeginRenderPass MAX_COLOR_TARGET_BINDINGS w0 cb infos n ds)
      as [w1 pass]
  end.
  cbn [fst] in Hbegin.
  assert (fence_quiet w w1) as Hw1 by (by eapply fence_quiet_trans).
  cbn [fst]. fence_quiet_chain.
Qed.

Lemma Draw_fence_quiet renderer w data cmd num_verts offset prim :
  fence_quiet w
    (Draw MAX_COLOR_TARGET_BINDINGS w data renderer cmd num_verts offset prim).1.
Proof.
  unfold Draw.
  assert (fence_quiet w
            (match render_pass (state data) with
             | None => RestartRenderPass MAX_COLOR_TARGET_BINDINGS w data
             | Some _ => (w, data)
             end).1) as Hw1.
  { destruct (render_pass (state data));
      [apply fence_quiet_refl|apply RestartRenderPass_fence_quiet]. }
  destruct (match render_pass (state data) with
            | None => RestartRenderPass MAX_COLOR_TARGET_BINDINGS w data
            | Some _ => (w, data)
            end) as [w1 data1]. cbn [fst] in Hw1.
  match goal with |- context [let '(v, f) := ?m in _] => destruct m as [v_shader f_shader] end.
  destruct (pipeline_cache data1 _) as [pipe|]; [|done].
  cbn [fst]. unfold PushUniforms. fence_quiet_chain.
Qed.

Lemma run_command_fence_quiet renderer w data c next :
  fence_quiet w (run_command MAX_COLOR_TARGET_BINDINGS renderer w data c next).1.1.
Proof.
  unfold run_command.
  destruct (command c); cbn [fst snd]; try apply fence_quiet_refl.
  - fence_quiet_chain.
  - fence_quiet_chain.
  - match goal with |- context [RestartRenderPass _ w ?d] =>
      pose proof (RestartRenderPass_fence_quiet w d) as Hr;
      destruct (render_pass (state d));
      [destruct (RestartRenderPass MAX_COLOR_TARGET_BINDINGS w d)|] end;
      [done|apply fence_quiet_refl].
  - destruct (combine _ _ next). apply Draw_fence_quiet.
  - destruct (2 <? _); [apply Draw_fence_quiet|].
    destruct (combine _ _ next). apply Draw_fence_quiet.
  - destruct (combine _ _ next). apply Draw_fence_quiet.
Qed.

Lemma run_commands_fence_quiet renderer n : forall cmds w data,
  (length cmds <= n)%nat ->
  fence_quiet w (run_commands MAX_COLOR_TARGET_BINDINGS renderer w data cmds).1.
Proof.
  induction n as [|n IH]; intros [|c next] w data Hlen;
    rewrite ?run_commands_equation_1, ?run_commands_equation_2;
    try (cbn in Hlen; lia); try apply fence_quiet_refl.
  destruct (run_command_suffix MAX_COLOR_TARGET_BINDINGS renderer w data c next)
    as [taken Htaken].
  eapply fence_quiet_trans; [apply run_command_fence_quiet|]. apply IH.
  apply (f_equal length) in Htaken. rewrite length_app in Htaken.
  cbn in Hlen. lia.
Qed.

Lemma GPU_RunCommandQueue_fence_quiet renderer w data cmds vertsize :
  fence_quiet w
    (GPU_RunCommandQueue MAX_COLOR_TARGET_BINDINGS renderer w data cmds vertsize).1.1.
Proof.
  unfold GPU_RunCommandQueue.
  pose proof (UploadVertices_fence_quiet w data vertsize) as Hup.
  destruct (UploadVertices w data vertsize) as [w1 uploaded]. cbn [fst] in Hup.
  destruct (negb (uploaded =? 0)); [done|].
  match goal with |- context [set_state ?st data] =>
    set (data2 := set_state st data) in *
  end.
  destruct (is_null _); [done|].
  pose proof (run_commands_fence_quiet renderer (length cmds) cmds w1 data2
                (le_n _)) as Hrun.
  destruct (run_commands _ _ _ _ cmds) as [w3 data3]. cbn [fst] in Hrun.
  assert (fence_quiet w w3) as Hw3 by (by eapply fence_quiet_trans).
  match goal with |- context [if ?b then RestartRenderPass _ w3 data3 else _] =>
    assert (fence_quiet w
              (if b then RestartRenderPass MAX_COLOR_TARGET_BINDINGS w3 data3
               else (w3, data3)).1) as Hw4
      by (destruct b; [|done]; eapply fence_quiet_trans;
          [exact Hw3|apply RestartRenderPass_fence_quiet]);
    destruct (if b then RestartRenderPass MAX_COLOR_TARGET_BINDINGS w3 data3
              else (w3, data3)) as [w4 data4]
  end.
  cbn [fst] in Hw4.
  destruct (render_pass (state data4)); cbn [fst]; fence_quiet_chain.
Qed.

(** The command queue touches neither the device nor the stored fence of
    the renderer. *)
Lemma RestartRenderPass_device w data :
  rd_device (RestartRenderPass MAX_COLOR_TARGET_BINDINGS w data).2 = rd_device data
  /\ present_fence (RestartRenderPass MAX_COLOR_TARGET_BINDINGS w data).2
     = present_fence data.
Proof. unfold RestartRenderPass. by destruct (SDL_GpuBeginRenderPass _ _ _ _ _ _). Qed.

Lemma Draw_device renderer w data cmd num_verts offset prim :
  rd_device (Draw MAX_COLOR_TARGET_BINDINGS w data renderer cmd num_verts offset
               prim).2 = rd_device data
  /\ present_fence (Draw MAX_COLOR_TARGET_BINDINGS w data renderer cmd num_verts
                      offset prim).2 = present_fence data.
Proof.
  destruct (Draw_begun MAX_COLOR_TARGET_BINDINGS renderer w data cmd num_verts
              offset prim) as [_ ->].
  destruct (render_pass (state data)); [done|apply RestartRenderPass_device].
Qed.

Lemma run_command_device renderer w data c next :
  rd_device (run_command MAX_COLOR_TARGET_BINDINGS renderer w data c next).1.2
  = rd_device data
  /\ present_fence (run_command MAX_COLOR_TARGET_BINDINGS renderer w data c next).1.2
     = present_fence data.
Proof.
  unfold run_command.
  destruct (command c); cbn [fst snd]; try done.
  - match goal with |- context [RestartRenderPass _ w ?d] =>
      pose proof (RestartRenderPass_device w d) as Hr;
      destruct (render_pass (state d));
      [destruct (RestartRenderPass MAX_COLOR_TARGET_BINDINGS w d)|] end; done.
  - destruct (combine _ _ next). apply Draw_device.
  - destruct (2 <? _); [apply Draw_device|].
    destruct (combine _ _ next). apply Draw_device.
  - destruct (combine _ _ next). apply Draw_device.
Qed.

Lemma run_commands_device renderer n : forall cmds w data,
  (length cmds <= n)%nat ->
  rd_device (run_commands MAX_COLOR_TARGET_BINDINGS renderer w data cmds).2
  = rd_device data
  /\ present_fence (run_commands MAX_COLOR_TARGET_BINDINGS renderer w data cmds).2
     = present_fence data.
Proof.
  induction n as [|n IH]; intros [|c next] w data Hlen;
    rewrite ?run_commands_equation_1, ?run_commands_equation_2;
    try (cbn in Hlen; lia); try done.
  destruct (run_command_suffix MAX_COLOR_TARGET_BINDINGS renderer w data c next)
    as [taken Htaken].
  destruct (run_command_device renderer w data c next) as [<- <-].
  apply IH.
  apply (f_equal length) in Htaken. rewrite length_app in Htaken.
  cbn in Hlen. lia.
Qed.

(** A run of the command queue leaves the renderer recording into the same
    command buffer, with no render pass open. *)
Lemma GPU_RunCommandQueue_recording renderer w data cb cmds vertsize :
  recording w data cb ->
  render_pass (state data) = None ->
  recording
    (GPU_RunCommandQueue MAX_COLOR_TARGET_BINDINGS renderer w data cmds vertsize).1.1
    (GPU_RunCommandQueue MAX_COLOR_TARGET_BINDINGS renderer w data cmds vertsize).1.2
    cb
  /\ render_pass
       (state (GPU_RunCommandQueue MAX_COLOR_TARGET_BINDINGS renderer w data cmds
                 vertsize).1.2) = None
  /\ rd_device (GPU_RunCommandQueue MAX_COLOR_TARGET_BINDINGS renderer w data cmds
                  vertsize).1.2 = rd_device data
  /\ present_fence (GPU_RunCommandQueue MAX_COLOR_TARGET_BINDINGS renderer w data
                      cmds vertsize).1.2 = present_fence data.
Proof.
  intros Hrec Hnone. unfold GPU_RunCommandQueue.
  destruct (UploadVertices_recording w data cb vertsize Hrec Hnone)
    as (Hup & Hrec1 & _).
  destruct (UploadVertices w data vertsize) as [w1 uploaded].
  cbn [fst snd] in Hup, Hrec1. subst uploaded. cbn [Z.eqb negb].
  match goal with |- context [set_state ?st data] =>
    assert (recording w1 (set_state st data) cb) as Hrec2
      by (by apply recording_state);
    assert (render_pass (state (set_state st data)) = None) as Hnone2 by done;
    assert (rd_device (set_state st data) = rd_device data) as Hdev2 by done;
    assert (present_fence (set_state st data) = present_fence data) as Hf2 by done;
    set (data2 := set_state st data) in *
  end.
  clearbody data2.
  destruct (is_null _); cbn [fst snd].
  { split; [by apply (recording_buffers w1)|done]. }
  pose proof (run_commands_recording MAX_COLOR_TARGET_BINDINGS one_color_target
                renderer (length cmds) cmds w1 data2 cb (le_n _) Hrec2) as Hrec3.
  assert (rd_device (run_commands MAX_COLOR_TARGET_BINDINGS renderer w1 data2 cmds).2
          = rd_device data
          /\ present_fence
               (run_commands MAX_COLOR_TARGET_BINDINGS renderer w1 data2 cmds).2
             = present_fence data) as [Hdev3 Hf3].
  { rewrite <- Hdev2, <- Hf2. by apply (run_commands_device renderer (length cmds)). }
  destruct (run_commands _ _ _ _ cmds) as [w3 data3]. cbn [fst snd] in *.
  assert (exists w4 data4,
    (if negb (bool_decide (loadOp (color_attachment (state data3))
                           = SDL_GPU_LOADOP_LOAD))
        && is_null (render_pass (state data3))
     then RestartRenderPass MAX_COLOR_TARGET_BINDINGS w3 data3
     else (w3, data3)) = (w4, data4)
    /\ recording w4 data4 cb
    /\ rd_device data4 = rd_device data3
    /\ present_fence data4 = present_fence data3)
    as (w4 & data4 & -> & Hrec4 & Hdev4 & Hf4).
  { destruct (_ && _).
    - destruct (RestartRenderPass_recording MAX_COLOR_TARGET_BINDINGS
                  one_color_target w3 data3 cb Hrec3) as (? & _ & _).
      eexists _, _. split; [apply surjective_pairing|]. split; [done|].
      unfold RestartRenderPass.
      destruct (SDL_GpuBeginRenderPass _ _ _ _ _ _). done.
    - by exists w3, data3. }
  destruct Hrec4 as (Hc4 & Hp4 & Hrp4 & Hlive4).
  destruct (render_pass (state data4)) as [p|] eqn:Ep; cbn [fst snd].
  - destruct Hrp4 as [?|Hp]; [done|]. injection Hp as ->.
    destruct (SDL_GpuEndRenderPass_live w4 cb Hlive4) as [Hlive5 _].
    split; [|split; [done|split; cbn; congruence]].
    split; [done|]. split; [done|]. split; [by left|]. done.
  - split; [|split; [done|split; congruence]].
    split; [done|]. split; [done|]. split; [by left|]. by rewrite Ep.
Qed.

(** A run of the command queue leaves the renderer about to present. *)
Lemma GPU_RunCommandQueue_presenting renderer w data dev cb cmds vertsize :
  presenting w data dev ->
  recording w data cb ->
  render_pass (state data) = None ->
  presenting
    (GPU_RunCommandQueue MAX_COLOR_TARGET_BINDINGS renderer w data cmds vertsize).1.1
    (GPU_RunCommandQueue MAX_COLOR_TARGET_BINDINGS renderer w data cmds vertsize).1.2
    dev
  /\ acquired dev []
       (calls (GPU_RunCommandQueue MAX_COLOR_TARGET_BINDINGS renderer w data cmds
                 vertsize).1.1)
     = acquired dev [] (calls w).
Proof.
  intros (Hdev & Hcb & Hfence & Hbal & cb0 & h & Hc & Hl & Hd & Hdebug) Hrec Hnone.
  destruct (GPU_RunCommandQueue_recording renderer w data cb cmds vertsize Hrec
              Hnone) as (Hrec' & Hnone' & Hdev' & Hf').
  destruct (GPU_RunCommandQueue_fence_quiet renderer w data cmds vertsize)
    as [(l & Hcalls & Hquiet) Hbuf].
  set (r := GPU_RunCommandQueue MAX_COLOR_TARGET_BINDINGS renderer w data cmds
              vertsize) in *.
  assert (acquired dev [] (calls r.1.1) = acquired dev [] (calls w)) as Hacq.
  { rewrite Hcalls, acquired_app, (acquired_no_fence _ _ _ Hquiet).
    by rewrite app_nil_r. }
  split; [|done].
  split; [congruence|]. split; [done|]. split; [done|]. split.
  { rewrite Hacq, Hcalls, released_app, (released_no_fence _ Hquiet), Hf'.
    by rewrite app_nil_r. }
  destruct Hrec as (Hc0 & _). assert (cb0 = cb) as -> by congruence.
  destruct Hrec' as (Hc' & _ & _ & h' & Hl' & _ & _ & Hflags).
  rewrite Hnone' in Hflags. cbn in Hflags.
  destruct (Hbuf _ _ Hl') as (h0 & Hl0 & Hd0).
  assert (h0 = h) as -> by congruence.
  exists cb, h'. split; [done|]. split; [done|]. split; [congruence|].
  intros Hdbg. destruct Hflags as (Hs & Hcp & Hcy & Hrp); [congruence|].
  split; [done|]. unfold CHECK_ANY_PASS_IN_PROGRESS. by rewrite Hrp, Hcp, Hcy.
Qed.

(** A present leaves the renderer recording into the command buffer it
    acquired. *)
Lemma GPU_RenderPresent_recording renderer w data dev :
  presenting w data dev ->
  (forall k, is_Some (pipeline_cache data k)) ->
  render_pass (state data) = None ->
  exists cb',
    recording (GPU_RenderPresent renderer w data).1.1
      (GPU_RenderPresent renderer w data).1.2 cb'
    /\ render_pass (state (GPU_RenderPresent renderer w data).1.2) = None.
Proof.
  intros (Hdev & Hcb & Hfence & Hbal & cb & h & Hc & Hl & <- & Hdebug) Hpipe Hnone.
  destruct (Hfence (calls w) cb) as [f Hf].
  remember (GPU_RenderPresent renderer w data) as result eqn:Hr.
  unfold GPU_RenderPresent, SDL_GpuSubmitAndAcquireFence in Hr.
  rewrite Hc, Hl, Hdev, Hf in Hr.
  assert (debugMode (device h) && CHECK_COMMAND_BUFFER h = false) as Hsub.
  { unfold CHECK_COMMAND_BUFFER. destruct (debugMode (device h)); [|done].
    by destruct Hdebug as [-> _]. }
  assert (debugMode (device h)
          && (inProgress (renderPass h) || inProgress (computePass h)
              || inProgress (copyPass h)) = false) as Hpass.
  { destruct (debugMode (device h)); [|done].
    destruct Hdebug as [_ H]; [done|]. apply H. }
  rewrite Hsub, Hpass in Hr.
  unfold SDL_GpuWaitForFences, SDL_GpuReleaseFence, SDL_GpuAcquireCommandBuffer in Hr.
  cbn in Hr. rewrite Hdev in Hr.
  match type of Hr with
  | context [AcquireCommandBuffer (device h) (calls ?w1)] =>
      destruct (Hcb (calls w1)) as [cb' Hcb']; rewrite Hcb' in Hr
  end.
  unfold RenewSwapchain, SDL_GpuAcquireSwapchainTexture,
    SDL_GpuGetSwapchainTextureFormat in Hr.
  cbn in Hr. rewrite Hdev in Hr.
  assert (forall w' data',
    result = (w', data', 0) ->
    command_buffer (state data') = Some cb' ->
    pipeline_cache data' = pipeline_cache data ->
    render_pass (state data') = None ->
    (exists h', buffers w' !! cb' = Some h'
                /\ commandBuffer (renderPass h') = cb'
                /\ commandBuffer (copyPass h') = cb'
                /\ submitted h' = false
                /\ inProgress (computePass h') = false
                /\ inProgress (copyPass h') = false
                /\ inProgress (renderPass h') = false) ->
    exists cb',
      recording result.1.1 result.1.2 cb'
      /\ render_pass (state result.1.2) = None) as Hgoal.
  { intros w' data' -> Hc' Hp' Hn' (h' & Hl' & Hb1 & Hb2 & Hs & Hcp & Hcy & Hrp).
    exists cb'. cbn. split; [|done].
    split; [done|]. split; [by rewrite Hp'|]. split; [by left|].
    rewrite Hn'. cbn. exists h'. by repeat split. }
  destruct (window renderer) as [win|]; cbn in Hr.
  - rewrite lookup_insert_eq in Hr. cbn in Hr. rewrite andb_false_r in Hr.
    destruct (AcquireSwapchainTexture _ _ _ _) as [[[tex|] width] height];
      cbn in Hr.
    + eapply Hgoal; [exact Hr| | | |]; try done.
      eexists. split; [cbn; apply lookup_insert_eq|]. done.
    + eapply Hgoal; [exact Hr| | | |]; try done.
      eexists. split; [cbn; apply lookup_insert_eq|]. done.
  - eapply Hgoal; [exact Hr| | | |]; try done.
    eexists. split; [cbn; apply lookup_insert_eq|]. done.
Qed.

Lemma frames_S renderer queue n w data :
  frames MAX_COLOR_TARGET_BINDINGS renderer queue (S n) w data
  = (GPU_RenderPresent renderer
       (GPU_RunCommandQueue MAX_COLOR_TARGET_BINDINGS renderer
          (frames MAX_COLOR_TARGET_BINDINGS renderer queue n w data).1
          (frames MAX_COLOR_TARGET_BINDINGS renderer queue n w data).2
          (queue n).1 (queue n).2).1.1
       (GPU_RunCommandQueue MAX_COLOR_TARGET_BINDINGS renderer
          (frames MAX_COLOR_TARGET_BINDINGS renderer queue n w data).1
          (frames MAX_COLOR_TARGET_BINDINGS renderer queue n w data).2
          (queue n).1 (queue n).2).1.2).1.
Proof.
  cbn [frames]. destruct (frames _ renderer queue n w data) as [w1 data1].
  cbn [fst snd]. by destruct (GPU_RunCommandQueue _ _ _ _ _ _) as [[w2 data2] r].
Qed.

(** X18 (fence rotation over whole frames).  Let the renderer be about to
    present on a device that hands out a command buffer and a fence
    whenever asked, and record into a live command buffer with no render
    pass open and every pipeline available.  After any number of frames,
    each running a command queue of any content and then presenting, the
    renderer is again about to present and records into the command buffer
    the last present acquired, with no pass open: every frame was submitted
    and handed out one fence, and the fences handed out and not released
    are exactly the one the renderer stores. *)
Theorem X18_frames_keep_fence_rotation
    (renderer : SDL_Renderer) (queue : nat -> list SDL_RenderCommand * Z)
    (w : World) (data : GPU_RenderData) (dev : SDL_GpuDevice)
    (cb : CommandBufferId) (n : nat) :
  presenting w data dev ->
  recording w data cb ->
  render_pass (state data) = None ->
  presenting (frames MAX_COLOR_TARGET_BINDINGS renderer queue n w data).1
    (frames MAX_COLOR_TARGET_BINDINGS renderer queue n w data).2 dev
  /\ (exists cb',
        recording (frames MAX_COLOR_TARGET_BINDINGS renderer queue n w data).1
          (frames MAX_COLOR_TARGET_BINDINGS renderer queue n w data).2 cb'
        /\ render_pass
             (state (frames MAX_COLOR_TARGET_BINDINGS renderer queue n w data).2)
           = None)
  /\ length (acquired dev []
               (calls (frames MAX_COLOR_TARGET_BINDINGS renderer queue n w data).1))
     = (n + length (acquired dev [] (calls w)))%nat
  /\ acquired dev []
       (calls (frames MAX_COLOR_TARGET_BINDINGS renderer queue n w data).1)
     = released (calls (frames MAX_COLOR_TARGET_BINDINGS renderer queue n w data).1)
       ++ option_list
            (present_fence
               (frames MAX_COLOR_TARGET_BINDINGS renderer queue n w data).2).
Proof.
  intros Hpres Hrec Hnone.
  induction n as [|n (IHp & (cb1 & IHr & IHn) & IHlen & _)].
  - cbn. split; [done|]. split; [by exists cb|]. split; [done|].
    by destruct Hpres as (_ & _ & _ & ? & _).
  - rewrite frames_S.
    set (s := frames MAX_COLOR_TARGET_BINDINGS renderer queue n w data) in *.
    destruct (GPU_RunCommandQueue_presenting renderer s.1 s.2 dev cb1
                (queue n).1 (queue n).2 IHp IHr IHn) as [Hp1 Hacq1].
    destruct (GPU_RunCommandQueue_recording renderer s.1 s.2 cb1
                (queue n).1 (queue n).2 IHr IHn) as (Hr1 & Hn1 & _ & _).
    set (r := GPU_RunCommandQueue MAX_COLOR_TARGET_BINDINGS renderer s.1 s.2
                (queue n).1 (queue n).2) in *.
    destruct (GPU_RenderPresent_trace renderer r.1.1 r.1.2 dev Hp1)
      as (cb2 & f & rest & Hc2 & Hf2 & _ & Hpf & Hcalls & Hrest & Hp2).
    destruct (GPU_RenderPresent_recording renderer r.1.1 r.1.2 dev Hp1)
      as (cb3 & Hr3 & Hn3); [by destruct Hr1 as (_ & ? & _)|done|].
    split; [done|]. split; [by exists cb3|].
    destruct Hp2 as (_ & _ & _ & Hbal2 & _). split; [|done].
    rewrite Hcalls, acquired_app. cbn [acquired app].
    rewrite Hf2. cbn [option_list app].
    rewrite acquired_app, acquired_fence_swap. cbn [acquired app].
    rewrite (acquired_no_fence _ _ _ Hrest), Hacq1.
    rewrite length_app. cbn. lia.
Qed.

End Renderer_frames.

(** Three frames of the example renderer: fifty points, nothing, and a
    clear followed by lines. *)
Lemma X18_frames_keep_fence_rotation_witness :
  length (acquired (example_device true) []
            (calls (frames 4 example_renderer
                      (fun k => match k with
                                | O => (fifty_points, 800)
                                | 1%nat => ([], 0)
                                | _ => (example_command SDL_RENDERCMD_CLEAR 0
                                          :: example_lines, 144)
                                end) 3 example_world example_data).1))
  = 3%nat.
Proof.
  refine (proj1 (proj2 (proj2
            (X18_frames_keep_fence_rotation 4 ltac:(lia) example_renderer _
               example_world example_data (example_device true) 0%nat 3 _ _ _)))).
  - split; [reflexivity|].
    split; [intros history; exists 0%nat; reflexivity|].
    split; [intros history cb; exists (length history); reflexivity|].
    split; [reflexivity|].
    exists 0%nat, (acquired_header true false).
    repeat split; reflexivity.
  - split; [reflexivity|]. split; [intros k; by exists 7%nat|].
    split; [by left|].
    exists (acquired_header true false). repeat split; reflexivity.
  - reflexivity.
Defined.
(** ** The staging copy of texture updates *)

Section Texture_updates.

Lemma read_bytes_Some (block : list Z) (off n : Z) :
  0 <= off -> 0 <= n -> off + n <= Z.of_nat (length block) ->
  read_bytes block off n
  = Some (take (Z.to_nat n) (drop (Z.to_nat off) block)).
Proof.
  intros Ho Hn Hl. unfold read_bytes.
  destruct (0 <=? off) eqn:E1; [|lia].
  destruct (0 <=? n) eqn:E2; [|lia].
  destruct (off + n <=? Z.of_nat (length block)) eqn:E3; [|lia]. done.
Qed.

Lemma write_bytes_Some (block : list Z) (off : Z) (bytes : list Z) :
  0 <= off -> off + Z.of_nat (length bytes) <= Z.of_nat (length block) ->
  write_bytes block off bytes
  = Some (take (Z.to_nat off) block ++ bytes
          ++ drop (Z.to_nat off + length bytes) block).
Proof.
  intros Ho Hl. unfold write_bytes.
  destruct (0 <=? off) eqn:E1; [|lia].
  destruct (off + Z.of_nat (length bytes) <=? Z.of_nat (length block)) eqn:E3; [|lia].
  done.
Qed.

Lemma pixel_row_length (pixels : list Z) (start pitch row_size : Z) (i : nat) :
  0 <= row_size ->
  0 <= start + Z.of_nat i * pitch ->
  start + Z.of_nat i * pitch + row_size <= Z.of_nat (length pixels) ->
  length (pixel_row pixels start pitch row_size i) = Z.to_nat row_size.
Proof.
  intros Hr H0 Hl. unfold pixel_row. rewrite length_take, length_drop. lia.
Qed.

Lemma pixel_rows_S (pixels : list Z) (start pitch row_size : Z) (rows : nat) :
  pixel_rows pixels start pitch row_size (S rows)
  = pixel_row pixels start pitch row_size 0
    ++ pixel_rows pixels (start + pitch) pitch row_size rows.
Proof.
  unfold pixel_rows. rewrite <- cons_seq, <- fmap_S_seq. cbn. f_equal.
  rewrite <- list_fmap_compose. f_equal. apply list_fmap_ext.
  intros _ i _. unfold pixel_row; cbn. do 3 f_equal. lia.
Qed.

Lemma pixel_rows_length (pixels : list Z) (pitch row_size : Z) (rows : nat) :
  forall start,
  0 <= row_size ->
  (forall i, (i < rows)%nat ->
     0 <= start + Z.of_nat i * pitch
     /\ start + Z.of_nat i * pitch + row_size <= Z.of_nat (length pixels)) ->
  length (pixel_rows pixels start pitch row_size rows)
  = (rows * Z.to_nat row_size)%nat.
Proof.
  induction rows as [|m IH]; intros start Hr Hrows; [done|].
  rewrite pixel_rows_S, length_app, IH; [| done |].
  - rewrite pixel_row_length; [lia | done | |]; apply (Hrows 0%nat); lia.
  - intros i Hi. specialize (Hrows (S i) ltac:(lia)). lia.
Qed.

(** Rows that follow one another without a gap are one stretch of the
    block. *)
Lemma pixel_rows_contiguous (pixels : list Z) (row_size : Z) (rows : nat) :
  forall start,
  0 <= row_size -> 0 <= start ->
  pixel_rows pixels start row_size row_size rows
  = take (rows * Z.to_nat row_size) (drop (Z.to_nat start) pixels).
Proof.
  induction rows as [|m IH]; intros start Hr Hs; [done|].
  rewrite pixel_rows_S, IH by lia. unfold pixel_row.
  replace (start + Z.of_nat 0 * row_size) with start by lia.
  replace (Z.to_nat (start + row_size))
    with (Z.to_nat start + Z.to_nat row_size)%nat by lia.
  rewrite <- drop_drop.
  replace (S m * Z.to_nat row_size)%nat
    with (Z.to_nat row_size + m * Z.to_nat row_size)%nat by lia.
  by rewrite take_take_drop.
Qed.

Lemma copy_rows_spec (pixels : list Z) (row_size pitch : Z) (rows : nat) :
  forall (mapped : list Z) (output input : Z),
  0 <= row_size -> 0 <= output ->
  output + Z.of_nat rows * row_size <= Z.of_nat (length mapped) ->
  (forall i, (i < rows)%nat ->
     0 <= input + Z.of_nat i * pitch
     /\ input + Z.of_nat i * pitch + row_size <= Z.of_nat (length pixels)) ->
  copy_rows rows mapped output pixels input row_size pitch
  = Some (take (Z.to_nat output) mapped
          ++ pixel_rows pixels input pitch row_size rows
          ++ drop (Z.to_nat output + rows * Z.to_nat row_size) mapped).
Proof.
  induction rows as [|m IH]; intros mapped output input Hr Ho Hm Hrows.
  - cbn. rewrite Nat.add_0_r. by rewrite take_drop.
  - destruct (Hrows 0%nat ltac:(lia)) as [H0 H1].
    replace (input + Z.of_nat 0 * pitch) with input in H0, H1 by lia.
    cbn [copy_rows]. unfold memcpy.
    rewrite read_bytes_Some by lia. cbn [mbind option_bind].
    set (row := take (Z.to_nat row_size) (drop (Z.to_nat input) pixels)).
    assert (length row = Z.to_nat row_size) as Hrow
      by (unfold row; rewrite length_take, length_drop; lia).
    rewrite write_bytes_Some by lia. cbn [mbind option_bind].
    set (mapped1 := take (Z.to_nat output) mapped ++ row
                    ++ drop (Z.to_nat output + length row) mapped).
    assert (length mapped1 = length mapped) as Hlen.
    { unfold mapped1. rewrite !length_app, length_take, length_drop. lia. }
    rewrite IH; [| lia | lia | rewrite Hlen; lia |].
    2:{ intros i Hi. specialize (Hrows (S i) ltac:(lia)). lia. }
    rewrite pixel_rows_S. f_equal.
    replace (pixel_row pixels input pitch row_size 0) with row
      by (unfold row, pixel_row; do 3 f_equal; lia).
    assert (length (take (Z.to_nat output) mapped) = Z.to_nat output) as Ht
      by (rewrite length_take; lia).
    replace (Z.to_nat (output + row_size))
      with (Z.to_nat output + Z.to_nat row_size)%nat by lia.
    unfold mapped1.
    rewrite take_app_add' by done.
    rewrite <- Hrow at 1. rewrite take_app_length.
    rewrite <- !app_assoc. do 2 f_equal.
    replace (Z.to_nat output + Z.to_nat row_size + m * Z.to_nat row_size)%nat
      with (Z.to_nat output + (length row + m * Z.to_nat row_size))%nat by lia.
    rewrite drop_app_add' by done.
    rewrite drop_app_add' by done.
    rewrite drop_drop. do 2 f_equal. rewrite Hrow. cbn [Nat.mul]. lia.
Qed.

(** X19 (texture updates are staged row by row).  For a rectangle whose rows
    lie inside the block of pixels, [pitch] bytes apart (also with a negative
    pitch, or one wider than a row), [GPU_UpdateTexture] fills the transfer
    buffer with the rows of the rectangle one after the other and nothing
    else: [texturebpp * w] bytes per row, whatever the buffer held. *)
Theorem X19_texture_rows_staged
    (texturebpp : Z) (rect : SDL_Rect) (pixels : list Z) (start pitch : Z)
    (mapped : list Z) :
  0 <= texturebpp -> 0 <= rect_w rect -> 0 <= rect_h rect ->
  texturebpp * rect_w rect <= 2147483647 ->
  texturebpp * rect_w rect * rect_h rect <= UINT32_MAX ->
  -2147483648 <= pitch <= 2147483647 ->
  Z.of_nat (length mapped) = texturebpp * rect_w rect * rect_h rect ->
  0 <= start <= Z.of_nat (length pixels) ->
  (forall i, 0 <= i < rect_h rect ->
     0 <= start + i * pitch
     /\ start + i * pitch + texturebpp * rect_w rect <= Z.of_nat (length pixels)) ->
  GPU_UpdateTexture_staging texturebpp rect pixels start pitch mapped
  = Some (pixel_rows pixels start pitch (texturebpp * rect_w rect)
            (Z.to_nat (rect_h rect)))
  /\ length (pixel_rows pixels start pitch (texturebpp * rect_w rect)
               (Z.to_nat (rect_h rect)))
     = length mapped.
Proof.
  intros Hb Hw Hh Hrow Hdata Hpitch Hmapped Hstart Hrows.
  set (row_size := texturebpp * rect_w rect) in *.
  assert (0 <= row_size) as Hr by (unfold row_size; nia).
  assert (forall i, (i < Z.to_nat (rect_h rect))%nat ->
            0 <= start + Z.of_nat i * pitch
            /\ start + Z.of_nat i * pitch + row_size <= Z.of_nat (length pixels))
    as Hrows' by (intros i Hi; apply Hrows; lia).
  assert (length (pixel_rows pixels start pitch row_size (Z.to_nat (rect_h rect)))
          = length mapped) as Hlen.
  { rewrite pixel_rows_length by done. nia. }
  split; [|exact Hlen].
  unfold GPU_UpdateTexture_staging. fold row_size.
  assert (wrap32 row_size = row_size) as ->
    by (unfold wrap32; apply Z.mod_small; unfold UINT32_MAX in *; lia).
  assert (wrap32 (row_size * rect_h rect) = row_size * rect_h rect) as ->
    by (unfold wrap32; apply Z.mod_small; unfold UINT32_MAX in *; nia).
  destruct (wrap32 pitch =? row_size) eqn:E.
  - assert (pitch = row_size) as ->.
    { apply Z.eqb_eq in E. unfold wrap32 in E.
      pose proof (Z.div_mod pitch 4294967296 ltac:(lia)).
      pose proof (Z.mod_pos_bound pitch 4294967296 ltac:(lia)). lia. }
    assert (start + row_size * rect_h rect <= Z.of_nat (length pixels)) as Hend.
    { destruct (Z.eq_dec (rect_h rect) 0) as [->|Hne]; [lia|].
      specialize (Hrows (rect_h rect - 1) ltac:(lia)). nia. }
    unfold memcpy. rewrite read_bytes_Some by nia. cbn [mbind option_bind].
    rewrite pixel_rows_contiguous in * by lia.
    replace (Z.to_nat (rect_h rect) * Z.to_nat row_size)%nat
      with (Z.to_nat (row_size * rect_h rect)) in * by nia.
    rewrite write_bytes_Some by (rewrite ?Hlen; lia).
    rewrite Hlen. change (Z.to_nat 0) with 0%nat.
    rewrite take_0, (drop_ge mapped) by lia. cbn [app]. by rewrite app_nil_r.
  - rewrite copy_rows_spec; [| done | lia | nia | done].
    change (Z.to_nat 0) with 0%nat.
    rewrite take_0, (drop_ge mapped) by nia. cbn [app]. by rewrite app_nil_r.
Qed.

End Texture_updates.

(** A 2x2 rectangle of four-byte pixels read bottom-up out of a block of
    three rows of twelve bytes. *)
Lemma X19_texture_rows_staged_witness :
  GPU_UpdateTexture_staging 4 {| rect_x := 0; rect_y := 0; rect_w := 2; rect_h := 2 |}
    (Z.of_nat <$> seq 0 36) 28 (-12) (replicate 16 0)
  = Some [28; 29; 30; 31; 32; 33; 34; 35; 16; 17; 18; 19; 20; 21; 22; 23].
Proof.
  refine (proj1 (X19_texture_rows_staged 4
                   {| rect_x := 0; rect_y := 0; rect_w := 2; rect_h := 2 |}
                   (Z.of_nat <$> seq 0 36) 28 (-12) (replicate 16 0)
                   _ _ _ _ _ _ _ _ _));
    cbn; unfold UINT32_MAX; try lia; reflexivity.
Defined.
(** ** Error messages of the Direct3D 12 back end *)

Section D3D12_error_messages.

Import D3D12.

Variable DXGI_ERROR_DEVICE_REMOVED : Z.
Variable ID3D12Device_GetDeviceRemovedReason : nat -> Z.
Variable FormatMessage : Z -> list Z.

Lemma trim_tail_le (buf : list Z) (n : nat) : (trim_tail buf n <= n)%nat.
Proof.
  induction n as [|n IH]; cbn; [lia|].
  destruct (to_char (nth n buf 0) <=? 32); lia.
Qed.

Lemma trim_tail_last (buf : list Z) (n k : nat) :
  trim_tail buf n = S k -> 32 < to_char (nth k buf 0).
Proof.
  induction n as [|n IH]; cbn; [done|].
  destruct (to_char (nth n buf 0) <=? 32) eqn:E; [exact IH|].
  intros [= <-]. lia.
Qed.

Lemma trim_tail_cut (buf : list Z) (n i : nat) :
  (trim_tail buf n <= i < n)%nat -> to_char (nth i buf 0) <= 32.
Proof.
  induction n as [|n IH]; cbn; [lia|].
  destruct (to_char (nth n buf 0) <=? 32) eqn:E; [|lia].
  intros Hi. destruct (decide (i = n)) as [->|Hne]; [lia|].
  apply IH. lia.
Qed.

(** A byte read as a [char] is at most a blank when it is a control
    character, the blank, or a byte from 0x80 on. *)
Lemma to_char_at_most_blank (c : Z) :
  0 <= c < 256 -> (to_char c <= 32 <-> c <= 32 \/ 128 <= c).
Proof.
  intros Hc. unfold to_char.
  destruct (Z_lt_le_dec c 128).
  - rewrite Z.mod_small by lia. lia.
  - replace (c + 128) with (c - 128 + 1 * 256) by lia.
    rewrite Z.mod_add, Z.mod_small by lia. lia.
Qed.

(** X20 (the logged error text is trimmed).  [D3D12_INTERNAL_LogError] logs
    the message with the code alone when the system has no text for the
    code; otherwise the text it logs is what remains of the first 1024
    characters of the system's text once every character at its end that,
    read as a [char], is at most a blank is cut: it loses no other
    character and does not end in one.  For a byte these characters are the
    control characters, the blank and the bytes from 0x80 on.  The code is
    the device's removal reason when the result is
    [DXGI_ERROR_DEVICE_REMOVED] and there is a device. *)
Theorem X20_logged_error_text_is_trimmed
    (device : option nat) (msg : string) (res : Z) :
  let reason :=
    if res =? DXGI_ERROR_DEVICE_REMOVED
    then default res (ID3D12Device_GetDeviceRemovedReason <$> device)
    else res in
  match D3D12_INTERNAL_LogError DXGI_ERROR_DEVICE_REMOVED
          ID3D12Device_GetDeviceRemovedReason FormatMessage device msg res with
  | Error_code m r => m = msg /\ r = reason /\ FormatMessage reason = []
  | Error_text m text r =>
    m = msg /\ r = reason /\ FormatMessage reason <> []
    /\ (exists cut,
          take 1024 (FormatMessage reason) = text ++ cut
          /\ Forall (fun c => to_char c <= 32) cut
          /\ Forall (fun c => 0 <= c < 256 -> c <= 32 \/ 128 <= c) cut)
    /\ (forall c, last text = Some c ->
          32 < to_char c /\ (0 <= c < 256 -> 32 < c < 128))
  end.
Proof.
  intros reason. unfold D3D12_INTERNAL_LogError.
  assert ((if res =? DXGI_ERROR_DEVICE_REMOVED
           then match device with
                | Some d => ID3D12Device_GetDeviceRemovedReason d
                | None => res
                end
           else res) = reason) as ->
    by (unfold reason; destruct (res =? _), device; done).
  set (buf := FormatMessage reason).
  destruct (Z.of_nat (length buf) =? 0) eqn:E.
  - split; [done|]. split; [done|]. apply nil_length_inv. lia.
  - split; [done|]. split; [done|].
    split; [intros Hnil; rewrite Hnil in E; by cbn in E|].
    set (n := Z.to_nat (Z.min (Z.of_nat (length buf)) MAX_ERROR_LEN)).
    assert (n = Nat.min (length buf) 1024) as Hn
      by (unfold n, MAX_ERROR_LEN; lia).
    pose proof (trim_tail_le buf n) as Hle.
    split.
    + exists (drop (trim_tail buf n) (take n buf)).
      assert (Forall (fun c => to_char c <= 32)
                (drop (trim_tail buf n) (take n buf))) as Hcut.
      { apply Forall_lookup_2. intros i c Hi.
        rewrite lookup_drop in Hi.
        assert (trim_tail buf n + i < n)%nat as Hlt.
        { apply lookup_lt_Some in Hi. rewrite length_take in Hi. lia. }
        rewrite lookup_take_lt in Hi by lia.
        rewrite <- (nth_lookup_Some _ _ 0 _ Hi).
        apply (trim_tail_cut buf n). lia. }
      split; [|split; [exact Hcut|]].
      * replace (take 1024 buf) with (take n buf).
        2:{ rewrite Hn. destruct (decide (length buf <= 1024)%nat).
            - rewrite Nat.min_l by lia. by rewrite !take_ge by lia.
            - by rewrite Nat.min_r by lia. }
        rewrite <- (take_drop (trim_tail buf n) (take n buf)) at 1.
        by rewrite take_take, Nat.min_l by lia.
      * eapply Forall_impl; [exact Hcut|]. intros c Hblank Hc.
        by apply to_char_at_most_blank.
    + intros c Hlast.
      assert (32 < to_char c) as Hkept;
        [|split; [exact Hkept|]; intros Hc;
          pose proof (to_char_at_most_blank c Hc); lia]. rewrite last_lookup in Hlast.
      rewrite length_take, Nat.min_l in Hlast by lia.
      destruct (trim_tail buf n) as [|k] eqn:Hk; [done|].
      cbn [Nat.pred] in Hlast. rewrite lookup_take_lt in Hlast by lia.
      rewrite <- (nth_lookup_Some _ _ 0 _ Hlast).
      by apply (trim_tail_last buf n).
Qed.

End D3D12_error_messages.
(** ** The shaders of the 2D renderer *)

Section Renderer_shaders.

Import Shaders.

Variable CreateShader :
  SDL_GpuDevice -> list ShaderEvent -> SDL_GpuShaderCreateInfo -> option SDL_GpuShader.
Variable linepoint_vert_spv tri_color_vert_spv tri_texture_vert_spv : list Z.
Variable color_frag_spv texture_rgba_frag_spv : list Z.

Lemma shaders_created_app (t1 t2 : list ShaderEvent) :
  shaders_created (t1 ++ t2) = shaders_created t1 ++ shaders_created t2.
Proof. apply omap_app. Qed.

Lemma shaders_released_app (t1 t2 : list ShaderEvent) :
  shaders_released (t1 ++ t2) = shaders_released t1 ++ shaders_released t2.
Proof. apply omap_app. Qed.

Lemma SDL_GpuReleaseShader_spec (t : list ShaderEvent)
    (device : option SDL_GpuDevice) (shader : option SDL_GpuShader) :
  exists new,
    SDL_GpuReleaseShader t device shader = t ++ new
    /\ shaders_created new = []
    /\ shaders_released new
       = match device with Some _ => option_list shader | None => [] end.
Proof.
  destruct device as [dev|], shader as [sh|]; cbn;
    try (eexists; split; [reflexivity|done]).
  exists []. by rewrite app_nil_r.
Qed.

Lemma release_slots_spec (device : option SDL_GpuDevice)
    (slots : list (option SDL_GpuShader)) : forall t,
  exists new,
    release_slots t device slots = (t ++ new, replicate (length slots) None)
    /\ shaders_created new = []
    /\ shaders_released new
       = match device with Some _ => omap id slots | None => [] end.
Proof.
  induction slots as [|shader rest IH]; intros t.
  - exists []. cbn. rewrite app_nil_r. by destruct device.
  - cbn [release_slots].
    destruct (SDL_GpuReleaseShader_spec t device shader) as (n1 & -> & Hc1 & Hr1).
    destruct (IH (t ++ n1)) as (n2 & -> & Hc2 & Hr2).
    exists (n1 ++ n2). rewrite <- app_assoc. split; [done|].
    rewrite shaders_created_app, shaders_released_app, Hc1, Hc2, Hr1, Hr2.
    split; [done|]. by destruct device, shader.
Qed.

Lemma CompileShader_spec (t : list ShaderEvent) (source : GPU_ShaderSources)
    (device : option SDL_GpuDevice) (stage : SDL_GpuShaderStage) :
  exists new,
    (CompileShader CreateShader t source device stage).1 = t ++ new
    /\ shaders_released new = []
    /\ shaders_created new
       = option_list (CompileShader CreateShader t source device stage).2
    /\ (device = None -> shaders_created new = []).
Proof.
  unfold CompileShader, SDL_GpuGetDriver, SDL_GpuCreateShader.
  destruct device as [dev|]; cbn.
  - destruct (backend dev); cbn;
      try (eexists; split; [reflexivity|done]).
    destruct (debugMode dev && _); cbn.
    + eexists; split; [reflexivity|done].
    + eexists; split; [reflexivity|]. cbn.
      by destruct (CreateShader dev t _).
  - rewrite <- app_assoc. eexists; split; [reflexivity|done].
Qed.

(** A loop of [GPU_InitShaders]: the slots it has passed hold the shaders it
    created, in this order; when it stops early, the slot it stopped at holds
    [NULL] and the slots behind are as they were. *)
Lemma compile_slots_spec (device : option SDL_GpuDevice)
    (stage : SDL_GpuShaderStage) (sources : list GPU_ShaderSources) :
  forall (t : list ShaderEvent) (i : nat) (slots : list (option SDL_GpuShader)),
  (i + length sources <= length slots)%nat ->
  exists new,
    (compile_slots CreateShader t sources device stage i slots).1.1 = t ++ new
    /\ shaders_released new = []
    /\ (device = None -> shaders_created new = [])
    /\ (compile_slots CreateShader t sources device stage i slots).1.2
       = take i slots
         ++ (Some <$> shaders_created new)
         ++ (if (compile_slots CreateShader t sources device stage i slots).2
             then drop (i + length sources) slots
             else None :: drop (S (i + length (shaders_created new))) slots)
    /\ (if (compile_slots CreateShader t sources device stage i slots).2
        then length (shaders_created new) = length sources
        else (length (shaders_created new) < length sources)%nat).
Proof.
  induction sources as [|source rest IH]; intros t i slots Hlen.
  - exists []. cbn. rewrite app_nil_r, Nat.add_0_r, take_drop. done.
  - cbn [compile_slots length] in *.
    destruct (CompileShader_spec t source device stage)
      as (n1 & Ht1 & Hr1 & Hc1 & Hd1).
    destruct (CompileShader CreateShader t source device stage)
      as [t1 shader] eqn:Hcompile.
    cbn [fst snd] in Ht1, Hc1. subst t1.
    destruct shader as [sh|]; cbn in Hc1.
    + destruct (IH (t ++ n1) (S i) (<[i := Some sh]> slots)) as
        (n2 & Ht2 & Hr2 & Hd2 & Hs2 & Hn2);
        [rewrite length_insert; lia|].
      exists (n1 ++ n2).
      rewrite shaders_created_app, shaders_released_app, Hc1, Hr1, Hr2.
      rewrite Ht2, Hs2, <- app_assoc.
      split; [done|]. split; [done|].
      split; [intros Hnone; specialize (Hd1 Hnone); congruence|].
      split.
      * rewrite take_S_r with (x := Some sh)
          by (apply list_lookup_insert_eq; lia).
        rewrite take_insert_ge by lia.
        rewrite <- !app_assoc. cbn [fmap list_fmap app]. do 3 f_equal.
        destruct (compile_slots _ _ _ _ _ _ _).2;
          rewrite drop_insert_lt by lia;
          [f_equal; lia | do 2 f_equal; cbn [length]; lia].
      * destruct (compile_slots _ _ _ _ _ _ _).2; cbn [length app]; lia.
    + exists n1. cbn [fst snd]. rewrite Hc1, Hr1.
      split; [done|]. split; [done|]. split; [done|].
      split; [|cbn; lia].
      cbn [fmap list_fmap app length]. rewrite Nat.add_0_r.
      rewrite <- (take_drop i (<[i := None]> slots)) at 1.
      rewrite take_insert_ge by lia. f_equal.
      rewrite (drop_S _ None) by (apply list_lookup_insert_eq; lia).
      by rewrite drop_insert_lt by lia.
Qed.

Lemma omap_id_Some (l : list SDL_GpuShader) : omap id (Some <$> l) = l.
Proof. induction l as [|x l IH]; cbn; [done|]. by rewrite IH. Qed.

Lemma omap_id_None (l : list (option SDL_GpuShader)) :
  Forall (fun s => s = None) l -> omap id l = [].
Proof. induction 1 as [|x l -> _ IH]; cbn; done. Qed.

Lemma Forall_None_replicate (n : nat) :
  Forall (fun s : option SDL_GpuShader => s = None) (replicate n None).
Proof. by apply Forall_replicate. Qed.

(** X21 (the shaders are created all or none).  On a renderer whose shader
    slots are empty, [GPU_InitShaders] either returns 0 with the three vertex
    and two fragment slots holding the five shaders the device created, in
    this order, and none released; or it returns -1 with every slot empty
    and every shader the device created handed back to it, in the order of
    creation. *)
Theorem X21_InitShaders_all_or_nothing
    (t : list ShaderEvent) (shaders : GPU_Shaders) (device : option SDL_GpuDevice) :
  length (vert_shaders shaders) = 3%nat ->
  length (frag_shaders shaders) = 2%nat ->
  Forall (fun s => s = None) (vert_shaders shaders ++ frag_shaders shaders) ->
  let result :=
    GPU_InitShaders CreateShader linepoint_vert_spv tri_color_vert_spv
      tri_texture_vert_spv color_frag_spv texture_rgba_frag_spv
      t shaders device in
  exists new,
    result.1.1 = t ++ new
    /\ length (vert_shaders result.1.2) = 3%nat
    /\ length (frag_shaders result.1.2) = 2%nat
    /\ ((result.2 = 0
         /\ vert_shaders result.1.2 ++ frag_shaders result.1.2
            = Some <$> shaders_created new
         /\ shaders_released new = [])
        \/ (result.2 = -1
            /\ Forall (fun s => s = None)
                 (vert_shaders result.1.2 ++ frag_shaders result.1.2)
            /\ shaders_released new = shaders_created new)).
Proof.
  intros Hv Hf Hnone result. subst result. unfold GPU_InitShaders.
  apply Forall_app in Hnone as [Hnv Hnf].
  set (vsrc := vert_shader_sources _ _ _).
  set (fsrc := frag_shader_sources _ _).
  destruct (compile_slots_spec device SDL_GPU_SHADERSTAGE_VERTEX vsrc t 0
              (vert_shaders shaders) ltac:(rewrite Hv; cbn; lia))
    as (n1 & Ht1 & Hr1 & Hd1 & Hs1 & Hn1).
  destruct (compile_slots CreateShader t vsrc device SDL_GPU_SHADERSTAGE_VERTEX 0
              (vert_shaders shaders)) as [[t1 vs] ok1] eqn:Hloop1.
  cbn [fst snd] in Ht1, Hs1, Hn1. subst t1.
  rewrite take_0 in Hs1. cbn [app] in Hs1.
  destruct ok1; cbn [negb vert_shaders frag_shaders].
  - rewrite drop_ge in Hs1 by (rewrite Hv; cbn; lia). rewrite app_nil_r in Hs1.
    destruct (compile_slots_spec device SDL_GPU_SHADERSTAGE_FRAGMENT fsrc
                (t ++ n1) 0 (frag_shaders shaders) ltac:(rewrite Hf; cbn; lia))
      as (n2 & Ht2 & Hr2 & Hd2 & Hs2 & Hn2).
    destruct (compile_slots CreateShader (t ++ n1) fsrc device
                SDL_GPU_SHADERSTAGE_FRAGMENT 0 (frag_shaders shaders))
      as [[t2 fs] ok2] eqn:Hloop2.
    cbn [fst snd] in Ht2, Hs2, Hn2. subst t2.
    rewrite take_0 in Hs2. cbn [app] in Hs2.
    destruct ok2; cbn [negb].
    + rewrite drop_ge in Hs2 by (rewrite Hf; cbn; lia). rewrite app_nil_r in Hs2.
      exists (n1 ++ n2). cbn [fst snd vert_shaders frag_shaders].
      rewrite app_assoc. split; [done|].
      split; [rewrite Hs1, length_fmap, Hn1; done|].
      split; [rewrite Hs2, length_fmap, Hn2; done|].
      left. split; [done|].
      by rewrite shaders_created_app, shaders_released_app, fmap_app,
           Hs1, Hs2, Hr1, Hr2.
    + unfold GPU_ReleaseShaders. cbn [vert_shaders frag_shaders].
      destruct (release_slots_spec device vs (t ++ n1 ++ n2))
        as (n3 & Hrel3 & Hc3 & Hr3).
      rewrite <- app_assoc, Hrel3.
      destruct (release_slots_spec device fs ((t ++ n1 ++ n2) ++ n3))
        as (n4 & Hrel4 & Hc4 & Hr4).
      rewrite Hrel4. cbn [fst snd vert_shaders frag_shaders].
      exists (n1 ++ n2 ++ n3 ++ n4). rewrite <- !app_assoc. split; [done|].
      assert (length vs = 3%nat) as Hlv by (rewrite Hs1, length_fmap, Hn1; done).
      assert (length fs = 2%nat) as Hlf.
      { rewrite Hs2, length_app, length_fmap. cbn [length].
        rewrite length_drop, Hf. change (length fsrc) with 2%nat in Hn2. lia. }
      rewrite !length_replicate. split; [done|]. split; [done|].
      right. split; [done|]. split.
      { apply Forall_app. split; apply Forall_None_replicate. }
      rewrite !shaders_created_app, !shaders_released_app,
        Hr1, Hr2, Hc3, Hc4, Hr3, Hr4, !app_nil_r. cbn [app].
      destruct device as [dev|].
      * rewrite Hs1, Hs2, omap_id_Some, omap_app, omap_id_Some.
        rewrite omap_id_None; [by rewrite app_nil_r|].
        apply Forall_cons. split; [done|by apply Forall_drop].
      * by rewrite Hd1, Hd2.
  - unfold GPU_ReleaseShaders. cbn [vert_shaders frag_shaders].
    destruct (release_slots_spec device vs (t ++ n1)) as (n3 & Hrel3 & Hc3 & Hr3).
    rewrite Hrel3.
    destruct (release_slots_spec device (frag_shaders shaders) ((t ++ n1) ++ n3))
      as (n4 & Hrel4 & Hc4 & Hr4).
    rewrite Hrel4. cbn [fst snd vert_shaders frag_shaders].
    exists (n1 ++ n3 ++ n4). rewrite <- !app_assoc. split; [done|].
    assert (length vs = 3%nat) as Hlv.
    { rewrite Hs1, length_app, length_fmap. cbn [length].
      rewrite length_drop, Hv. change (length vsrc) with 3%nat in Hn1. lia. }
    rewrite !length_replicate. split; [done|]. split; [done|].
    right. split; [done|]. split.
    { apply Forall_app. split; apply Forall_None_replicate. }
    rewrite !shaders_created_app, !shaders_released_app,
      Hr1, Hc3, Hc4, Hr3, Hr4, !app_nil_r. cbn [app].
    destruct device as [dev|].
    + rewrite Hs1, omap_app, omap_id_Some.
      rewrite (omap_id_None (None :: _))
        by (apply Forall_cons; split; [done|by apply Forall_drop]).
      rewrite (omap_id_None (frag_shaders shaders)) by done.
      by rewrite !app_nil_r.
    + by rewrite Hd1.
Qed.


End Renderer_shaders.

(** A Vulkan device that refuses the shader with a sampler: the four shaders
    created before it are handed back. *)
Lemma X21_InitShaders_all_or_nothing_witness :
  exists new,
    (Shaders.GPU_InitShaders Shaders.picky_CreateShader [1] [2] [3] [4] [5] []
       Shaders.empty_shaders (Some (example_device true))).1.1 = [] ++ new
    /\ Shaders.shaders_created new = [0; 1; 2; 3]%nat
    /\ Shaders.shaders_released new = [0; 1; 2; 3]%nat.
Proof.
  destruct (X21_InitShaders_all_or_nothing Shaders.picky_CreateShader
              [1] [2] [3] [4] [5] [] Shaders.empty_shaders
              (Some (example_device true)) eq_refl eq_refl)
    as (new & Hnew & _ & _ & _).
  { repeat constructor. }
  exists new. split; [exact Hnew|].
  cbn in Hnew. subst new. split; reflexivity.
Defined.

(** ** Texture creation on a device in debug mode *)

Section Texture_validation.

Variable SDL_GPU_TEXTUREUSAGE_SAMPLER_BIT : Z.
Variable SDL_GPU_TEXTUREUSAGE_GRAPHICS_STORAGE_READ_BIT : Z.
Variable IsIntegerFormat : SDL_GpuTextureFormat -> bool.
Variable CreateTexture :
  SDL_GpuDevice -> list BackendCall -> SDL_GpuTextureCreateInfo -> option SDL_GpuTexture.

Lemma failing_flag (condition : bool) (msg : string) (st : World * bool) :
  (failing condition msg st).2 = condition || st.2.
Proof. unfold failing. by destruct condition. Qed.

Lemma failing_unsupported_flag (dev : SDL_GpuDevice)
    (info : SDL_GpuTextureCreateInfo) (type : SDL_GpuTextureType)
    (msg : string) (st : World * bool) :
  (failing_unsupported dev info type msg st).2
  = negb (SupportsTextureFormat dev (tci_format info) type (tci_usageFlags info))
    || st.2.
Proof. unfold failing_unsupported. cbn. by rewrite failing_flag. Qed.

(** The checks only raise assertions, and they raise one exactly when they
    set the flag. *)
Lemma failing_trace (w : World) (condition : bool) (msg : string)
    (st : World * bool) :
  (calls st.1 = calls w /\ buffers st.1 = buffers w
   /\ exists msgs, log st.1 = log w ++ (SDL_assert_release <$> msgs)
                   /\ (st.2 = false -> msgs = [])
                   /\ (st.2 = true -> msgs <> [])) ->
  calls (failing condition msg st).1 = calls w
  /\ buffers (failing condition msg st).1 = buffers w
  /\ exists msgs,
       log (failing condition msg st).1 = log w ++ (SDL_assert_release <$> msgs)
       /\ ((failing condition msg st).2 = false -> msgs = [])
       /\ ((failing condition msg st).2 = true -> msgs <> []).
Proof.
  intros (Hc & Hb & msgs & Hl & Hf & Ht). unfold failing.
  destruct condition; [|by eauto 6].
  cbn. split; [done|]. split; [done|].
  exists (msgs ++ [msg]). rewrite Hl, fmap_app, <- app_assoc.
  split; [done|]. split; [done|]. intros _. by destruct msgs.
Qed.

Lemma failing_unsupported_trace (w : World) (dev : SDL_GpuDevice)
    (info : SDL_GpuTextureCreateInfo) (type : SDL_GpuTextureType)
    (msg : string) (st : World * bool) :
  (calls st.1 = calls w /\ buffers st.1 = buffers w
   /\ exists msgs, log st.1 = log w ++ (SDL_assert_release <$> msgs)
                   /\ (st.2 = false -> msgs = [])
                   /\ (st.2 = true -> msgs <> [])) ->
  calls (failing_unsupported dev info type msg st).1 = calls w
  /\ buffers (failing_unsupported dev info type msg st).1 = buffers w
  /\ exists msgs,
       log (failing_unsupported dev info type msg st).1
       = log w ++ (SDL_assert_release <$> msgs)
       /\ ((failing_unsupported dev info type msg st).2 = false -> msgs = [])
       /\ ((failing_unsupported dev info type msg st).2 = true -> msgs <> []).
Proof.
  intros H. unfold failing_unsupported. cbn.
  apply failing_trace. by destruct st.
Qed.

Lemma texture_checks_trace (dev : SDL_GpuDevice)
    (info : SDL_GpuTextureCreateInfo) (w : World) :
  let st :=
    texture_checks SDL_GPU_TEXTUREUSAGE_SAMPLER_BIT
      SDL_GPU_TEXTUREUSAGE_GRAPHICS_STORAGE_READ_BIT IsIntegerFormat dev info w in
  calls st.1 = calls w /\ buffers st.1 = buffers w
  /\ exists msgs, log st.1 = log w ++ (SDL_assert_release <$> msgs)
                  /\ (st.2 = false -> msgs = [])
                  /\ (st.2 = true -> msgs <> []).
Proof.
  assert (calls (w, false).1 = calls w /\ buffers (w, false).1 = buffers w
          /\ exists msgs,
               log (w, false).1 = log w ++ (SDL_assert_release <$> msgs)
               /\ ((w, false).2 = false -> msgs = [])
               /\ ((w, false).2 = true -> msgs <> [])) as Hstart.
  { split; [done|]. split; [done|]. exists []. cbn. by rewrite app_nil_r. }
  unfold texture_checks. cbv zeta.
  destruct (tci_type info);
    repeat (apply failing_unsupported_trace || apply failing_trace);
    exact Hstart.
Qed.

Lemma texture_checks_flag (dev : SDL_GpuDevice)
    (info : SDL_GpuTextureCreateInfo) (w : World) :
  0 <= tci_width info -> 0 <= tci_height info -> 0 <= tci_depth info ->
  0 <= tci_layerCount info -> 0 <= tci_levelCount info ->
  0 <= tci_sampleCount info ->
  (texture_checks SDL_GPU_TEXTUREUSAGE_SAMPLER_BIT
     SDL_GPU_TEXTUREUSAGE_GRAPHICS_STORAGE_READ_BIT IsIntegerFormat dev info w).2
  = false
  <-> acceptable_texture SDL_GPU_TEXTUREUSAGE_SAMPLER_BIT
        SDL_GPU_TEXTUREUSAGE_GRAPHICS_STORAGE_READ_BIT IsIntegerFormat dev info.
Proof.
  intros Hw Hh Hd Hlayer Hlevel Hsample.
  unfold texture_checks, acceptable_texture. cbv zeta.
  unfold nonzero, MAX_2D_DIMENSION, MAX_3D_DIMENSION, SDL_GPU_SAMPLECOUNT_1.
  destruct (tci_type info);
    rewrite ?failing_unsupported_flag, ?failing_flag; cbn [snd];
    rewrite ?orb_false_iff, ?andb_false_iff, ?negb_false_iff, ?negb_true_iff,
      ?Z.leb_gt, ?Z.ltb_ge, ?Z.eqb_eq, ?Z.eqb_neq;
    destruct (IsIntegerFormat (tci_format info));
    destruct (SupportsTextureFormat dev _ _ _);
    intuition (try discriminate; try lia).
Qed.

(** X23 (textures a debug device creates).  On a device in debug mode,
    [SDL_GpuCreateTexture] hands a texture to the back end, raising nothing,
    exactly when it is acceptable: every extent and count at least 1, not
    both sampled and read as graphics storage, not sampled with an integer
    format, and within the rules of its type (a cube has six square faces of
    at most 16384, a 3D texture at most 2048 a side and one layer, an array
    or 3D texture is no depth-stencil target, only a 2D texture with one
    level is multisampled); the format of an array texture is checked as a
    2D one.  Otherwise it returns [NULL] after at least one assertion, and
    the back end is not asked. *)
Theorem X23_debug_device_creates_acceptable_textures
    (w : World) (dev : SDL_GpuDevice) (info : SDL_GpuTextureCreateInfo) :
  debugMode dev = true ->
  0 <= tci_width info -> 0 <= tci_height info -> 0 <= tci_depth info ->
  0 <= tci_layerCount info -> 0 <= tci_levelCount info ->
  0 <= tci_sampleCount info ->
  let result :=
    SDL_GpuCreateTexture SDL_GPU_TEXTUREUSAGE_SAMPLER_BIT
      SDL_GPU_TEXTUREUSAGE_GRAPHICS_STORAGE_READ_BIT IsIntegerFormat CreateTexture
      w (Some dev) (Some info) in
  (acceptable_texture SDL_GPU_TEXTUREUSAGE_SAMPLER_BIT
     SDL_GPU_TEXTUREUSAGE_GRAPHICS_STORAGE_READ_BIT IsIntegerFormat dev info ->
   result = (w, CreateTexture dev (calls w) info))
  /\ (~ acceptable_texture SDL_GPU_TEXTUREUSAGE_SAMPLER_BIT
          SDL_GPU_TEXTUREUSAGE_GRAPHICS_STORAGE_READ_BIT IsIntegerFormat dev info ->
      result.2 = None
      /\ calls result.1 = calls w /\ buffers result.1 = buffers w
      /\ exists msgs,
           msgs <> []
           /\ log result.1 = log w ++ (SDL_assert_release <$> msgs)).
Proof.
  intros Hdebug Hw Hh Hd Hlayer Hlevel Hsample result. subst result.
  unfold SDL_GpuCreateTexture. rewrite Hdebug.
  pose proof (texture_checks_flag dev info w Hw Hh Hd Hlayer Hlevel Hsample)
    as Hflag.
  pose proof (texture_checks_trace dev info w)
    as (Hc & Hb & msgs & Hl & Hnone & Hsome).
  destruct (texture_checks _ _ _ dev info w) as [w1 failed].
  cbn [fst snd] in *. split.
  - intros Hok. apply Hflag in Hok. subst failed.
    specialize (Hnone eq_refl). subst msgs.
    cbn in Hl. rewrite app_nil_r in Hl.
    rewrite Hc. f_equal. destruct w1, w; cbn in *. congruence.
  - intros Hbad. destruct failed; [|by destruct Hbad; apply Hflag].
    cbn [fst snd]. split; [done|]. split; [done|]. split; [done|].
    exists msgs. split; [by apply Hsome|done].
Qed.

End Texture_validation.

(** A cube of six square faces is created; one that is not square is not. *)
Lemma X23_debug_device_creates_acceptable_textures_witness :
  SDL_GpuCreateTexture 1 8 (fun _ => false) (fun _ _ _ => Some 5%nat)
    empty_world (Some (permissive_device true)) (Some example_cube)
  = (empty_world, Some 5%nat).
Proof.
  refine (proj1 (X23_debug_device_creates_acceptable_textures 1 8
                   (fun _ => false) (fun _ _ _ => Some 5%nat)
                   empty_world (permissive_device true) example_cube
                   eq_refl _ _ _ _ _ _) _);
    vm_compute; intuition (try discriminate; try congruence).
Defined.
(** ** Claimed windows of the Direct3D 12 back end *)

Section D3D12_windows.

Import D3D12.

Variable dxgi : DxgiLibrary.
Variable supportsTearing : bool.
Variable texture_format_of_value : Z -> SDL_GpuTextureFormat.

Lemma com_obtained_app (l1 l2 : list DxgiCall) :
  com_obtained (l1 ++ l2) = com_obtained l1 ++ com_obtained l2.
Proof. apply omap_app. Qed.

Lemma com_released_app (l1 l2 : list DxgiCall) :
  com_released (l1 ++ l2) = com_released l1 ++ com_released l2.
Proof. apply omap_app. Qed.

(** What a successful [D3D12_INTERNAL_CreateSwapchain] on zeroed window data
    has done. *)
Lemma CreateSwapchain_success (ws ws' : WindowState) (window : WindowId)
    (composition : SDL_GpuSwapchainComposition) (windowData : ClaimedWindowData) :
  D3D12_INTERNAL_CreateSwapchain dxgi supportsTearing ws window
    (zeroed_window_data dxgi) composition = (ws', windowData, true) ->
  exists swapchain swapchain3 rtvHeap buffer0 buffer1 parent warnings,
    let rtvFormat :=
      match composition with
      | SDL_GPU_SWAPCHAINCOMPOSITION_SDR_LINEAR => DXGI_FORMAT_B8G8R8A8_UNORM_SRGB
      | _ => SwapchainCompositionToTextureFormat composition
      end in
    let start := ID3D12DescriptorHeap_GetCPUDescriptorHandleForHeapStart dxgi rtvHeap in
    let size := ID3D12Device_GetDescriptorHandleIncrementSize dxgi in
    let texture buffer rtv :=
      {| resource := buffer; desc := ID3D12Resource_GetDesc dxgi buffer;
         rtvHandle := rtv; isRenderTarget := true |} in
    IDXGISwapChain3_QueryInterface dxgi swapchain = Some swapchain3
    /\ Z.land (IDXGISwapChain3_CheckColorSpaceSupport dxgi swapchain3
                 (zero_color_space dxgi))
         (DXGI_SWAP_CHAIN_COLOR_SPACE_SUPPORT_FLAG_PRESENT dxgi) <> 0
    /\ IDXGISwapChain3_GetBuffer dxgi swapchain3 0 = Some buffer0
    /\ IDXGISwapChain3_GetBuffer dxgi swapchain3 1 = Some buffer1
    /\ windowData
       = {| wd_swapchain := Some swapchain3;
            wd_swapchainFormat := Some (SwapchainCompositionToTextureFormat composition);
            wd_swapchainColorSpace := SwapchainCompositionToColorSpace composition;
            wd_rtvHeap := Some rtvHeap;
            wd_renderTargets := [Some buffer0; Some buffer1];
            wd_renderTexture := [Some (texture buffer0 start);
                                 Some (texture buffer1 (start + size))];
            wd_frameCounter := 0;
            wd_activeWindow := false |}
    /\ claimed ws' = claimed ws
    /\ window_log ws' = window_log ws ++ (FrontEnd.SDL_LogWarn <$> warnings)
    /\ dxgi_calls ws'
       = dxgi_calls ws
         ++ [Com_obtained (Com_SwapChain1 swapchain);
             Com_obtained (Com_SwapChain3 swapchain3);
             Com_Release (Com_SwapChain1 swapchain);
             SetColorSpace1 swapchain3 (zero_color_space dxgi)]
         ++ match parent with
            | Some pParent =>
              [Com_obtained (Com_Factory1 pParent);
               MakeWindowAssociation pParent window;
               Com_Release (Com_Factory1 pParent)]
            | None => []
            end
         ++ [Com_obtained (Com_DescriptorHeap rtvHeap);
             Com_obtained (Com_Resource buffer0);
             CreateRenderTargetView buffer0 rtvFormat start;
             Com_obtained (Com_Resource buffer1);
             CreateRenderTargetView buffer1 rtvFormat (start + size)].
Proof.
  unfold D3D12_INTERNAL_CreateSwapchain,
    D3D12_INTERNAL_InitializeSwapchainTexture, SWAPCHAIN_BUFFER_COUNT.
  cbn [initialize_buffers].
  intros H.
  destruct (IsWindow dxgi window); [|done]. cbn [negb] in H.
  destruct (IDXGIFactory4_CreateSwapChainForHwnd _ _ _ _ _) as [swapchain|];
    [|done].
  destruct (IDXGISwapChain3_QueryInterface dxgi swapchain) as [swapchain3|] eqn:Hq;
    [|done].
  cbn [zeroed_window_data wd_swapchainColorSpace] in H.
  destruct (Z.land _ _ =? 0) eqn:Hcs; [done|]. apply Z.eqb_neq in Hcs.
  match type of H with
  | context [ID3D12Device_CreateDescriptorHeap dxgi ?c] =>
    destruct (ID3D12Device_CreateDescriptorHeap dxgi c) as [rtvHeap|]; [|done]
  end.
  destruct (IDXGISwapChain3_GetBuffer dxgi swapchain3 0) as [buffer0|] eqn:Hb0;
    [|done].
  destruct (IDXGISwapChain3_GetBuffer dxgi swapchain3 1) as [buffer1|] eqn:Hb1;
    [|done].
  injection H as <- <-.
  exists swapchain, swapchain3, rtvHeap, buffer0, buffer1,
    (IDXGISwapChain_GetParent dxgi swapchain3).
  destruct (IDXGISwapChain_GetParent dxgi swapchain3) as [pParent|].
  - destruct (IDXGIFactory1_MakeWindowAssociation dxgi pParent window).
    + exists []. cbn. rewrite app_nil_r, <- !app_assoc. done.
    + exists ["MakeWindowAssociation failed! Error Code: "].
      cbn. rewrite <- !app_assoc. done.
  - exists ["Could not get swapchain parent! Error Code: "].
    cbn. rewrite <- !app_assoc. done.
Qed.

Lemma ClaimWindow_success (ws ws' : WindowState) (window : WindowId)
    (composition : SDL_GpuSwapchainComposition) :
  D3D12_ClaimWindow dxgi supportsTearing ws window composition = (ws', true) ->
  claimed ws !! window = None
  /\ exists ws1 windowData,
       D3D12_INTERNAL_CreateSwapchain dxgi supportsTearing ws window
         (zeroed_window_data dxgi) composition = (ws1, windowData, true)
       /\ ws' = set_claimed (<[window := windowData]> (claimed ws1)) ws1.
Proof.
  unfold D3D12_ClaimWindow, D3D12_INTERNAL_FetchWindowData.
  destruct (claimed ws !! window); [done|].
  destruct (D3D12_INTERNAL_CreateSwapchain _ _ _ _ _ _) as [[ws1 windowData] ok].
  destruct ok; [|done]. intros [= <-]. eauto.
Qed.

(** X24 (a claimed window is ready to be rendered to).  When
    [D3D12_ClaimWindow] returns true, the window was not claimed before and
    now has its data: frame counter 0, not active, and two textures, each a
    render target over a buffer of the swapchain with the size of the buffer,
    the second render-target view one descriptor after the first.  So
    [D3D12_AcquireSwapchainTexture] for this window returns the first of
    them with its extent. *)
Theorem X24_claimed_window_is_ready
    (ws ws' : WindowState) (window : WindowId)
    (composition : SDL_GpuSwapchainComposition) :
  D3D12_ClaimWindow dxgi supportsTearing ws window composition = (ws', true) ->
  claimed ws !! window = None
  /\ exists windowData view swapchain3 texture0 texture1,
       claimed ws' = <[window := windowData]> (claimed ws)
       /\ window_view windowData = Some view
       /\ swapchain view = swapchain3
       /\ frameCounter view = 0 /\ activeWindow view = false
       /\ renderTexture view = [texture0; texture1]
       /\ isRenderTarget texture0 = true /\ isRenderTarget texture1 = true
       /\ IDXGISwapChain3_GetBuffer dxgi swapchain3 0 = Some (resource texture0)
       /\ IDXGISwapChain3_GetBuffer dxgi swapchain3 1 = Some (resource texture1)
       /\ desc texture0 = ID3D12Resource_GetDesc dxgi (resource texture0)
       /\ desc texture1 = ID3D12Resource_GetDesc dxgi (resource texture1)
       /\ rtvHandle texture1
          = rtvHandle texture0 + ID3D12Device_GetDescriptorHandleIncrementSize dxgi
       /\ forall s : State,
            windows s !! window = Some view ->
            exists s',
              D3D12_AcquireSwapchainTexture s window
              = Some (s', Some texture0, wrap32 (Width (desc texture0)),
                      Height (desc texture0)).
Proof.
  intros Hclaim.
  destruct (ClaimWindow_success _ _ _ _ Hclaim) as (Hnew & ws1 & windowData & Hcreate & ->).
  split; [exact Hnew|].
  destruct (CreateSwapchain_success _ _ _ _ _ Hcreate)
    as (swapchain & swapchain3 & rtvHeap & buffer0 & buffer1 & parent & warnings
        & Hq & Hcs & Hb0 & Hb1 & -> & Hclaimed & Hlog & Hcalls).
  eexists _, _, swapchain3, _, _. cbn. rewrite Hclaimed.
  split; [reflexivity|]. split; [reflexivity|]. cbn.
  do 11 (split; [done|]).
  intros s Hs. unfold D3D12_AcquireSwapchainTexture. rewrite Hs. cbn. eauto.
Qed.

Lemma destroy_claimed (ws : WindowState) (swapchain3 : IDXGISwapChain3)
    (format : option DXGI_FORMAT) (colorSpace : DXGI_COLOR_SPACE_TYPE)
    (rtvHeap : nat) (targets : list (option ID3D12Resource))
    (texture0 texture1 : D3D12Texture) (counter : Z) (active : bool) :
  (D3D12_INTERNAL_DestroyWindowData ws
     {| wd_swapchain := Some swapchain3; wd_swapchainFormat := format;
        wd_swapchainColorSpace := colorSpace; wd_rtvHeap := Some rtvHeap;
        wd_renderTargets := targets;
        wd_renderTexture := [Some texture0; Some texture1];
        wd_frameCounter := counter; wd_activeWindow := active |}).1
  = {| claimed := claimed ws;
       dxgi_calls :=
         dxgi_calls ws
         ++ [Com_Release (Com_Resource (resource texture1));
             Com_Release (Com_Resource (resource texture0));
             Com_Release (Com_DescriptorHeap rtvHeap);
             Com_Release (Com_SwapChain3 swapchain3)];
       window_log := window_log ws |}.
Proof.
  unfold D3D12_INTERNAL_DestroyWindowData, SWAPCHAIN_BUFFER_COUNT, dxgi_call.
  cbn. by rewrite <- !app_assoc.
Qed.

(** X25 (claiming and unclaiming a window leaks no reference).  After a
    window was claimed with success, [D3D12_UnclaimWindow] for it leaves the
    claimed windows as they were before the claim and logs nothing; over the
    two calls, every reference to a native object that was obtained (the two
    swapchain interfaces, the parent factory, the descriptor heap, the two
    buffers) is released once, and nothing else is released. *)
Theorem X25_claim_then_unclaim_releases_all
    (ws ws' : WindowState) (window : WindowId)
    (composition : SDL_GpuSwapchainComposition) :
  D3D12_ClaimWindow dxgi supportsTearing ws window composition = (ws', true) ->
  exists ws'' calls,
    D3D12_UnclaimWindow ws' window = Some ws''
    /\ claimed ws'' = claimed ws
    /\ window_log ws'' = window_log ws'
    /\ dxgi_calls ws'' = dxgi_calls ws ++ calls
    /\ com_released calls ≡ₚ com_obtained calls.
Proof.
  intros Hclaim.
  destruct (ClaimWindow_success _ _ _ _ Hclaim) as (Hnew & ws1 & windowData & Hcreate & ->).
  destruct (CreateSwapchain_success _ _ _ _ _ Hcreate)
    as (swapchain & swapchain3 & rtvHeap & buffer0 & buffer1 & parent & warnings
        & Hq & Hcs & Hb0 & Hb1 & -> & Hclaimed & Hlog & Hcalls).
  unfold D3D12_UnclaimWindow, D3D12_INTERNAL_FetchWindowData.
  cbn [claimed set_claimed]. rewrite lookup_insert_eq. cbn [wd_activeWindow].
  match goal with
  | |- context [D3D12_INTERNAL_DestroyWindowData ?w ?d] =>
    pose proof (destroy_claimed w swapchain3 _ _ rtvHeap _ _ _ _ _
                : (D3D12_INTERNAL_DestroyWindowData w d).1 = _) as Hdestroy;
    destruct (D3D12_INTERNAL_DestroyWindowData w d) as [ws2 d2]
  end.
  cbn [fst] in Hdestroy. subst ws2. cbn.
  eexists _, _. split; [reflexivity|]. cbn.
  split; [by rewrite delete_insert_eq, Hclaimed, delete_id|].
  split; [done|].
  rewrite Hcalls, <- !app_assoc. split; [reflexivity|].
  rewrite !com_released_app, !com_obtained_app.
  destruct parent as [pParent|]; cbn; apply perm_skip.
  - apply (Permutation_cons_app [_] [_; _; _]).
    apply (Permutation_cons_app [_; _; _] []).
    apply (Permutation_cons_app [_; _] []).
    apply perm_swap.
  - apply (Permutation_cons_app [_; _; _] []).
    apply (Permutation_cons_app [_; _] []).
    apply perm_swap.
Qed.

(** X26 (what a claimed window keeps of its composition).  After a
    successful claim the window reports the texture format of the
    composition: [B8G8R8A8] for the two SDR compositions (also for the
    linear one, whose render-target views alone use the sRGB format),
    [R16G16B16A16_SFLOAT] and [R10G10B10A2] for the two HDR ones.  The color
    space set on the swapchain, and checked for support, is the one of value
    0 whatever the composition; the window data records the color space of
    the composition. *)
Theorem X26_claimed_window_format_and_color_space
    (ws ws' : WindowState) (window : WindowId)
    (composition : SDL_GpuSwapchainComposition) :
  D3D12_ClaimWindow dxgi supportsTearing ws window composition = (ws', true) ->
  D3D12_GetSwapchainTextureFormat texture_format_of_value ws' window
  = (ws', match composition with
          | SDL_GPU_SWAPCHAINCOMPOSITION_SDR
          | SDL_GPU_SWAPCHAINCOMPOSITION_SDR_LINEAR => SDL_GPU_TEXTUREFORMAT_B8G8R8A8
          | SDL_GPU_SWAPCHAINCOMPOSITION_HDR =>
              SDL_GPU_TEXTUREFORMAT_R16G16B16A16_SFLOAT
          | SDL_GPU_SWAPCHAINCOMPOSITION_HDR_ADVANCED =>
              SDL_GPU_TEXTUREFORMAT_R10G10B10A2
          end)
  /\ exists calls windowData swapchain3,
       dxgi_calls ws' = dxgi_calls ws ++ calls
       /\ claimed ws' !! window = Some windowData
       /\ wd_swapchain windowData = Some swapchain3
       /\ wd_swapchainColorSpace windowData
          = SwapchainCompositionToColorSpace composition
       /\ color_spaces_set calls = [zero_color_space dxgi]
       /\ Z.land (IDXGISwapChain3_CheckColorSpaceSupport dxgi swapchain3
                    (zero_color_space dxgi))
            (DXGI_SWAP_CHAIN_COLOR_SPACE_SUPPORT_FLAG_PRESENT dxgi) <> 0
       /\ rtv_formats calls
          = replicate SWAPCHAIN_BUFFER_COUNT
              match composition with
              | SDL_GPU_SWAPCHAINCOMPOSITION_SDR_LINEAR =>
                  DXGI_FORMAT_B8G8R8A8_UNORM_SRGB
              | _ => SwapchainCompositionToTextureFormat composition
              end.
Proof.
  intros Hclaim.
  destruct (ClaimWindow_success _ _ _ _ Hclaim) as (Hnew & ws1 & windowData & Hcreate & ->).
  destruct (CreateSwapchain_success _ _ _ _ _ Hcreate)
    as (swapchain & swapchain3 & rtvHeap & buffer0 & buffer1 & parent & warnings
        & Hq & Hcs & Hb0 & Hb1 & -> & Hclaimed & Hlog & Hcalls).
  split.
  - unfold D3D12_GetSwapchainTextureFormat, D3D12_INTERNAL_FetchWindowData.
    cbn [claimed set_claimed]. rewrite lookup_insert_eq. cbn.
    by destruct composition.
  - eexists _, _, swapchain3. cbn [dxgi_calls claimed set_claimed].
    rewrite lookup_insert_eq, Hcalls.
    split; [reflexivity|]. split; [reflexivity|]. cbn.
    split; [done|]. split; [done|].
    unfold color_spaces_set, rtv_formats. rewrite !omap_app.
    split; [by destruct parent|]. split; [done|]. by destruct parent.
Qed.

Lemma initialize_buffers_claimed (n : nat) : forall i sc fmt rtv size ws wd,
  claimed (initialize_buffers dxgi n i sc fmt rtv size ws wd).1.1 = claimed ws.
Proof.
  induction n as [|n IH]; intros i sc fmt rtv size ws wd; cbn; [done|].
  destruct (IDXGISwapChain3_GetBuffer dxgi sc i); [|done]. by rewrite IH.
Qed.

Lemma CreateSwapchain_claimed (ws : WindowState) (window : WindowId)
    (windowData : ClaimedWindowData) (composition : SDL_GpuSwapchainComposition) :
  claimed (D3D12_INTERNAL_CreateSwapchain dxgi supportsTearing ws window
             windowData composition).1.1 = claimed ws.
Proof.
  unfold D3D12_INTERNAL_CreateSwapchain, D3D12_INTERNAL_InitializeSwapchainTexture.
  destruct (IsWindow dxgi window); [|done]. cbn [negb].
  destruct (IDXGIFactory4_CreateSwapChainForHwnd _ _ _ _ _); [|done].
  destruct (IDXGISwapChain3_QueryInterface dxgi _); [|done].
  destruct (Z.land _ _ =? 0); [done|].
  match goal with
  | |- context [ID3D12Device_CreateDescriptorHeap dxgi ?c] =>
    destruct (ID3D12Device_CreateDescriptorHeap dxgi c)
  end.
  - match goal with
    | |- context [initialize_buffers dxgi ?n ?i ?sc ?f ?r ?z ?w ?d] =>
      pose proof (initialize_buffers_claimed n i sc f r z w d) as Hinit;
      destruct (initialize_buffers dxgi n i sc f r z w d) as [[ws2 wd2] ok]
    end.
    cbn [fst] in Hinit. destruct ok; cbn; rewrite Hinit; cbn;
      destruct (IDXGISwapChain_GetParent dxgi _); cbn; try done;
      by destruct (IDXGIFactory1_MakeWindowAssociation dxgi _ _).
  - cbn. destruct (IDXGISwapChain_GetParent dxgi _); cbn; try done.
    by destruct (IDXGIFactory1_MakeWindowAssociation dxgi _ _).
Qed.

(** X27 (a refused claim registers nothing).  When [D3D12_ClaimWindow]
    returns false, the claimed windows and their data are as before.  For a
    window that was claimed already it only logs the warning "Window already
    claimed!": no native call is made.  Otherwise the last message logged is
    the error "Could not create swapchain, failed to claim window!". *)
Theorem X27_refused_claim_registers_nothing
    (ws ws' : WindowState) (window : WindowId)
    (composition : SDL_GpuSwapchainComposition) :
  D3D12_ClaimWindow dxgi supportsTearing ws window composition = (ws', false) ->
  claimed ws' = claimed ws
  /\ match claimed ws !! window with
     | Some _ =>
       ws' = window_diag (FrontEnd.SDL_LogWarn "Window already claimed!") ws
     | None =>
       last (window_log ws')
       = Some (FrontEnd.SDL_LogError
                 "Could not create swapchain, failed to claim window!")
     end.
Proof.
  unfold D3D12_ClaimWindow, D3D12_INTERNAL_FetchWindowData.
  destruct (claimed ws !! window) as [windowData|].
  - by intros [= <-].
  - pose proof (CreateSwapchain_claimed ws window (zeroed_window_data dxgi)
                  composition) as Hclaimed.
    destruct (D3D12_INTERNAL_CreateSwapchain _ _ _ _ _ _) as [[ws1 wd1] ok].
    cbn [fst] in Hclaimed. destruct ok; [done|]. intros [= <-]. cbn.
    split; [done|]. by rewrite last_snoc.
Qed.

End D3D12_windows.

(** A window claimed on a native side where every call succeeds. *)
Lemma X24_claimed_window_is_ready_witness :
  exists view texture0 texture1,
    D3D12.renderTexture view = [texture0; texture1]
    /\ D3D12.frameCounter view = 0
    /\ D3D12.isRenderTarget texture0 = true
    /\ D3D12.isRenderTarget texture1 = true
    /\ D3D12.rtvHandle texture1 = D3D12.rtvHandle texture0 + 32.
Proof.
  destruct (X24_claimed_window_is_ready D3D12.example_dxgi false D3D12.no_windows
              _ 7%nat D3D12.SDL_GPU_SWAPCHAINCOMPOSITION_SDR eq_refl)
    as (_ & windowData & view & sc & texture0 & texture1 & _ & _
        & _ & Hframe & _ & Htex & Ht0 & Ht1 & _ & _ & _ & _ & Hrtv & _).
  exists view, texture0, texture1.
  split; [exact Htex|]. split; [exact Hframe|]. split; [exact Ht0|].
  split; [exact Ht1|exact Hrtv].
Defined.

Lemma X25_claim_then_unclaim_releases_all_witness :
  exists ws'' calls,
    D3D12.D3D12_UnclaimWindow
      (D3D12.D3D12_ClaimWindow D3D12.example_dxgi false D3D12.no_windows 7%nat
         D3D12.SDL_GPU_SWAPCHAINCOMPOSITION_SDR).1 7%nat = Some ws''
    /\ D3D12.claimed ws'' = ∅
    /\ D3D12.dxgi_calls ws'' = [] ++ calls
    /\ D3D12.com_released calls ≡ₚ D3D12.com_obtained calls.
Proof.
  destruct (X25_claim_then_unclaim_releases_all D3D12.example_dxgi false
              D3D12.no_windows _ 7%nat D3D12.SDL_GPU_SWAPCHAINCOMPOSITION_SDR eq_refl)
    as (ws'' & calls & Hun & Hcl & _ & Hcalls & Hperm).
  exists ws'', calls. split; [exact Hun|]. split; [exact Hcl|].
  split; [exact Hcalls|exact Hperm].
Defined.

Lemma X26_claimed_window_format_and_color_space_witness :
  (D3D12.D3D12_GetSwapchainTextureFormat
     (fun _ => SDL_GPU_TEXTUREFORMAT_R8G8B8A8)
     (D3D12.D3D12_ClaimWindow D3D12.example_dxgi false D3D12.no_windows 7%nat
        D3D12.SDL_GPU_SWAPCHAINCOMPOSITION_SDR_LINEAR).1 7%nat).2
  = SDL_GPU_TEXTUREFORMAT_B8G8R8A8.
Proof.
  exact (f_equal snd
           (proj1 (X26_claimed_window_format_and_color_space D3D12.example_dxgi
                     false (fun _ => SDL_GPU_TEXTUREFORMAT_R8G8B8A8)
                     D3D12.no_windows
                     (D3D12.D3D12_ClaimWindow D3D12.example_dxgi false
                        D3D12.no_windows 7%nat
                        D3D12.SDL_GPU_SWAPCHAINCOMPOSITION_SDR_LINEAR).1
                     7%nat D3D12.SDL_GPU_SWAPCHAINCOMPOSITION_SDR_LINEAR eq_refl))).
Defined.

(** A second claim of the same window. *)
Lemma X27_refused_claim_registers_nothing_witness :
  D3D12.claimed
    (D3D12.D3D12_ClaimWindow D3D12.example_dxgi false
       (D3D12.D3D12_ClaimWindow D3D12.example_dxgi false D3D12.no_windows 7%nat
          D3D12.SDL_GPU_SWAPCHAINCOMPOSITION_SDR).1 7%nat
       D3D12.SDL_GPU_SWAPCHAINCOMPOSITION_HDR).1
  = D3D12.claimed
      (D3D12.D3D12_ClaimWindow D3D12.example_dxgi false D3D12.no_windows 7%nat
         D3D12.SDL_GPU_SWAPCHAINCOMPOSITION_SDR).1.
Proof.
  exact (proj1 (X27_refused_claim_registers_nothing D3D12.example_dxgi false
                  (D3D12.D3D12_ClaimWindow D3D12.example_dxgi false
                     D3D12.no_windows 7%nat
                     D3D12.SDL_GPU_SWAPCHAINCOMPOSITION_SDR).1
                  (D3D12.D3D12_ClaimWindow D3D12.example_dxgi false
                     (D3D12.D3D12_ClaimWindow D3D12.example_dxgi false
                        D3D12.no_windows 7%nat
                        D3D12.SDL_GPU_SWAPCHAINCOMPOSITION_SDR).1 7%nat
                     D3D12.SDL_GPU_SWAPCHAINCOMPOSITION_HDR).1
                  7%nat D3D12.SDL_GPU_SWAPCHAINCOMPOSITION_HDR eq_refl)).
Defined.
